(** * Deal evaluation pipeline: a shallow embedding and its properties

    The development follows the Python package [deal_engine]: one Rocq
    module per source module ([mandate], [listing], [scoring],
    [conviction], [rejection], [recommendation], [review], [filtering],
    [planning.models], [planning.feasibility], [planning.precedent],
    [planning.uplift], [planning.score], [api.storage]).

    Modelling conventions.
    - Python [int] is [Z]; a Python [float] is a rational number [Q].
      Where a float decides an integer or a severity next to a threshold
      (the price rules of [rejection], [_calculate_priority],
      [calculate_planning_score], the rates of [planning.precedent]) every
      operation is rounded to binary64 by [round64]: to the nearest
      double, a tie going to the even one; overflow and NaN are not
      modelled.  Elsewhere float arithmetic is exact and a float literal
      such as [0.15] is the rational 15/100: what is proved of those
      functions are bounds, orderings and relations between the fields of
      one result.
    - [Optional[T]] is [option T]; Python truthiness of an optional number
      ([if x:]) is "present and non-zero".
    - A raised exception is a value ([py_exn], [review_exn]); code that
      can raise returns [result].  Division raises [ZeroDivisionError] on
      a zero divisor.
    - Objects mutated in place (the review record, the factor lists of the
      feasibility assessor) are threaded as explicit state; a mutation done
      before an exception is raised stays visible in the state.
    - [datetime.now()] is a clock reading passed in as an argument; where
      a duration is computed the clock counts seconds.  The decision date
      of a planning precedent is naive or aware, and subtracting an aware
      date from [datetime.now()] raises [TypeError].
    - A [dict] whose order of iteration shows (the review queue, the
      mandate store, the reason counts) is the list of its entries in
      insertion order; [list.sort] and [sorted] are a stable sort.
    - A [dict] is a finite map ([gmap] from stdpp); [{**a, **b}] is the
      union in which the entries of [b] win.
    - Strings are ASCII: [upper], [lower] and [split] act on ASCII letters
      and ASCII whitespace.
    - Explanation, summary and remedy texts (f-strings that format numbers)
      are not reproduced; factors and reasons keep their names, codes,
      flags, weights and scores.  Where a source function computes several
      sub-scores in a row, each sub-score is a definition of its own. *)

From Stdlib Require Import ZArith QArith Qabs Qminmax Qround Qpower Lqa Lia Bool List String Ascii.
From Stdlib Require Import Sorted Permutation.
From stdpp Require Import gmap strings.
Import ListNotations.

Local Open Scope Z_scope.
Local Open Scope Q_scope.
Local Open Scope string_scope.

(** ** Python values *)

Module Py.

(** A call either returns a value or raises an exception of type [E]. *)
Inductive result (E A : Type) :=
| Ok (a : A)
| Raise (e : E).
Arguments Ok {E A} a.
Arguments Raise {E A} e.

Definition bind {E A B} (r : result E A) (k : A -> result E B) : result E B :=
  match r with
  | Ok a => k a
  | Raise e => Raise e
  end.

(** The built-in exceptions the scoring code can raise. *)
Inductive py_exn :=
| ZeroDivisionError
| KeyError (key : string).

(** Comparisons of floats, as booleans. *)
Definition Qleb (x y : Q) : bool := Qle_bool x y.
Definition Qltb (x y : Q) : bool := negb (Qle_bool y x).
Definition Qgeb (x y : Q) : bool := Qle_bool y x.
Definition Qgtb (x y : Q) : bool := negb (Qle_bool x y).

(** Truthiness of optional numbers: [if x:]. *)
Definition truthyZ (o : option Z) : bool :=
  match o with
  | Some z => negb (Z.eqb z 0)
  | None => false
  end.

Definition truthyQ (o : option Q) : bool :=
  match o with
  | Some q => negb (Qeq_bool q 0)
  | None => false
  end.

(** The number held by an optional field; the code reads it only under a
    truthiness guard, where it is present. *)
Definition valZ (o : option Z) : Z :=
  match o with Some z => z | None => 0%Z end.

Definition valQ (o : option Q) : Q :=
  match o with Some q => q | None => 0 end.

(** True division [a / b]. *)
Definition truediv (a b : Q) : result py_exn Q :=
  if Qeq_bool b 0 then Raise ZeroDivisionError else Ok (a / b).

(** [int(x)] on a float: truncation toward zero. *)
Definition int_of_float (x : Q) : Z := Z.quot (Qnum x) (Z.pos (Qden x)).

(** [x in l] for a list of strings. *)
Definition str_in (x : string) (l : list string) : bool :=
  existsb (String.eqb x) l.

(** [str.upper()] and [str.lower()] on ASCII text. *)
Definition upper_ascii (c : ascii) : ascii :=
  let n := nat_of_ascii c in
  if (andb (Nat.leb 97 n) (Nat.leb n 122)) then ascii_of_nat (n - 32) else c.

Definition lower_ascii (c : ascii) : ascii :=
  let n := nat_of_ascii c in
  if (andb (Nat.leb 65 n) (Nat.leb n 90)) then ascii_of_nat (n + 32) else c.

Fixpoint upper (s : string) : string :=
  match s with
  | EmptyString => EmptyString
  | String c s' => String (upper_ascii c) (upper s')
  end.

Fixpoint lower (s : string) : string :=
  match s with
  | EmptyString => EmptyString
  | String c s' => String (lower_ascii c) (lower s')
  end.

(** [s.startswith(p)]. *)
Definition startswith (s p : string) : bool := String.prefix p s.

(** [sub in s] for strings. *)
Fixpoint contains (sub s : string) : bool :=
  if String.prefix sub s then true
  else match s with
       | EmptyString => false
       | String _ s' => contains sub s'
       end.

(** ASCII whitespace, as recognised by [str.split()]: space, tab to
    carriage return (9-13) and the separators 28-31. *)
Definition is_space (c : ascii) : bool :=
  let n := nat_of_ascii c in
  orb (Nat.eqb n 32)
    (orb (andb (Nat.leb 9 n) (Nat.leb n 13)) (andb (Nat.leb 28 n) (Nat.leb n 31))).

Fixpoint lstrip (s : string) : string :=
  match s with
  | EmptyString => EmptyString
  | String c s' => if is_space c then lstrip s' else s
  end.

Fixpoint take_word (s : string) : string :=
  match s with
  | EmptyString => EmptyString
  | String c s' => if is_space c then EmptyString else String c (take_word s')
  end.

(** [s.split()[0]] when [s.split()] is non-empty, and [""] otherwise. *)
Definition first_word (s : string) : string := take_word (lstrip s).

(** [l.sort(key=..., reverse=...)] and [sorted(...)]: Python's sort is
    stable, and a stable sort has one possible result, so any stable sort
    models it.  [le x y] says that [x] may stay in front of [y]; the
    elements are inserted from the right, each in front of the first
    element it may stay in front of. *)
Fixpoint insert_sorted {A} (le : A -> A -> bool) (x : A) (l : list A) : list A :=
  match l with
  | [] => [x]
  | y :: ys => if le x y then x :: y :: ys else y :: insert_sorted le x ys
  end.

Definition stable_sort {A} (le : A -> A -> bool) (l : list A) : list A :=
  fold_right (insert_sorted le) [] l.

(** A [dict] whose iteration order is observed: the entries in insertion
    order, each key once. *)
Definition odict (V : Type) : Type := list (string * V).

Fixpoint od_get {V} (d : odict V) (k : string) : option V :=
  match d with
  | [] => None
  | (k', v) :: d' => if String.eqb k k' then Some v else od_get d' k
  end.

Definition od_contains {V} (d : odict V) (k : string) : bool :=
  match od_get d k with Some _ => true | None => false end.

(** [d[k] = v]: an existing key keeps its place, a new key goes last. *)
Fixpoint od_set {V} (d : odict V) (k : string) (v : V) : odict V :=
  match d with
  | [] => [(k, v)]
  | (k', v') :: d' =>
      if String.eqb k k' then (k, v) :: d' else (k', v') :: od_set d' k v
  end.

(** [del d[k]] on a key that may be absent. *)
Fixpoint od_del {V} (d : odict V) (k : string) : odict V :=
  match d with
  | [] => []
  | (k', v') :: d' =>
      if String.eqb k k' then d' else (k', v') :: od_del d' k
  end.

Definition od_values {V} (d : odict V) : list V := map snd d.

Definition od_keys {V} (d : odict V) : list string := map fst d.

(** [round(x)] on a float: the nearest integer, a tie going to the even
    neighbour; [round(x, 1)] does the same at the first decimal. *)
Definition round_float (x : Q) : Z :=
  let f := Qfloor x in
  let d := x - inject_Z f in
  if Qltb d 0.5 then f
  else if Qgtb d 0.5 then (f + 1)%Z
  else if Z.even f then f else (f + 1)%Z.

Definition round_1 (x : Q) : Q := inject_Z (round_float (x * 10)) / 10.

(** *** Binary64 arithmetic

    A Python [float] is an IEEE 754 binary64 number, and every float
    operation returns the binary64 number nearest to the exact result, a
    tie going to the neighbour with an even significand.  [round64 x] is
    that number: for [2^k <= |x| < 2^(k+1)] the multiple of
    [2^(max(-1074, k - 52))] nearest to [x] (53 significant bits, and the
    fixed spacing [2^-1074] of the subnormal numbers).  The exponent has no
    upper limit here: overflow to infinity, and NaN, are not modelled. *)

(** The position of the leading bit: [2^(ilog2 x) <= x < 2^(ilog2 x + 1)]
    for a positive [x]. *)
Definition ilog2 (x : Q) : Z :=
  let k := (Z.log2 (Qnum x) - Z.log2 (Z.pos (Qden x)))%Z in
  if Qle_bool (2 ^ k) x then k else (k - 1)%Z.

Definition round64_pos (x : Q) : Q :=
  let e := Z.max (-1074) (ilog2 x - 52) in
  inject_Z (round_float (x / 2 ^ e)) * 2 ^ e.

Definition round64 (x : Q) : Q :=
  if Qltb x 0 then - round64_pos (- x) else round64_pos x.

(** [float(z)], also applied where an [int] meets a [float] in an
    operation. *)
Definition float_of_int (z : Z) : Q := round64 (inject_Z z).

(** [x + y], [x - y], [x * y] and [x / y] on floats; the divisor of [fdiv]
    is non-zero wherever the code divides. *)
Definition fadd (x y : Q) : Q := round64 (x + y).
Definition fsub (x y : Q) : Q := round64 (x - y).
Definition fmul (x y : Q) : Q := round64 (x * y).
Definition fdiv (x y : Q) : Q := round64 (x / y).

(** [a / b] on two [int]s: the float nearest to the exact quotient. *)
Definition int_truediv (a b : Z) : Q := round64 (inject_Z a / inject_Z b).

End Py.

Import Py.

Notation "x <~ c1 ;; c2" := (Py.bind c1 (fun x => c2))
  (at level 100, c1 at next level, right associativity).

(** ** [core/mandate.py] *)

Module mandate.

Inductive AssetClass :=
| RESIDENTIAL | COMMERCIAL | MIXED_USE | INDUSTRIAL | RETAIL | OFFICE
| HOSPITALITY | STUDENT_HOUSING | SENIOR_LIVING | BTR | HMO.

Definition AssetClass_eqb (a b : AssetClass) : bool :=
  match a, b with
  | RESIDENTIAL, RESIDENTIAL | COMMERCIAL, COMMERCIAL | MIXED_USE, MIXED_USE
  | INDUSTRIAL, INDUSTRIAL | RETAIL, RETAIL | OFFICE, OFFICE
  | HOSPITALITY, HOSPITALITY | STUDENT_HOUSING, STUDENT_HOUSING
  | SENIOR_LIVING, SENIOR_LIVING | BTR, BTR | HMO, HMO => true
  | _, _ => false
  end.

Inductive InvestorType :=
| INSTITUTIONAL | FAMILY_OFFICE | PRIVATE_EQUITY | REIT | HNWI
| PENSION_FUND | INSURANCE | SOVEREIGN_WEALTH | OTHER.

Inductive RiskProfile := CORE | CORE_PLUS | VALUE_ADD | OPPORTUNISTIC.

Record GeographicCriteria := {
  regions : list string;
  postcodes : list string;
  exclude_regions : list string;
  exclude_postcodes : list string;
}.

Record FinancialCriteria := {
  min_deal_size : option Z;
  max_deal_size : option Z;
  total_allocation : option Z;
  min_yield : option Q;
  target_yield : option Q;
  min_irr : option Q;
  target_irr : option Q;
  max_ltv : option Q;
  preferred_ltv : option Q;
  max_price_psf : option Q;
}.

Record PropertyCriteria := {
  min_units : option Z;
  max_units : option Z;
  min_sqft : option Z;
  max_sqft : option Z;
  min_bedrooms : option Z;
  max_bedrooms : option Z;
  accept_refurbishment : bool;
  accept_development : bool;
  accept_turnkey : bool;
  freehold_only : bool;
  min_lease_years : option Z;
  preferred_property_types : list string;
}.

(** The record [ScoringWeights]; it lives in a name space of its own
    because [Mandate] also has a field [risk_profile]. *)
Module ScoringWeights.

Record t := {
  location_region : Q;
  location_postcode : Q;
  price_range : Q;
  price_psf : Q;
  yield_minimum : Q;
  yield_target : Q;
  property_size : Q;
  property_condition : Q;
  property_tenure : Q;
  risk_profile : Q;
}.

(** The dataclass defaults. *)
Definition default : t := {|
  location_region := 0.15;
  location_postcode := 0.10;
  price_range := 0.20;
  price_psf := 0.05;
  yield_minimum := 0.15;
  yield_target := 0.10;
  property_size := 0.05;
  property_condition := 0.10;
  property_tenure := 0.05;
  risk_profile := 0.05;
|}.

Definition to_dict (self : t) : gmap string Q :=
  list_to_map [
    ("location_region", location_region self);
    ("location_postcode", location_postcode self);
    ("price_range", price_range self);
    ("price_psf", price_psf self);
    ("yield_minimum", yield_minimum self);
    ("yield_target", yield_target self);
    ("property_size", property_size self);
    ("property_condition", property_condition self);
    ("property_tenure", property_tenure self);
    ("risk_profile", risk_profile self)
  ].

End ScoringWeights.

Record DealCriteria := {
  min_bmv_percent : option Q;
  min_overall_score : Q;
  pursue_score_threshold : Q;
  consider_score_threshold : Q;
  max_days_on_market : option Z;
  prefer_fresh_listings : bool;
  fresh_listing_days : Z;
  high_conviction_threshold : Q;
  medium_conviction_threshold : Q;
  low_conviction_threshold : Q;
}.

Record Mandate := {
  mandate_id : string;
  investor_name : string;
  investor_type : InvestorType;
  asset_classes : list AssetClass;
  risk_profile : RiskProfile;
  geographic : GeographicCriteria;
  financial : FinancialCriteria;
  property : PropertyCriteria;
  deal_criteria : DealCriteria;
  scoring_weights : ScoringWeights.t;
  is_active : bool;
  priority : Z;
  notes : string;
}.

(** The dataclass defaults [GeographicCriteria()], [FinancialCriteria()],
    [PropertyCriteria()] and [DealCriteria()]. *)
Definition GeographicCriteria_default : GeographicCriteria :=
  {| regions := []; postcodes := []; exclude_regions := [];
     exclude_postcodes := [] |}.

Definition FinancialCriteria_default : FinancialCriteria :=
  {| min_deal_size := None; max_deal_size := None; total_allocation := None;
     min_yield := None; target_yield := None; min_irr := None;
     target_irr := None; max_ltv := None; preferred_ltv := None;
     max_price_psf := None |}.

Definition PropertyCriteria_default : PropertyCriteria :=
  {| min_units := None; max_units := None; min_sqft := None; max_sqft := None;
     min_bedrooms := None; max_bedrooms := None; accept_refurbishment := true;
     accept_development := false; accept_turnkey := true;
     freehold_only := false; min_lease_years := None;
     preferred_property_types := [] |}.

Definition DealCriteria_default : DealCriteria :=
  {| min_bmv_percent := None; min_overall_score := 40.0;
     pursue_score_threshold := 75.0; consider_score_threshold := 60.0;
     max_days_on_market := None; prefer_fresh_listings := true;
     fresh_listing_days := 14; high_conviction_threshold := 0.80;
     medium_conviction_threshold := 0.60; low_conviction_threshold := 0.40 |}.

Definition is_empty {A} (l : list A) : bool :=
  match l with [] => true | _ => false end.

Definition accepts_asset_class (self : Mandate) (ac : AssetClass) : bool :=
  if is_empty (asset_classes self) then true
  else existsb (AssetClass_eqb ac) (asset_classes self).

Definition accepts_location (self : Mandate) (region postcode : string) : bool :=
  let geo := geographic self in
  if str_in region (exclude_regions geo) then false
  else if existsb (fun exc => startswith (upper postcode) (upper exc))
            (exclude_postcodes geo) then false
  else if is_empty (regions geo) && is_empty (postcodes geo) then true
  else
    let region_match := is_empty (regions geo) || str_in region (regions geo) in
    let postcode_match :=
      is_empty (postcodes geo)
      || existsb (fun pc => startswith (upper postcode) (upper pc)) (postcodes geo) in
    region_match || postcode_match.

Definition accepts_price (self : Mandate) (price : Z) : bool :=
  let fin := financial self in
  if truthyZ (min_deal_size fin)
     && match min_deal_size fin with Some mn => Z.ltb price mn | None => false end
  then false
  else if truthyZ (max_deal_size fin)
     && match max_deal_size fin with Some mx => Z.ltb mx price | None => false end
  then false
  else true.

Definition AssetClass_value (a : AssetClass) : string :=
  match a with
  | RESIDENTIAL => "residential" | COMMERCIAL => "commercial"
  | MIXED_USE => "mixed_use" | INDUSTRIAL => "industrial"
  | RETAIL => "retail" | OFFICE => "office" | HOSPITALITY => "hospitality"
  | STUDENT_HOUSING => "student_housing" | SENIOR_LIVING => "senior_living"
  | BTR => "build_to_rent" | HMO => "hmo"
  end.

End mandate.

(** ** [core/listing.py] *)

Module listing.

Inductive PropertyType :=
| HOUSE_DETACHED | HOUSE_SEMI | HOUSE_TERRACED | FLAT | MAISONETTE | BUNGALOW
| LAND | COMMERCIAL_UNIT | OFFICE_SPACE | RETAIL_UNIT | WAREHOUSE
| MIXED_USE_BUILDING | DEVELOPMENT_SITE | HMO | BLOCK_OF_FLATS | OTHER.

Inductive Tenure := FREEHOLD | LEASEHOLD | SHARE_OF_FREEHOLD | COMMONHOLD | UNKNOWN_TENURE.

Inductive ListingStatus := ACTIVE | UNDER_OFFER | SOLD_STC | SOLD | WITHDRAWN.

Inductive Condition := TURNKEY | LIGHT_REFURB | HEAVY_REFURB | DEVELOPMENT | UNKNOWN.

Record Address := {
  street : string;
  city : string;
  region_ : string;
  postcode : string;
  country : string;
}.

(** The outward code: ['SW1' from 'SW1A 1AA']. *)
Definition Address_postcode_area (self : Address) : string :=
  first_word (upper (postcode self)).

Record FinancialDetails := {
  asking_price_ : Z;
  price_qualifier : string;
  current_rent : option Z;
  gross_yield_ : option Q;
  price_per_sqft : option Q;
  price_per_unit : option Q;
  ground_rent : option Z;
  service_charge : option Z;
  lease_years_remaining : option Z;
}.

Record PropertyDetails := {
  property_type : PropertyType;
  bedrooms : option Z;
  bathrooms : option Z;
  reception_rooms : option Z;
  total_sqft : option Z;
  unit_count : Z;
  condition : Condition;
  epc_rating : string;
  parking : bool;
  garden : bool;
  has_tenants : bool;
}.

Record Listing := {
  listing_id : string;
  source : string;
  source_url : string;
  asset_class : mandate.AssetClass;
  tenure : Tenure;
  address : Address;
  financial : FinancialDetails;
  property_details : PropertyDetails;
  title : string;
  description : string;
  images : list string;
  agent_name : string;
  agent_phone : string;
  listed_date : option Z;
  scraped_at : option Z;
  status : ListingStatus;
}.

(** The dataclass default [PropertyDetails()]. *)
Definition PropertyDetails_default : PropertyDetails :=
  {| property_type := OTHER; bedrooms := None; bathrooms := None;
     reception_rooms := None; total_sqft := None; unit_count := 1;
     condition := UNKNOWN; epc_rating := ""; parking := false;
     garden := false; has_tenants := false |}.

(** The property accessors of [Listing]; the stored fields they read
    carry a trailing underscore. *)
Definition postcode_area (self : Listing) : string :=
  Address_postcode_area (address self).

Definition region (self : Listing) : string := region_ (address self).

Definition asking_price (self : Listing) : Z := asking_price_ (financial self).

Definition gross_yield (self : Listing) : option Q :=
  if truthyQ (gross_yield_ (financial self)) then gross_yield_ (financial self)
  else
    match current_rent (financial self) with
    | Some rent =>
        if negb (Z.eqb rent 0) && negb (Z.eqb (asking_price_ (financial self)) 0)
        then Some ((inject_Z rent / inject_Z (asking_price_ (financial self))) * 100)
        else None
    | None => None
    end.

End listing.

(** ** [core/scoring.py] *)

Module scoring.

Inductive ScoreCategory := LOCATION | PRICE | YIELD | PROPERTY | RISK.

Record ScoreFactor := {
  category : ScoreCategory;
  name : string;
  score : Q;
  weight : Q;
  weighted_score : Q;
}.

Record ScoringResult := {
  listing_id : string;
  mandate_id : string;
  total_score : Q;
  match_grade : string;
  factors : list ScoreFactor;
  passes_hard_filters : bool;
  disqualification_reasons : list string;
}.

Definition DEFAULT_WEIGHTS : gmap string Q :=
  list_to_map [
    ("location_region", 0.15);
    ("location_postcode", 0.10);
    ("price_range", 0.20);
    ("price_psf", 0.05);
    ("yield_minimum", 0.15);
    ("yield_target", 0.10);
    ("property_size", 0.05);
    ("property_condition", 0.10);
    ("property_tenure", 0.05);
    ("risk_profile", 0.05)
  ].

Definition _calculate_grade (s : Q) : string :=
  if Qgeb s 90 then "A"
  else if Qgeb s 75 then "B"
  else if Qgeb s 60 then "C"
  else if Qgeb s 40 then "D"
  else "F".

(** [weights[key]]. *)
Definition getitem (weights : gmap string Q) (key : string) : result py_exn Q :=
  match weights !! key with
  | Some w => Ok w
  | None => Raise (KeyError key)
  end.

(** [ScoreFactor(category, name, score, weights[key], score * weights[key])]. *)
Definition factor (c : ScoreCategory) (n : string) (sc : Q)
    (weights : gmap string Q) (key : string) : result py_exn ScoreFactor :=
  w <~ getitem weights key ;;
  Ok {| category := c; name := n; score := sc; weight := w;
        weighted_score := sc * w |}.

Definition _score_location (l : listing.Listing) (m : mandate.Mandate)
    (weights : gmap string Q) : result py_exn (list ScoreFactor) :=
  let geo := mandate.geographic m in
  let region_score : Q :=
    if mandate.is_empty (mandate.regions geo) then 1.0
    else if str_in (listing.region l) (mandate.regions geo) then 1.0
    else if str_in (listing.region l) (mandate.exclude_regions geo) then 0.0
    else 0.3 in
  f1 <~ factor LOCATION "region_match" region_score weights "location_region" ;;
  let postcode_area := listing.postcode_area l in
  let postcode_score : Q :=
    if mandate.is_empty (mandate.postcodes geo) then 1.0
    else if existsb (fun pc => startswith postcode_area (upper pc))
              (mandate.postcodes geo) then 1.0
    else if existsb (fun pc => startswith postcode_area (upper pc))
              (mandate.exclude_postcodes geo) then 0.0
    else 0.5 in
  f2 <~ factor LOCATION "postcode_match" postcode_score weights "location_postcode" ;;
  Ok [f1; f2].

(** The price-range sub-score of [_score_price]. *)
Definition price_range_score (price : Z) (min_size max_size : option Z)
  : result py_exn Q :=
  let mn := valZ min_size in
  let mx := valZ max_size in
  if truthyZ min_size && truthyZ max_size then
    if Z.leb mn price && Z.leb price mx then
      range_position <~ truediv (inject_Z (price - mn)) (inject_Z (mx - mn)) ;;
      Ok (1.0 - Qabs (0.5 - range_position) * 0.4)
    else if Z.ltb price mn then
      shortfall <~ truediv (inject_Z (mn - price)) (inject_Z mn) ;;
      Ok (Qmax 0.0 (0.5 - shortfall))
    else
      excess <~ truediv (inject_Z (price - mx)) (inject_Z mx) ;;
      Ok (Qmax 0.0 (0.5 - excess))
  else if truthyZ min_size then
    if Z.leb mn price then Ok 1.0
    else
      shortfall <~ truediv (inject_Z (mn - price)) (inject_Z mn) ;;
      Ok (Qmax 0.0 (0.7 - shortfall))
  else if truthyZ max_size then
    if Z.leb price mx then Ok 1.0
    else
      excess <~ truediv (inject_Z (price - mx)) (inject_Z mx) ;;
      Ok (Qmax 0.0 (0.5 - excess))
  else Ok 1.0.

(** The price-per-square-foot sub-score of [_score_price]. *)
Definition price_psf_score (max_price_psf price_per_sqft : option Q)
  : result py_exn Q :=
  if truthyQ max_price_psf && truthyQ price_per_sqft then
    let psf := valQ price_per_sqft in
    let cap := valQ max_price_psf in
    if Qleb psf cap then Ok 1.0
    else
      excess <~ truediv (psf - cap) cap ;;
      Ok (Qmax 0.0 (0.8 - excess))
  else Ok 1.0.

Definition _score_price (l : listing.Listing) (m : mandate.Mandate)
    (weights : gmap string Q) : result py_exn (list ScoreFactor) :=
  let fin := mandate.financial m in
  price_score <~ price_range_score (listing.asking_price l)
                   (mandate.min_deal_size fin) (mandate.max_deal_size fin) ;;
  f1 <~ factor PRICE "price_range" price_score weights "price_range" ;;
  psf_score <~ price_psf_score (mandate.max_price_psf fin)
                 (listing.price_per_sqft (listing.financial l)) ;;
  f2 <~ factor PRICE "price_psf" psf_score weights "price_psf" ;;
  Ok [f1; f2].

(** The two yield sub-scores of [_score_yield]. *)
Definition yield_minimum_score (min_yield listing_yield : option Q)
  : result py_exn Q :=
  if truthyQ min_yield then
    let mny := valQ min_yield in
    match listing_yield with
    | None => Ok 0.5
    | Some y =>
        if Qgeb y mny then Ok 1.0
        else
          shortfall <~ truediv (mny - y) mny ;;
          Ok (Qmax 0.0 (0.7 - shortfall))
    end
  else Ok 1.0.

Definition yield_target_score (target_yield listing_yield : option Q)
  : result py_exn Q :=
  if truthyQ target_yield then
    let ty := valQ target_yield in
    match listing_yield with
    | None => Ok 0.5
    | Some y =>
        if Qgeb y ty then
          excess <~ truediv (y - ty) ty ;;
          Ok (Qmin 1.0 (0.9 + excess * 0.2))
        else
          shortfall <~ truediv (ty - y) ty ;;
          Ok (Qmax 0.3 (0.9 - shortfall))
    end
  else Ok 1.0.

Definition _score_yield (l : listing.Listing) (m : mandate.Mandate)
    (weights : gmap string Q) : result py_exn (list ScoreFactor) :=
  let fin := mandate.financial m in
  let listing_yield := listing.gross_yield l in
  min_yield_score <~ yield_minimum_score (mandate.min_yield fin) listing_yield ;;
  f1 <~ factor YIELD "yield_minimum" min_yield_score weights "yield_minimum" ;;
  target_yield_score <~ yield_target_score (mandate.target_yield fin) listing_yield ;;
  f2 <~ factor YIELD "yield_target" target_yield_score weights "yield_target" ;;
  Ok [f1; f2].

Definition property_size_score (pm : mandate.PropertyCriteria) (units : Z) : Q :=
  if truthyZ (mandate.min_units pm) || truthyZ (mandate.max_units pm) then
    if truthyZ (mandate.min_units pm) && Z.ltb units (valZ (mandate.min_units pm))
    then 0.5
    else if truthyZ (mandate.max_units pm) && Z.ltb (valZ (mandate.max_units pm)) units
    then 0.5
    else 1.0
  else 1.0.

Definition property_condition_score (pm : mandate.PropertyCriteria)
    (c : listing.Condition) : Q :=
  match c with
  | listing.TURNKEY => if mandate.accept_turnkey pm then 1.0 else 0.3
  | listing.LIGHT_REFURB | listing.HEAVY_REFURB =>
      if mandate.accept_refurbishment pm then 1.0 else 0.3
  | listing.DEVELOPMENT => if mandate.accept_development pm then 1.0 else 0.2
  | listing.UNKNOWN => 0.7
  end.

Definition property_tenure_score (pm : mandate.PropertyCriteria)
    (t : listing.Tenure) (remaining : option Z) : Q :=
  if mandate.freehold_only pm then
    match t with
    | listing.FREEHOLD => 1.0
    | listing.SHARE_OF_FREEHOLD => 0.8
    | _ => 0.2
    end
  else if truthyZ (mandate.min_lease_years pm)
          && match t with listing.LEASEHOLD => true | _ => false end then
    match remaining with
    | None => 0.6
    | Some r => if Z.leb (valZ (mandate.min_lease_years pm)) r then 1.0 else 0.4
    end
  else 1.0.

Definition _score_property (l : listing.Listing) (m : mandate.Mandate)
    (weights : gmap string Q) : result py_exn (list ScoreFactor) :=
  let prop_mandate := mandate.property m in
  let prop_listing := listing.property_details l in
  f1 <~ factor PROPERTY "property_size"
          (property_size_score prop_mandate (listing.unit_count prop_listing))
          weights "property_size" ;;
  f2 <~ factor PROPERTY "property_condition"
          (property_condition_score prop_mandate (listing.condition prop_listing))
          weights "property_condition" ;;
  f3 <~ factor PROPERTY "property_tenure"
          (property_tenure_score prop_mandate (listing.tenure l)
             (listing.lease_years_remaining (listing.financial l)))
          weights "property_tenure" ;;
  Ok [f1; f2; f3].

(** [condition_risk_map] and [risk_levels.index]. *)
Definition condition_risk_map (c : listing.Condition) : mandate.RiskProfile :=
  match c with
  | listing.TURNKEY => mandate.CORE
  | listing.LIGHT_REFURB => mandate.CORE_PLUS
  | listing.HEAVY_REFURB => mandate.VALUE_ADD
  | listing.DEVELOPMENT => mandate.OPPORTUNISTIC
  | listing.UNKNOWN => mandate.CORE_PLUS
  end.

Definition risk_level_index (r : mandate.RiskProfile) : Z :=
  match r with
  | mandate.CORE => 0
  | mandate.CORE_PLUS => 1
  | mandate.VALUE_ADD => 2
  | mandate.OPPORTUNISTIC => 3
  end.

Definition risk_score (c : listing.Condition) (risk_profile : mandate.RiskProfile) : Q :=
  let implied_risk := condition_risk_map c in
  let mandate_level := risk_level_index risk_profile in
  let implied_level := risk_level_index implied_risk in
  let level_diff := (implied_level - mandate_level)%Z in
  if Z.eqb level_diff 0 then 1.0
  else if Z.eqb level_diff 1 then 0.7
  else if Z.eqb level_diff (-1) then 0.8
  else if Z.ltb 1 level_diff then 0.3
  else 0.6.

Definition _score_risk (l : listing.Listing) (m : mandate.Mandate)
    (weights : gmap string Q) : result py_exn (list ScoreFactor) :=
  f1 <~ factor RISK "risk_profile"
          (risk_score (listing.condition (listing.property_details l))
             (mandate.risk_profile m))
          weights "risk_profile" ;;
  Ok [f1].

(** [sum(f(x) for x in l)]. *)
Definition sum_of {A} (f : A -> Q) (l : list A) : Q :=
  fold_left (fun acc x => acc + f x) l 0.

(** The choice of [active_weights]; an absent or empty [weights]
    argument is falsy. *)
Definition active_weights (m : mandate.Mandate) (weights : option (gmap string Q))
  : gmap string Q :=
  match weights with
  | Some w =>
      if negb (Nat.eqb (size w) 0) then w ∪ DEFAULT_WEIGHTS
      else mandate.ScoringWeights.to_dict (mandate.scoring_weights m)
  | None => mandate.ScoringWeights.to_dict (mandate.scoring_weights m)
  end.

Definition score_listing (l : listing.Listing) (m : mandate.Mandate)
    (weights : option (gmap string Q)) : result py_exn ScoringResult :=
  let active_weights := active_weights m weights in
  let ok_class := mandate.accepts_asset_class m (listing.asset_class l) in
  let ok_location :=
    mandate.accepts_location m (listing.region l) (listing.postcode_area l) in
  let passes := ok_class && ok_location in
  let reasons :=
    ((if ok_class then []
      else [("Asset class '" ++ mandate.AssetClass_value (listing.asset_class l)
              ++ "' not accepted by mandate")%string])
     ++ (if ok_location then []
         else [("Location '" ++ listing.region l ++ "/" ++ listing.postcode_area l
                 ++ "' excluded by mandate")%string]))%list in
  f_location <~ _score_location l m active_weights ;;
  f_price <~ _score_price l m active_weights ;;
  f_yield <~ _score_yield l m active_weights ;;
  f_property <~ _score_property l m active_weights ;;
  f_risk <~ _score_risk l m active_weights ;;
  let factors :=
    (f_location ++ f_price ++ f_yield ++ f_property ++ f_risk)%list in
  let total_weighted := sum_of weighted_score factors in
  let total_weight := sum_of weight factors in
  normalized_score <~
    (if Qgtb total_weight 0 then
       q <~ truediv total_weighted total_weight ;; Ok (q * 100)
     else Ok 0.0) ;;
  let normalized_score :=
    if negb passes then normalized_score * 0.3 else normalized_score in
  Ok {| listing_id := listing.listing_id l;
        mandate_id := mandate.mandate_id m;
        total_score := normalized_score;
        match_grade := _calculate_grade normalized_score;
        factors := factors;
        passes_hard_filters := passes;
        disqualification_reasons := reasons |}.

(** The ten factor names a weights dict is read at. *)
Definition FACTOR_KEYS : list string :=
  ["location_region"; "location_postcode"; "price_range"; "price_psf";
   "yield_minimum"; "yield_target"; "property_size"; "property_condition";
   "property_tenure"; "risk_profile"].

(** A factor within its documented range: sub-score in [0, 1], weight not
    negative, contribution equal to their product. *)
Definition factor_in_range (f : ScoreFactor) : Prop :=
  0 <= score f /\ score f <= 1 /\ 0 <= weight f
  /\ weighted_score f == score f * weight f.

(** A weights dict that has every factor name, with no negative weight. *)
Definition weights_cover (w : gmap string Q) : Prop :=
  forall k, In k FACTOR_KEYS -> exists v, w !! k = Some v /\ 0 <= v.

(** The names of the ten factors, in the order [score_listing] collects
    them. *)
Definition FACTOR_NAMES : list string :=
  ["region_match"; "postcode_match"; "price_range"; "price_psf";
   "yield_minimum"; "yield_target"; "property_size"; "property_condition";
   "property_tenure"; "risk_profile"].

(** [ScoringResult.is_match]. *)
Definition is_match (self : ScoringResult) : bool :=
  passes_hard_filters self && Qgeb (total_score self) 40.0.

(** The loop of [score_listings]: each listing is scored with the
    mandate's own weights and kept when it reaches [min_score]. *)
Fixpoint score_loop (listings : list listing.Listing) (m : mandate.Mandate)
    (min_score : Q) (results : list ScoringResult)
  : result py_exn (list ScoringResult) :=
  match listings with
  | [] => Ok results
  | l :: rest =>
      r <~ score_listing l m None ;;
      score_loop rest m min_score
        (if Qgeb (total_score r) min_score then (results ++ [r])%list
         else results)
  end.

(** [results.sort(key=lambda r: r.total_score, reverse=True)]. *)
Definition by_score_desc (a b : ScoringResult) : bool :=
  Qgeb (total_score a) (total_score b).

Definition score_listings (listings : list listing.Listing) (m : mandate.Mandate)
    (min_score : Q) : result py_exn (list ScoringResult) :=
  results <~ score_loop listings m min_score [] ;;
  Ok (stable_sort by_score_desc results).

End scoring.

(** ** [core/conviction.py] *)

Module conviction.

Inductive ConvictionLevel := HIGH | MEDIUM | LOW | NONE.

Record ConvictionFactor := {
  name : string;
  met : bool;
  weight : Q;
}.

Record ConvictionAssessment := {
  listing_id : string;
  mandate_id : string;
  level : ConvictionLevel;
  confidence_score : Q;
  positive_factors : list ConvictionFactor;
  negative_factors : list ConvictionFactor;
  neutral_factors : list ConvictionFactor;
  recommendation : string;
}.

Definition cf (n : string) (b : bool) (w : Q) : ConvictionFactor :=
  {| name := n; met := b; weight := w |}.

Definition _assess_price_conviction (l : listing.Listing) (m : mandate.Mandate)
  : list ConvictionFactor :=
  let fin := mandate.financial m in
  let price := listing.asking_price l in
  let positioning :=
    if truthyZ (mandate.min_deal_size fin) && truthyZ (mandate.max_deal_size fin) then
      let mn := valZ (mandate.min_deal_size fin) in
      let mx := valZ (mandate.max_deal_size fin) in
      let range_size := (mx - mn)%Z in
      let position : Q :=
        if Z.ltb 0 range_size then inject_Z (price - mn) / inject_Z range_size
        else 0.5 in
      if Qleb 0.2 position && Qleb position 0.8 then [cf "price_positioning" true 0.15]
      else if Qltb position 0.2 then [cf "price_positioning" true 0.10]
      else [cf "price_positioning" false 0.10]
    else [] in
  let psf_value :=
    if truthyQ (listing.price_per_sqft (listing.financial l))
       && truthyQ (mandate.max_price_psf fin) then
      let psf := valQ (listing.price_per_sqft (listing.financial l)) in
      let cap := valQ (mandate.max_price_psf fin) in
      if Qleb psf (cap * 0.85) then [cf "price_psf_value" true 0.10]
      else if Qleb psf cap then [cf "price_psf_value" true 0.05]
      else []
    else [] in
  (positioning ++ psf_value)%list.

Definition _assess_yield_conviction (l : listing.Listing) (m : mandate.Mandate)
  : list ConvictionFactor :=
  let fin := mandate.financial m in
  match listing.gross_yield l with
  | None => [cf "yield_data" false 0.15]
  | Some listing_yield =>
      let buffer :=
        if truthyQ (mandate.min_yield fin) then
          let yield_buffer := listing_yield - valQ (mandate.min_yield fin) in
          if Qgeb yield_buffer 2.0 then [cf "yield_buffer" true 0.20]
          else if Qgeb yield_buffer 1.0 then [cf "yield_buffer" true 0.15]
          else if Qgeb yield_buffer 0 then [cf "yield_buffer" true 0.05]
          else [cf "yield_buffer" false 0.20]
        else [] in
      let target :=
        if truthyQ (mandate.target_yield fin)
           && Qgeb listing_yield (valQ (mandate.target_yield fin))
        then [cf "yield_target" true 0.15]
        else [] in
      (buffer ++ target)%list
  end.

Definition _assess_location_conviction (l : listing.Listing) (m : mandate.Mandate)
  : list ConvictionFactor :=
  let geo := mandate.geographic m in
  let region := listing.region l in
  let postcode := listing.postcode_area l in
  let region_match :=
    if str_in region (mandate.regions geo) then [cf "region_match" true 0.15]
    else if mandate.is_empty (mandate.regions geo) then [cf "region_match" true 0.05]
    else [] in
  let postcode_match :=
    if negb (mandate.is_empty (mandate.postcodes geo)) then
      let exact_match :=
        existsb (fun pc => String.eqb (upper postcode) (upper pc))
          (mandate.postcodes geo) in
      let prefix_match :=
        existsb (fun pc => startswith (upper postcode) (upper pc))
          (mandate.postcodes geo) in
      if exact_match then [cf "postcode_match" true 0.15]
      else if prefix_match then [cf "postcode_match" true 0.10]
      else []
    else [] in
  (region_match ++ postcode_match)%list.

Definition _assess_property_conviction (l : listing.Listing) (m : mandate.Mandate)
  : list ConvictionFactor :=
  let prop_mandate := mandate.property m in
  let prop_listing := listing.property_details l in
  let units := listing.unit_count prop_listing in
  let unit_count :=
    if truthyZ (mandate.min_units prop_mandate)
       && truthyZ (mandate.max_units prop_mandate) then
      let mn := valZ (mandate.min_units prop_mandate) in
      let mx := valZ (mandate.max_units prop_mandate) in
      if Z.leb mn units && Z.leb units mx then
        let range_size := (mx - mn)%Z in
        if Z.ltb 0 range_size then
          let position := inject_Z (units - mn) / inject_Z range_size in
          if Qleb 0.2 position && Qleb position 0.8 then [cf "unit_count" true 0.10]
          else [cf "unit_count" true 0.05]
        else []
      else []
    else [] in
  let condition_fit :=
    match listing.condition prop_listing with
    | listing.TURNKEY =>
        if mandate.accept_turnkey prop_mandate then [cf "condition_fit" true 0.15]
        else []
    | listing.LIGHT_REFURB =>
        if mandate.accept_refurbishment prop_mandate
        then [cf "condition_fit" true 0.12] else []
    | listing.HEAVY_REFURB =>
        if mandate.accept_refurbishment prop_mandate
        then [cf "condition_fit" true 0.08] else []
    | listing.DEVELOPMENT =>
        if mandate.accept_development prop_mandate
        then [cf "condition_fit" true 0.05] else []
    | listing.UNKNOWN => [cf "condition_fit" false 0.10]
    end in
  let income_status :=
    if listing.has_tenants prop_listing then [cf "income_status" true 0.10]
    else [] in
  (unit_count ++ condition_fit ++ income_status)%list.

Definition _assess_risk_conviction (l : listing.Listing) (m : mandate.Mandate)
  : list ConvictionFactor :=
  match listing.tenure l with
  | listing.FREEHOLD => [cf "tenure_security" true 0.10]
  | listing.SHARE_OF_FREEHOLD => [cf "tenure_security" true 0.08]
  | listing.LEASEHOLD =>
      let remaining := listing.lease_years_remaining (listing.financial l) in
      if truthyZ remaining && Z.leb 125 (valZ remaining)
      then [cf "tenure_security" true 0.08]
      else if truthyZ remaining && Z.leb 80 (valZ remaining)
      then [cf "tenure_security" true 0.05]
      else if truthyZ remaining then [cf "tenure_security" false 0.10]
      else []
  | _ => []
  end.

Definition _generate_recommendation (lv : ConvictionLevel) : string :=
  match lv with
  | HIGH => "RECOMMEND: Proceed to detailed due diligence and investor presentation"
  | MEDIUM => "CONSIDER: Review with investment committee, clarify open items"
  | LOW => "WATCH: Monitor for price reduction or changed circumstances"
  | NONE => "PASS: Does not meet mandate criteria"
  end.

(** [sum(f.weight for f in l)]. *)
Definition sum_weights (l : list ConvictionFactor) : Q :=
  fold_left (fun acc f => acc + weight f) l 0.

(** All factors, in the order [assess_conviction] gathers them. *)
Definition gather_factors (l : listing.Listing) (m : mandate.Mandate)
  : list ConvictionFactor :=
  (_assess_price_conviction l m ++ _assess_yield_conviction l m
   ++ _assess_location_conviction l m ++ _assess_property_conviction l m
   ++ _assess_risk_conviction l m)%list.

Definition assess_conviction (l : listing.Listing) (m : mandate.Mandate)
    (scoring_result : scoring.ScoringResult) : ConvictionAssessment :=
  let deal := mandate.deal_criteria m in
  let high_threshold := mandate.high_conviction_threshold deal in
  let medium_threshold := mandate.medium_conviction_threshold deal in
  let low_threshold := mandate.low_conviction_threshold deal in
  let all_factors := gather_factors l m in
  let positive := List.filter (fun f => met f && Qgeb (weight f) 0.10) all_factors in
  let negative := List.filter (fun f => negb (met f)) all_factors in
  let neutral := List.filter (fun f => met f && Qltb (weight f) 0.10) all_factors in
  let total_weight :=
    let s := sum_weights all_factors in
    if Qeq_bool s 0 then 1.0 else s in
  let met_weight := sum_weights (List.filter met all_factors) in
  let confidence_score := met_weight / total_weight in
  let final_confidence :=
    if scoring.passes_hard_filters scoring_result then
      let base_score := scoring.total_score scoring_result / 100 in
      (base_score * 0.7) + (confidence_score * 0.3)
    else confidence_score * 0.3 in
  let level :=
    if negb (scoring.passes_hard_filters scoring_result) then NONE
    else if Qgeb final_confidence high_threshold then HIGH
    else if Qgeb final_confidence medium_threshold then MEDIUM
    else if Qgeb final_confidence low_threshold then LOW
    else NONE in
  {| listing_id := listing.listing_id l;
     mandate_id := mandate.mandate_id m;
     level := level;
     confidence_score := final_confidence;
     positive_factors := positive;
     negative_factors := negative;
     neutral_factors := neutral;
     recommendation := _generate_recommendation level |}.

(** Every factor the assessor builds carries a positive weight. *)
Definition positive_weight (f : ConvictionFactor) : Prop := 0 < weight f.

(** [rank_by_conviction]: the dict has the four levels as its keys, so
    it is a function on levels; each assessment is appended to the list of
    its level, and each list is then sorted by confidence, highest first. *)
Definition ConvictionLevel_eqb (a b : ConvictionLevel) : bool :=
  match a, b with
  | HIGH, HIGH | MEDIUM, MEDIUM | LOW, LOW | NONE, NONE => true
  | _, _ => false
  end.

Definition by_confidence_desc (a b : ConvictionAssessment) : bool :=
  Qgeb (confidence_score a) (confidence_score b).

Definition rank_by_conviction (assessments : list ConvictionAssessment)
  : ConvictionLevel -> list ConvictionAssessment :=
  fun lv =>
    stable_sort by_confidence_desc
      (List.filter (fun a => ConvictionLevel_eqb (level a) lv) assessments).

End conviction.

(** ** [core/rejection.py] *)

Module rejection.

Inductive RejectionCategory :=
| PRICE | LOCATION | YIELD | ASSET_CLASS | PROPERTY | TENURE | RISK | DATA_QUALITY.

Inductive RejectionSeverity := HARD | SOFT.

Definition is_hard (s : RejectionSeverity) : bool :=
  match s with HARD => true | SOFT => false end.

Record RejectionReason := {
  category : RejectionCategory;
  severity : RejectionSeverity;
  code : string;
  title : string;
}.

Record RejectionResult := {
  listing_id : string;
  mandate_id : string;
  rejected : bool;
  reasons : list RejectionReason;
}.

Definition hard_rejections (self : RejectionResult) : list RejectionReason :=
  List.filter (fun r => is_hard (severity r)) (reasons self).

Definition soft_rejections (self : RejectionResult) : list RejectionReason :=
  List.filter (fun r => negb (is_hard (severity r))) (reasons self).

Definition Rule : Type := listing.Listing -> mandate.Mandate -> option RejectionReason.

(** [((price - max_size) / max_size) * 100]: an [int] quotient and a
    product, each rounded to binary64. *)
Definition excess_pct (price max_size : Z) : Q :=
  fmul (int_truediv (price - max_size) max_size) (float_of_int 100).

(** [((min_size - price) / min_size) * 100]. *)
Definition shortfall_pct (price min_size : Z) : Q :=
  fmul (int_truediv (min_size - price) min_size) (float_of_int 100).

Definition check_price_too_high : Rule := fun l m =>
  let max_size := mandate.max_deal_size (mandate.financial m) in
  let price := listing.asking_price l in
  if truthyZ max_size && Z.ltb (valZ max_size) price then
    let excess_pct := excess_pct price (valZ max_size) in
    Some {| category := PRICE;
            severity := if Qgtb excess_pct 20 then HARD else SOFT;
            code := "PRICE_EXCEEDS_MAX";
            title := "Price exceeds maximum" |}
  else None.

Definition check_price_too_low : Rule := fun l m =>
  let min_size := mandate.min_deal_size (mandate.financial m) in
  let price := listing.asking_price l in
  if truthyZ min_size && Z.ltb price (valZ min_size) then
    let shortfall_pct := shortfall_pct price (valZ min_size) in
    Some {| category := PRICE;
            severity := if Qgtb shortfall_pct 30 then HARD else SOFT;
            code := "PRICE_BELOW_MIN";
            title := "Price below minimum" |}
  else None.

Definition check_location_excluded : Rule := fun l m =>
  let geo := mandate.geographic m in
  let region := listing.region l in
  let postcode := listing.postcode_area l in
  if str_in region (mandate.exclude_regions geo) then
    Some {| category := LOCATION; severity := HARD;
            code := "REGION_EXCLUDED"; title := "Region excluded" |}
  else if existsb (fun excluded => startswith (upper postcode) (upper excluded))
            (mandate.exclude_postcodes geo) then
    Some {| category := LOCATION; severity := HARD;
            code := "POSTCODE_EXCLUDED"; title := "Postcode excluded" |}
  else None.

Definition check_location_outside_target : Rule := fun l m =>
  let geo := mandate.geographic m in
  if mandate.is_empty (mandate.regions geo) && mandate.is_empty (mandate.postcodes geo)
  then None
  else
    let region := listing.region l in
    let postcode := listing.postcode_area l in
    let region_match :=
      mandate.is_empty (mandate.regions geo) || str_in region (mandate.regions geo) in
    let postcode_match :=
      mandate.is_empty (mandate.postcodes geo)
      || existsb (fun pc => startswith (upper postcode) (upper pc))
           (mandate.postcodes geo) in
    if negb region_match && negb postcode_match then
      Some {| category := LOCATION; severity := SOFT;
              code := "LOCATION_NOT_TARGET"; title := "Outside target location" |}
    else None.

Definition check_yield_insufficient : Rule := fun l m =>
  let min_yield := mandate.min_yield (mandate.financial m) in
  match listing.gross_yield l with
  | Some listing_yield =>
      if truthyQ min_yield && Qltb listing_yield (valQ min_yield) then
        let shortfall := valQ min_yield - listing_yield in
        Some {| category := YIELD;
                severity := if Qgtb shortfall 2.0 then HARD else SOFT;
                code := "YIELD_BELOW_MIN";
                title := "Yield below minimum" |}
      else None
  | None => None
  end.

Definition check_asset_class_mismatch : Rule := fun l m =>
  if negb (mandate.is_empty (mandate.asset_classes m))
     && negb (existsb (mandate.AssetClass_eqb (listing.asset_class l))
                (mandate.asset_classes m))
  then Some {| category := ASSET_CLASS; severity := HARD;
               code := "ASSET_CLASS_MISMATCH"; title := "Asset class not accepted" |}
  else None.

Definition check_tenure_unacceptable : Rule := fun l m =>
  let prop := mandate.property m in
  if mandate.freehold_only prop
     && negb match listing.tenure l with
             | listing.FREEHOLD | listing.SHARE_OF_FREEHOLD => true
             | _ => false
             end
  then Some {| category := TENURE; severity := HARD;
               code := "FREEHOLD_REQUIRED"; title := "Freehold required" |}
  else if truthyZ (mandate.min_lease_years prop)
          && match listing.tenure l with listing.LEASEHOLD => true | _ => false end
  then
    match listing.lease_years_remaining (listing.financial l) with
    | Some remaining =>
        if Z.ltb remaining (valZ (mandate.min_lease_years prop)) then
          Some {| category := TENURE;
                  severity := if Z.ltb remaining 80 then HARD else SOFT;
                  code := "LEASE_TOO_SHORT"; title := "Lease too short" |}
        else None
    | None => None
    end
  else None.

Definition check_condition_unacceptable : Rule := fun l m =>
  let prop := mandate.property m in
  match listing.condition (listing.property_details l) with
  | listing.DEVELOPMENT =>
      if negb (mandate.accept_development prop) then
        Some {| category := PROPERTY; severity := HARD;
                code := "DEVELOPMENT_NOT_ACCEPTED";
                title := "Development not accepted" |}
      else None
  | listing.LIGHT_REFURB | listing.HEAVY_REFURB =>
      if negb (mandate.accept_refurbishment prop) then
        Some {| category := PROPERTY; severity := SOFT;
                code := "REFURB_NOT_ACCEPTED";
                title := "Refurbishment not accepted" |}
      else None
  | _ => None
  end.

Definition check_unit_count : Rule := fun l m =>
  let prop := mandate.property m in
  let units := listing.unit_count (listing.property_details l) in
  if truthyZ (mandate.min_units prop) && Z.ltb units (valZ (mandate.min_units prop))
  then Some {| category := PROPERTY; severity := SOFT;
               code := "UNITS_BELOW_MIN"; title := "Too few units" |}
  else if truthyZ (mandate.max_units prop)
          && Z.ltb (valZ (mandate.max_units prop)) units
  then Some {| category := PROPERTY; severity := SOFT;
               code := "UNITS_ABOVE_MAX"; title := "Too many units" |}
  else None.

Definition check_data_quality : Rule := fun l m =>
  let missing :=
    ((if String.eqb (listing.postcode (listing.address l)) "" then ["postcode"] else [])
     ++ (if String.eqb (listing.region_ (listing.address l)) "" then ["region"] else [])
     ++ (if Z.leb (listing.asking_price_ (listing.financial l)) 0
         then ["valid price"] else [])
     ++ (match listing.condition (listing.property_details l) with
         | listing.UNKNOWN => ["property condition"]
         | _ => []
         end))%list in
  if negb (mandate.is_empty missing) then
    Some {| category := DATA_QUALITY; severity := SOFT;
            code := "MISSING_DATA"; title := "Incomplete data" |}
  else None.

Definition REJECTION_RULES : list Rule := [
  check_asset_class_mismatch;
  check_location_excluded;
  check_price_too_high;
  check_price_too_low;
  check_yield_insufficient;
  check_tenure_unacceptable;
  check_condition_unacceptable;
  check_location_outside_target;
  check_unit_count;
  check_data_quality
].

(** The [for rule in active_rules] loop, with its [break]; [acc] is the
    list [reasons] built so far. *)
Fixpoint run_rules (rules : list Rule) (l : listing.Listing) (m : mandate.Mandate)
    (stop_on_hard : bool) (acc : list RejectionReason) : list RejectionReason :=
  match rules with
  | [] => acc
  | rule :: rest =>
      match rule l m with
      | Some reason =>
          if stop_on_hard && is_hard (severity reason) then (acc ++ [reason])%list
          else run_rules rest l m stop_on_hard (acc ++ [reason])%list
      | None => run_rules rest l m stop_on_hard acc
      end
  end.

Definition evaluate_rejection (l : listing.Listing) (m : mandate.Mandate)
    (rules : option (list Rule)) (stop_on_hard : bool) : RejectionResult :=
  let active_rules :=
    match rules with
    | Some (r :: rs) => r :: rs
    | _ => REJECTION_RULES
    end in
  let reasons := run_rules active_rules l m stop_on_hard [] in
  let has_hard_rejection := existsb (fun r => is_hard (severity r)) reasons in
  {| listing_id := listing.listing_id l;
     mandate_id := mandate.mandate_id m;
     rejected := has_hard_rejection;
     reasons := reasons |}.

(** A reasons list cut after its first HARD reason. *)
Fixpoint upto_first_hard (rs : list RejectionReason) : list RejectionReason :=
  match rs with
  | [] => []
  | r :: rs' => if is_hard (severity r) then [r] else r :: upto_first_hard rs'
  end.

(** [rules or REJECTION_RULES]. *)
Definition active_rules (rules : option (list Rule)) : list Rule :=
  match rules with
  | Some (r :: rs) => r :: rs
  | _ => REJECTION_RULES
  end.

(** The counting loop of [get_rejection_summary]:
    [reason_counts[code] = reason_counts.get(code, 0) + 1] for every reason
    of every result, in order. *)
Fixpoint count_codes (codes : list string) (reason_counts : odict Z) : odict Z :=
  match codes with
  | [] => reason_counts
  | c :: rest =>
      count_codes rest
        (od_set reason_counts c
           (match od_get reason_counts c with Some n => n | None => 0%Z end + 1)%Z)
  end.

Record RejectionSummary := {
  total : Z;
  rejected_count : Z;
  passed_count : Z;
  rejection_rate : Q;
  top_rejection_reasons : odict Z;
}.

Definition by_count_desc (a b : string * Z) : bool := Z.geb (snd a) (snd b).

Definition get_rejection_summary (results : list RejectionResult)
  : RejectionSummary :=
  let total := Z.of_nat (List.length results) in
  let rejected := Z.of_nat (List.length (List.filter rejected results)) in
  let passed := (total - rejected)%Z in
  let reason_counts :=
    count_codes (flat_map (fun r => map code (reasons r)) results) [] in
  let top_reasons := firstn 5 (stable_sort by_count_desc reason_counts) in
  {| total := total;
     rejected_count := rejected;
     passed_count := passed;
     rejection_rate :=
       if Z.ltb 0 total then inject_Z rejected / inject_Z total * 100 else 0;
     top_rejection_reasons := top_reasons |}.

End rejection.

(** ** [core/recommendation.py] *)

Module recommendation.

Inductive RecommendationAction := PURSUE | CONSIDER | WATCH | PASS.

Record DealRecommendation := {
  listing_id : string;
  mandate_id : string;
  action : RecommendationAction;
  priority_rank : Z;
  scoring_ : scoring.ScoringResult;
  conviction_ : conviction.ConvictionAssessment;
  rejection_ : rejection.RejectionResult;
}.

Definition is_level (a b : conviction.ConvictionLevel) : bool :=
  match a, b with
  | conviction.HIGH, conviction.HIGH | conviction.MEDIUM, conviction.MEDIUM
  | conviction.LOW, conviction.LOW | conviction.NONE, conviction.NONE => true
  | _, _ => false
  end.

Definition _determine_action (sc : scoring.ScoringResult)
    (cv : conviction.ConvictionAssessment) (rj : rejection.RejectionResult)
    (m : mandate.Mandate) : RecommendationAction :=
  let deal := mandate.deal_criteria m in
  if rejection.rejected rj then PASS
  else if is_level (conviction.level cv) conviction.HIGH
          && Qgeb (scoring.total_score sc) (mandate.pursue_score_threshold deal)
  then PURSUE
  else if is_level (conviction.level cv) conviction.MEDIUM then CONSIDER
  else if is_level (conviction.level cv) conviction.HIGH
          && Qgeb (scoring.total_score sc) (mandate.consider_score_threshold deal)
  then CONSIDER
  else if is_level (conviction.level cv) conviction.LOW
          && scoring.passes_hard_filters sc
  then
    if Qgeb (scoring.total_score sc) (mandate.min_overall_score deal) then WATCH
    else PASS
  else PASS.

Definition _calculate_priority (a : RecommendationAction)
    (sc : scoring.ScoringResult) (m : mandate.Mandate) : Z :=
  let base : Z :=
    match a with PURSUE => 1%Z | CONSIDER => 2%Z | WATCH => 3%Z | PASS => 4%Z end in
  let score_adjustment :=
    int_of_float
      (fdiv (fsub (float_of_int 100) (scoring.total_score sc)) (float_of_int 10)) in
  let mandate_factor := (mandate.priority m - 1)%Z in
  (base * 100 + score_adjustment * 10 + mandate_factor)%Z.

(** [generate_recommendation(listing, mandate)], called without a
    planning context: the analysis chain, the action and the priority. *)
Definition generate_recommendation (l : listing.Listing) (m : mandate.Mandate)
  : result py_exn DealRecommendation :=
  sc <~ scoring.score_listing l m None ;;
  let cv := conviction.assess_conviction l m sc in
  let rj := rejection.evaluate_rejection l m None false in
  let a := _determine_action sc cv rj m in
  let p := _calculate_priority a sc m in
  Ok {| listing_id := listing.listing_id l;
        mandate_id := mandate.mandate_id m;
        action := a;
        priority_rank := p;
        scoring_ := sc;
        conviction_ := cv;
        rejection_ := rj |}.

(** [DealRecommendation.is_actionable]. *)
Definition is_actionable (self : DealRecommendation) : bool :=
  match action self with
  | PURSUE | CONSIDER => true
  | WATCH | PASS => false
  end.

(** [generate_recommendations(listings, mandate)], called without
    planning contexts: one recommendation per listing, then
    [recommendations.sort(key=lambda r: r.priority_rank)]. *)
Fixpoint recommend_loop (listings : list listing.Listing) (m : mandate.Mandate)
    (recommendations : list DealRecommendation)
  : result py_exn (list DealRecommendation) :=
  match listings with
  | [] => Ok recommendations
  | l :: rest =>
      rec <~ generate_recommendation l m ;;
      recommend_loop rest m (recommendations ++ [rec])%list
  end.

Definition by_priority_rank (a b : DealRecommendation) : bool :=
  Z.leb (priority_rank a) (priority_rank b).

Definition generate_recommendations (listings : list listing.Listing)
    (m : mandate.Mandate) : result py_exn (list DealRecommendation) :=
  recommendations <~ recommend_loop listings m [] ;;
  Ok (stable_sort by_priority_rank recommendations).

Definition get_actionable_recommendations (recommendations : list DealRecommendation)
  : list DealRecommendation :=
  List.filter is_actionable recommendations.

Definition RecommendationAction_eqb (a b : RecommendationAction) : bool :=
  match a, b with
  | PURSUE, PURSUE | CONSIDER, CONSIDER | WATCH, WATCH | PASS, PASS => true
  | _, _ => false
  end.

Module RecommendationReport.

Record t := {
  mandate_id : string;
  mandate_name : string;
  generated_at : Z;
  total_listings : Z;
  recommendations : list DealRecommendation;
}.

(** [sum(1 for r in self.recommendations if r.action == a)]. *)
Definition count (a : RecommendationAction) (self : t) : Z :=
  fold_left
    (fun acc r => if RecommendationAction_eqb (action r) a then (acc + 1)%Z else acc)
    (recommendations self) 0%Z.

Definition pursue_count : t -> Z := count PURSUE.
Definition consider_count : t -> Z := count CONSIDER.
Definition watch_count : t -> Z := count WATCH.
Definition pass_count : t -> Z := count PASS.

(** The [actionable_count] entry of [to_dict]. *)
Definition actionable_count (self : t) : Z :=
  (pursue_count self + consider_count self)%Z.

End RecommendationReport.

Definition generate_report (listings : list listing.Listing) (m : mandate.Mandate)
    (now : Z) : result py_exn RecommendationReport.t :=
  recommendations <~ generate_recommendations listings m ;;
  Ok {| RecommendationReport.mandate_id := mandate.mandate_id m;
        RecommendationReport.mandate_name := mandate.investor_name m;
        RecommendationReport.generated_at := now;
        RecommendationReport.total_listings := Z.of_nat (List.length listings);
        RecommendationReport.recommendations := recommendations |}.

End recommendation.

(** ** [core/review.py]: the review state machine *)

Module review.

Inductive ReviewState := NEW | REVIEWING | ACCEPTED | DECLINED.
Inductive ReviewAction := START_REVIEW | ACCEPT | DECLINE | RESET.

(** Exceptions of the review code: the declared [InvalidTransitionError]
    and the [KeyError] of a failed table lookup. *)
Inductive review_exn :=
| InvalidTransitionError (current_state : ReviewState) (action : ReviewAction)
| KeyError.

Definition ReviewAction_eqb (a b : ReviewAction) : bool :=
  match a, b with
  | START_REVIEW, START_REVIEW | ACCEPT, ACCEPT
  | DECLINE, DECLINE | RESET, RESET => true
  | _, _ => false
  end.

(** The table [VALID_TRANSITIONS]: the row of each state. *)
Definition VALID_TRANSITIONS (s : ReviewState) : list (ReviewAction * ReviewState) :=
  match s with
  | NEW => [(START_REVIEW, REVIEWING)]
  | REVIEWING => [(ACCEPT, ACCEPTED); (DECLINE, DECLINED); (RESET, NEW)]
  | ACCEPTED => [(RESET, NEW)]
  | DECLINED => [(RESET, NEW)]
  end.

Fixpoint row_get (a : ReviewAction) (row : list (ReviewAction * ReviewState))
  : option ReviewState :=
  match row with
  | [] => None
  | (a', s) :: row' => if ReviewAction_eqb a a' then Some s else row_get a row'
  end.

Record StateTransition := {
  from_state : ReviewState;
  to_state : ReviewState;
  action : ReviewAction;
  timestamp : Z;
  actor : string;
  notes : string;
}.

Record DealReview := {
  review_id : string;
  listing_id : string;
  mandate_id : string;
  state : ReviewState;
  created_at : Z;
  updated_at : Z;
  assigned_to : option string;
  priority : Z;
  decision_notes : string;
  decline_reasons : list string;
  history : list StateTransition;
}.

(** A method of [DealReview]: it reads and mutates [self] and either
    returns or raises; the mutated [self] is observable in both cases. *)
Definition method (A : Type) : Type :=
  DealReview -> result review_exn A * DealReview.

Definition ret {A} (a : A) : method A := fun self => (Ok a, self).
Definition raise {A} (e : review_exn) : method A := fun self => (Raise e, self).
Definition seq {A B} (m : method A) (k : A -> method B) : method B :=
  fun self =>
    match m self with
    | (Ok a, self') => k a self'
    | (Raise e, self') => (Raise e, self')
    end.
Definition get : method DealReview := fun self => (Ok self, self).
Definition put (r : DealReview) : method unit := fun _ => (Ok tt, r).

Definition set_decision_notes (v : string) : method unit :=
  fun self =>
    (Ok tt,
     {| review_id := review_id self; listing_id := listing_id self;
        mandate_id := mandate_id self; state := state self;
        created_at := created_at self; updated_at := updated_at self;
        assigned_to := assigned_to self; priority := priority self;
        decision_notes := v; decline_reasons := decline_reasons self;
        history := history self |}).

Definition set_decline_reasons (v : list string) : method unit :=
  fun self =>
    (Ok tt,
     {| review_id := review_id self; listing_id := listing_id self;
        mandate_id := mandate_id self; state := state self;
        created_at := created_at self; updated_at := updated_at self;
        assigned_to := assigned_to self; priority := priority self;
        decision_notes := decision_notes self; decline_reasons := v;
        history := history self |}).

(** [self.history.append(t); self.state = s; self.updated_at = now]. *)
Definition record_transition (t : StateTransition) (s : ReviewState) (now : Z)
  : method unit :=
  fun self =>
    (Ok tt,
     {| review_id := review_id self; listing_id := listing_id self;
        mandate_id := mandate_id self; state := s;
        created_at := created_at self; updated_at := now;
        assigned_to := assigned_to self; priority := priority self;
        decision_notes := decision_notes self;
        decline_reasons := decline_reasons self;
        history := (history self ++ [t])%list |}).

Definition can_transition (self : DealReview) (a : ReviewAction) : bool :=
  match row_get a (VALID_TRANSITIONS (state self)) with
  | Some _ => true
  | None => false
  end.

Definition get_valid_actions (self : DealReview) : list ReviewAction :=
  map fst (VALID_TRANSITIONS (state self)).

Definition transition (a : ReviewAction) (who : string) (note : string) (now : Z)
  : method unit :=
  seq get (fun self =>
    if negb (can_transition self a) then
      raise (InvalidTransitionError (state self) a)
    else
      match row_get a (VALID_TRANSITIONS (state self)) with
      | None => raise KeyError
      | Some new_state =>
          record_transition
            {| from_state := state self; to_state := new_state; action := a;
               timestamp := now; actor := who; notes := note |}
            new_state now
      end).

Definition start_review (who note : string) (now : Z) : method unit :=
  transition START_REVIEW who note now.

Definition accept (who note : string) (now : Z) : method unit :=
  seq (set_decision_notes note) (fun _ => transition ACCEPT who note now).

Definition decline (who : string) (reasons : list string) (note : string) (now : Z)
  : method unit :=
  seq (set_decline_reasons reasons) (fun _ =>
  seq (set_decision_notes note) (fun _ =>
  transition DECLINE who note now)).

Definition reset (who note : string) (now : Z) : method unit :=
  transition RESET who note now.

(** [is_pending], [is_decided]. *)
Definition is_pending (self : DealReview) : bool :=
  match state self with
  | NEW | REVIEWING => true
  | ACCEPTED | DECLINED => false
  end.

Definition is_decided (self : DealReview) : bool :=
  match state self with
  | ACCEPTED | DECLINED => true
  | NEW | REVIEWING => false
  end.

(** The loop of [time_in_review]: the last START_REVIEW and the last
    ACCEPT or DECLINE of the history. *)
Fixpoint scan_history (h : list StateTransition)
    (review_start review_end : option Z) : option Z * option Z :=
  match h with
  | [] => (review_start, review_end)
  | t :: rest =>
      if ReviewAction_eqb (action t) START_REVIEW then
        scan_history rest (Some (timestamp t)) review_end
      else if ReviewAction_eqb (action t) ACCEPT
              || ReviewAction_eqb (action t) DECLINE then
        scan_history rest review_start (Some (timestamp t))
      else scan_history rest review_start review_end
  end.

(** [time_in_review], in hours; the clock counts seconds. *)
Definition time_in_review (self : DealReview) : option Q :=
  match history self with
  | [] => None
  | _ :: _ =>
      match scan_history (history self) None None with
      | (Some review_start, Some review_end) =>
          Some (inject_Z (review_end - review_start) / 3600)
      | _ => None
      end
  end.

(** [create_review]; the random review id is an argument, and so are the
    two clock readings of the timestamp defaults. *)
Definition create_review (new_id listing mandate : string) (prio : Z)
    (assignee : option string) (now_created now_updated : Z) : DealReview :=
  {| review_id := new_id;
     listing_id := listing;
     mandate_id := mandate;
     state := NEW;
     created_at := now_created;
     updated_at := now_updated;
     assigned_to := assignee;
     priority := prio;
     decision_notes := "";
     decline_reasons := [];
     history := [] |}.

(** A client of a review: the four public methods, called one after the
    other, each at its own clock reading; a raised exception is caught and
    the client carries on with the same object. *)
Inductive call :=
| call_start_review (who note : string)
| call_accept (who note : string)
| call_decline (who : string) (reasons : list string) (note : string)
| call_reset (who note : string).

Definition run_call (c : call) (now : Z) : method unit :=
  match c with
  | call_start_review who note => start_review who note now
  | call_accept who note => accept who note now
  | call_decline who reasons note => decline who reasons note now
  | call_reset who note => reset who note now
  end.

Fixpoint run_calls (cs : list (call * Z)) (self : DealReview) : DealReview :=
  match cs with
  | [] => self
  | (c, now) :: rest => run_calls rest (snd (run_call c now self))
  end.

(** The clock readings never go back. *)
Fixpoint clock_monotone (t : Z) (cs : list (call * Z)) : bool :=
  match cs with
  | [] => true
  | (_, now) :: rest => Z.leb t now && clock_monotone now rest
  end.

Definition ReviewState_eqb (a b : ReviewState) : bool :=
  match a, b with
  | NEW, NEW | REVIEWING, REVIEWING | ACCEPTED, ACCEPTED
  | DECLINED, DECLINED => true
  | _, _ => false
  end.

(** The end of a history read as a path through the transition table
    from state [s]: every record starts where the one before it ended and
    is an entry of the table. *)
Fixpoint chain_from (s : ReviewState) (h : list StateTransition)
  : option ReviewState :=
  match h with
  | [] => Some s
  | t :: rest =>
      if ReviewState_eqb (from_state t) s then
        match row_get (action t) (VALID_TRANSITIONS s) with
        | Some s' =>
            if ReviewState_eqb (to_state t) s' then chain_from s' rest else None
        | None => None
        end
      else None
  end.

(** What every review made by [create_review] and driven through its
    methods satisfies: the history is a path through the table from NEW to
    the current state, its timestamps are in order and none is later than
    [updated_at], a review under way has a recorded start, and a decided
    review has a recorded start and a recorded end that is not earlier. *)
Definition lifecycle_invariant (r : DealReview) : Prop :=
  chain_from NEW (history r) = Some (state r)
  /\ StronglySorted Z.le (map timestamp (history r))
  /\ Forall (fun t => (timestamp t <= updated_at r)%Z) (history r)
  /\ (forall a, fst (scan_history (history r) None None) = Some a ->
              (a <= updated_at r)%Z)
  /\ (forall b, snd (scan_history (history r) None None) = Some b ->
              (b <= updated_at r)%Z)
  /\ (state r = REVIEWING ->
      exists a, fst (scan_history (history r) None None) = Some a)
  /\ (is_decided r = true ->
      exists a b,
        scan_history (history r) None None = (Some a, Some b) /\ (a <= b)%Z).

(** [ReviewQueue]: the dict [_reviews], keyed by review id.  The queue is
    read at one moment: each review is the state of the object at that
    moment. *)
Module ReviewQueue.

Definition t : Type := odict DealReview.

Definition init : t := [].

Definition add (self : t) (review : DealReview) : t :=
  od_set self (review_id review) review.

Definition get (self : t) (id : string) : option DealReview := od_get self id.

(** [self._reviews.pop(review_id, None)]: the value returned and the
    queue left. *)
Definition remove (self : t) (id : string) : option DealReview * t :=
  (od_get self id, od_del self id).

Definition all (self : t) : list DealReview := od_values self.

Definition by_state (self : t) (s : ReviewState) : list DealReview :=
  List.filter (fun r => ReviewState_eqb (state r) s) (od_values self).

Definition by_mandate (self : t) (id : string) : list DealReview :=
  List.filter (fun r => String.eqb (mandate_id r) id) (od_values self).

Definition pending (self : t) : list DealReview :=
  List.filter is_pending (od_values self).

Definition decided (self : t) : list DealReview :=
  List.filter is_decided (od_values self).

Definition by_priority (self : t) (max_priority : Z) : list DealReview :=
  stable_sort (fun a b => Z.leb (priority a) (priority b))
    (List.filter (fun r => Z.leb (priority r) max_priority) (od_values self)).

Record Stats := {
  total : Z;
  by_state_count : ReviewState -> Z;
  pending_count : Z;
  decided_count : Z;
  avg_priority : Q;
}.

Definition stats (self : t) : Stats :=
  let reviews := od_values self in
  {| total := Z.of_nat (List.length reviews);
     by_state_count := fun s =>
       Z.of_nat (List.length
                   (List.filter (fun r => ReviewState_eqb (state r) s) reviews));
     pending_count := Z.of_nat (List.length (List.filter is_pending reviews));
     decided_count := Z.of_nat (List.length (List.filter is_decided reviews));
     avg_priority :=
       match reviews with
       | [] => 0
       | _ :: _ =>
           inject_Z (fold_left (fun acc r => (acc + priority r)%Z) reviews 0%Z)
           / inject_Z (Z.of_nat (List.length reviews))
       end |}.

(** The keys of the dict are distinct, and every review sits under its
    own id. *)
Definition well_keyed (self : t) : Prop :=
  List.NoDup (od_keys self)
  /\ Forall (fun kv => fst kv = review_id (snd kv)) self.

End ReviewQueue.

End review.

(** ** [planning/models.py] *)

Module planning_models.

Inductive PrecedentType :=
| EXTENSION_REAR | EXTENSION_SIDE | EXTENSION_LOFT | EXTENSION_BASEMENT
| CONVERSION_RESIDENTIAL | CONVERSION_HMO | CONVERSION_FLATS | CHANGE_OF_USE
| NEW_BUILD | DEMOLITION_REBUILD | SUBDIVISION | PERMITTED_DEVELOPMENT | OTHER.

Inductive PlanningLabel := EXCEPTIONAL | STRONG | MEDIUM | LOW.

(** A [datetime] is naive (no time zone: seconds on the local clock) or
    aware (it carries a UTC offset, as [datetime.fromisoformat] returns for
    a text that ends in an offset). *)
Inductive datetime :=
| naive (t : Z)
| aware (t : Z) (utcoffset : Z).

(** [datetime.now()] is naive, and Python refuses to subtract an aware
    datetime from a naive one. *)
Inductive planning_exn := TypeError.

Record PlanningPrecedent := {
  reference : string;
  precedent_address : string;
  precedent_postcode : string;
  precedent_type : PrecedentType;
  description : string;
  approved : bool;
  decision_date : option datetime;
  distance_meters : option Q;
  similarity_score : Q;
  conditions : list string;
  refusal_reasons : list string;
}.

Record PlanningContext := {
  property_type : string;
  tenure : string;
  current_sqft : option Z;
  plot_size_sqft : option Z;
  num_floors : option Z;
  year_built : option Z;
  conservation_area : bool;
  listed_building : bool;
  listed_grade : string;
  article_4_direction : bool;
  green_belt : bool;
  flood_zone : Z;
  tree_preservation_orders : bool;
  postcode : string;
  local_authority : string;
  nearby_precedents : list PlanningPrecedent;
  proposed_type : PrecedentType;
}.

(** The dataclass default [PlanningContext()]. *)
Definition PlanningContext_default : PlanningContext :=
  {| property_type := ""; tenure := ""; current_sqft := None;
     plot_size_sqft := None; num_floors := None; year_built := None;
     conservation_area := false; listed_building := false; listed_grade := "";
     article_4_direction := false; green_belt := false; flood_zone := 1;
     tree_preservation_orders := false; postcode := ""; local_authority := "";
     nearby_precedents := []; proposed_type := OTHER |}.

Record PlanningScore := {
  score : Z;
  label : PlanningLabel;
  precedent_score : Z;
  feasibility_score : Z;
  uplift_score : Z;
}.

(** A copy of a context with its constraint flags and flood zone
    replaced. *)
Definition with_constraints (ctx : PlanningContext)
    (listed conservation green article_4 tpo : bool) (flood : Z)
  : PlanningContext :=
  {| property_type := property_type ctx; tenure := tenure ctx;
     current_sqft := current_sqft ctx; plot_size_sqft := plot_size_sqft ctx;
     num_floors := num_floors ctx; year_built := year_built ctx;
     conservation_area := conservation;
     listed_building := listed;
     listed_grade := listed_grade ctx;
     article_4_direction := article_4;
     green_belt := green;
     flood_zone := flood;
     tree_preservation_orders := tpo;
     postcode := postcode ctx; local_authority := local_authority ctx;
     nearby_precedents := nearby_precedents ctx;
     proposed_type := proposed_type ctx |}.

(** [PlanningPrecedent.recency_years]: the whole days between the
    decision and now, over 365.25.  The clock counts seconds; one reading
    serves a whole analysis.  [datetime.now() - self.decision_date] raises
    [TypeError] when the decision date is aware. *)
Definition recency_years (now : Z) (self : PlanningPrecedent)
  : result planning_exn (option Q) :=
  match decision_date self with
  | None => Ok None
  | Some (naive d) => Ok (Some (inject_Z ((now - d) / 86400) / 365.25))
  | Some (aware _ _) => Raise TypeError
  end.

Record UpliftEstimate := {
  percent_low : Q;
  percent_mid : Q;
  percent_high : Q;
  value_low : Z;
  value_mid : Z;
  value_high : Z;
  confidence : string;
}.

(** The numbers of a [PlanningAssessment]. *)
Record PlanningAssessment := {
  planning_score : PlanningScore;
  uplift_estimate : UpliftEstimate;
}.

End planning_models.

(** ** [planning/feasibility.py] *)

Module planning_feasibility.

Import planning_models.

Inductive FeasibilityFactor :=
| LISTED_BUILDING | CONSERVATION_AREA | GREEN_BELT | FLOOD_ZONE | ARTICLE_4
| TREE_PRESERVATION | PROPERTY_TYPE | TENURE | PLOT_SIZE | PD_RIGHTS.

Record FeasibilityResult := {
  score : Z;
  positive_factors : list FeasibilityFactor;
  negative_factors : list FeasibilityFactor;
  neutral_factors : list FeasibilityFactor;
  blockers : list string;
  recommendations : list string;
}.

(** The five lists that [assess_feasibility] creates and that every
    [_assess_*] helper appends to in place. *)
Record Lists := {
  positive : list FeasibilityFactor;
  negative : list FeasibilityFactor;
  neutral : list FeasibilityFactor;
  blockers_ : list string;
  recommendations_ : list string;
}.

Definition no_lists : Lists :=
  {| positive := []; negative := []; neutral := [];
     blockers_ := []; recommendations_ := [] |}.

Definition positive_append (f : FeasibilityFactor) (st : Lists) : Lists :=
  {| positive := (positive st ++ [f])%list; negative := negative st;
     neutral := neutral st; blockers_ := blockers_ st;
     recommendations_ := recommendations_ st |}.

Definition negative_append (f : FeasibilityFactor) (st : Lists) : Lists :=
  {| positive := positive st; negative := (negative st ++ [f])%list;
     neutral := neutral st; blockers_ := blockers_ st;
     recommendations_ := recommendations_ st |}.

Definition neutral_append (f : FeasibilityFactor) (st : Lists) : Lists :=
  {| positive := positive st; negative := negative st;
     neutral := (neutral st ++ [f])%list; blockers_ := blockers_ st;
     recommendations_ := recommendations_ st |}.

Definition blockers_append (b : string) (st : Lists) : Lists :=
  {| positive := positive st; negative := negative st;
     neutral := neutral st; blockers_ := (blockers_ st ++ [b])%list;
     recommendations_ := recommendations_ st |}.

Definition recommendations_append (r : string) (st : Lists) : Lists :=
  {| positive := positive st; negative := negative st;
     neutral := neutral st; blockers_ := blockers_ st;
     recommendations_ := (recommendations_ st ++ [r])%list |}.

Definition PrecedentType_eqb (a b : PrecedentType) : bool :=
  match a, b with
  | EXTENSION_REAR, EXTENSION_REAR | EXTENSION_SIDE, EXTENSION_SIDE
  | EXTENSION_LOFT, EXTENSION_LOFT | EXTENSION_BASEMENT, EXTENSION_BASEMENT
  | CONVERSION_RESIDENTIAL, CONVERSION_RESIDENTIAL
  | CONVERSION_HMO, CONVERSION_HMO | CONVERSION_FLATS, CONVERSION_FLATS
  | CHANGE_OF_USE, CHANGE_OF_USE | NEW_BUILD, NEW_BUILD
  | DEMOLITION_REBUILD, DEMOLITION_REBUILD | SUBDIVISION, SUBDIVISION
  | PERMITTED_DEVELOPMENT, PERMITTED_DEVELOPMENT | OTHER, OTHER => true
  | _, _ => false
  end.

Definition type_in (t : PrecedentType) (l : list PrecedentType) : bool :=
  existsb (PrecedentType_eqb t) l.

(** The blocker text recorded for a Grade I listed building. *)
Definition grade_I_blocker : string :=
  "Grade I listed building - development extremely unlikely without exceptional circumstances".

Definition _assess_listed_building (context : PlanningContext) (score : Z)
    (st : Lists) : Z * Lists :=
  if negb (listed_building context) then
    ((score + 5)%Z, positive_append LISTED_BUILDING st)
  else
    let grade :=
      if negb (String.eqb (listed_grade context) "") then upper (listed_grade context)
      else "II" in
    if String.eqb grade "I" then
      ((score - 40)%Z,
       recommendations_append
         "Grade I listing: Consult Historic England and specialist heritage architect before any works"
         (negative_append LISTED_BUILDING
            (blockers_append grade_I_blocker st)))
    else if String.eqb grade "II*" then
      ((score - 25)%Z,
       recommendations_append
         "Grade II* listing: Any alterations require Listed Building Consent and must preserve character"
         (negative_append LISTED_BUILDING st))
    else
      ((score - 15)%Z,
       recommendations_append
         "Grade II listing: Internal works may be possible with sympathetic design. Consult conservation officer."
         (negative_append LISTED_BUILDING st)).

Definition _assess_conservation_area (context : PlanningContext) (score : Z)
    (st : Lists) : Z * Lists :=
  if negb (conservation_area context) then
    ((score + 3)%Z, positive_append CONSERVATION_AREA st)
  else
    ((score - 10)%Z,
     recommendations_append
       "Conservation area: Extensions should match existing materials and respect local character. Pre-application advice recommended."
       (negative_append CONSERVATION_AREA st)).

Definition _assess_green_belt (context : PlanningContext) (score : Z)
    (st : Lists) : Z * Lists :=
  if negb (green_belt context) then (score, st)
  else
    let st := negative_append GREEN_BELT st in
    if type_in (proposed_type context) [NEW_BUILD; DEMOLITION_REBUILD; SUBDIVISION] then
      ((score - 40)%Z,
       blockers_append
         "Green Belt location: New buildings are inappropriate development and very unlikely to be approved"
         st)
    else if type_in (proposed_type context)
              [EXTENSION_REAR; EXTENSION_SIDE; EXTENSION_LOFT] then
      ((score - 20)%Z,
       recommendations_append
         "Green Belt: Limited extensions may be acceptable if not disproportionate. Check local plan policies."
         st)
    else
      ((score - 25)%Z,
       recommendations_append
         "Green Belt: Development must demonstrate very special circumstances. Professional planning advice essential."
         st).

Definition _assess_flood_zone (context : PlanningContext) (score : Z)
    (st : Lists) : Z * Lists :=
  if Z.eqb (flood_zone context) 1 then
    ((score + 2)%Z, positive_append FLOOD_ZONE st)
  else if Z.eqb (flood_zone context) 2 then
    ((score - 5)%Z,
     recommendations_append
       "Flood Zone 2: Flood Risk Assessment likely required for significant development"
       (neutral_append FLOOD_ZONE st))
  else
    ((score - 15)%Z,
     recommendations_append
       "Flood Zone 3: Sequential and Exception Tests required. Flood mitigation measures will be needed."
       (negative_append FLOOD_ZONE st)).

Definition _assess_article_4 (context : PlanningContext) (score : Z)
    (st : Lists) : Z * Lists :=
  if negb (article_4_direction context) then (score, st)
  else
    ((score - 10)%Z,
     recommendations_append
       "Article 4: Planning permission required for works that would normally be permitted development. Check scope of direction."
       (negative_append ARTICLE_4 st)).

Definition _assess_tpo (context : PlanningContext) (score : Z)
    (st : Lists) : Z * Lists :=
  if negb (tree_preservation_orders context) then (score, st)
  else
    ((score - 5)%Z,
     recommendations_append
       "TPO: Arboricultural survey recommended. Tree works require council consent."
       (negative_append TREE_PRESERVATION st)).

Definition _assess_property_type (context : PlanningContext) (score : Z)
    (st : Lists) : Z * Lists :=
  let prop_type := lower (property_type context) in
  let proposed := proposed_type context in
  if (contains "house" prop_type || contains "bungalow" prop_type)
     && type_in proposed [EXTENSION_LOFT; EXTENSION_REAR; EXTENSION_SIDE] then
    ((score + 5)%Z, positive_append PROPERTY_TYPE st)
  else if String.eqb prop_type "flat"
     && type_in proposed
          [EXTENSION_LOFT; EXTENSION_REAR; EXTENSION_SIDE; EXTENSION_BASEMENT] then
    ((score - 15)%Z,
     recommendations_append
       "Flat: Extensions typically not possible. Consider internal reconfiguration or change of use."
       (negative_append PROPERTY_TYPE st))
  else if contains "terraced" prop_type
     && PrecedentType_eqb proposed EXTENSION_SIDE then
    ((score - 20)%Z, negative_append PROPERTY_TYPE st)
  else (score, neutral_append PROPERTY_TYPE st).

Definition _assess_tenure (context : PlanningContext) (score : Z)
    (st : Lists) : Z * Lists :=
  let tenure := lower (tenure context) in
  if String.eqb tenure "freehold" then
    ((score + 3)%Z, positive_append TENURE st)
  else if String.eqb tenure "leasehold" then
    ((score - 10)%Z,
     recommendations_append
       "Leasehold: Check lease terms for alteration clauses. Freeholder consent will be needed alongside planning."
       (negative_append TENURE st))
  else (score, neutral_append TENURE st).

(** The absolute-size tail of [_assess_plot_size]. *)
Definition absolute_plot_size (plot_size : Z) (score : Z) (st : Lists) : Z * Lists :=
  if Z.ltb 5000 plot_size then ((score + 5)%Z, positive_append PLOT_SIZE st)
  else if Z.ltb plot_size 1000 then ((score - 3)%Z, neutral_append PLOT_SIZE st)
  else (score, st).

Definition _assess_plot_size (context : PlanningContext) (score : Z)
    (st : Lists) : Z * Lists :=
  if negb (truthyZ (plot_size_sqft context)) then
    (score, neutral_append PLOT_SIZE st)
  else
    let plot_size := valZ (plot_size_sqft context) in
    if truthyZ (current_sqft context) then
      let ratio := inject_Z (valZ (current_sqft context)) / inject_Z plot_size in
      if Qltb ratio 0.3 then ((score + 10)%Z, positive_append PLOT_SIZE st)
      else if Qgtb ratio 0.6 then
        ((score - 10)%Z,
         recommendations_append
           "High plot coverage: Loft conversion or basement may be only expansion options"
           (negative_append PLOT_SIZE st))
      else absolute_plot_size plot_size score st
    else absolute_plot_size plot_size score st.

Definition _assess_pd_rights (context : PlanningContext) (score : Z)
    (st : Lists) : Z * Lists :=
  let has_pd_rights :=
    negb (listed_building context)
    && negb (article_4_direction context)
    && negb (str_in (lower (property_type context)) ["flat"; "maisonette"]) in
  if has_pd_rights
     && type_in (proposed_type context)
          [EXTENSION_REAR; EXTENSION_LOFT; PERMITTED_DEVELOPMENT] then
    ((score + 8)%Z,
     recommendations_append
       "PD rights: Rear extensions up to 3m (attached) or 4m (detached) may not need planning permission. Verify with council."
       (positive_append PD_RIGHTS st))
  else (score, st).

Definition assess_feasibility (context : PlanningContext) : FeasibilityResult :=
  let st := no_lists in
  let score := 70%Z in
  let '(score, st) := _assess_listed_building context score st in
  let '(score, st) := _assess_conservation_area context score st in
  let '(score, st) := _assess_green_belt context score st in
  let '(score, st) := _assess_flood_zone context score st in
  let '(score, st) := _assess_article_4 context score st in
  let '(score, st) := _assess_tpo context score st in
  let '(score, st) := _assess_property_type context score st in
  let '(score, st) := _assess_tenure context score st in
  let '(score, st) := _assess_plot_size context score st in
  let '(score, st) := _assess_pd_rights context score st in
  let score := Z.max 0 (Z.min 100 score) in
  let score := if negb (mandate.is_empty (blockers_ st)) then Z.min score 20 else score in
  {| score := score;
     positive_factors := positive st;
     negative_factors := negative st;
     neutral_factors := neutral st;
     blockers := blockers_ st;
     recommendations := recommendations_ st |}.

(** A helper keeps every blocker that is already recorded. *)
Definition keeps_blockers (h : PlanningContext -> Z -> Lists -> Z * Lists) : Prop :=
  forall ctx s st b, In b (blockers_ st) -> In b (blockers_ (snd (h ctx s st))).

End planning_feasibility.

(** ** [planning/precedent.py] *)

Module planning_precedent.

Import planning_models.

Definition MIN_SIMILARITY_THRESHOLD : Q := 0.3.

(** A property read twice in a row ([p.recency_years and p.recency_years
    > 10]) is read once here: both reads have the same outcome. *)
Definition _calculate_relevance (now : Z) (precedent : PlanningPrecedent)
    (type_match : bool) : result planning_exn Q :=
  let score := similarity_score precedent in
  let score := if type_match then score * 1.5 else score in
  years <~ recency_years now precedent ;;
  let score :=
    match years with
    | Some years =>
        let recency_factor := Qmax 0 (1 - years / 10) in
        score * (0.5 + 0.5 * recency_factor)
    | None => score
    end in
  let score :=
    match distance_meters precedent with
    | Some meters =>
        let distance_factor := Qmax 0 (1 - meters / 1000) in
        score * (0.5 + 0.5 * distance_factor)
    | None => score
    end in
  Ok score.

(** The loop of [get_relevant_precedents]: a precedent is skipped when it
    is not similar enough, older than ten years or further than 1 km.  The
    age is read only of a precedent that is similar enough. *)
Fixpoint relevant_loop (now : Z) (context : PlanningContext) (min_similarity : Q)
    (precedents : list PlanningPrecedent)
    (relevant : list (PlanningPrecedent * Q))
  : result planning_exn (list (PlanningPrecedent * Q)) :=
  match precedents with
  | [] => Ok relevant
  | precedent :: rest =>
      if Qltb (similarity_score precedent) min_similarity then
        relevant_loop now context min_similarity rest relevant
      else
        years <~ recency_years now precedent ;;
        if truthyQ years && Qgtb (valQ years) 10 then
          relevant_loop now context min_similarity rest relevant
        else if truthyQ (distance_meters precedent)
                && Qgtb (valQ (distance_meters precedent)) 1000 then
          relevant_loop now context min_similarity rest relevant
        else
          let type_match :=
            planning_feasibility.PrecedentType_eqb (precedent_type precedent)
              (proposed_type context) in
          relevance <~ _calculate_relevance now precedent type_match ;;
          relevant_loop now context min_similarity rest
            (relevant ++ [(precedent, relevance)])%list
  end.

Definition by_relevance_desc (a b : PlanningPrecedent * Q) : bool :=
  Qgeb (snd a) (snd b).

Definition get_relevant_precedents (now : Z) (context : PlanningContext)
    (min_similarity : Q) : result planning_exn (list PlanningPrecedent) :=
  relevant <~
    relevant_loop now context min_similarity (nearby_precedents context) [] ;;
  Ok (map fst (stable_sort by_relevance_desc relevant)).

(** [len([p for p in l if f(p)])]. *)
Definition count_if {A} (f : A -> bool) (l : list A) : Z :=
  Z.of_nat (List.length (List.filter f l)).

(** The same count when the condition reads [recency_years]. *)
Fixpoint count_if_reading {A} (f : A -> result planning_exn bool) (l : list A)
  : result planning_exn Z :=
  match l with
  | [] => Ok 0%Z
  | x :: rest =>
      b <~ f x ;;
      n <~ count_if_reading f rest ;;
      Ok (if b then (n + 1)%Z else n)
  end.

(** [p.recency_years is not None and p.recency_years <= limit]. *)
Definition decided_within (now : Z) (limit : Q) (p : PlanningPrecedent)
  : result planning_exn bool :=
  years <~ recency_years now p ;;
  Ok (match years with Some years => Qleb years limit | None => false end).

(** [p.recency_years and p.recency_years <= limit]. *)
Definition recent_within (now : Z) (limit : Q) (p : PlanningPrecedent)
  : result planning_exn bool :=
  years <~ recency_years now p ;;
  Ok (truthyQ years && Qleb (valQ years) limit).

(** The numbers of the dict [analyze_precedents] returns. *)
Record PrecedentAnalysis := {
  approval_rate : option Q;
  recent_approvals : Z;
  recent_refusals : Z;
}.

(** [analyze_precedents]: the approval rate is an [int] quotient times 100,
    in binary64.  The condition and reason lists and the insight texts are
    not reproduced; [_generate_insights] reads the age of every relevant
    precedent once more, for its list of recent applications. *)
Definition analyze_precedents (now : Z) (context : PlanningContext)
  : result planning_exn PrecedentAnalysis :=
  relevant <~ get_relevant_precedents now context MIN_SIMILARITY_THRESHOLD ;;
  if mandate.is_empty relevant then
    Ok {| approval_rate := None; recent_approvals := 0; recent_refusals := 0 |}
  else
    let approved_ := List.filter approved relevant in
    let refused := List.filter (fun p => negb (approved p)) relevant in
    let approval_rate :=
      fmul (int_truediv (Z.of_nat (List.length approved_))
                        (Z.of_nat (List.length relevant)))
           (float_of_int 100) in
    recent_approvals <~ count_if_reading (decided_within now 3) approved_ ;;
    recent_refusals <~ count_if_reading (decided_within now 3) refused ;;
    _ <~ count_if_reading (recent_within now 2) relevant ;;
    Ok {| approval_rate := Some approval_rate;
          recent_approvals := recent_approvals;
          recent_refusals := recent_refusals |}.

Definition calculate_precedent_score (now : Z) (context : PlanningContext)
  : result planning_exn Z :=
  relevant <~ get_relevant_precedents now context MIN_SIMILARITY_THRESHOLD ;;
  if mandate.is_empty relevant then Ok 50%Z
  else
    let approved_count := count_if approved relevant in
    let approval_rate :=
      int_truediv approved_count (Z.of_nat (List.length relevant)) in
    let base_score := int_of_float (fmul approval_rate (float_of_int 60)) in
    let type_matches :=
      count_if (fun p =>
                  planning_feasibility.PrecedentType_eqb (precedent_type p)
                    (proposed_type context)
                  && approved p) relevant in
    let base_score :=
      if Z.ltb 0 type_matches then (base_score + Z.min 20 (type_matches * 5))%Z
      else base_score in
    recent_approvals <~
      count_if_reading
        (fun p => if approved p then recent_within now 3 p else Ok false) relevant ;;
    let base_score :=
      if Z.ltb 0 recent_approvals then (base_score + Z.min 15 (recent_approvals * 3))%Z
      else base_score in
    recent_refusals <~
      count_if_reading
        (fun p => if negb (approved p) then recent_within now 3 p else Ok false)
        relevant ;;
    let base_score :=
      if Z.ltb 0 recent_refusals then (base_score - Z.min 20 (recent_refusals * 5))%Z
      else base_score in
    let close_approvals :=
      count_if (fun p =>
                  approved p && truthyQ (distance_meters p)
                  && Qleb (valQ (distance_meters p)) 100) relevant in
    let base_score :=
      if Z.ltb 0 close_approvals then (base_score + Z.min 10 (close_approvals * 5))%Z
      else base_score in
    Ok (Z.max 0 (Z.min 100 base_score)).

End planning_precedent.

(** ** [planning/uplift.py] *)

Module planning_uplift.

Import planning_models.

(** The table [UPLIFT_RANGES]; every type is a key of it. *)
Definition UPLIFT_RANGES (t : PrecedentType) : Q * Q * Q :=
  match t with
  | EXTENSION_REAR => (5.0, 10.0, 15.0)
  | EXTENSION_SIDE => (8.0, 12.0, 18.0)
  | EXTENSION_LOFT => (10.0, 15.0, 22.0)
  | EXTENSION_BASEMENT => (12.0, 20.0, 30.0)
  | CONVERSION_RESIDENTIAL => (15.0, 25.0, 40.0)
  | CONVERSION_HMO => (20.0, 35.0, 50.0)
  | CONVERSION_FLATS => (25.0, 40.0, 60.0)
  | CHANGE_OF_USE => (10.0, 20.0, 35.0)
  | NEW_BUILD => (30.0, 50.0, 80.0)
  | DEMOLITION_REBUILD => (25.0, 45.0, 70.0)
  | SUBDIVISION => (20.0, 35.0, 55.0)
  | PERMITTED_DEVELOPMENT => (5.0, 8.0, 12.0)
  | OTHER => (3.0, 7.0, 12.0)
  end.

(** The entries of [CONSTRAINT_MODIFIERS] and [POSITIVE_MODIFIERS], each
    read by a literal key. *)
Definition listed_building_modifier : Q := -0.5.
Definition listed_grade_1_modifier : Q := -0.8.
Definition listed_grade_2_star_modifier : Q := -0.6.
Definition conservation_area_modifier : Q := -0.2.
Definition green_belt_modifier : Q := -0.4.
Definition article_4_modifier : Q := -0.15.
Definition flood_zone_3_modifier : Q := -0.25.
Definition leasehold_modifier : Q := -0.1.
Definition large_plot_modifier : Q := 0.15.
Definition pd_rights_modifier : Q := 0.1.
Definition freehold_modifier : Q := 0.05.
Definition high_precedent_approval_modifier : Q := 0.1.

(** The sum [total_modifier] of [estimate_uplift]. *)
Definition total_modifier (context : PlanningContext)
    (precedent_approval_rate : option Q) : Q :=
  let total_modifier := 0.0 in
  let total_modifier :=
    if listed_building context then
      let grade :=
        if negb (String.eqb (listed_grade context) "") then upper (listed_grade context)
        else "II" in
      if String.eqb grade "I" then total_modifier + listed_grade_1_modifier
      else if String.eqb grade "II*" then total_modifier + listed_grade_2_star_modifier
      else total_modifier + listed_building_modifier
    else total_modifier in
  let total_modifier :=
    if conservation_area context then total_modifier + conservation_area_modifier
    else total_modifier in
  let total_modifier :=
    if green_belt context then total_modifier + green_belt_modifier
    else total_modifier in
  let total_modifier :=
    if article_4_direction context then total_modifier + article_4_modifier
    else total_modifier in
  let total_modifier :=
    if Z.eqb (flood_zone context) 3 then total_modifier + flood_zone_3_modifier
    else total_modifier in
  let total_modifier :=
    if String.eqb (lower (tenure context)) "leasehold"
    then total_modifier + leasehold_modifier
    else total_modifier in
  let total_modifier :=
    if truthyZ (plot_size_sqft context) && Z.ltb 5000 (valZ (plot_size_sqft context))
    then total_modifier + large_plot_modifier
    else total_modifier in
  let total_modifier :=
    if String.eqb (lower (tenure context)) "freehold"
    then total_modifier + freehold_modifier
    else total_modifier in
  let has_pd_rights :=
    negb (listed_building context)
    && negb (article_4_direction context)
    && negb (str_in (lower (property_type context)) ["flat"; "maisonette"])
    && planning_feasibility.type_in (proposed_type context)
         [EXTENSION_REAR; EXTENSION_LOFT; PERMITTED_DEVELOPMENT] in
  let total_modifier :=
    if has_pd_rights then total_modifier + pd_rights_modifier else total_modifier in
  let total_modifier :=
    if truthyQ precedent_approval_rate && Qgeb (valQ precedent_approval_rate) 75
    then total_modifier + high_precedent_approval_modifier
    else total_modifier in
  total_modifier.

Definition _calculate_confidence (context : PlanningContext)
    (precedent_approval_rate : option Q) : string :=
  let score := 50%Z in
  let score :=
    if truthyQ precedent_approval_rate then
      if Qgeb (valQ precedent_approval_rate) 80 then (score + 20)%Z
      else if Qgeb (valQ precedent_approval_rate) 60 then (score + 10)%Z
      else score
    else score in
  let score :=
    if planning_feasibility.PrecedentType_eqb (proposed_type context)
         PERMITTED_DEVELOPMENT
    then (score + 15)%Z else score in
  let score :=
    if String.eqb (lower (tenure context)) "freehold" then (score + 5)%Z else score in
  let score := if listed_building context then (score - 20)%Z else score in
  let score := if green_belt context then (score - 15)%Z else score in
  let score :=
    if mandate.is_empty (nearby_precedents context) then (score - 10)%Z else score in
  if Z.leb 65 score then "high"
  else if Z.leb 40 score then "medium"
  else "low".

Definition estimate_uplift (context : PlanningContext) (current_value : Z)
    (precedent_approval_rate : option Q) : UpliftEstimate :=
  let '(low, mid, high) := UPLIFT_RANGES (proposed_type context) in
  let modifier := 1.0 + total_modifier context precedent_approval_rate in
  let modifier := Qmax 0.1 modifier in
  let adjusted_low := low * modifier in
  let adjusted_mid := mid * modifier in
  let adjusted_high := high * modifier in
  let value_low := int_of_float (inject_Z current_value * adjusted_low / 100) in
  let value_mid := int_of_float (inject_Z current_value * adjusted_mid / 100) in
  let value_high := int_of_float (inject_Z current_value * adjusted_high / 100) in
  let confidence := _calculate_confidence context precedent_approval_rate in
  {| percent_low := round_1 adjusted_low;
     percent_mid := round_1 adjusted_mid;
     percent_high := round_1 adjusted_high;
     value_low := value_low;
     value_mid := value_mid;
     value_high := value_high;
     confidence := confidence |}.

Definition calculate_uplift_range (context : PlanningContext) (current_value : Z)
  : Z * Z :=
  let estimate := estimate_uplift context current_value None in
  (value_low estimate, value_high estimate).

End planning_uplift.

(** ** [planning/score.py] *)

Module planning_score.

Import planning_models.

Definition EXCEPTIONAL_THRESHOLD : Z := 80.
Definition STRONG_THRESHOLD : Z := 60.
Definition MEDIUM_THRESHOLD : Z := 40.

(** The float literals [0.35], [0.40] and [0.25]. *)
Definition PRECEDENT_WEIGHT : Q := round64 0.35.
Definition FEASIBILITY_WEIGHT : Q := round64 0.40.
Definition UPLIFT_WEIGHT : Q := round64 0.25.

(** The weighted sum, before [int(...)] is applied to it: three products
    and two sums, each rounded. *)
Definition weighted_score (precedent_score feasibility_score uplift_score : Z) : Q :=
  fadd
    (fadd (fmul (float_of_int precedent_score) PRECEDENT_WEIGHT)
          (fmul (float_of_int feasibility_score) FEASIBILITY_WEIGHT))
    (fmul (float_of_int uplift_score) UPLIFT_WEIGHT).

Definition calculate_planning_score (precedent_score feasibility_score : Z)
    (uplift_percent_mid : Q) : PlanningScore :=
  let uplift_score :=
    Z.min 100
      (int_of_float
         (fmul (fdiv uplift_percent_mid (float_of_int 30)) (float_of_int 100))) in
  let weighted_score := weighted_score precedent_score feasibility_score uplift_score in
  let overall_score := int_of_float weighted_score in
  let label :=
    if Z.leb EXCEPTIONAL_THRESHOLD overall_score then EXCEPTIONAL
    else if Z.leb STRONG_THRESHOLD overall_score then STRONG
    else if Z.leb MEDIUM_THRESHOLD overall_score then MEDIUM
    else LOW in
  {| score := overall_score;
     label := label;
     precedent_score := precedent_score;
     feasibility_score := feasibility_score;
     uplift_score := uplift_score |}.

(** The numbers of [get_planning_assessment]: the three component
    analyses and the combined score.  The rationale, factor and
    recommendation texts are not reproduced. *)
Definition get_planning_assessment (now : Z) (context : PlanningContext)
    (current_value : Z) : result planning_exn PlanningAssessment :=
  precedent_analysis <~ planning_precedent.analyze_precedents now context ;;
  precedent_score <~ planning_precedent.calculate_precedent_score now context ;;
  let feasibility_result := planning_feasibility.assess_feasibility context in
  let feasibility_score := planning_feasibility.score feasibility_result in
  let approval_rate := planning_precedent.approval_rate precedent_analysis in
  let uplift_estimate :=
    planning_uplift.estimate_uplift context current_value approval_rate in
  let planning_score :=
    calculate_planning_score precedent_score feasibility_score
      (percent_mid uplift_estimate) in
  Ok {| planning_score := planning_score; uplift_estimate := uplift_estimate |}.

End planning_score.

(** ** [core/filtering.py] *)

Module filtering.

(** The failure messages of the filters; their texts splice in formatted
    numbers, so each message is kept as the template it is built from.
    [NoReason] is the empty string returned with a pass. *)
Inductive FilterReason :=
| NoReason
| AssetClassNotInMandate
| RegionExcluded
| PostcodeExcluded
| LocationNotInCriteria
| PriceBelowMinimum
| PriceAboveMaximum
| YieldBelowMinimum
| FreeholdRequired
| LeaseBelowMinimum
| UnitCountBelowMinimum
| UnitCountAboveMaximum
| SizeBelowMinimum
| SizeAboveMaximum
| DevelopmentNotAccepted
| RefurbishmentNotAccepted
| TurnkeyNotAccepted.

Record FilterResult := {
  listing_ : listing.Listing;
  passed : bool;
  failed_filters : list FilterReason;
}.

Definition Filter : Type :=
  listing.Listing -> mandate.Mandate -> bool * FilterReason.

Definition filter_by_asset_class : Filter := fun l m =>
  if mandate.accepts_asset_class m (listing.asset_class l) then (true, NoReason)
  else (false, AssetClassNotInMandate).

Definition filter_by_location : Filter := fun l m =>
  let geo := mandate.geographic m in
  if str_in (listing.region l) (mandate.exclude_regions geo) then
    (false, RegionExcluded)
  else
    let postcode_area := listing.postcode_area l in
    if existsb (fun excluded => startswith (upper postcode_area) (upper excluded))
         (mandate.exclude_postcodes geo) then (false, PostcodeExcluded)
    else if mandate.is_empty (mandate.regions geo)
            && mandate.is_empty (mandate.postcodes geo) then (true, NoReason)
    else
      let region_ok :=
        mandate.is_empty (mandate.regions geo)
        || str_in (listing.region l) (mandate.regions geo) in
      let postcode_ok :=
        mandate.is_empty (mandate.postcodes geo)
        || existsb (fun pc => startswith (upper postcode_area) (upper pc))
             (mandate.postcodes geo) in
      if region_ok || postcode_ok then (true, NoReason)
      else (false, LocationNotInCriteria).

Definition filter_by_price : Filter := fun l m =>
  let fin := mandate.financial m in
  let price := listing.asking_price l in
  if truthyZ (mandate.min_deal_size fin)
     && Z.ltb price (valZ (mandate.min_deal_size fin))
  then (false, PriceBelowMinimum)
  else if truthyZ (mandate.max_deal_size fin)
          && Z.ltb (valZ (mandate.max_deal_size fin)) price
  then (false, PriceAboveMaximum)
  else (true, NoReason).

Definition filter_by_yield : Filter := fun l m =>
  let fin := mandate.financial m in
  if negb (truthyQ (mandate.min_yield fin)) then (true, NoReason)
  else
    match listing.gross_yield l with
    | None => (true, NoReason)
    | Some listing_yield =>
        if Qltb listing_yield (valQ (mandate.min_yield fin))
        then (false, YieldBelowMinimum)
        else (true, NoReason)
    end.

Definition filter_by_tenure : Filter := fun l m =>
  let prop := mandate.property m in
  if mandate.freehold_only prop
     && negb match listing.tenure l with
             | listing.FREEHOLD | listing.SHARE_OF_FREEHOLD => true
             | _ => false
             end
  then (false, FreeholdRequired)
  else if truthyZ (mandate.min_lease_years prop)
          && match listing.tenure l with listing.LEASEHOLD => true | _ => false end
          && match listing.lease_years_remaining (listing.financial l) with
             | Some remaining => Z.ltb remaining (valZ (mandate.min_lease_years prop))
             | None => false
             end
  then (false, LeaseBelowMinimum)
  else (true, NoReason).

Definition filter_by_units : Filter := fun l m =>
  let prop := mandate.property m in
  let units := listing.unit_count (listing.property_details l) in
  if truthyZ (mandate.min_units prop) && Z.ltb units (valZ (mandate.min_units prop))
  then (false, UnitCountBelowMinimum)
  else if truthyZ (mandate.max_units prop)
          && Z.ltb (valZ (mandate.max_units prop)) units
  then (false, UnitCountAboveMaximum)
  else (true, NoReason).

Definition filter_by_sqft : Filter := fun l m =>
  let prop := mandate.property m in
  match listing.total_sqft (listing.property_details l) with
  | None => (true, NoReason)
  | Some sqft =>
      if truthyZ (mandate.min_sqft prop) && Z.ltb sqft (valZ (mandate.min_sqft prop))
      then (false, SizeBelowMinimum)
      else if truthyZ (mandate.max_sqft prop)
              && Z.ltb (valZ (mandate.max_sqft prop)) sqft
      then (false, SizeAboveMaximum)
      else (true, NoReason)
  end.

Definition filter_by_condition : Filter := fun l m =>
  let prop := mandate.property m in
  match listing.condition (listing.property_details l) with
  | listing.DEVELOPMENT =>
      if negb (mandate.accept_development prop) then (false, DevelopmentNotAccepted)
      else (true, NoReason)
  | listing.LIGHT_REFURB | listing.HEAVY_REFURB =>
      if negb (mandate.accept_refurbishment prop)
      then (false, RefurbishmentNotAccepted)
      else (true, NoReason)
  | listing.TURNKEY =>
      if negb (mandate.accept_turnkey prop) then (false, TurnkeyNotAccepted)
      else (true, NoReason)
  | listing.UNKNOWN => (true, NoReason)
  end.

Definition DEFAULT_FILTERS : list Filter := [
  filter_by_asset_class;
  filter_by_location;
  filter_by_price;
  filter_by_yield;
  filter_by_tenure;
  filter_by_units;
  filter_by_sqft;
  filter_by_condition
].

(** The [for filter_fn in active_filters] loop, with its [break]. *)
Fixpoint run_filters (filters : list Filter) (l : listing.Listing)
    (m : mandate.Mandate) (fail_fast : bool) (acc : list FilterReason)
  : list FilterReason :=
  match filters with
  | [] => acc
  | filter_fn :: rest =>
      let '(ok, reason) := filter_fn l m in
      if negb ok then
        if fail_fast then (acc ++ [reason])%list
        else run_filters rest l m fail_fast (acc ++ [reason])%list
      else run_filters rest l m fail_fast acc
  end.

Definition filter_listing (l : listing.Listing) (m : mandate.Mandate)
    (filters : option (list Filter)) (fail_fast : bool) : FilterResult :=
  let active_filters :=
    match filters with
    | Some (f :: fs) => f :: fs
    | _ => DEFAULT_FILTERS
    end in
  let failed := run_filters active_filters l m fail_fast [] in
  {| listing_ := l;
     passed := Nat.eqb (List.length failed) 0;
     failed_filters := failed |}.

(** [filter_listings]: the loop keeps, in order, the listings whose
    fail-fast result passed. *)
Fixpoint filter_listings (listings : list listing.Listing) (m : mandate.Mandate)
    (filters : option (list Filter)) : list listing.Listing :=
  match listings with
  | [] => []
  | l :: rest =>
      if passed (filter_listing l m filters true)
      then l :: filter_listings rest m filters
      else filter_listings rest m filters
  end.

Fixpoint filter_listings_detailed (listings : list listing.Listing)
    (m : mandate.Mandate) (filters : option (list Filter))
  : list listing.Listing * list FilterResult :=
  match listings with
  | [] => ([], [])
  | l :: rest =>
      let result := filter_listing l m filters false in
      let '(passed_rest, results_rest) := filter_listings_detailed rest m filters in
      (if passed result then l :: passed_rest else passed_rest,
       result :: results_rest)
  end.

(** [filters or DEFAULT_FILTERS]. *)
Definition active_filters (filters : option (list Filter)) : list Filter :=
  match filters with
  | Some (f :: fs) => f :: fs
  | _ => DEFAULT_FILTERS
  end.

End filtering.

(** ** [api/storage.py]: the store without a file

    [MandateStorage(storage_path=None)]: [_load] and [_save] return at
    once, and the store is the dict [_mandates]. *)

Module storage.

Inductive storage_exn := ValueError.

Definition InvestorType_eqb (a b : mandate.InvestorType) : bool :=
  match a, b with
  | mandate.INSTITUTIONAL, mandate.INSTITUTIONAL
  | mandate.FAMILY_OFFICE, mandate.FAMILY_OFFICE
  | mandate.PRIVATE_EQUITY, mandate.PRIVATE_EQUITY
  | mandate.REIT, mandate.REIT | mandate.HNWI, mandate.HNWI
  | mandate.PENSION_FUND, mandate.PENSION_FUND
  | mandate.INSURANCE, mandate.INSURANCE
  | mandate.SOVEREIGN_WEALTH, mandate.SOVEREIGN_WEALTH
  | mandate.OTHER, mandate.OTHER => true
  | _, _ => false
  end.

Definition t : Type := odict mandate.Mandate.

Definition init : t := [].

Definition create (self : t) (m : mandate.Mandate)
  : result storage_exn mandate.Mandate * t :=
  if od_contains self (mandate.mandate_id m) then (Raise ValueError, self)
  else (Ok m, od_set self (mandate.mandate_id m) m).

Definition get (self : t) (id : string) : option mandate.Mandate := od_get self id.

Definition get_all (self : t) : list mandate.Mandate := od_values self.

Definition update (self : t) (m : mandate.Mandate)
  : result storage_exn mandate.Mandate * t :=
  if negb (od_contains self (mandate.mandate_id m)) then (Raise ValueError, self)
  else (Ok m, od_set self (mandate.mandate_id m) m).

Definition delete (self : t) (id : string) : bool * t :=
  if negb (od_contains self id) then (false, self)
  else (true, od_del self id).

Definition count (self : t) : Z := Z.of_nat (List.length self).

(** The loop of [search]: a mandate is skipped when a filter that is
    given does not match it. *)
Definition search (self : t) (investor_type : option mandate.InvestorType)
    (asset_class : option mandate.AssetClass) (is_active : option bool)
  : list mandate.Mandate :=
  List.filter
    (fun m =>
       negb (match investor_type with
             | Some it => negb (InvestorType_eqb (mandate.investor_type m) it)
             | None => false
             end)
       && negb (match asset_class with
                | Some ac =>
                    negb (existsb (mandate.AssetClass_eqb ac) (mandate.asset_classes m))
                | None => false
                end)
       && negb (match is_active with
                | Some b => negb (Bool.eqb (mandate.is_active m) b)
                | None => false
                end))
    (od_values self).

(** The keys of the dict are distinct, and every mandate sits under its
    own id. *)
Definition well_keyed (self : t) : Prop :=
  List.NoDup (od_keys self)
  /\ Forall (fun kv => fst kv = mandate.mandate_id (snd kv)) self.

End storage.

(** ** The specification's own wording, for comparison with the code *)

Module spec.

(** The action decision table of the recommendation synthesizer, read
    top-down, first match wins. *)
Definition decision_table (rejected : bool) (level : conviction.ConvictionLevel)
    (passes_hard_filters : bool) (total_score : Q) (deal : mandate.DealCriteria)
  : recommendation.RecommendationAction :=
  if rejected then recommendation.PASS
  else if recommendation.is_level level conviction.HIGH
          && Qgeb total_score (mandate.pursue_score_threshold deal)
  then recommendation.PURSUE
  else if recommendation.is_level level conviction.MEDIUM
          || (recommendation.is_level level conviction.HIGH
              && Qgeb total_score (mandate.consider_score_threshold deal))
  then recommendation.CONSIDER
  else if recommendation.is_level level conviction.LOW
          && passes_hard_filters
          && Qgeb total_score (mandate.min_overall_score deal)
  then recommendation.WATCH
  else recommendation.PASS.

(** The conviction level assigned to a final confidence: HIGH from the
    high threshold, else MEDIUM from the medium one, else LOW from the low
    one, else NONE; a hard-filter failure forces NONE. *)
Definition level_for (deal : mandate.DealCriteria) (passes_hard_filters : bool)
    (final_confidence : Q) : conviction.ConvictionLevel :=
  if negb passes_hard_filters then conviction.NONE
  else if Qgeb final_confidence (mandate.high_conviction_threshold deal)
  then conviction.HIGH
  else if Qgeb final_confidence (mandate.medium_conviction_threshold deal)
  then conviction.MEDIUM
  else if Qgeb final_confidence (mandate.low_conviction_threshold deal)
  then conviction.LOW
  else conviction.NONE.

(** The order NONE < LOW < MEDIUM < HIGH of the levels. *)
Definition level_rank (lv : conviction.ConvictionLevel) : Z :=
  match lv with
  | conviction.NONE => 0
  | conviction.LOW => 1
  | conviction.MEDIUM => 2
  | conviction.HIGH => 3
  end.

(** Confidence = (sum of the weights of met factors) / (sum of all weights). *)
Definition factor_confidence (fs : list conviction.ConvictionFactor) : Q :=
  conviction.sum_weights (List.filter conviction.met fs) / conviction.sum_weights fs.

(** The order F < D < C < B < A of the letter grades. *)
Definition grade_rank (g : string) : Z :=
  if String.eqb g "A" then 4
  else if String.eqb g "B" then 3
  else if String.eqb g "C" then 2
  else if String.eqb g "D" then 1
  else 0.

(** No scoring weight of the mandate is negative. *)
Definition nonneg_weights (w : mandate.ScoringWeights.t) : Prop :=
  0 <= mandate.ScoringWeights.location_region w
  /\ 0 <= mandate.ScoringWeights.location_postcode w
  /\ 0 <= mandate.ScoringWeights.price_range w
  /\ 0 <= mandate.ScoringWeights.price_psf w
  /\ 0 <= mandate.ScoringWeights.yield_minimum w
  /\ 0 <= mandate.ScoringWeights.yield_target w
  /\ 0 <= mandate.ScoringWeights.property_size w
  /\ 0 <= mandate.ScoringWeights.property_condition w
  /\ 0 <= mandate.ScoringWeights.property_tenure w
  /\ 0 <= mandate.ScoringWeights.risk_profile w.

(** No configured financial bound that scoring divides by is negative. *)
Definition nonneg_bounds (fin : mandate.FinancialCriteria) : Prop :=
  (forall z, mandate.min_deal_size fin = Some z -> (0 <= z)%Z)
  /\ (forall z, mandate.max_deal_size fin = Some z -> (0 <= z)%Z)
  /\ (forall q, mandate.min_yield fin = Some q -> 0 <= q)
  /\ (forall q, mandate.target_yield fin = Some q -> 0 <= q)
  /\ (forall q, mandate.max_price_psf fin = Some q -> 0 <= q).

(** The deal-size range is the single point at which the listing is
    priced: minimum = maximum = asking price. *)
Definition point_range (l : listing.Listing) (m : mandate.Mandate) : Prop :=
  mandate.min_deal_size (mandate.financial m) = Some (listing.asking_price l)
  /\ mandate.max_deal_size (mandate.financial m) = Some (listing.asking_price l)
  /\ listing.asking_price l <> 0%Z.

(** [round(x)]: the nearest integer, a tie going to the even neighbour. *)
Definition round_half_even (x : Q) : Z :=
  let f := Qfloor x in
  let d := x - inject_Z f in
  if Qltb d 0.5 then f
  else if Qgtb d 0.5 then (f + 1)%Z
  else if Z.even f then f else (f + 1)%Z.

(** The combiner: round(0.35 p + 0.40 f + 0.25 min(100, u/30*100)). *)
Definition rounded_planning_score (precedent_score feasibility_score : Z)
    (uplift_mid : Q) : Z :=
  round_half_even
    (0.35 * inject_Z precedent_score + 0.40 * inject_Z feasibility_score
     + 0.25 * Qmin 100 (uplift_mid / 30 * 100)).

End spec.

(** ** Notions used to state properties of the code *)

Module notions.

(** The total score recomputed from a factor list: 100 times the sum of
    the contributions over the sum of the weights (0 when that sum is not
    positive), times 0.3 when a hard filter failed. *)
Definition total_from_factors (fs : list scoring.ScoreFactor) (passes : bool) : Q :=
  let total_weighted := scoring.sum_of scoring.weighted_score fs in
  let total_weight := scoring.sum_of scoring.weight fs in
  let normalized_score :=
    if Qgtb total_weight 0 then total_weighted / total_weight * 100 else 0.0 in
  if negb passes then normalized_score * 0.3 else normalized_score.

(** The band of an action in the priority rank: PURSUE first, PASS last. *)
Definition action_rank (a : recommendation.RecommendationAction) : Z :=
  match a with
  | recommendation.PURSUE => 1
  | recommendation.CONSIDER => 2
  | recommendation.WATCH => 3
  | recommendation.PASS => 4
  end.

(** A precedent whose decision date carries a time zone. *)
Definition has_aware_date (p : planning_models.PlanningPrecedent) : bool :=
  match planning_models.decision_date p with
  | Some (planning_models.aware _ _) => true
  | _ => false
  end.

(** The age of a precedent whose age can be read. *)
Definition years_since (now : Z) (p : planning_models.PlanningPrecedent) : option Q :=
  match planning_models.recency_years now p with
  | Ok years => years
  | Raise _ => None
  end.

(** The test of [get_relevant_precedents]: similar enough, not older than
    ten years, not further than 1 km. *)
Definition is_relevant (now : Z) (min_similarity : Q)
    (p : planning_models.PlanningPrecedent) : bool :=
  negb (Qltb (planning_models.similarity_score p) min_similarity)
  && negb (truthyQ (years_since now p) && Qgtb (valQ (years_since now p)) 10)
  && negb (truthyQ (planning_models.distance_meters p)
           && Qgtb (valQ (planning_models.distance_meters p)) 1000).

(** The relevance by which [get_relevant_precedents] sorts. *)
Definition relevance (now : Z) (context : planning_models.PlanningContext)
    (p : planning_models.PlanningPrecedent) : Q :=
  match
    planning_precedent._calculate_relevance now p
      (planning_feasibility.PrecedentType_eqb (planning_models.precedent_type p)
         (planning_models.proposed_type context))
  with
  | Ok relevance => relevance
  | Raise _ => 0
  end.

End notions.

(** ** Concrete inputs *)

Module examples.

Definition mandate_of (classes : list mandate.AssetClass)
    (geo : mandate.GeographicCriteria) (fin : mandate.FinancialCriteria)
    (w : mandate.ScoringWeights.t) : mandate.Mandate :=
  {| mandate.mandate_id := "MND-2024-001";
     mandate.investor_name := "Acme Capital";
     mandate.investor_type := mandate.FAMILY_OFFICE;
     mandate.asset_classes := classes;
     mandate.risk_profile := mandate.CORE_PLUS;
     mandate.geographic := geo;
     mandate.financial := fin;
     mandate.property := mandate.PropertyCriteria_default;
     mandate.deal_criteria := mandate.DealCriteria_default;
     mandate.scoring_weights := w;
     mandate.is_active := true;
     mandate.priority := 1;
     mandate.notes := "" |}.

Definition listing_of (region postcode : string) (price : Z)
    (gross_yield : option Q) (c : listing.Condition) : listing.Listing :=
  {| listing.listing_id := "RM-12345";
     listing.source := "manual";
     listing.source_url := "";
     listing.asset_class := mandate.RESIDENTIAL;
     listing.tenure := listing.FREEHOLD;
     listing.address :=
       {| listing.street := "1 High Street"; listing.city := "London";
          listing.region_ := region; listing.postcode := postcode;
          listing.country := "UK" |};
     listing.financial :=
       {| listing.asking_price_ := price; listing.price_qualifier := "";
          listing.current_rent := None; listing.gross_yield_ := gross_yield;
          listing.price_per_sqft := None; listing.price_per_unit := None;
          listing.ground_rent := None; listing.service_charge := None;
          listing.lease_years_remaining := None |};
     listing.property_details :=
       {| listing.property_type := listing.HOUSE_TERRACED;
          listing.bedrooms := None; listing.bathrooms := None;
          listing.reception_rooms := None; listing.total_sqft := None;
          listing.unit_count := 1; listing.condition := c;
          listing.epc_rating := ""; listing.parking := false;
          listing.garden := false; listing.has_tenants := false |};
     listing.title := "Terraced house";
     listing.description := "";
     listing.images := [];
     listing.agent_name := "";
     listing.agent_phone := "";
     listing.listed_date := None;
     listing.scraped_at := None;
     listing.status := listing.ACTIVE |}.

(** Deal size between 500,000 and 5,000,000 and a 5% minimum yield. *)
Definition fin_500k_5m : mandate.FinancialCriteria :=
  {| mandate.min_deal_size := Some 500000%Z;
     mandate.max_deal_size := Some 5000000%Z;
     mandate.total_allocation := None;
     mandate.min_yield := Some 5.0; mandate.target_yield := None;
     mandate.min_irr := None; mandate.target_irr := None;
     mandate.max_ltv := None; mandate.preferred_ltv := None;
     mandate.max_price_psf := None |}.

Definition mandate_500k_5m : mandate.Mandate :=
  mandate_of [] mandate.GeographicCriteria_default fin_500k_5m
    mandate.ScoringWeights.default.

(** A turnkey London house priced far above the maximum. *)
Definition listing_8_5m : listing.Listing :=
  listing_of "London" "SW1A 1AA" 8500000 (Some 6.0) listing.TURNKEY.

(** The same house priced inside the range. *)
Definition listing_2m : listing.Listing :=
  listing_of "London" "SW1A 1AA" 2000000 (Some 6.0) listing.TURNKEY.

(** A maximum deal size of 10^17 and no other financial bound, and a
    listing priced one unit more than 20% above it. *)
Definition fin_max_1e17 : mandate.FinancialCriteria :=
  {| mandate.min_deal_size := None;
     mandate.max_deal_size := Some 100000000000000000%Z;
     mandate.total_allocation := None;
     mandate.min_yield := None; mandate.target_yield := None;
     mandate.min_irr := None; mandate.target_irr := None;
     mandate.max_ltv := None; mandate.preferred_ltv := None;
     mandate.max_price_psf := None |}.

Definition mandate_max_1e17 : mandate.Mandate :=
  mandate_of [] mandate.GeographicCriteria_default fin_max_1e17
    mandate.ScoringWeights.default.

Definition listing_above_1e17 : listing.Listing :=
  listing_of "London" "SW1A 1AA" 120000000000000001 (Some 6.0) listing.TURNKEY.


(** A review that has been accepted (state ACCEPTED), with earlier notes. *)
Definition accepted_review : review.DealReview :=
  {| review.review_id := "REV-0001";
     review.listing_id := "RM-12345";
     review.mandate_id := "MND-2024-001";
     review.state := review.ACCEPTED;
     review.created_at := 0;
     review.updated_at := 2;
     review.assigned_to := None;
     review.priority := 3;
     review.decision_notes := "Strong fit, recommend to IC";
     review.decline_reasons := [];
     review.history :=
       [ {| review.from_state := review.NEW; review.to_state := review.REVIEWING;
            review.action := review.START_REVIEW; review.timestamp := 1;
            review.actor := "analyst"; review.notes := "" |};
         {| review.from_state := review.REVIEWING; review.to_state := review.ACCEPTED;
            review.action := review.ACCEPT; review.timestamp := 2;
            review.actor := "manager"; review.notes := "Strong fit, recommend to IC" |} ] |}.

(** The same house priced at the lower edge of the range. *)
Definition listing_500k : listing.Listing :=
  listing_of "London" "SW1A 1AA" 500000 (Some 6.0) listing.TURNKEY.

(** A minimum deal size of 0 and a maximum of 5,000,000. *)
Definition fin_0_5m : mandate.FinancialCriteria :=
  {| mandate.min_deal_size := Some 0%Z;
     mandate.max_deal_size := Some 5000000%Z;
     mandate.total_allocation := None;
     mandate.min_yield := None; mandate.target_yield := None;
     mandate.min_irr := None; mandate.target_irr := None;
     mandate.max_ltv := None; mandate.preferred_ltv := None;
     mandate.max_price_psf := None |}.

Definition mandate_0_5m : mandate.Mandate :=
  mandate_of [] mandate.GeographicCriteria_default fin_0_5m
    mandate.ScoringWeights.default.

(** No include list, and Wales excluded. *)
Definition geo_excluding_wales : mandate.GeographicCriteria :=
  {| mandate.regions := []; mandate.postcodes := [];
     mandate.exclude_regions := ["Wales"]; mandate.exclude_postcodes := [] |}.

Definition mandate_excluding_wales : mandate.Mandate :=
  mandate_of [] geo_excluding_wales mandate.FinancialCriteria_default
    mandate.ScoringWeights.default.

Definition listing_in_wales : listing.Listing :=
  listing_of "Wales" "CF10 1AA" 300000 None listing.TURNKEY.

(** Mandate weights that stress the region (0.30) and not the price
    (0.05); they still sum to 1. *)
Definition weights_region_heavy : mandate.ScoringWeights.t :=
  {| mandate.ScoringWeights.location_region := 0.30;
     mandate.ScoringWeights.location_postcode := 0.10;
     mandate.ScoringWeights.price_range := 0.05;
     mandate.ScoringWeights.price_psf := 0.05;
     mandate.ScoringWeights.yield_minimum := 0.15;
     mandate.ScoringWeights.yield_target := 0.10;
     mandate.ScoringWeights.property_size := 0.05;
     mandate.ScoringWeights.property_condition := 0.10;
     mandate.ScoringWeights.property_tenure := 0.05;
     mandate.ScoringWeights.risk_profile := 0.05 |}.

Definition mandate_region_heavy : mandate.Mandate :=
  mandate_of [] mandate.GeographicCriteria_default fin_500k_5m
    weights_region_heavy.

(** The explicit argument [weights={"price_range": 0.5}]. *)
Definition override_price_only : gmap string Q := {[ "price_range" := 0.5 ]}.

(** A negative region weight: -1 on the region, 2 on the price range, 0
    on the other eight factors; the weights sum to 1. *)
Definition weights_negative_region : mandate.ScoringWeights.t :=
  {| mandate.ScoringWeights.location_region := -1;
     mandate.ScoringWeights.location_postcode := 0;
     mandate.ScoringWeights.price_range := 2;
     mandate.ScoringWeights.price_psf := 0;
     mandate.ScoringWeights.yield_minimum := 0;
     mandate.ScoringWeights.yield_target := 0;
     mandate.ScoringWeights.property_size := 0;
     mandate.ScoringWeights.property_condition := 0;
     mandate.ScoringWeights.property_tenure := 0;
     mandate.ScoringWeights.risk_profile := 0 |}.

Definition geo_london_only : mandate.GeographicCriteria :=
  {| mandate.regions := ["London"]; mandate.postcodes := [];
     mandate.exclude_regions := []; mandate.exclude_postcodes := [] |}.

Definition mandate_negative_weight : mandate.Mandate :=
  mandate_of [] geo_london_only mandate.FinancialCriteria_default
    weights_negative_region.

Definition listing_in_leeds : listing.Listing :=
  listing_of "Leeds" "LS1 1AA" 300000 None listing.TURNKEY.

(** A fixed ticket size: minimum = maximum = 500,000. *)
Definition fin_point_500k : mandate.FinancialCriteria :=
  {| mandate.min_deal_size := Some 500000%Z;
     mandate.max_deal_size := Some 500000%Z;
     mandate.total_allocation := None;
     mandate.min_yield := None; mandate.target_yield := None;
     mandate.min_irr := None; mandate.target_irr := None;
     mandate.max_ltv := None; mandate.preferred_ltv := None;
     mandate.max_price_psf := None |}.

Definition mandate_point_range : mandate.Mandate :=
  mandate_of [] mandate.GeographicCriteria_default fin_point_500k
    mandate.ScoringWeights.default.

(** A negative target yield, and all the weight on the target-yield
    factor. *)
Definition fin_negative_target : mandate.FinancialCriteria :=
  {| mandate.min_deal_size := None; mandate.max_deal_size := None;
     mandate.total_allocation := None;
     mandate.min_yield := None; mandate.target_yield := Some (-1);
     mandate.min_irr := None; mandate.target_irr := None;
     mandate.max_ltv := None; mandate.preferred_ltv := None;
     mandate.max_price_psf := None |}.

Definition weights_target_only : mandate.ScoringWeights.t :=
  {| mandate.ScoringWeights.location_region := 0;
     mandate.ScoringWeights.location_postcode := 0;
     mandate.ScoringWeights.price_range := 0;
     mandate.ScoringWeights.price_psf := 0;
     mandate.ScoringWeights.yield_minimum := 0;
     mandate.ScoringWeights.yield_target := 1;
     mandate.ScoringWeights.property_size := 0;
     mandate.ScoringWeights.property_condition := 0;
     mandate.ScoringWeights.property_tenure := 0;
     mandate.ScoringWeights.risk_profile := 0 |}.

Definition mandate_negative_target : mandate.Mandate :=
  mandate_of [] mandate.GeographicCriteria_default fin_negative_target
    weights_target_only.

(** The Grade I listed detached house of the planning tests. *)
Definition grade_I_house : planning_models.PlanningContext :=
  {| planning_models.property_type := "house_detached";
     planning_models.tenure := "freehold";
     planning_models.current_sqft := None;
     planning_models.plot_size_sqft := None;
     planning_models.num_floors := None;
     planning_models.year_built := None;
     planning_models.conservation_area := false;
     planning_models.listed_building := true;
     planning_models.listed_grade := "I";
     planning_models.article_4_direction := false;
     planning_models.green_belt := false;
     planning_models.flood_zone := 1;
     planning_models.tree_preservation_orders := false;
     planning_models.postcode := "";
     planning_models.local_authority := "";
     planning_models.nearby_precedents := [];
     planning_models.proposed_type := planning_models.OTHER |}.

(** A mandate that wants development sites only: no turnkey, no
    refurbishment. *)
Definition property_development_only : mandate.PropertyCriteria :=
  {| mandate.min_units := None; mandate.max_units := None;
     mandate.min_sqft := None; mandate.max_sqft := None;
     mandate.min_bedrooms := None; mandate.max_bedrooms := None;
     mandate.accept_refurbishment := false;
     mandate.accept_development := true;
     mandate.accept_turnkey := false;
     mandate.freehold_only := false; mandate.min_lease_years := None;
     mandate.preferred_property_types := [] |}.

Definition mandate_development_only : mandate.Mandate :=
  {| mandate.mandate_id := "MND-2024-002";
     mandate.investor_name := "Groundworks LLP";
     mandate.investor_type := mandate.PRIVATE_EQUITY;
     mandate.asset_classes := [];
     mandate.risk_profile := mandate.OPPORTUNISTIC;
     mandate.geographic := mandate.GeographicCriteria_default;
     mandate.financial := mandate.FinancialCriteria_default;
     mandate.property := property_development_only;
     mandate.deal_criteria := mandate.DealCriteria_default;
     mandate.scoring_weights := mandate.ScoringWeights.default;
     mandate.is_active := true;
     mandate.priority := 2;
     mandate.notes := "" |}.

(** An approved rear extension next door, recorded with a decision date
    that carries the offset +00:00, and a context that lists it. *)
Definition precedent_with_offset : planning_models.PlanningPrecedent :=
  {| planning_models.reference := "21/01234/FUL";
     planning_models.precedent_address := "3 High Street";
     planning_models.precedent_postcode := "SW1A 1AA";
     planning_models.precedent_type := planning_models.EXTENSION_REAR;
     planning_models.description := "";
     planning_models.approved := true;
     planning_models.decision_date := Some (planning_models.aware 1650000000 0);
     planning_models.distance_meters := Some 50;
     planning_models.similarity_score := 0.5;
     planning_models.conditions := [];
     planning_models.refusal_reasons := [] |}.

Definition context_with_aware_precedent : planning_models.PlanningContext :=
  {| planning_models.property_type := ""; planning_models.tenure := "";
     planning_models.current_sqft := None; planning_models.plot_size_sqft := None;
     planning_models.num_floors := None; planning_models.year_built := None;
     planning_models.conservation_area := false;
     planning_models.listed_building := false;
     planning_models.listed_grade := "";
     planning_models.article_4_direction := false;
     planning_models.green_belt := false;
     planning_models.flood_zone := 1;
     planning_models.tree_preservation_orders := false;
     planning_models.postcode := ""; planning_models.local_authority := "";
     planning_models.nearby_precedents := [precedent_with_offset];
     planning_models.proposed_type := planning_models.EXTENSION_REAR |}.

(** A scoring result with a total of 85 that passed the hard filters. *)
Definition scoring_result_85 : scoring.ScoringResult :=
  {| scoring.listing_id := "RM-12345";
     scoring.mandate_id := "MND-2024-001";
     scoring.total_score := 85;
     scoring.match_grade := "B";
     scoring.factors := [];
     scoring.passes_hard_filters := true;
     scoring.disqualification_reasons := [] |}.

End examples.

(** * Properties *)

(** ** Python comparisons and arithmetic *)

Section PyFacts.

Lemma Qleb_true (x y : Q) : Qleb x y = true <-> x <= y.
Proof. unfold Qleb. apply Qle_bool_iff. Qed.

Lemma Qleb_false (x y : Q) : Qleb x y = false <-> y < x.
Proof.
  unfold Qleb. split; intros H.
  - apply Qnot_le_lt. intros Hle. apply Qle_bool_iff in Hle. congruence.
  - destruct (Qle_bool x y) eqn:E; [| reflexivity].
    apply Qle_bool_iff in E. exfalso. exact (Qlt_not_le _ _ H E).
Qed.

Lemma Qgeb_true (x y : Q) : Qgeb x y = true <-> y <= x.
Proof. unfold Qgeb. apply Qle_bool_iff. Qed.

Lemma Qgeb_false (x y : Q) : Qgeb x y = false <-> x < y.
Proof. unfold Qgeb. apply (Qleb_false y x). Qed.

Lemma Qltb_true (x y : Q) : Qltb x y = true <-> x < y.
Proof.
  unfold Qltb. rewrite negb_true_iff. apply (Qleb_false y x).
Qed.

Lemma Qltb_false (x y : Q) : Qltb x y = false <-> y <= x.
Proof.
  unfold Qltb. rewrite negb_false_iff. apply Qle_bool_iff.
Qed.

Lemma Qgtb_true (x y : Q) : Qgtb x y = true <-> y < x.
Proof.
  unfold Qgtb. rewrite negb_true_iff. apply (Qleb_false x y).
Qed.

Lemma Qgtb_false (x y : Q) : Qgtb x y = false <-> x <= y.
Proof.
  unfold Qgtb. rewrite negb_false_iff. apply Qle_bool_iff.
Qed.

Lemma truthyZ_Some (o : option Z) :
  truthyZ o = true <-> exists z, o = Some z /\ z <> 0%Z.
Proof.
  destruct o as [z |]; simpl.
  - rewrite negb_true_iff, Z.eqb_neq. split.
    + intros H. exists z. split; [reflexivity | exact H].
    + intros (z' & [= <-] & H). exact H.
  - split; [discriminate | intros (z & H & _); discriminate].
Qed.

Lemma truthyQ_Some (o : option Q) :
  truthyQ o = true <-> exists q, o = Some q /\ ~ q == 0.
Proof.
  destruct o as [q |]; simpl.
  - rewrite negb_true_iff. split.
    + intros H. exists q. split; [reflexivity |].
      intros Hq. apply Qeq_bool_iff in Hq. congruence.
    + intros (q' & [= <-] & H). destruct (Qeq_bool q 0) eqn:E; [| reflexivity].
      apply Qeq_bool_iff in E. contradiction.
  - split; [discriminate | intros (q & H & _); discriminate].
Qed.

Lemma truediv_ok (a b : Q) : ~ b == 0 -> truediv a b = Ok (a / b).
Proof.
  intros H. unfold truediv. destruct (Qeq_bool b 0) eqn:E; [| reflexivity].
  apply Qeq_bool_iff in E. contradiction.
Qed.

Lemma truediv_zero (a b : Q) : b == 0 -> truediv a b = Raise ZeroDivisionError.
Proof.
  intros H. unfold truediv. apply Qeq_bool_iff in H. rewrite H. reflexivity.
Qed.

Lemma inject_Z_nonzero (z : Z) : z <> 0%Z -> ~ inject_Z z == 0.
Proof.
  intros H E. apply H. unfold Qeq in E. simpl in E. lia.
Qed.

Lemma fold_sum_acc {A} (f : A -> Q) (l : list A) (a : Q) :
  fold_left (fun acc x => acc + f x) l a
  == a + fold_left (fun acc x => acc + f x) l 0.
Proof.
  revert a. induction l as [| x l IH]; intros a; simpl.
  - lra.
  - rewrite (IH (a + f x)), (IH (0 + f x)). lra.
Qed.

End PyFacts.

(** ** Binary64 rounding *)

Section Binary64Facts.

Lemma pow2_pos (e : Z) : 0 < 2 ^ e.
Proof. apply Qpower_0_lt. reflexivity. Qed.

Lemma pow2_le (a b : Z) : (a <= b)%Z -> 2 ^ a <= 2 ^ b.
Proof. intros H. apply Qpower_le_compat_l; [exact H | discriminate]. Qed.

Lemma pow2_plus (a b : Z) : 2 ^ (a + b) == 2 ^ a * 2 ^ b.
Proof. apply Qpower_plus. discriminate. Qed.

Lemma pow2_inject (a : Z) : (0 <= a)%Z -> inject_Z (2 ^ a) == 2 ^ a.
Proof. intros H. apply (Zpower_Qpower 2 a H). Qed.

Lemma ilog2_spec (x : Q) : 0 < x -> 2 ^ ilog2 x <= x /\ x < 2 ^ (ilog2 x + 1).
Proof.
  intros Hx. unfold ilog2.
  assert (Hn : (0 < Qnum x)%Z) by (unfold Qlt in Hx; simpl in Hx; lia).
  assert (Hd : (0 < Z.pos (Qden x))%Z) by lia.
  destruct (Z.log2_spec _ Hn) as [Hn1 Hn2]. destruct (Z.log2_spec _ Hd) as [Hd1 Hd2].
  pose proof (Z.log2_nonneg (Qnum x)) as Ha.
  pose proof (Z.log2_nonneg (Z.pos (Qden x))) as Hb.
  assert (Ex : x == inject_Z (Qnum x) / inject_Z (Z.pos (Qden x)))
    by (destruct x as [n d]; simpl; apply Qmake_Qdiv).
  set (n := Qnum x) in *. set (d := Z.pos (Qden x)) in *.
  set (a := Z.log2 n) in *. set (b := Z.log2 d) in *.
  assert (Qn1 : 2 ^ a <= inject_Z n)
    by (rewrite <- (pow2_inject a Ha), <- Zle_Qle; exact Hn1).
  assert (Qn2 : inject_Z n < 2 ^ (a + 1))
    by (rewrite <- (pow2_inject (a + 1)) by lia; rewrite <- Zlt_Qlt; exact Hn2).
  assert (Qd1 : 2 ^ b <= inject_Z d)
    by (rewrite <- (pow2_inject b Hb), <- Zle_Qle; exact Hd1).
  assert (Qd2 : inject_Z d < 2 ^ (b + 1))
    by (rewrite <- (pow2_inject (b + 1)) by lia; rewrite <- Zlt_Qlt; exact Hd2).
  assert (Qd0 : 0 < inject_Z d) by (rewrite <- (Zlt_Qlt 0); exact Hd).
  assert (Hup : x < 2 ^ (a - b + 1)).
  { rewrite Ex. apply Qlt_shift_div_r; [exact Qd0 |].
    apply Qlt_le_trans with (1 := Qn2).
    replace (a + 1)%Z with ((a - b + 1) + b)%Z by lia. rewrite pow2_plus.
    apply Qmult_le_l; [apply pow2_pos | exact Qd1]. }
  assert (Hlo : 2 ^ (a - b - 1) <= x).
  { rewrite Ex. apply Qle_shift_div_l; [exact Qd0 |].
    apply Qle_trans with (2 ^ (a - b - 1) * 2 ^ (b + 1)).
    - apply Qmult_le_l; [apply pow2_pos | apply Qlt_le_weak; exact Qd2].
    - rewrite <- pow2_plus. replace (a - b - 1 + (b + 1))%Z with a by lia. exact Qn1. }
  destruct (Qle_bool (2 ^ (a - b)) x) eqn:E.
  - apply Qle_bool_iff in E. split; [exact E | exact Hup].
  - split; [exact Hlo |].
    replace (a - b - 1 + 1)%Z with (a - b)%Z by lia.
    apply Qnot_le_lt. intros H. apply Qle_bool_iff in H. congruence.
Qed.

Lemma ilog2_lt (x : Q) (k : Z) : x < 2 ^ k -> (0 <= k)%Z -> (ilog2 x < k)%Z.
Proof.
  intros H Hk. destruct (Qlt_le_dec 0 x) as [Hx | Hx].
  - destruct (ilog2_spec x Hx) as [H1 _].
    apply (Qpower_lt_compat_l_inv 2); [| reflexivity].
    apply Qle_lt_trans with (1 := H1). exact H.
  - unfold ilog2.
    assert (Hn : (Qnum x <= 0)%Z) by (unfold Qle in Hx; simpl in Hx; lia).
    rewrite (Z.log2_nonpos _ Hn).
    pose proof (Z.log2_nonneg (Z.pos (Qden x))) as Hb.
    destruct (Qle_bool _ x) eqn:E.
    + apply Qle_bool_iff in E. exfalso.
      pose proof (pow2_pos (0 - Z.log2 (Z.pos (Qden x)))) as P.
      exact (Qlt_not_le _ _ (Qlt_le_trans _ _ _ P E) Hx).
    + lia.
Qed.

Lemma ilog2_mono (x y : Q) : 0 < x -> x <= y -> (ilog2 x <= ilog2 y)%Z.
Proof.
  intros Hx Hxy.
  destruct (ilog2_spec x Hx) as [H1 _].
  destruct (ilog2_spec y (Qlt_le_trans _ _ _ Hx Hxy)) as [_ H2].
  assert (H : 2 ^ ilog2 x < 2 ^ (ilog2 y + 1))
    by (apply Qle_lt_trans with (1 := H1); apply Qle_lt_trans with (1 := Hxy); exact H2).
  apply Qpower_lt_compat_l_inv in H; [lia | reflexivity].
Qed.

Lemma round_float_cases (x : Q) :
  let f := Qfloor x in
  inject_Z f <= x /\ x < inject_Z f + 1
  /\ ((round_float x = f /\ x - inject_Z f <= 1 # 2)
      \/ (round_float x = (f + 1)%Z /\ 1 # 2 <= x - inject_Z f))
  /\ (x - inject_Z f < 1 # 2 -> round_float x = f)
  /\ (1 # 2 < x - inject_Z f -> round_float x = (f + 1)%Z)
  /\ (x - inject_Z f == 1 # 2 ->
      round_float x = if Z.even f then f else (f + 1)%Z).
Proof.
  cbv zeta. pose proof (Qfloor_le x) as Hlo. pose proof (Qlt_floor x) as Hhi.
  rewrite inject_Z_plus in Hhi. change (inject_Z 1) with 1 in Hhi.
  split; [exact Hlo |]. split; [exact Hhi |].
  unfold round_float. cbv zeta.
  destruct (Qltb (x - inject_Z (Qfloor x)) 0.5) eqn:E1.
  { apply Qltb_true in E1. repeat split.
    - left. split; [reflexivity | lra].
    - intros H. exfalso. lra.
    - intros H. exfalso. lra. }
  apply Qltb_false in E1.
  destruct (Qgtb (x - inject_Z (Qfloor x)) 0.5) eqn:E2.
  { apply Qgtb_true in E2. repeat split.
    - right. split; [reflexivity | lra].
    - intros H. exfalso. lra.
    - intros H. exfalso. lra. }
  apply Qgtb_false in E2. repeat split.
  - destruct (Z.even (Qfloor x)); [left | right]; (split; [reflexivity | lra]).
  - intros H. exfalso. lra.
  - intros H. exfalso. lra.
Qed.

Lemma round_float_error (x : Q) :
  - (1 # 2) <= inject_Z (round_float x) - x <= 1 # 2.
Proof.
  destruct (round_float_cases x) as (Hlo & Hhi & [[E H] | [E H]] & _); rewrite E.
  - lra.
  - rewrite inject_Z_plus. change (inject_Z 1) with 1. lra.
Qed.

Lemma round_float_mono (x y : Q) : x <= y -> (round_float x <= round_float y)%Z.
Proof.
  intros Hxy. pose proof (Qfloor_resp_le _ _ Hxy) as Hf.
  destruct (round_float_cases x) as (Hxl & Hxh & Hx & Hx1 & Hx2 & Hx3).
  destruct (round_float_cases y) as (Hyl & Hyh & Hy & Hy1 & Hy2 & Hy3).
  destruct (Z.eq_dec (Qfloor x) (Qfloor y)) as [E | N].
  - destruct (Qlt_le_dec (x - inject_Z (Qfloor x)) (1 # 2)) as [A | A].
    + rewrite (Hx1 A). destruct Hy as [[-> _] | [-> _]]; lia.
    + destruct (Qlt_le_dec (1 # 2) (y - inject_Z (Qfloor y))) as [B | B].
      * rewrite (Hy2 B). destruct Hx as [[-> _] | [-> _]]; lia.
      * assert (Ex : x - inject_Z (Qfloor x) == 1 # 2) by (rewrite E in *; lra).
        assert (Ey : y - inject_Z (Qfloor y) == 1 # 2) by (rewrite E in *; lra).
        rewrite (Hx3 Ex), (Hy3 Ey), E. lia.
  - assert (Hlt : (Qfloor x + 1 <= Qfloor y)%Z) by lia.
    destruct Hx as [[-> _] | [-> _]], Hy as [[-> _] | [-> _]]; lia.
Qed.

Lemma round_float_inject (z : Z) : round_float (inject_Z z) = z.
Proof.
  destruct (round_float_cases (inject_Z z)) as (_ & _ & _ & H & _).
  rewrite Qfloor_Z in H. apply H. lra.
Qed.

Lemma round64_pos_nonneg (x : Q) : 0 <= x -> 0 <= round64_pos x.
Proof.
  intros Hx. unfold round64_pos. cbv zeta.
  set (e := Z.max (-1074) (ilog2 x - 52)).
  pose proof (pow2_pos e) as He.
  apply Qmult_le_0_compat; [| lra].
  change 0 with (inject_Z 0). rewrite <- Zle_Qle.
  apply Z.le_trans with (round_float (inject_Z 0));
    [rewrite round_float_inject; lia |].
  apply round_float_mono.
  apply Qle_shift_div_l; [exact He |]. change (inject_Z 0) with 0. lra.
Qed.

Lemma round64_pos_nonpos (x : Q) : x <= 0 -> round64_pos x <= 0.
Proof.
  intros Hx. unfold round64_pos. cbv zeta.
  set (e := Z.max (-1074) (ilog2 x - 52)).
  pose proof (pow2_pos e) as He.
  assert (H : (round_float (x / 2 ^ e) <= 0)%Z).
  { apply Z.le_trans with (round_float (inject_Z 0));
      [| rewrite round_float_inject; lia].
    apply round_float_mono.
    apply Qle_shift_div_r; [exact He |]. change (inject_Z 0) with 0. lra. }
  rewrite Zle_Qle in H. change (inject_Z 0) with 0 in H.
  apply Qle_trans with (0 * 2 ^ e); [apply Qmult_le_compat_r; lra | lra].
Qed.

Lemma round64_pos_mono (x y : Q) : x <= y -> 0 <= x -> round64_pos x <= round64_pos y.
Proof.
  intros Hxy H0.
  destruct (Qlt_le_dec 0 x) as [Hx | Hx];
    [| apply Qle_trans with 0;
       [apply round64_pos_nonpos; exact Hx | apply round64_pos_nonneg; lra]].
  assert (Hy : 0 < y) by lra.
  pose proof (ilog2_mono x y Hx Hxy) as Hl.
  destruct (ilog2_spec x Hx) as [Hx1 Hx2]. destruct (ilog2_spec y Hy) as [Hy1 Hy2].
  unfold round64_pos. cbv zeta.
  set (ex := Z.max (-1074) (ilog2 x - 52)). set (ey := Z.max (-1074) (ilog2 y - 52)).
  pose proof (pow2_pos ex) as Pex. pose proof (pow2_pos ey) as Pey.
  destruct (Z.eq_dec ex ey) as [E | N].
  - rewrite <- E. apply Qmult_le_compat_r; [| lra].
    rewrite <- Zle_Qle. apply round_float_mono.
    apply Qmult_le_compat_r; [exact Hxy |]. apply Qinv_le_0_compat. lra.
  - assert (Hlt : (ex + 1 <= ey)%Z) by lia.
    assert (Ey : ey = (ilog2 y - 52)%Z) by lia.
    apply Qle_trans with (2 ^ (ex + 53)).
    + rewrite pow2_plus. rewrite (Qmult_comm (2 ^ ex)).
      apply Qmult_le_compat_r; [| lra].
      rewrite <- (pow2_inject 53) by lia. rewrite <- Zle_Qle.
      apply Z.le_trans with (round_float (inject_Z (2 ^ 53)));
        [| rewrite round_float_inject; lia].
      apply round_float_mono.
      rewrite (pow2_inject 53) by lia.
      apply Qle_shift_div_r; [exact Pex |]. rewrite <- pow2_plus.
      apply Qle_trans with (2 ^ (ilog2 x + 1)); [lra |].
      apply pow2_le. lia.
    + apply Qle_trans with (2 ^ (ey + 52)); [apply pow2_le; lia |].
      rewrite pow2_plus. rewrite (Qmult_comm (2 ^ ey)).
      apply Qmult_le_compat_r; [| lra].
      rewrite <- (pow2_inject 52) by lia. rewrite <- Zle_Qle.
      apply Z.le_trans with (round_float (inject_Z (2 ^ 52)));
        [rewrite round_float_inject; lia |].
      apply round_float_mono.
      rewrite (pow2_inject 52) by lia.
      apply Qle_shift_div_l; [exact Pey |]. rewrite <- pow2_plus.
      replace (52 + ey)%Z with (ilog2 y) by lia. exact Hy1.
Qed.

Lemma round64_nonneg (x : Q) : 0 <= x -> 0 <= round64 x.
Proof.
  intros H. unfold round64. destruct (Qltb x 0) eqn:E.
  - apply Qltb_true in E. exfalso. lra.
  - apply round64_pos_nonneg. exact H.
Qed.

Lemma round64_nonpos (x : Q) : x <= 0 -> round64 x <= 0.
Proof.
  intros H. unfold round64. destruct (Qltb x 0) eqn:E.
  - apply Qltb_true in E.
    assert (0 <= round64_pos (- x)) by (apply round64_pos_nonneg; lra). lra.
  - apply round64_pos_nonpos. exact H.
Qed.

Lemma round64_mono (x y : Q) : x <= y -> round64 x <= round64 y.
Proof.
  intros Hxy.
  destruct (Qlt_le_dec x 0) as [Hx | Hx], (Qlt_le_dec y 0) as [Hy | Hy].
  - unfold round64. rewrite (proj2 (Qltb_true x 0) Hx), (proj2 (Qltb_true y 0) Hy).
    assert (round64_pos (- y) <= round64_pos (- x))
      by (apply round64_pos_mono; lra).
    lra.
  - apply Qle_trans with 0; [apply round64_nonpos; lra | apply round64_nonneg; exact Hy].
  - exfalso. lra.
  - unfold round64. rewrite (proj2 (Qltb_false x 0) Hx), (proj2 (Qltb_false y 0) Hy).
    apply round64_pos_mono; assumption.
Qed.

(** Below 2^k the rounding error is at most half of 2^(k - 53). *)
Lemma round64_error (x : Q) (k : Z) :
  0 <= x -> x < 2 ^ k -> (0 <= k)%Z ->
  - (2 ^ (k - 54)) <= round64 x - x <= 2 ^ (k - 54).
Proof.
  intros H0 Hk Hmin. unfold round64. rewrite (proj2 (Qltb_false x 0) H0).
  unfold round64_pos. cbv zeta.
  pose proof (ilog2_lt x k Hk Hmin) as Hl.
  set (e := Z.max (-1074) (ilog2 x - 52)).
  assert (He : (e <= k - 53)%Z) by lia.
  pose proof (pow2_pos e) as Pe.
  pose proof (round_float_error (x / 2 ^ e)) as [E1 E2].
  assert (Hx : x == x / 2 ^ e * 2 ^ e) by (field; lra).
  assert (Hh : 2 ^ e * (1 # 2) <= 2 ^ (k - 54)).
  { apply Qle_trans with (2 ^ (k - 53) * (1 # 2)).
    - apply Qmult_le_compat_r; [apply pow2_le; exact He | discriminate].
    - replace (k - 53)%Z with ((k - 54) + 1)%Z by lia. rewrite pow2_plus.
      change (2 ^ 1) with 2. pose proof (pow2_pos (k - 54)). lra. }
  set (m := inject_Z (round_float (x / 2 ^ e))) in *.
  set (q := x / 2 ^ e) in *.
  assert (A1 : (m - q) * 2 ^ e <= (1 # 2) * 2 ^ e)
    by (apply Qmult_le_compat_r; lra).
  assert (A2 : (- (1 # 2)) * 2 ^ e <= (m - q) * 2 ^ e)
    by (apply Qmult_le_compat_r; lra).
  split.
  - setoid_replace (m * 2 ^ e - x) with ((m - q) * 2 ^ e) using relation Qeq
      by (rewrite Hx at 1; ring).
    lra.
  - setoid_replace (m * 2 ^ e - x) with ((m - q) * 2 ^ e) using relation Qeq
      by (rewrite Hx at 1; ring).
    lra.
Qed.

End Binary64Facts.

(** ** The review state machine *)

Section ReviewProperties.

Import review.

Lemma can_transition_row (r : DealReview) (a : ReviewAction) :
  can_transition r a = false -> row_get a (VALID_TRANSITIONS (state r)) = None.
Proof.
  unfold can_transition.
  destruct (row_get a (VALID_TRANSITIONS (state r))); [discriminate | reflexivity].
Qed.

Lemma transition_invalid (a : ReviewAction) (who note : string) (now : Z)
    (r : DealReview) :
  can_transition r a = false ->
  transition a who note now r = (Raise (InvalidTransitionError (state r) a), r).
Proof.
  intros H. unfold transition, seq, get, raise. simpl. rewrite H. reflexivity.
Qed.

Lemma transition_valid (a : ReviewAction) (who note : string) (now : Z)
    (r : DealReview) (s : ReviewState) :
  row_get a (VALID_TRANSITIONS (state r)) = Some s ->
  exists r',
    transition a who note now r = (Ok tt, r')
    /\ state r' = s
    /\ history r' =
         (history r ++ [ {| from_state := state r; to_state := s; action := a;
                            timestamp := now; actor := who; notes := note |} ])%list
    /\ updated_at r' = now
    /\ decision_notes r' = decision_notes r
    /\ decline_reasons r' = decline_reasons r.
Proof.
  intros H. unfold transition, seq, get, can_transition. simpl. rewrite H. simpl.
  eexists. split; [reflexivity |]. simpl. repeat split; reflexivity.
Qed.

(** C10.  When [accept] (resp. [decline]) is called in a state whose row
    of the transition table lacks the action, [InvalidTransitionError] is
    raised with the current state and the action, and [state] and [history]
    are unchanged; yet the review is not left as it was: [accept] has
    already stored [decision_notes], and [decline] has already stored both
    [decline_reasons] and [decision_notes], and these keep the new values. *)
Theorem accept_decline_invalid_keeps_decision_fields
    (r : DealReview) (who note : string) (reasons : list string) (now : Z) :
  (can_transition r ACCEPT = false ->
   exists r',
     accept who note now r = (Raise (InvalidTransitionError (state r) ACCEPT), r')
     /\ state r' = state r /\ history r' = history r
     /\ updated_at r' = updated_at r
     /\ decision_notes r' = note
     /\ decline_reasons r' = decline_reasons r)
  /\
  (can_transition r DECLINE = false ->
   exists r',
     decline who reasons note now r
       = (Raise (InvalidTransitionError (state r) DECLINE), r')
     /\ state r' = state r /\ history r' = history r
     /\ updated_at r' = updated_at r
     /\ decision_notes r' = note
     /\ decline_reasons r' = reasons).
Proof.
  split; intros H.
  - unfold accept, seq. simpl.
    rewrite transition_invalid by exact H.
    eexists. split; [reflexivity |]. simpl. repeat split; reflexivity.
  - unfold decline, seq. simpl.
    rewrite transition_invalid by exact H.
    eexists. split; [reflexivity |]. simpl. repeat split; reflexivity.
Qed.

(** An accepted review: a second [accept] and a [decline] both fail, and
    both leave their new notes (and reasons) behind. *)
Lemma accept_decline_invalid_witness :
  (exists r',
     accept "manager" "changed my mind" 9 examples.accepted_review
       = (Raise (InvalidTransitionError ACCEPTED ACCEPT), r')
     /\ state r' = ACCEPTED
     /\ history r' = history examples.accepted_review
     /\ updated_at r' = 2%Z
     /\ decision_notes r' = "changed my mind"
     /\ decline_reasons r' = [])
  /\
  (exists r',
     decline "manager" ["too expensive"] "no" 9 examples.accepted_review
       = (Raise (InvalidTransitionError ACCEPTED DECLINE), r')
     /\ state r' = ACCEPTED
     /\ history r' = history examples.accepted_review
     /\ updated_at r' = 2%Z
     /\ decision_notes r' = "no"
     /\ decline_reasons r' = ["too expensive"]).
Proof.
  destruct (accept_decline_invalid_keeps_decision_fields
              examples.accepted_review "manager" "changed my mind" [] 9) as [Ha _].
  destruct (accept_decline_invalid_keeps_decision_fields
              examples.accepted_review "manager" "no" ["too expensive"] 9) as [_ Hd].
  split.
  - apply Ha. reflexivity.
  - apply Hd. reflexivity.
Defined.

End ReviewProperties.

(** ** The recommendation synthesizer *)

Section RecommendationProperties.

Import recommendation.

Lemma determine_action_table (sc : scoring.ScoringResult)
    (cv : conviction.ConvictionAssessment) (rj : rejection.RejectionResult)
    (m : mandate.Mandate) :
  _determine_action sc cv rj m
  = spec.decision_table (rejection.rejected rj) (conviction.level cv)
      (scoring.passes_hard_filters sc) (scoring.total_score sc)
      (mandate.deal_criteria m).
Proof.
  unfold _determine_action, spec.decision_table.
  destruct (rejection.rejected rj); [reflexivity |].
  destruct (conviction.level cv); simpl;
    repeat match goal with
           | |- context [if ?b then _ else _] => destruct b; simpl
           end; reflexivity.
Qed.

(** A level above NONE is only assigned when the hard filters pass. *)
Lemma level_needs_hard_filters (l : listing.Listing) (m : mandate.Mandate)
    (sc : scoring.ScoringResult) :
  scoring.passes_hard_filters sc = false ->
  conviction.level (conviction.assess_conviction l m sc) = conviction.NONE.
Proof.
  intros H. unfold conviction.assess_conviction. simpl. rewrite H. reflexivity.
Qed.

Lemma generate_recommendation_inv (l : listing.Listing) (m : mandate.Mandate)
    (r : DealRecommendation) :
  generate_recommendation l m = Ok r ->
  exists sc,
    scoring.score_listing l m None = Ok sc
    /\ scoring_ r = sc
    /\ conviction_ r = conviction.assess_conviction l m sc
    /\ rejection_ r = rejection.evaluate_rejection l m None false
    /\ action r = _determine_action (scoring_ r) (conviction_ r) (rejection_ r) m.
Proof.
  unfold generate_recommendation.
  destruct (scoring.score_listing l m None) as [sc | e]; simpl; [| discriminate].
  intros H. injection H as <-. exists sc. simpl. repeat split; reflexivity.
Qed.

(** C1.  [_determine_action] is the first-match-wins table: hard rejection
    gives PASS; else HIGH with score >= pursue threshold gives PURSUE; else
    MEDIUM, or HIGH with score >= consider threshold, gives CONSIDER; else
    LOW with the hard filters passed and score >= minimum gives WATCH;
    otherwise PASS.  In a generated recommendation a LOW level already
    implies that the hard filters passed, so the action is a function of
    (rejected, level, total_score, deal_criteria) alone. *)
Theorem recommendation_action_is_decision_table :
  (forall sc cv rj m,
     _determine_action sc cv rj m
     = spec.decision_table (rejection.rejected rj) (conviction.level cv)
         (scoring.passes_hard_filters sc) (scoring.total_score sc)
         (mandate.deal_criteria m))
  /\
  (forall l m r,
     generate_recommendation l m = Ok r ->
     action r
     = spec.decision_table (rejection.rejected (rejection_ r))
         (conviction.level (conviction_ r)) true
         (scoring.total_score (scoring_ r)) (mandate.deal_criteria m)).
Proof.
  split; [exact determine_action_table |].
  intros l m r H.
  destruct (generate_recommendation_inv l m r H) as (sc & _ & Hsc & Hcv & _ & Ha).
  rewrite Ha, determine_action_table.
  destruct (scoring.passes_hard_filters (scoring_ r)) eqn:Hp; [reflexivity |].
  assert (Hl : conviction.level (conviction_ r) = conviction.NONE).
  { rewrite Hcv. apply level_needs_hard_filters. rewrite <- Hsc. exact Hp. }
  rewrite Hl. unfold spec.decision_table. simpl.
  destruct (rejection.rejected (rejection_ r)); reflexivity.
Qed.

(** The in-range listing of the examples is scored, assessed and given
    the action of the table, here PURSUE. *)
Lemma recommendation_action_witness :
  exists r,
    generate_recommendation examples.listing_2m examples.mandate_500k_5m = Ok r
    /\ action r
       = spec.decision_table (rejection.rejected (rejection_ r))
           (conviction.level (conviction_ r)) true
           (scoring.total_score (scoring_ r))
           (mandate.deal_criteria examples.mandate_500k_5m)
    /\ action r = PURSUE.
Proof.
  destruct (generate_recommendation examples.listing_2m examples.mandate_500k_5m)
    as [r | e] eqn:E.
  - exists r. split; [reflexivity |]. split.
    + exact (proj2 recommendation_action_is_decision_table _ _ r E).
    + vm_compute in E. injection E as <-. reflexivity.
  - vm_compute in E. discriminate E.
Defined.

End RecommendationProperties.

(** ** The rejection evaluator *)

Section RejectionProperties.

Import rejection.

Lemma run_rules_app (rules : list Rule) (l : listing.Listing) (m : mandate.Mandate)
    (stop : bool) (acc : list RejectionReason) :
  run_rules rules l m stop acc = (acc ++ run_rules rules l m stop [])%list.
Proof.
  revert acc. induction rules as [| rule rest IH]; intros acc; simpl.
  - rewrite app_nil_r. reflexivity.
  - destruct (rule l m) as [reason |]; [| apply IH].
    destruct (stop && is_hard (severity reason)); [reflexivity |].
    rewrite (IH (acc ++ [reason])%list), (IH [reason]).
    rewrite <- app_assoc. reflexivity.
Qed.

(** Without [stop_on_hard] the loop collects exactly the reasons the rules
    return. *)
Lemma run_rules_all (rules : list Rule) (l : listing.Listing) (m : mandate.Mandate)
    (r : RejectionReason) :
  In r (run_rules rules l m false [])
  <-> exists rule, In rule rules /\ rule l m = Some r.
Proof.
  induction rules as [| rule rest IH]; simpl.
  - split; [intros [] | intros (rule & [] & _)].
  - destruct (rule l m) as [reason |] eqn:E.
    + rewrite run_rules_app. simpl. rewrite IH. split.
      * intros [<- | (rule' & Hin & Hr)].
        -- exists rule. split; [left; reflexivity | exact E].
        -- exists rule'. split; [right; exact Hin | exact Hr].
      * intros (rule' & [<- | Hin] & Hr).
        -- left. congruence.
        -- right. exists rule'. split; assumption.
    + rewrite IH. split.
      * intros (rule' & Hin & Hr). exists rule'. split; [right; exact Hin | exact Hr].
      * intros (rule' & [<- | Hin] & Hr); [congruence |].
        exists rule'. split; assumption.
Qed.

(** Stopping at the first hard reason does not change the verdict. *)
Lemma run_rules_stop_same_verdict (rules : list Rule) (l : listing.Listing)
    (m : mandate.Mandate) :
  existsb (fun r => is_hard (severity r)) (run_rules rules l m true [])
  = existsb (fun r => is_hard (severity r)) (run_rules rules l m false []).
Proof.
  induction rules as [| rule rest IH]; simpl; [reflexivity |].
  destruct (rule l m) as [reason |]; [| exact IH].
  destruct (is_hard (severity reason)) eqn:Hh; simpl.
  - rewrite Hh. simpl. rewrite (run_rules_app rest l m false [reason]).
    simpl. rewrite Hh. reflexivity.
  - rewrite (run_rules_app rest l m true [reason]),
            (run_rules_app rest l m false [reason]).
    simpl. rewrite Hh. simpl. exact IH.
Qed.

Lemma rejected_iff_hard (l : listing.Listing) (m : mandate.Mandate)
    (rules : option (list Rule)) (stop : bool) :
  rejected (evaluate_rejection l m rules stop) = true
  <-> exists r, In r (reasons (evaluate_rejection l m rules stop))
                /\ severity r = HARD.
Proof.
  unfold evaluate_rejection. simpl. rewrite existsb_exists.
  split; intros (r & Hin & Hr); exists r; (split; [exact Hin |]).
  - destruct (severity r); [reflexivity | discriminate].
  - rewrite Hr. reflexivity.
Qed.

Lemma check_price_too_high_above (l : listing.Listing) (m : mandate.Mandate) (mx : Z) :
  mandate.max_deal_size (mandate.financial m) = Some mx ->
  mx <> 0%Z ->
  (mx < listing.asking_price l)%Z ->
  check_price_too_high l m
  = Some {| category := PRICE;
            severity :=
              if Qgtb (excess_pct (listing.asking_price l) mx) 20
              then HARD else SOFT;
            code := "PRICE_EXCEEDS_MAX";
            title := "Price exceeds maximum" |}.
Proof.
  intros Hmx Hnz Hlt. unfold check_price_too_high. rewrite Hmx. simpl.
  apply Z.eqb_neq in Hnz. rewrite Hnz. apply Z.ltb_lt in Hlt. rewrite Hlt.
  reflexivity.
Qed.

(** An exact excess of at most 20% is computed as at most 20: the quotient
    is at most the float nearest to 0.2, and that float times 100 rounds to
    20. *)
Lemma excess_pct_at_most_20 (price mx : Z) :
  inject_Z (price - mx) / inject_Z mx * 100 <= 20 ->
  excess_pct price mx <= 20.
Proof.
  intros H. unfold excess_pct, fmul, int_truediv.
  set (x := inject_Z (price - mx) / inject_Z mx) in *.
  assert (Hx : x <= 1 # 5) by lra.
  apply Qle_trans with (round64 (round64 (1 # 5) * float_of_int 100));
    [| vm_compute; discriminate].
  apply round64_mono. apply Qmult_le_compat_r; [| vm_compute; discriminate].
  apply round64_mono. exact Hx.
Qed.

(** An exact excess of at least 20.00000000000001% is computed as more
    than 20. *)
Lemma excess_pct_above_20 (price mx : Z) :
  20 + (1 # 100000000000000) <= inject_Z (price - mx) / inject_Z mx * 100 ->
  20 < excess_pct price mx.
Proof.
  intros H. unfold excess_pct, fmul, int_truediv.
  set (x := inject_Z (price - mx) / inject_Z mx) in *.
  assert (Hx : (1 # 5) + (1 # 10000000000000000) <= x) by lra.
  apply Qlt_le_trans
    with (round64 (round64 ((1 # 5) + (1 # 10000000000000000)) * float_of_int 100));
    [vm_compute; reflexivity |].
  apply round64_mono. apply Qmult_le_compat_r; [| vm_compute; discriminate].
  apply round64_mono. exact Hx.
Qed.

(** C7, as the code has it.  For every listing, mandate, rule list and
    either value of [stop_on_hard], [rejected] is true exactly when the
    produced reasons contain a HARD reason (and the verdict does not depend
    on [stop_on_hard]).  A price above a configured, non-zero
    [max_deal_size] makes [check_price_too_high] return a
    PRICE_EXCEEDS_MAX reason, which is HARD exactly when the excess
    percentage the code computes in binary64, [excess_pct], is greater
    than 20, and SOFT otherwise; a full evaluation lists that reason.  An
    exact excess of at most 20% is always SOFT and an exact excess of at
    least 20.00000000000001% is always HARD; in between the rounding of
    the quotient decides. *)
Theorem rejected_iff_hard_reason_and_price_severity :
  (forall l m rules stop,
     (rejected (evaluate_rejection l m rules stop) = true
      <-> exists r, In r (reasons (evaluate_rejection l m rules stop))
                    /\ severity r = HARD)
     /\ rejected (evaluate_rejection l m rules true)
        = rejected (evaluate_rejection l m rules false))
  /\
  (forall l m mx,
     mandate.max_deal_size (mandate.financial m) = Some mx ->
     mx <> 0%Z ->
     (mx < listing.asking_price l)%Z ->
     exists r,
       check_price_too_high l m = Some r
       /\ code r = "PRICE_EXCEEDS_MAX"
       /\ (severity r = HARD <-> 20 < excess_pct (listing.asking_price l) mx)
       /\ (severity r = SOFT <-> excess_pct (listing.asking_price l) mx <= 20)
       /\ (inject_Z (listing.asking_price l - mx) / inject_Z mx * 100 <= 20 ->
           severity r = SOFT)
       /\ (20 + (1 # 100000000000000)
           <= inject_Z (listing.asking_price l - mx) / inject_Z mx * 100 ->
           severity r = HARD)
       /\ In r (reasons (evaluate_rejection l m None false))).
Proof.
  split.
  - intros l m rules stop. split; [apply rejected_iff_hard |].
    unfold evaluate_rejection. simpl. apply run_rules_stop_same_verdict.
  - intros l m mx Hmx Hnz Hlt.
    pose proof (check_price_too_high_above l m mx Hmx Hnz Hlt) as Hc.
    eexists. split; [exact Hc |]. cbn [code severity]. split; [reflexivity |].
    assert (Hhard : (if Qgtb (excess_pct (listing.asking_price l) mx) 20
                     then HARD else SOFT) = HARD
                    <-> 20 < excess_pct (listing.asking_price l) mx).
    { destruct (Qgtb _ 20) eqn:E.
      - apply Qgtb_true in E. split; [intros _; exact E | reflexivity].
      - apply Qgtb_false in E. split; [discriminate |].
        intros H. exfalso. exact (Qlt_not_le _ _ H E). }
    assert (Hsoft : (if Qgtb (excess_pct (listing.asking_price l) mx) 20
                     then HARD else SOFT) = SOFT
                    <-> excess_pct (listing.asking_price l) mx <= 20).
    { destruct (Qgtb _ 20) eqn:E.
      - apply Qgtb_true in E. split; [discriminate |].
        intros H. exfalso. exact (Qlt_not_le _ _ E H).
      - apply Qgtb_false in E. split; [intros _; exact E | reflexivity]. }
    split; [exact Hhard |]. split; [exact Hsoft |].
    split; [intros H; apply Hsoft; apply excess_pct_at_most_20; exact H |].
    split; [intros H; apply Hhard; apply excess_pct_above_20; exact H |].
    unfold evaluate_rejection. cbn [reasons].
    apply (proj2 (run_rules_all REJECTION_RULES l m _)).
    exists check_price_too_high. split; [| exact Hc].
    unfold REJECTION_RULES. simpl. tauto.
Qed.

(** The 8,500,000 listing against the 5,000,000 maximum: 70% excess, a
    HARD PRICE_EXCEEDS_MAX reason, and a rejected result. *)
Lemma rejected_price_witness :
  rejected (evaluate_rejection examples.listing_8_5m examples.mandate_500k_5m
              None true) = true
  /\ exists r,
       check_price_too_high examples.listing_8_5m examples.mandate_500k_5m = Some r
       /\ code r = "PRICE_EXCEEDS_MAX"
       /\ severity r = HARD
       /\ In r (reasons (evaluate_rejection examples.listing_8_5m
                           examples.mandate_500k_5m None false)).
Proof.
  destruct rejected_iff_hard_reason_and_price_severity as [Hrej Hprice].
  destruct (Hprice examples.listing_8_5m examples.mandate_500k_5m 5000000%Z)
    as (r & Hr & Hcode & Hhard & _ & _ & _ & Hin).
  - reflexivity.
  - lia.
  - vm_compute. reflexivity.
  - assert (Hsev : severity r = HARD).
    { apply Hhard. vm_compute. reflexivity. }
    split.
    + destruct (Hrej examples.listing_8_5m examples.mandate_500k_5m None true)
        as [_ Hsame].
      rewrite Hsame.
      apply (proj1 (Hrej examples.listing_8_5m examples.mandate_500k_5m None false)).
      exists r. split; assumption.
    + exists r. repeat split; assumption.
Defined.

(** C7, as the specification words it, fails next to the threshold.  With
    a maximum of 10^17 and a price of 120,000,000,000,000,001 the excess is
    more than 20% of the maximum, but the quotient rounds to the float
    nearest to 0.2, the product rounds to 20.0, and the reason is SOFT. *)
Lemma price_excess_above_20_percent_is_soft :
  let l := examples.listing_above_1e17 in
  let m := examples.mandate_max_1e17 in
  exists r,
    check_price_too_high l m = Some r
    /\ code r = "PRICE_EXCEEDS_MAX"
    /\ severity r = SOFT
    /\ 20 < inject_Z (listing.asking_price l - 100000000000000000)
            / inject_Z 100000000000000000 * 100
    /\ rejected (evaluate_rejection l m (Some [check_price_too_high]) false) = false.
Proof.
  cbv zeta. eexists. split; [vm_compute; reflexivity |].
  split; [reflexivity |]. split; [reflexivity |].
  split; [vm_compute; reflexivity |]. vm_compute. reflexivity.
Qed.

End RejectionProperties.

(** ** Planning: feasibility *)

Section FeasibilityProperties.

Import planning_models planning_feasibility.

Ltac keeps_blockers_tac :=
  intros ctx s st b Hin;
  repeat match goal with
         | |- context [if ?c then _ else _] => destruct c
         end;
  cbn [snd blockers_ positive_append negative_append neutral_append
       blockers_append recommendations_append];
  try (apply in_or_app; left); exact Hin.

Lemma keeps_conservation_area : keeps_blockers _assess_conservation_area.
Proof. unfold keeps_blockers, _assess_conservation_area. keeps_blockers_tac. Qed.

Lemma keeps_green_belt : keeps_blockers _assess_green_belt.
Proof. unfold keeps_blockers, _assess_green_belt. keeps_blockers_tac. Qed.

Lemma keeps_flood_zone : keeps_blockers _assess_flood_zone.
Proof. unfold keeps_blockers, _assess_flood_zone. keeps_blockers_tac. Qed.

Lemma keeps_article_4 : keeps_blockers _assess_article_4.
Proof. unfold keeps_blockers, _assess_article_4. keeps_blockers_tac. Qed.

Lemma keeps_tpo : keeps_blockers _assess_tpo.
Proof. unfold keeps_blockers, _assess_tpo. keeps_blockers_tac. Qed.

Lemma keeps_property_type : keeps_blockers _assess_property_type.
Proof. unfold keeps_blockers, _assess_property_type. keeps_blockers_tac. Qed.

Lemma keeps_tenure : keeps_blockers _assess_tenure.
Proof. unfold keeps_blockers, _assess_tenure. keeps_blockers_tac. Qed.

Lemma keeps_plot_size : keeps_blockers _assess_plot_size.
Proof.
  unfold keeps_blockers, _assess_plot_size, absolute_plot_size. keeps_blockers_tac.
Qed.

Lemma keeps_pd_rights : keeps_blockers _assess_pd_rights.
Proof. unfold keeps_blockers, _assess_pd_rights. keeps_blockers_tac. Qed.

Lemma listed_grade_I_blocks (ctx : PlanningContext) (s : Z) (st : Lists) :
  listed_building ctx = true ->
  listed_grade ctx = "I" ->
  In grade_I_blocker (blockers_ (snd (_assess_listed_building ctx s st))).
Proof.
  intros Hl Hg. unfold _assess_listed_building. rewrite Hl, Hg. simpl.
  apply in_or_app. right. left. reflexivity.
Qed.

(** The blockers of the result are those left by the ten helpers, and any
    blocker caps the clamped score at 20. *)
Lemma blocker_caps_score (ctx : PlanningContext) :
  blockers (assess_feasibility ctx) <> [] ->
  (0 <= score (assess_feasibility ctx) <= 20)%Z.
Proof.
  unfold assess_feasibility.
  repeat match goal with
         | |- context [let '(_, _) := ?e in _] => destruct e
         end.
  cbn [blockers score]. intros H.
  destruct (blockers_ _) eqn:E; [contradiction |]. simpl. lia.
Qed.

Lemma score_clamped (ctx : PlanningContext) :
  (0 <= score (assess_feasibility ctx) <= 100)%Z.
Proof.
  unfold assess_feasibility.
  repeat match goal with
         | |- context [let '(_, _) := ?e in _] => destruct e
         end.
  cbn [score]. destruct (negb _); lia.
Qed.

Lemma grade_I_blocker_recorded (ctx : PlanningContext) :
  listed_building ctx = true ->
  listed_grade ctx = "I" ->
  In grade_I_blocker (blockers (assess_feasibility ctx)).
Proof.
  intros Hl Hg.
  pose proof (listed_grade_I_blocks ctx 70 no_lists Hl Hg) as H.
  unfold assess_feasibility.
  destruct (_assess_listed_building ctx 70 no_lists) as [s1 st1]. simpl in H.
  apply (keeps_conservation_area ctx s1) in H.
  destruct (_assess_conservation_area ctx s1 st1) as [s2 st2]. simpl in H.
  apply (keeps_green_belt ctx s2) in H.
  destruct (_assess_green_belt ctx s2 st2) as [s3 st3]. simpl in H.
  apply (keeps_flood_zone ctx s3) in H.
  destruct (_assess_flood_zone ctx s3 st3) as [s4 st4]. simpl in H.
  apply (keeps_article_4 ctx s4) in H.
  destruct (_assess_article_4 ctx s4 st4) as [s5 st5]. simpl in H.
  apply (keeps_tpo ctx s5) in H.
  destruct (_assess_tpo ctx s5 st5) as [s6 st6]. simpl in H.
  apply (keeps_property_type ctx s6) in H.
  destruct (_assess_property_type ctx s6 st6) as [s7 st7]. simpl in H.
  apply (keeps_tenure ctx s7) in H.
  destruct (_assess_tenure ctx s7 st7) as [s8 st8]. simpl in H.
  apply (keeps_plot_size ctx s8) in H.
  destruct (_assess_plot_size ctx s8 st8) as [s9 st9]. simpl in H.
  apply (keeps_pd_rights ctx s9) in H.
  destruct (_assess_pd_rights ctx s9 st9) as [s10 st10]. simpl in H.
  cbn [blockers]. exact H.
Qed.

(** C9.  For every planning context with [listed_building] set and listed
    grade "I", [assess_feasibility] returns a score of at most 30 (in fact
    at most 20, the blocker cap) and a non-empty blockers list that holds
    the Grade I blocker. *)
Theorem grade_I_feasibility_capped (ctx : PlanningContext) :
  listed_building ctx = true ->
  listed_grade ctx = "I" ->
  (score (assess_feasibility ctx) <= 30)%Z
  /\ blockers (assess_feasibility ctx) <> []
  /\ In grade_I_blocker (blockers (assess_feasibility ctx))
  /\ (0 <= score (assess_feasibility ctx) <= 20)%Z.
Proof.
  intros Hl Hg.
  pose proof (grade_I_blocker_recorded ctx Hl Hg) as Hin.
  assert (Hne : blockers (assess_feasibility ctx) <> []).
  { intros E. rewrite E in Hin. exact Hin. }
  pose proof (blocker_caps_score ctx Hne) as Hcap.
  repeat split; try assumption; lia.
Qed.

(** The Grade I detached freehold house of the tests scores 20. *)
Lemma grade_I_feasibility_witness :
  (score (assess_feasibility examples.grade_I_house) <= 30)%Z
  /\ blockers (assess_feasibility examples.grade_I_house) <> []
  /\ In grade_I_blocker (blockers (assess_feasibility examples.grade_I_house))
  /\ (0 <= score (assess_feasibility examples.grade_I_house) <= 20)%Z.
Proof.
  apply (grade_I_feasibility_capped examples.grade_I_house); reflexivity.
Defined.

End FeasibilityProperties.

(** ** Planning: the score combiner *)

Section PlanningScoreProperties.

Import planning_models planning_score.

(** On a non-negative float [int(x)] is the floor. *)
Lemma int_of_float_floor (x : Q) : 0 <= x -> int_of_float x = Qfloor x.
Proof.
  intros H. destruct x as [n d]. unfold int_of_float, Qfloor. simpl.
  apply Z.quot_div_nonneg; [| lia].
  unfold Qle in H. simpl in H. lia.
Qed.

Lemma int_of_float_bounds (x : Q) :
  0 <= x ->
  inject_Z (int_of_float x) <= x /\ x < inject_Z (int_of_float x) + 1.
Proof.
  intros H. rewrite (int_of_float_floor x H). split.
  - apply Qfloor_le.
  - pose proof (Qlt_floor x) as Hlt.
    rewrite inject_Z_plus in Hlt. exact Hlt.
Qed.

Lemma int_of_float_nonneg (x : Q) : 0 <= x -> (0 <= int_of_float x)%Z.
Proof.
  intros H. destruct x as [n d]. unfold int_of_float. simpl.
  apply Z.quot_pos; [| lia]. unfold Qle in H. simpl in H. lia.
Qed.

Lemma Qfloor_between (w : Q) (k : Z) :
  inject_Z k <= w -> w < inject_Z k + 1 -> Qfloor w = k.
Proof.
  intros H1 H2. apply Z.le_antisymm.
  - pose proof (Qfloor_le w) as Hf.
    assert (H : inject_Z (Qfloor w) < inject_Z (k + 1))
      by (rewrite inject_Z_plus; change (inject_Z 1) with 1; lra).
    rewrite <- Zlt_Qlt in H. lia.
  - rewrite <- (Qfloor_Z k). apply Qfloor_resp_le. exact H1.
Qed.

Lemma float_of_int_mono (a b : Z) : (a <= b)%Z -> float_of_int a <= float_of_int b.
Proof.
  intros H. unfold float_of_int. apply round64_mono. rewrite <- Zle_Qle. exact H.
Qed.

Lemma float_of_int_nonneg (a : Z) : (0 <= a)%Z -> 0 <= float_of_int a.
Proof.
  intros H. unfold float_of_int. apply round64_nonneg.
  change 0 with (inject_Z 0). rewrite <- Zle_Qle. exact H.
Qed.

Lemma fmul_mono_l (x y c : Q) : 0 <= c -> x <= y -> fmul x c <= fmul y c.
Proof.
  intros Hc H. unfold fmul. apply round64_mono.
  apply Qmult_le_compat_r; assumption.
Qed.

Lemma fadd_mono (a b a' b' : Q) : a <= a' -> b <= b' -> fadd a b <= fadd a' b'.
Proof. intros H1 H2. unfold fadd. apply round64_mono. lra. Qed.

Lemma fdiv_mono_l (x y c : Q) : 0 < c -> x <= y -> fdiv x c <= fdiv y c.
Proof.
  intros Hc H. unfold fdiv. apply round64_mono.
  apply Qmult_le_compat_r; [exact H |]. apply Qinv_le_0_compat. lra.
Qed.

Lemma weights_nonneg :
  0 <= PRECEDENT_WEIGHT /\ 0 <= FEASIBILITY_WEIGHT /\ 0 <= UPLIFT_WEIGHT.
Proof. repeat split; vm_compute; discriminate. Qed.

Lemma weighted_score_mono (p f us p' f' us' : Z) :
  (p <= p')%Z -> (f <= f')%Z -> (us <= us')%Z ->
  weighted_score p f us <= weighted_score p' f' us'.
Proof.
  intros Hp Hf Hu. destruct weights_nonneg as (W1 & W2 & W3).
  unfold weighted_score.
  repeat apply fadd_mono; apply fmul_mono_l; try assumption;
    apply float_of_int_mono; assumption.
Qed.

Lemma weighted_score_nonneg (p f u : Z) :
  (0 <= p)%Z -> (0 <= f)%Z -> (0 <= u)%Z -> 0 <= weighted_score p f u.
Proof.
  intros Hp Hf Hu.
  apply Qle_trans with (weighted_score 0 0 0); [vm_compute; discriminate |].
  apply weighted_score_mono; assumption.
Qed.

(** Below 128 a rounding moves a value by at most 2^-47. *)
Lemma round64_error_128 (x : Q) :
  0 <= x -> x < 128 ->
  - (1 # 140737488355328) <= round64 x - x <= 1 # 140737488355328.
Proof.
  intros H0 H1. apply (round64_error x 7 H0); [exact H1 | lia].
Qed.

(** The double sum is within 10^-12 of the exact weighted sum
    (7 p + 8 f + 5 u) / 20. *)
Lemma weighted_score_close (p f us : Z) :
  (0 <= p <= 100)%Z -> (0 <= f <= 100)%Z -> (0 <= us <= 100)%Z ->
  - (1 # 1000000000000)
  <= weighted_score p f us - inject_Z (7 * p + 8 * f + 5 * us) / 20
  <= 1 # 1000000000000.
Proof.
  intros [Hp0 Hp1] [Hf0 Hf1] [Hu0 Hu1].
  rewrite !inject_Z_plus, !inject_Z_mult.
  rewrite Zle_Qle in Hp0, Hp1, Hf0, Hf1, Hu0, Hu1.
  change (inject_Z 0) with 0 in *. change (inject_Z 100) with 100 in *.
  change (inject_Z 7) with 7. change (inject_Z 8) with 8. change (inject_Z 5) with 5.
  unfold weighted_score, fadd, fmul, float_of_int.
  let v := eval vm_compute in PRECEDENT_WEIGHT in change PRECEDENT_WEIGHT with v.
  let v := eval vm_compute in FEASIBILITY_WEIGHT in change FEASIBILITY_WEIGHT with v.
  let v := eval vm_compute in UPLIFT_WEIGHT in change UPLIFT_WEIGHT with v.
  set (qp := inject_Z p) in *. set (qf := inject_Z f) in *. set (qu := inject_Z us) in *.
  pose proof (round64_error_128 qp ltac:(lra) ltac:(lra)) as E1.
  pose proof (round64_nonneg qp Hp0) as P0.
  set (P := round64 qp) in *.
  match goal with
  | |- context [round64 (P * ?c)] =>
      pose proof (round64_error_128 (P * c) ltac:(lra) ltac:(lra)) as E2;
      pose proof (round64_nonneg (P * c) ltac:(lra)) as A0;
      set (A := round64 (P * c)) in *
  end.
  pose proof (round64_error_128 qf ltac:(lra) ltac:(lra)) as E3.
  pose proof (round64_nonneg qf Hf0) as F0.
  set (F := round64 qf) in *.
  match goal with
  | |- context [round64 (F * ?c)] =>
      pose proof (round64_error_128 (F * c) ltac:(lra) ltac:(lra)) as E4;
      pose proof (round64_nonneg (F * c) ltac:(lra)) as B0;
      set (B := round64 (F * c)) in *
  end.
  pose proof (round64_error_128 (A + B) ltac:(lra) ltac:(lra)) as E5.
  pose proof (round64_nonneg (A + B) ltac:(lra)) as AB0.
  set (AB := round64 (A + B)) in *.
  pose proof (round64_error_128 qu ltac:(lra) ltac:(lra)) as E6.
  pose proof (round64_nonneg qu Hu0) as U0.
  set (U := round64 qu) in *.
  match goal with
  | |- context [round64 (U * ?c)] =>
      pose proof (round64_error_128 (U * c) ltac:(lra) ltac:(lra)) as E7;
      pose proof (round64_nonneg (U * c) ltac:(lra)) as C0;
      set (C := round64 (U * c)) in *
  end.
  pose proof (round64_error_128 (AB + C) ltac:(lra) ltac:(lra)) as E8.
  set (W := round64 (AB + C)) in *.
  clearbody W C U AB B A F P. unfold Qdiv. change (/ 20) with (1 # 20). split; lra.
Qed.

(** The integer the code returns, from the exact weighted sum n / 20. *)
Lemma truncated_near (w : Q) (n : Z) :
  0 <= w ->
  - (1 # 1000000000000) <= w - inject_Z n / 20 <= 1 # 1000000000000 ->
  int_of_float w = (n / 20)%Z
  \/ ((n mod 20)%Z = 0%Z /\ int_of_float w = (n / 20 - 1)%Z).
Proof.
  intros Hw [H1 H2]. rewrite (int_of_float_floor w Hw).
  unfold Qdiv in H1, H2. change (/ 20) with (1 # 20) in H1, H2.
  pose proof (Z.div_mod n 20 ltac:(lia)) as Hn.
  pose proof (Z.mod_pos_bound n 20 ltac:(lia)) as Hr.
  set (k := (n / 20)%Z) in *. set (r := (n mod 20)%Z) in *.
  assert (En : inject_Z n == 20 * inject_Z k + inject_Z r)
    by (rewrite Hn, inject_Z_plus, inject_Z_mult; reflexivity).
  assert (Hr0 : 0 <= inject_Z r)
    by (change 0 with (inject_Z 0); rewrite <- Zle_Qle; lia).
  assert (Hr1 : inject_Z r <= 19)
    by (change 19 with (inject_Z 19); rewrite <- Zle_Qle; lia).
  destruct (Z.eq_dec r 0%Z) as [E | N].
  - assert (Er : inject_Z r == 0) by (rewrite E; reflexivity).
    destruct (Qlt_le_dec w (inject_Z k)) as [Hlt | Hge].
    + right. split; [exact E |].
      assert (Ek : inject_Z (k - 1) == inject_Z k - 1)
        by (unfold Z.sub; rewrite inject_Z_plus; reflexivity).
      apply Qfloor_between; rewrite Ek; lra.
    + left. apply Qfloor_between; lra.
  - left.
    assert (Hr2 : 1 <= inject_Z r)
      by (change 1 with (inject_Z 1); rewrite <- Zle_Qle; lia).
    apply Qfloor_between; lra.
Qed.

Lemma label_thresholds (sc : Z) :
  let lb := if (80 <=? sc)%Z then EXCEPTIONAL
            else if (60 <=? sc)%Z then STRONG
            else if (40 <=? sc)%Z then MEDIUM else LOW in
  (lb = EXCEPTIONAL <-> (80 <= sc)%Z)
  /\ (lb = STRONG <-> (60 <= sc < 80)%Z)
  /\ (lb = MEDIUM <-> (40 <= sc < 60)%Z)
  /\ (lb = LOW <-> (sc < 40)%Z).
Proof.
  cbv zeta.
  destruct (Z.leb_spec 80 sc), (Z.leb_spec 60 sc), (Z.leb_spec 40 sc);
    repeat split; intros; try discriminate; try reflexivity; lia.
Qed.

Lemma uplift_component_nonneg (u : Q) :
  0 <= u ->
  (0 <= Z.min 100 (int_of_float (fmul (fdiv u (float_of_int 30)) (float_of_int 100))))%Z.
Proof.
  intros Hu. apply Z.min_glb; [lia |]. apply int_of_float_nonneg.
  unfold fmul, fdiv. apply round64_nonneg.
  apply Qmult_le_0_compat; [| vm_compute; discriminate].
  apply round64_nonneg. apply Qle_shift_div_l; [vm_compute; reflexivity | lra].
Qed.

(** C8, as the code has it.  The overall planning score is
    int(0.35 p + 0.40 f + 0.25 u') with u' = min(100, int(u/30*100)),
    every operation in binary64: the uplift component and the weighted sum
    are both truncated, not rounded.  For component scores in [0, 100] and
    a non-negative uplift the score is the floor of the exact weighted sum
    (7 p + 8 f + 5 u') / 20, except that, when that sum is a whole number,
    the score may be one less: the double sum can fall just below it.  The
    label is exceptional from 80, strong from 60, medium from 40 and low
    below. *)
Theorem planning_score_is_truncated (p f : Z) (u : Q) :
  let r := calculate_planning_score p f u in
  uplift_score r
  = Z.min 100 (int_of_float (fmul (fdiv u (float_of_int 30)) (float_of_int 100)))
  /\ score r
     = int_of_float
         (fadd (fadd (fmul (float_of_int p) (round64 0.35))
                     (fmul (float_of_int f) (round64 0.40)))
               (fmul (float_of_int (uplift_score r)) (round64 0.25)))
  /\ (label r = EXCEPTIONAL <-> (80 <= score r)%Z)
  /\ (label r = STRONG <-> (60 <= score r < 80)%Z)
  /\ (label r = MEDIUM <-> (40 <= score r < 60)%Z)
  /\ (label r = LOW <-> (score r < 40)%Z)
  /\ ((0 <= p <= 100)%Z -> (0 <= f <= 100)%Z -> 0 <= u ->
      let n := (7 * p + 8 * f + 5 * uplift_score r)%Z in
      (0 <= uplift_score r <= 100)%Z
      /\ (score r = (n / 20)%Z
          \/ ((n mod 20)%Z = 0%Z /\ score r = (n / 20 - 1)%Z))).
Proof.
  cbv zeta. unfold calculate_planning_score. cbn [uplift_score score label].
  set (us := Z.min 100 (int_of_float _)).
  change (fadd (fadd (fmul (float_of_int p) (round64 0.35))
                     (fmul (float_of_int f) (round64 0.40)))
               (fmul (float_of_int us) (round64 0.25)))
    with (weighted_score p f us).
  set (sc := int_of_float (weighted_score p f us)).
  unfold EXCEPTIONAL_THRESHOLD, STRONG_THRESHOLD, MEDIUM_THRESHOLD.
  split; [reflexivity |]. split; [reflexivity |].
  split; [apply label_thresholds |]. split; [apply label_thresholds |].
  split; [apply label_thresholds |]. split; [apply label_thresholds |].
  intros Hp Hf Hu.
  assert (Hus : (0 <= us <= 100)%Z).
  { split; [apply uplift_component_nonneg; exact Hu | apply Z.le_min_l]. }
  split; [exact Hus |].
  apply truncated_near.
  - apply weighted_score_nonneg; lia.
  - apply weighted_score_close; assumption.
Qed.

(** With precedent 72, feasibility 80 and a 15% uplift the exact weighted
    sum is 69.7: the score is 69, its floor, and the label is strong. *)
Lemma planning_score_truncated_witness :
  score (calculate_planning_score 72 80 15) = 69%Z
  /\ label (calculate_planning_score 72 80 15) = STRONG
  /\ (0 <= uplift_score (calculate_planning_score 72 80 15) <= 100)%Z
  /\ (score (calculate_planning_score 72 80 15)
      = ((7 * 72 + 8 * 80 + 5 * uplift_score (calculate_planning_score 72 80 15))
         / 20)%Z
      \/ (((7 * 72 + 8 * 80 + 5 * uplift_score (calculate_planning_score 72 80 15))
           mod 20)%Z = 0%Z
          /\ score (calculate_planning_score 72 80 15)
             = ((7 * 72 + 8 * 80
                 + 5 * uplift_score (calculate_planning_score 72 80 15)) / 20 - 1)%Z)).
Proof.
  destruct (planning_score_is_truncated 72 80 15)
    as (_ & _ & _ & Hstrong & _ & _ & Hbounds).
  assert (E : score (calculate_planning_score 72 80 15) = 69%Z)
    by (vm_compute; reflexivity).
  split; [exact E |]. split.
  - apply Hstrong. rewrite E. lia.
  - apply Hbounds; [lia | lia | unfold Qle; simpl; lia].
Defined.

(** Both cases of the truncation occur: at (96, 16, 0) the exact weighted
    sum is 40, the double sum is 39.99999999999999 and the score is 39, a
    LOW label; at (100, 100, 30) the sum is 100 and so is the score.  A
    mid uplift of 8.7% counts as 28, not 29: 8.7/30*100 is
    28.999999999999996 in binary64. *)
Lemma planning_score_at_whole_sums :
  score (calculate_planning_score 96 16 0) = 39%Z
  /\ label (calculate_planning_score 96 16 0) = LOW
  /\ score (calculate_planning_score 100 100 30) = 100%Z
  /\ uplift_score (calculate_planning_score 0 0 8.7) = 28%Z.
Proof. repeat split; vm_compute; reflexivity. Qed.

(** C8, as the specification words it, fails: at (72, 80, 15) rounding the
    weighted sum 69.7 gives 70, while the code returns 69. *)
Lemma planning_score_not_rounded :
  planning_models.score (calculate_planning_score 72 80 15) = 69%Z
  /\ spec.rounded_planning_score 72 80 15 = 70%Z
  /\ planning_models.score (calculate_planning_score 72 80 15)
     <> spec.rounded_planning_score 72 80 15.
Proof.
  split; [vm_compute; reflexivity |]. split; [reflexivity |]. vm_compute. discriminate.
Qed.

End PlanningScoreProperties.

(** ** Scoring: the choice of weights *)

Section WeightProperties.

Import scoring.

(** No explicit weights, or an empty dict: the mandate's own weights. *)
Lemma active_weights_mandate (m : mandate.Mandate) :
  active_weights m None
  = mandate.ScoringWeights.to_dict (mandate.scoring_weights m)
  /\ active_weights m (Some ∅)
     = mandate.ScoringWeights.to_dict (mandate.scoring_weights m).
Proof. split; reflexivity. Qed.

Lemma nonempty_size (w : gmap string Q) : w <> ∅ -> Nat.eqb (size w) 0 = false.
Proof.
  intros H. apply Nat.eqb_neq. intros E. apply H. apply map_size_empty_iff. exact E.
Qed.

(** A key the explicit weights have: the explicit weight. *)
Lemma active_weights_explicit (m : mandate.Mandate) (w : gmap string Q)
    (k : string) (v : Q) :
  w !! k = Some v -> active_weights m (Some w) !! k = Some v.
Proof.
  intros H. unfold active_weights.
  assert (Hne : w <> ∅) by (intros ->; rewrite lookup_empty in H; discriminate).
  rewrite (nonempty_size w Hne). cbn [negb].
  apply lookup_union_Some_l. exact H.
Qed.

(** A key the (non-empty) explicit weights lack: the default, whatever
    the mandate's own weight is. *)
Lemma active_weights_fallback (m : mandate.Mandate) (w : gmap string Q)
    (k : string) :
  w <> ∅ -> w !! k = None ->
  active_weights m (Some w) !! k = DEFAULT_WEIGHTS !! k.
Proof.
  intros Hne H. unfold active_weights.
  rewrite (nonempty_size w Hne). cbn [negb].
  apply lookup_union_r. exact H.
Qed.

(** Whatever the [weights] argument, the active weights have all ten
    factor names: the scorers never raise [KeyError]. *)
Lemma active_weights_has_key (m : mandate.Mandate)
    (weights : option (gmap string Q)) (k : string) :
  In k FACTOR_KEYS -> exists v, active_weights m weights !! k = Some v.
Proof.
  intros Hk.
  assert (Hd : exists v, DEFAULT_WEIGHTS !! k = Some v).
  { unfold FACTOR_KEYS in Hk. simpl in Hk.
    repeat (destruct Hk as [<- | Hk]; [eexists; reflexivity |]). contradiction. }
  assert (Hm : exists v,
             mandate.ScoringWeights.to_dict (mandate.scoring_weights m) !! k
             = Some v).
  { unfold FACTOR_KEYS in Hk. simpl in Hk.
    repeat (destruct Hk as [<- | Hk]; [eexists; reflexivity |]). contradiction. }
  unfold active_weights. destruct weights as [w |]; [| exact Hm].
  destruct (negb (Nat.eqb (size w) 0)); [| exact Hm].
  destruct (w !! k) as [v |] eqn:E.
  - exists v. apply lookup_union_Some_l. exact E.
  - destruct Hd as [v Hv]. exists v. rewrite lookup_union_r by exact E. exact Hv.
Qed.

(** C4 at its failing input: the mandate weighs the region at 0.30, the
    explicit argument covers only [price_range]; the region factor of the
    result is weighted by the default 0.15, not by the mandate's 0.30. *)
Theorem partial_override_ignores_mandate_weights :
  mandate.ScoringWeights.location_region
    (mandate.scoring_weights examples.mandate_region_heavy) == 0.30
  /\ examples.override_price_only !! "location_region" = None
  /\ active_weights examples.mandate_region_heavy
       (Some examples.override_price_only) !! "location_region"
     = DEFAULT_WEIGHTS !! "location_region"
  /\ exists r f rest,
       score_listing examples.listing_2m examples.mandate_region_heavy
         (Some examples.override_price_only) = Ok r
       /\ factors r = f :: rest
       /\ name f = "region_match"
       /\ weight f == 0.15
       /\ ~ weight f == 0.30.
Proof.
  split; [reflexivity |]. split; [reflexivity |]. split.
  - apply active_weights_fallback; [| reflexivity].
    intros E. apply (f_equal (fun w : gmap string Q => w !! "price_range")) in E.
    vm_compute in E. discriminate E.
  - eexists. eexists. eexists. split; [vm_compute; reflexivity |].
    cbn [factors]. split; [reflexivity |]. cbn [name weight].
    repeat split. discriminate.
Qed.

End WeightProperties.

(** ** Scoring: the price-range sub-score *)

Section PriceProperties.

Import scoring.

Lemma range_position_bounds (price mn mx : Z) :
  (mn <= price <= mx)%Z -> (mn < mx)%Z ->
  0 <= inject_Z (price - mn) / inject_Z (mx - mn)
  /\ inject_Z (price - mn) / inject_Z (mx - mn) <= 1.
Proof.
  intros Hp Hlt.
  assert (Hd : 0 < inject_Z (mx - mn)) by (unfold Qlt; simpl; lia).
  split.
  - apply Qle_shift_div_l; [exact Hd |]. unfold Qle. simpl. lia.
  - apply Qle_shift_div_r; [exact Hd |]. unfold Qle. simpl. lia.
Qed.

Lemma price_range_score_inside (price mn mx : Z) :
  mn <> 0%Z -> mx <> 0%Z -> (mn <= price <= mx)%Z -> (mn < mx)%Z ->
  price_range_score price (Some mn) (Some mx)
  = Ok (1.0 - Qabs (0.5 - inject_Z (price - mn) / inject_Z (mx - mn)) * 0.4).
Proof.
  intros Hmn Hmx [Hlo Hhi] Hlt. unfold price_range_score. simpl.
  apply Z.eqb_neq in Hmn. apply Z.eqb_neq in Hmx. rewrite Hmn, Hmx. simpl.
  apply Z.leb_le in Hlo. apply Z.leb_le in Hhi. rewrite Hlo, Hhi. simpl.
  rewrite truediv_ok; [reflexivity |].
  apply inject_Z_nonzero. lia.
Qed.

Lemma price_psf_score_total (cap psf : option Q) :
  exists q, price_psf_score cap psf = Ok q.
Proof.
  unfold price_psf_score.
  destruct (truthyQ cap) eqn:Hc; simpl; [| eexists; reflexivity].
  destruct (truthyQ psf); simpl; [| eexists; reflexivity].
  destruct (Qleb (valQ psf) (valQ cap)); [eexists; reflexivity |].
  apply truthyQ_Some in Hc. destruct Hc as (q & -> & Hq). simpl.
  rewrite truediv_ok by exact Hq. simpl. eexists; reflexivity.
Qed.

Lemma inside_score_facts (price mn mx : Z) :
  (mn <= price <= mx)%Z -> (mn < mx)%Z ->
  let s := 1.0 - Qabs (0.5 - inject_Z (price - mn) / inject_Z (mx - mn)) * 0.4 in
  s == 1 - 0.4 * Qabs (0.5 - inject_Z (price - mn) / inject_Z (mx - mn))
  /\ 0.8 <= s /\ s <= 1
  /\ ((price = mn \/ price = mx) -> s == 0.8)
  /\ ((2 * price = mn + mx)%Z -> s == 1).
Proof.
  intros Hin Hlt. cbv zeta.
  destruct (range_position_bounds price mn mx Hin Hlt) as [H0 H1].
  assert (Hd : ~ inject_Z (mx - mn) == 0) by (apply inject_Z_nonzero; lia).
  set (pos := inject_Z (price - mn) / inject_Z (mx - mn)) in *.
  assert (Habs : 0 <= Qabs (0.5 - pos) /\ Qabs (0.5 - pos) <= 0.5).
  { split; [apply Qabs_nonneg |]. apply Qabs_Qle_condition. split; lra. }
  split; [lra |]. split; [lra |]. split; [lra |]. split.
  - intros [He | He].
    + assert (Hp : pos == 0).
      { unfold pos. rewrite He, Z.sub_diag. unfold Qdiv. apply Qmult_0_l. }
      rewrite Hp. reflexivity.
    + assert (Hp : pos == 1).
      { unfold pos. rewrite He. apply Qmult_inv_r. exact Hd. }
      rewrite Hp. reflexivity.
  - intros He.
    assert (Hp : pos == 0.5).
    { unfold pos. apply (Qmult_inj_r _ _ (inject_Z (mx - mn)) Hd).
      unfold Qdiv.
      rewrite <- Qmult_assoc, (Qmult_comm (/ _)), Qmult_inv_r by exact Hd.
      rewrite Qmult_1_r. unfold Qeq. simpl. lia. }
    rewrite Hp. reflexivity.
Qed.

(** A bound of 0 is falsy, so the code takes it for an absent bound: with
    the other bound alone every price of the range scores 1.0. *)
Lemma price_range_score_zero_bound (price mn mx : Z) :
  mn = 0%Z \/ mx = 0%Z -> (mn <= price <= mx)%Z -> (mn < mx)%Z ->
  price_range_score price (Some mn) (Some mx) = Ok 1.0.
Proof.
  intros Hz [Hlo Hhi] Hlt. unfold price_range_score. cbn [truthyZ valZ].
  apply Z.leb_le in Hlo. apply Z.leb_le in Hhi.
  destruct Hz as [-> | ->].
  - cbn [Z.eqb negb andb].
    assert (Hmx : (mx =? 0)%Z = false) by (apply Z.eqb_neq; lia).
    rewrite Hmx. cbn [negb]. rewrite Hhi. reflexivity.
  - assert (Hmn : (mn =? 0)%Z = false) by (apply Z.eqb_neq; lia).
    rewrite Hmn. cbn [Z.eqb negb andb]. rewrite Hlo. reflexivity.
Qed.

(** The price-range factor for a price inside a proper range, for any
    weights dict that has the two price keys. *)
Lemma price_range_factor_inside
    (l : listing.Listing) (m : mandate.Mandate) (weights : gmap string Q)
    (mn mx : Z) (w_range w_psf : Q) (s : Q) :
  mandate.min_deal_size (mandate.financial m) = Some mn ->
  mandate.max_deal_size (mandate.financial m) = Some mx ->
  price_range_score (listing.asking_price l) (Some mn) (Some mx) = Ok s ->
  weights !! "price_range" = Some w_range ->
  weights !! "price_psf" = Some w_psf ->
  exists f1 f2,
    _score_price l m weights = Ok [f1; f2]
    /\ name f1 = "price_range"
    /\ score f1 = s.
Proof.
  intros Hmin Hmax Hs Hwr Hwp.
  unfold _score_price. rewrite Hmin, Hmax, Hs.
  cbn [Py.bind]. unfold factor at 1, getitem. rewrite Hwr. cbn [Py.bind].
  destruct (price_psf_score_total (mandate.max_price_psf (mandate.financial m))
              (listing.price_per_sqft (listing.financial l))) as [q Hq].
  rewrite Hq. cbn [Py.bind]. unfold factor, getitem. rewrite Hwp. cbn [Py.bind].
  eexists. eexists. split; [reflexivity |]. cbn [name score].
  split; reflexivity.
Qed.

(** C3, as the code has it.  With both bounds configured, [min < max] and
    the asking price inside the range, [score_listing] gets a price-range
    factor from [_score_price] (whatever the [weights] argument).  When
    both bounds are non-zero it scores 1.0 minus 0.4 times the distance of
    the range position from 0.5; the score lies between 0.8 and 1.0, is 1.0
    at the midpoint and 0.8 at either edge: the largest penalty is 0.2.
    When one bound is 0 the code takes it for an absent bound, and the
    factor scores 1.0 throughout the range. *)
Theorem price_range_penalty_is_at_most_0_2
    (l : listing.Listing) (m : mandate.Mandate)
    (weights : option (gmap string Q)) (mn mx : Z) :
  mandate.min_deal_size (mandate.financial m) = Some mn ->
  mandate.max_deal_size (mandate.financial m) = Some mx ->
  (mn <= listing.asking_price l <= mx)%Z ->
  (mn < mx)%Z ->
  exists f1 f2,
    _score_price l m (active_weights m weights) = Ok [f1; f2]
    /\ name f1 = "price_range"
    /\ (mn <> 0%Z -> mx <> 0%Z ->
        score f1
        == 1 - 0.4 * Qabs (0.5 - inject_Z (listing.asking_price l - mn)
                                  / inject_Z (mx - mn))
        /\ 0.8 <= score f1 /\ score f1 <= 1
        /\ ((listing.asking_price l = mn \/ listing.asking_price l = mx) ->
            score f1 == 0.8)
        /\ ((2 * listing.asking_price l = mn + mx)%Z -> score f1 == 1))
    /\ (mn = 0%Z \/ mx = 0%Z -> score f1 == 1).
Proof.
  intros Hmin Hmax Hin Hlt.
  destruct (active_weights_has_key m weights "price_range") as [w_range Hwr];
    [unfold FACTOR_KEYS; simpl; tauto |].
  destruct (active_weights_has_key m weights "price_psf") as [w_psf Hwp];
    [unfold FACTOR_KEYS; simpl; tauto |].
  destruct (Z.eq_dec mn 0%Z) as [Zmn | Nmn]; [| destruct (Z.eq_dec mx 0%Z) as [Zmx | Nmx]].
  - destruct (price_range_factor_inside l m _ mn mx w_range w_psf 1.0
                Hmin Hmax
                (price_range_score_zero_bound _ mn mx (or_introl Zmn) Hin Hlt)
                Hwr Hwp) as (f1 & f2 & H & Hn & Hs).
    exists f1, f2. split; [exact H |]. split; [exact Hn |]. split.
    + intros Hne. contradiction.
    + intros _. rewrite Hs. reflexivity.
  - destruct (price_range_factor_inside l m _ mn mx w_range w_psf 1.0
                Hmin Hmax
                (price_range_score_zero_bound _ mn mx (or_intror Zmx) Hin Hlt)
                Hwr Hwp) as (f1 & f2 & H & Hn & Hs).
    exists f1, f2. split; [exact H |]. split; [exact Hn |]. split.
    + intros _ Hne. contradiction.
    + intros _. rewrite Hs. reflexivity.
  - destruct (price_range_factor_inside l m _ mn mx w_range w_psf _
                Hmin Hmax
                (price_range_score_inside _ mn mx Nmn Nmx Hin Hlt)
                Hwr Hwp) as (f1 & f2 & H & Hn & Hs).
    exists f1, f2. split; [exact H |]. split; [exact Hn |]. split.
    + intros _ _. rewrite Hs.
      exact (inside_score_facts (listing.asking_price l) mn mx Hin Hlt).
    + intros [Z0 | Z0]; contradiction.
Qed.

(** The listing priced at 2,000,000 in the range 500,000 to 5,000,000,
    scored with the mandate's own weights. *)
Lemma price_range_penalty_witness :
  exists f1 f2,
    _score_price examples.listing_2m examples.mandate_500k_5m
      (active_weights examples.mandate_500k_5m None) = Ok [f1; f2]
    /\ name f1 = "price_range"
    /\ 0.8 <= score f1 /\ score f1 <= 1.
Proof.
  destruct (price_range_penalty_is_at_most_0_2
              examples.listing_2m examples.mandate_500k_5m None
              500000 5000000)
    as (f1 & f2 & H & Hn & Hin & _); try reflexivity; try lia.
  - vm_compute. split; discriminate.
  - destruct Hin as (_ & Hlo & Hhi & _); [lia | lia |].
    exists f1, f2. repeat split; assumption.
Defined.

(** With a minimum of 0 and a maximum of 5,000,000 a listing priced at
    500,000 scores 1.0 on the price-range factor, not the 0.84 of its
    position in the range. *)
Lemma zero_minimum_scores_one :
  exists f1 f2,
    _score_price examples.listing_500k examples.mandate_0_5m
      (active_weights examples.mandate_0_5m None) = Ok [f1; f2]
    /\ name f1 = "price_range"
    /\ score f1 == 1.
Proof.
  eexists. eexists. split; [vm_compute; reflexivity |].
  cbn [name score]. split; reflexivity.
Qed.

(** C3, as the specification words it, fails: at the lower edge of the
    range the sub-score is 0.8, not 0.6. *)
Lemma price_range_edge_is_not_0_6 :
  exists f1 f2,
    _score_price examples.listing_500k examples.mandate_500k_5m
      (active_weights examples.mandate_500k_5m None) = Ok [f1; f2]
    /\ name f1 = "price_range"
    /\ listing.asking_price examples.listing_500k = 500000%Z
    /\ mandate.min_deal_size (mandate.financial examples.mandate_500k_5m)
       = Some 500000%Z
    /\ score f1 == 0.8
    /\ ~ score f1 == 0.6.
Proof.
  eexists. eexists. split; [vm_compute; reflexivity |].
  cbn [name score]. repeat split. discriminate.
Qed.

End PriceProperties.

(** ** Scoring: the region factor *)

Section LocationProperties.

Import scoring.

(** The region factor, whatever the postcode factor does. *)
Lemma region_factor (l : listing.Listing) (m : mandate.Mandate)
    (weights : gmap string Q) (w_region w_postcode : Q) :
  weights !! "location_region" = Some w_region ->
  weights !! "location_postcode" = Some w_postcode ->
  exists f1 f2,
    _score_location l m weights = Ok [f1; f2]
    /\ name f1 = "region_match"
    /\ weight f1 = w_region
    /\ score f1
       = if mandate.is_empty (mandate.regions (mandate.geographic m)) then 1.0
         else if str_in (listing.region l) (mandate.regions (mandate.geographic m))
         then 1.0
         else if str_in (listing.region l)
                   (mandate.exclude_regions (mandate.geographic m))
         then 0.0
         else 0.3.
Proof.
  intros Hr Hp. unfold _score_location, factor, getitem.
  rewrite Hr, Hp. cbn [Py.bind].
  eexists. eexists. split; [reflexivity |]. cbn [name weight score].
  repeat split.
Qed.

(** With an include list that does not name it, an excluded region
    scores 0.0. *)
Lemma excluded_region_with_include_list (l : listing.Listing) (m : mandate.Mandate)
    (weights : gmap string Q) (w_region w_postcode : Q) :
  weights !! "location_region" = Some w_region ->
  weights !! "location_postcode" = Some w_postcode ->
  mandate.regions (mandate.geographic m) <> [] ->
  str_in (listing.region l) (mandate.regions (mandate.geographic m)) = false ->
  str_in (listing.region l) (mandate.exclude_regions (mandate.geographic m)) = true ->
  exists f1 f2,
    _score_location l m weights = Ok [f1; f2]
    /\ name f1 = "region_match" /\ score f1 = 0.0.
Proof.
  intros Hr Hp Hne Hin Hex.
  destruct (region_factor l m weights w_region w_postcode Hr Hp)
    as (f1 & f2 & H & Hn & _ & Hs).
  exists f1, f2. split; [exact H |]. split; [exact Hn |].
  rewrite Hs, Hin, Hex.
  destruct (mandate.regions (mandate.geographic m)); [contradiction | reflexivity].
Qed.

(** Without an include list the exclusion list is never consulted. *)
Lemma excluded_region_without_include_list (l : listing.Listing)
    (m : mandate.Mandate) (weights : gmap string Q) (w_region w_postcode : Q) :
  weights !! "location_region" = Some w_region ->
  weights !! "location_postcode" = Some w_postcode ->
  mandate.regions (mandate.geographic m) = [] ->
  exists f1 f2,
    _score_location l m weights = Ok [f1; f2]
    /\ name f1 = "region_match" /\ score f1 = 1.0.
Proof.
  intros Hr Hp He.
  destruct (region_factor l m weights w_region w_postcode Hr Hp)
    as (f1 & f2 & H & Hn & _ & Hs).
  exists f1, f2. split; [exact H |]. split; [exact Hn |].
  rewrite Hs, He. reflexivity.
Qed.

(** C5 at its failing input: Wales is in [exclude_regions], the include
    list is empty, the listing is in Wales; the hard filter and the
    rejection rule both see the exclusion, but the region factor scores
    1.0, not 0.0. *)
Theorem excluded_region_scores_one_when_no_include_list :
  str_in (listing.region examples.listing_in_wales)
    (mandate.exclude_regions
       (mandate.geographic examples.mandate_excluding_wales)) = true
  /\ mandate.regions (mandate.geographic examples.mandate_excluding_wales) = []
  /\ mandate.accepts_location examples.mandate_excluding_wales
       (listing.region examples.listing_in_wales)
       (listing.postcode_area examples.listing_in_wales) = false
  /\ (exists r,
        rejection.check_location_excluded examples.listing_in_wales
          examples.mandate_excluding_wales = Some r
        /\ rejection.code r = "REGION_EXCLUDED")
  /\ exists f1 f2,
       _score_location examples.listing_in_wales examples.mandate_excluding_wales
         DEFAULT_WEIGHTS = Ok [f1; f2]
       /\ name f1 = "region_match"
       /\ score f1 == 1
       /\ ~ score f1 == 0.
Proof.
  split; [reflexivity |]. split; [reflexivity |]. split; [reflexivity |]. split.
  - eexists. split; [reflexivity | reflexivity].
  - eexists. eexists. split; [vm_compute; reflexivity |].
    cbn [name score]. repeat split. discriminate.
Qed.

End LocationProperties.


(** ** The conviction assessor *)

Section ConvictionProperties.

Import conviction.

Ltac positive_weights_tac :=
  repeat match goal with
         | |- context [if ?c then _ else _] => destruct c
         | |- context [match ?x with _ => _ end] => destruct x
         end;
  repeat (apply Forall_app; split);
  repeat constructor.

Lemma price_weights_positive l m :
  Forall positive_weight (_assess_price_conviction l m).
Proof. unfold _assess_price_conviction. cbv zeta. positive_weights_tac. Qed.

Lemma yield_weights_positive l m :
  Forall positive_weight (_assess_yield_conviction l m).
Proof. unfold _assess_yield_conviction. cbv zeta. positive_weights_tac. Qed.

Lemma location_weights_positive l m :
  Forall positive_weight (_assess_location_conviction l m).
Proof. unfold _assess_location_conviction. cbv zeta. positive_weights_tac. Qed.

Lemma property_weights_positive l m :
  Forall positive_weight (_assess_property_conviction l m).
Proof. unfold _assess_property_conviction. cbv zeta. positive_weights_tac. Qed.

Lemma risk_weights_positive l m :
  Forall positive_weight (_assess_risk_conviction l m).
Proof. unfold _assess_risk_conviction. cbv zeta. positive_weights_tac. Qed.

Lemma gathered_weights_positive l m :
  Forall positive_weight (gather_factors l m).
Proof.
  unfold gather_factors.
  apply Forall_app; split; [apply price_weights_positive |].
  apply Forall_app; split; [apply yield_weights_positive |].
  apply Forall_app; split; [apply location_weights_positive |].
  apply Forall_app; split; [apply property_weights_positive |].
  apply risk_weights_positive.
Qed.

Lemma sum_weights_cons (f : ConvictionFactor) (fs : list ConvictionFactor) :
  sum_weights (f :: fs) == weight f + sum_weights fs.
Proof.
  unfold sum_weights. simpl.
  rewrite (fold_sum_acc weight fs (0 + weight f)). lra.
Qed.

Lemma sum_weights_nonneg (fs : list ConvictionFactor) :
  Forall positive_weight fs -> 0 <= sum_weights fs.
Proof.
  induction 1 as [| f fs Hf _ IH].
  - unfold sum_weights. simpl. lra.
  - rewrite sum_weights_cons. unfold positive_weight in Hf. lra.
Qed.

Lemma sum_weights_positive (fs : list ConvictionFactor) :
  Forall positive_weight fs -> fs <> [] -> 0 < sum_weights fs.
Proof.
  intros H Hne. destruct H as [| f fs Hf Hfs]; [contradiction |].
  rewrite sum_weights_cons. unfold positive_weight in Hf.
  pose proof (sum_weights_nonneg fs Hfs). lra.
Qed.

Lemma level_is_level_for (l : listing.Listing) (m : mandate.Mandate)
    (sc : scoring.ScoringResult) :
  level (assess_conviction l m sc)
  = spec.level_for (mandate.deal_criteria m) (scoring.passes_hard_filters sc)
      (confidence_score (assess_conviction l m sc)).
Proof. reflexivity. Qed.

Lemma level_for_monotone (deal : mandate.DealCriteria) (passes : bool) (c1 c2 : Q) :
  c1 <= c2 ->
  (spec.level_rank (spec.level_for deal passes c1)
   <= spec.level_rank (spec.level_for deal passes c2))%Z.
Proof.
  intros Hle. unfold spec.level_for.
  destruct passes; cbn [negb]; [| simpl; lia].
  destruct (Qgeb c1 (mandate.high_conviction_threshold deal)) eqn:H1;
  destruct (Qgeb c2 (mandate.high_conviction_threshold deal)) eqn:H2;
  destruct (Qgeb c1 (mandate.medium_conviction_threshold deal)) eqn:M1;
  destruct (Qgeb c2 (mandate.medium_conviction_threshold deal)) eqn:M2;
  destruct (Qgeb c1 (mandate.low_conviction_threshold deal)) eqn:L1;
  destruct (Qgeb c2 (mandate.low_conviction_threshold deal)) eqn:L2;
  simpl; try lia;
  repeat match goal with
         | H : Qgeb _ _ = true |- _ => apply Qgeb_true in H
         | H : Qgeb _ _ = false |- _ => apply Qgeb_false in H
         end;
  exfalso; lra.
Qed.

Lemma confidence_blend (l : listing.Listing) (m : mandate.Mandate)
    (sc : scoring.ScoringResult) :
  confidence_score (assess_conviction l m sc)
  == if scoring.passes_hard_filters sc
     then 0.7 * (scoring.total_score sc / 100)
          + 0.3 * spec.factor_confidence (gather_factors l m)
     else 0.3 * spec.factor_confidence (gather_factors l m).
Proof.
  unfold assess_conviction. cbn [confidence_score]. unfold spec.factor_confidence.
  pose proof (gathered_weights_positive l m) as Hpos.
  destruct (gather_factors l m) as [| f fs] eqn:E.
  - unfold sum_weights. simpl.
    destruct (scoring.passes_hard_filters sc); unfold Qdiv; lra.
  - assert (Hs : 0 < sum_weights (f :: fs)).
    { apply sum_weights_positive; [exact Hpos | discriminate]. }
    destruct (Qeq_bool (sum_weights (f :: fs)) 0) eqn:Hz.
    + apply Qeq_bool_iff in Hz. rewrite Hz in Hs. exfalso. lra.
    + destruct (scoring.passes_hard_filters sc); lra.
Qed.

(** C6.  The final confidence is 0.7 (total_score/100) + 0.3 c when the
    hard filters pass and 0.3 c when they fail, where c is the weight of
    the met factors over the weight of all factors (every factor weight is
    positive, so the ratio is a true quotient whenever a factor exists, and
    c is 0 when none does).  On failure the level is NONE whatever the
    confidence; in both cases the level is a non-decreasing function of the
    final confidence for a given mandate. *)
Theorem conviction_confidence_and_level
    (l : listing.Listing) (m : mandate.Mandate) (sc : scoring.ScoringResult) :
  let a := assess_conviction l m sc in
  let fs := gather_factors l m in
  (fs <> [] -> 0 < sum_weights fs)
  /\ (fs = [] -> spec.factor_confidence fs == 0)
  /\ (scoring.passes_hard_filters sc = true ->
      confidence_score a
      == 0.7 * (scoring.total_score sc / 100) + 0.3 * spec.factor_confidence fs)
  /\ (scoring.passes_hard_filters sc = false ->
      confidence_score a == 0.3 * spec.factor_confidence fs
      /\ level a = NONE)
  /\ (forall l' sc',
        scoring.passes_hard_filters sc' = scoring.passes_hard_filters sc ->
        confidence_score a <= confidence_score (assess_conviction l' m sc') ->
        (spec.level_rank (level a)
         <= spec.level_rank (level (assess_conviction l' m sc')))%Z).
Proof.
  cbv zeta. split; [| split; [| split; [| split]]].
  - apply sum_weights_positive. apply gathered_weights_positive.
  - intros ->. reflexivity.
  - intros Hp. rewrite confidence_blend, Hp. reflexivity.
  - intros Hp. split.
    + rewrite confidence_blend, Hp. reflexivity.
    + rewrite level_is_level_for, Hp. reflexivity.
  - intros l' sc' Hsame Hle.
    rewrite !level_is_level_for, Hsame.
    apply level_for_monotone. exact Hle.
Qed.

(** The Welsh listing fails the hard filters of the mandate that
    excludes Wales: two thirds of its factor weight is met, the final
    confidence is 0.3 * 2/3 = 0.2 and the level is NONE.  The in-range
    London listing passes them and blends to a HIGH level. *)
Lemma conviction_confidence_witness :
  (exists sc,
     scoring.score_listing examples.listing_in_wales
       examples.mandate_excluding_wales None = Ok sc
     /\ scoring.passes_hard_filters sc = false
     /\ confidence_score
          (assess_conviction examples.listing_in_wales
             examples.mandate_excluding_wales sc)
        == 0.3 * spec.factor_confidence
                   (gather_factors examples.listing_in_wales
                      examples.mandate_excluding_wales)
     /\ level (assess_conviction examples.listing_in_wales
                 examples.mandate_excluding_wales sc) = NONE)
  /\
  (exists sc,
     scoring.score_listing examples.listing_2m examples.mandate_500k_5m None
       = Ok sc
     /\ scoring.passes_hard_filters sc = true
     /\ confidence_score
          (assess_conviction examples.listing_2m examples.mandate_500k_5m sc)
        == 0.7 * (scoring.total_score sc / 100)
           + 0.3 * spec.factor_confidence
                     (gather_factors examples.listing_2m
                        examples.mandate_500k_5m)
     /\ level (assess_conviction examples.listing_2m
                 examples.mandate_500k_5m sc) = HIGH).
Proof.
  split.
  - destruct (scoring.score_listing examples.listing_in_wales
                examples.mandate_excluding_wales None) as [sc | e] eqn:E;
      [| vm_compute in E; discriminate E].
    assert (Hp : scoring.passes_hard_filters sc = false).
    { vm_compute in E. injection E as <-. reflexivity. }
    destruct (conviction_confidence_and_level examples.listing_in_wales
                examples.mandate_excluding_wales sc)
      as (_ & _ & _ & Hfail & _).
    destruct (Hfail Hp) as [Hc Hl].
    exists sc. split; [reflexivity |]. split; [exact Hp |].
    split; [exact Hc | exact Hl].
  - destruct (scoring.score_listing examples.listing_2m
                examples.mandate_500k_5m None) as [sc | e] eqn:E;
      [| vm_compute in E; discriminate E].
    assert (Hp : scoring.passes_hard_filters sc = true).
    { vm_compute in E. injection E as <-. reflexivity. }
    destruct (conviction_confidence_and_level examples.listing_2m
                examples.mandate_500k_5m sc)
      as (_ & _ & Hpass & _ & _).
    exists sc. split; [reflexivity |]. split; [exact Hp |].
    split; [exact (Hpass Hp) |].
    vm_compute in E. injection E as <-. reflexivity.
Defined.

End ConvictionProperties.

(** ** Scoring: the range of the total score *)

Section ScoreRangeProperties.

Import scoring.

Lemma Qdiv_nonneg (a b : Q) : 0 <= a -> 0 < b -> 0 <= a / b.
Proof.
  intros Ha Hb. apply Qle_shift_div_l; [exact Hb | lra].
Qed.

Lemma Qmax_0_range (x hi : Q) : 0 <= hi -> x <= hi -> 0 <= Qmax 0.0 x /\ Qmax 0.0 x <= hi.
Proof.
  intros Hhi Hx. split.
  - apply Qle_trans with 0.0; [lra | apply Q.le_max_l].
  - apply Q.max_lub; [lra | exact Hx].
Qed.

Lemma positive_of_truthyZ (o : option Z) :
  (forall z, o = Some z -> (0 <= z)%Z) -> truthyZ o = true -> 0 < inject_Z (valZ o).
Proof.
  intros Hnn Ht. apply truthyZ_Some in Ht. destruct Ht as (z & -> & Hz).
  simpl. specialize (Hnn z eq_refl). unfold Qlt. simpl. lia.
Qed.

Lemma positive_of_truthyQ (o : option Q) :
  (forall q, o = Some q -> 0 <= q) -> truthyQ o = true -> 0 < valQ o.
Proof.
  intros Hnn Ht. apply truthyQ_Some in Ht. destruct Ht as (q & -> & Hq).
  simpl. specialize (Hnn q eq_refl).
  apply Qle_lteq in Hnn. destruct Hnn as [H | H]; [exact H |].
  exfalso. apply Hq. symmetry. exact H.
Qed.

Lemma truediv_pos (a b : Q) : 0 < b -> truediv a b = Ok (a / b).
Proof. intros H. apply truediv_ok. lra. Qed.

(** A shortfall or excess branch: [max(0.0, c - a/b)] with [a >= 0], [b > 0]. *)
Lemma penalty_branch (a b c : Q) :
  0 <= a -> 0 < b -> 0 <= c -> c <= 1 ->
  exists q, (x <~ truediv a b ;; Ok (Qmax 0.0 (c - x))) = Ok q
            /\ 0 <= q /\ q <= 1.
Proof.
  intros Ha Hb Hc0 Hc1. rewrite (truediv_pos a b Hb). cbn [Py.bind].
  eexists. split; [reflexivity |].
  pose proof (Qdiv_nonneg a b Ha Hb) as Hd.
  destruct (Qmax_0_range (c - a / b) c Hc0 ltac:(lra)) as [H0 H1].
  split; [exact H0 | lra].
Qed.

Lemma price_range_score_in_range (price : Z) (mn mx : option Z) :
  (forall z, mn = Some z -> (0 <= z)%Z) ->
  (forall z, mx = Some z -> (0 <= z)%Z) ->
  ~ (mn = Some price /\ mx = Some price /\ price <> 0%Z) ->
  exists q, price_range_score price mn mx = Ok q /\ 0 <= q /\ q <= 1.
Proof.
  intros Hmn Hmx Hpt. unfold price_range_score. cbv zeta.
  destruct (truthyZ mn) eqn:Tn; destruct (truthyZ mx) eqn:Tx; cbn [andb].
  - pose proof (positive_of_truthyZ mn Hmn Tn) as Pn.
    pose proof (positive_of_truthyZ mx Hmx Tx) as Px.
    apply truthyZ_Some in Tn. destruct Tn as (n & -> & Hn).
    apply truthyZ_Some in Tx. destruct Tx as (x & -> & Hx).
    cbn [valZ] in *.
    destruct (Z.leb_spec n price) as [Hlo | Hlo];
      [destruct (Z.leb_spec price x) as [Hhi | Hhi] |]; cbn [andb].
    + assert (Hlt : (n < x)%Z).
      { destruct (Z.eq_dec n x) as [-> | Hne]; [| lia].
        exfalso. apply Hpt. assert (price = x) by lia. subst price.
        split; [reflexivity |]. split; [reflexivity | exact Hx]. }
      rewrite truediv_ok by (apply inject_Z_nonzero; lia). cbn [Py.bind].
      eexists. split; [reflexivity |].
      destruct (inside_score_facts price n x (conj Hlo Hhi) Hlt)
        as (_ & H8 & H1 & _).
      split; [lra | exact H1].
    + destruct (Z.ltb_spec price n); [lia |].
      apply penalty_branch; try lra. unfold Qle. simpl. lia.
    + destruct (Z.ltb_spec price n); [| lia].
      apply penalty_branch; try lra. unfold Qle. simpl. lia.
  - pose proof (positive_of_truthyZ mn Hmn Tn) as Pn.
    destruct (Z.leb_spec (valZ mn) price).
    + eexists. split; [reflexivity |]. split; lra.
    + apply penalty_branch; try lra. unfold Qle. simpl. lia.
  - pose proof (positive_of_truthyZ mx Hmx Tx) as Px.
    destruct (Z.leb_spec price (valZ mx)).
    + eexists. split; [reflexivity |]. split; lra.
    + apply penalty_branch; try lra. unfold Qle. simpl. lia.
  - eexists. split; [reflexivity |]. split; lra.
Qed.

Lemma price_psf_score_in_range (cap psf : option Q) :
  (forall q, cap = Some q -> 0 <= q) ->
  exists q, price_psf_score cap psf = Ok q /\ 0 <= q /\ q <= 1.
Proof.
  intros Hcap. unfold price_psf_score.
  destruct (truthyQ cap) eqn:Tc; cbn [andb];
    [| eexists; split; [reflexivity | split; lra]].
  destruct (truthyQ psf); [| eexists; split; [reflexivity | split; lra]].
  cbv zeta. pose proof (positive_of_truthyQ cap Hcap Tc) as Pc.
  destruct (Qleb (valQ psf) (valQ cap)) eqn:E.
  - eexists. split; [reflexivity |]. split; lra.
  - apply Qleb_false in E. apply penalty_branch; lra.
Qed.

Lemma yield_minimum_score_in_range (mny y : option Q) :
  (forall q, mny = Some q -> 0 <= q) ->
  exists q, yield_minimum_score mny y = Ok q /\ 0 <= q /\ q <= 1.
Proof.
  intros Hm. unfold yield_minimum_score.
  destruct (truthyQ mny) eqn:Tm; [| eexists; split; [reflexivity | split; lra]].
  cbv zeta. pose proof (positive_of_truthyQ mny Hm Tm) as Pm.
  destruct y as [y |]; [| eexists; split; [reflexivity | split; lra]].
  destruct (Qgeb y (valQ mny)) eqn:E.
  - eexists. split; [reflexivity |]. split; lra.
  - apply Qgeb_false in E. apply penalty_branch; lra.
Qed.

Lemma yield_target_score_in_range (ty y : option Q) :
  (forall q, ty = Some q -> 0 <= q) ->
  exists q, yield_target_score ty y = Ok q /\ 0 <= q /\ q <= 1.
Proof.
  intros Ht. unfold yield_target_score.
  destruct (truthyQ ty) eqn:Tt; [| eexists; split; [reflexivity | split; lra]].
  cbv zeta. pose proof (positive_of_truthyQ ty Ht Tt) as Pt.
  destruct y as [y |]; [| eexists; split; [reflexivity | split; lra]].
  destruct (Qgeb y (valQ ty)) eqn:E.
  - apply Qgeb_true in E. rewrite (truediv_pos _ _ Pt). cbn [Py.bind].
    eexists. split; [reflexivity |].
    pose proof (Qdiv_nonneg (y - valQ ty) (valQ ty) ltac:(lra) Pt) as Hd.
    split.
    + apply Q.min_glb; lra.
    + apply Qle_trans with 1.0; [apply Q.le_min_l | lra].
  - apply Qgeb_false in E. rewrite (truediv_pos _ _ Pt). cbn [Py.bind].
    eexists. split; [reflexivity |].
    pose proof (Qdiv_nonneg (valQ ty - y) (valQ ty) ltac:(lra) Pt) as Hd.
    split.
    + apply Qle_trans with 0.3; [lra | apply Q.le_max_l].
    + apply Q.max_lub; lra.
Qed.

Lemma property_size_score_in_range pm units :
  0 <= property_size_score pm units /\ property_size_score pm units <= 1.
Proof.
  unfold property_size_score.
  repeat match goal with
         | |- context [if ?c then _ else _] => destruct c
         end; split; lra.
Qed.

Lemma property_condition_score_in_range pm c :
  0 <= property_condition_score pm c /\ property_condition_score pm c <= 1.
Proof.
  unfold property_condition_score.
  destruct c;
  repeat match goal with
         | |- context [if ?c then _ else _] => destruct c
         end; split; lra.
Qed.

Lemma property_tenure_score_in_range pm t r :
  0 <= property_tenure_score pm t r /\ property_tenure_score pm t r <= 1.
Proof.
  unfold property_tenure_score.
  destruct t, r;
  repeat match goal with
         | |- context [if ?c then _ else _] => destruct c
         end; split; lra.
Qed.

Lemma risk_score_in_range c rp : 0 <= risk_score c rp /\ risk_score c rp <= 1.
Proof. destruct c, rp; vm_compute; split; discriminate. Qed.

Lemma factor_ok (c : ScoreCategory) (n : string) (sc : Q)
    (w : gmap string Q) (k : string) :
  weights_cover w -> In k FACTOR_KEYS -> 0 <= sc /\ sc <= 1 ->
  exists f, factor c n sc w k = Ok f /\ factor_in_range f.
Proof.
  intros Hw Hk [H0 H1]. destruct (Hw k Hk) as (v & Hv & Hv0).
  unfold factor, getitem. rewrite Hv. cbn [Py.bind].
  eexists. split; [reflexivity |]. unfold factor_in_range. cbn.
  split; [exact H0 |]. split; [exact H1 |]. split; [exact Hv0 | reflexivity].
Qed.

Ltac use_factor Hw :=
  match goal with
  | |- context [factor ?c ?n ?sc ?w ?k] =>
      let f := fresh "f" in
      let Hf := fresh "Hf" in
      let Hr := fresh "Hr" in
      destruct (factor_ok c n sc w k Hw) as (f & Hf & Hr);
      [ unfold FACTOR_KEYS; simpl; tauto
      | idtac
      | rewrite Hf; cbn [Py.bind] ]
  end.

Lemma to_dict_cover (sw : mandate.ScoringWeights.t) :
  spec.nonneg_weights sw -> weights_cover (mandate.ScoringWeights.to_dict sw).
Proof.
  intros (H1 & H2 & H3 & H4 & H5 & H6 & H7 & H8 & H9 & H10) k Hk.
  unfold FACTOR_KEYS in Hk. simpl in Hk.
  repeat (destruct Hk as [<- | Hk]; [eexists; split; [reflexivity | assumption] |]).
  contradiction.
Qed.

Lemma score_location_in_range l m w :
  weights_cover w ->
  exists fs, _score_location l m w = Ok fs /\ Forall factor_in_range fs.
Proof.
  intros Hw. unfold _score_location. cbv zeta.
  use_factor Hw.
  { repeat match goal with
           | |- context [if ?c then _ else _] => destruct c
           end; split; lra. }
  use_factor Hw.
  { repeat match goal with
           | |- context [if ?c then _ else _] => destruct c
           end; split; lra. }
  eexists. split; [reflexivity |].
  repeat (apply List.Forall_cons; [assumption |]). apply List.Forall_nil.
Qed.

Lemma score_price_in_range l m w :
  weights_cover w ->
  spec.nonneg_bounds (mandate.financial m) ->
  ~ spec.point_range l m ->
  exists fs, _score_price l m w = Ok fs /\ Forall factor_in_range fs.
Proof.
  intros Hw (Hmn & Hmx & _ & _ & Hpsf) Hpt. unfold _score_price. cbv zeta.
  destruct (price_range_score_in_range (listing.asking_price l)
              (mandate.min_deal_size (mandate.financial m))
              (mandate.max_deal_size (mandate.financial m)) Hmn Hmx Hpt)
    as (q1 & -> & Hq1). cbn [Py.bind].
  use_factor Hw; [exact Hq1 |].
  destruct (price_psf_score_in_range (mandate.max_price_psf (mandate.financial m))
              (listing.price_per_sqft (listing.financial l)) Hpsf)
    as (q2 & -> & Hq2). cbn [Py.bind].
  use_factor Hw; [exact Hq2 |].
  eexists. split; [reflexivity |].
  repeat (apply List.Forall_cons; [assumption |]). apply List.Forall_nil.
Qed.

Lemma score_yield_in_range l m w :
  weights_cover w ->
  spec.nonneg_bounds (mandate.financial m) ->
  exists fs, _score_yield l m w = Ok fs /\ Forall factor_in_range fs.
Proof.
  intros Hw (_ & _ & Hmin & Htarget & _). unfold _score_yield. cbv zeta.
  destruct (yield_minimum_score_in_range (mandate.min_yield (mandate.financial m))
              (listing.gross_yield l) Hmin) as (q1 & -> & Hq1). cbn [Py.bind].
  use_factor Hw; [exact Hq1 |].
  destruct (yield_target_score_in_range (mandate.target_yield (mandate.financial m))
              (listing.gross_yield l) Htarget) as (q2 & -> & Hq2). cbn [Py.bind].
  use_factor Hw; [exact Hq2 |].
  eexists. split; [reflexivity |].
  repeat (apply List.Forall_cons; [assumption |]). apply List.Forall_nil.
Qed.

Lemma score_property_in_range l m w :
  weights_cover w ->
  exists fs, _score_property l m w = Ok fs /\ Forall factor_in_range fs.
Proof.
  intros Hw. unfold _score_property. cbv zeta.
  use_factor Hw; [apply property_size_score_in_range |].
  use_factor Hw; [apply property_condition_score_in_range |].
  use_factor Hw; [apply property_tenure_score_in_range |].
  eexists. split; [reflexivity |].
  repeat (apply List.Forall_cons; [assumption |]). apply List.Forall_nil.
Qed.

Lemma score_risk_in_range l m w :
  weights_cover w ->
  exists fs, _score_risk l m w = Ok fs /\ Forall factor_in_range fs.
Proof.
  intros Hw. unfold _score_risk.
  use_factor Hw; [apply risk_score_in_range |].
  eexists. split; [reflexivity |].
  repeat (apply List.Forall_cons; [assumption |]). apply List.Forall_nil.
Qed.

Lemma sum_of_cons {A} (f : A -> Q) (x : A) (l : list A) :
  sum_of f (x :: l) == f x + sum_of f l.
Proof.
  unfold sum_of. simpl. rewrite (fold_sum_acc f l (0 + f x)). lra.
Qed.

(** The weighted sum lies between 0 and the sum of the weights. *)
Lemma weighted_sum_bounds (fs : list ScoreFactor) :
  Forall factor_in_range fs ->
  0 <= sum_of weighted_score fs /\ sum_of weighted_score fs <= sum_of weight fs.
Proof.
  induction 1 as [| f fs (H0 & H1 & Hw & He) _ [IH0 IH1]].
  - unfold sum_of. simpl. split; lra.
  - rewrite !sum_of_cons, He.
    assert (0 <= score f * weight f) by (apply Qmult_le_0_compat; assumption).
    assert (score f * weight f <= 1 * weight f)
      by (apply Qmult_le_compat_r; assumption).
    split; lra.
Qed.

Lemma grade_breakpoints (s : Q) :
  (_calculate_grade s = "A" <-> 90 <= s)
  /\ (_calculate_grade s = "B" <-> 75 <= s /\ s < 90)
  /\ (_calculate_grade s = "C" <-> 60 <= s /\ s < 75)
  /\ (_calculate_grade s = "D" <-> 40 <= s /\ s < 60)
  /\ (_calculate_grade s = "F" <-> s < 40).
Proof.
  unfold _calculate_grade.
  destruct (Qgeb s 90) eqn:E90; destruct (Qgeb s 75) eqn:E75;
  destruct (Qgeb s 60) eqn:E60; destruct (Qgeb s 40) eqn:E40;
  repeat match goal with
         | H : Qgeb _ _ = true |- _ => apply Qgeb_true in H
         | H : Qgeb _ _ = false |- _ => apply Qgeb_false in H
         end;
  repeat split; intros; try discriminate; try reflexivity; try lra;
  exfalso; lra.
Qed.

Lemma grade_monotone (s1 s2 : Q) :
  s1 <= s2 ->
  (spec.grade_rank (_calculate_grade s1) <= spec.grade_rank (_calculate_grade s2))%Z.
Proof.
  intros Hle. unfold _calculate_grade.
  destruct (Qgeb s1 90) eqn:A1; destruct (Qgeb s2 90) eqn:A2;
  destruct (Qgeb s1 75) eqn:B1; destruct (Qgeb s2 75) eqn:B2;
  destruct (Qgeb s1 60) eqn:C1; destruct (Qgeb s2 60) eqn:C2;
  destruct (Qgeb s1 40) eqn:D1; destruct (Qgeb s2 40) eqn:D2;
  try (vm_compute; discriminate);
  repeat match goal with
         | H : Qgeb _ _ = true |- _ => apply Qgeb_true in H
         | H : Qgeb _ _ = false |- _ => apply Qgeb_false in H
         end;
  exfalso; lra.
Qed.

Lemma score_listing_in_range (l : listing.Listing) (m : mandate.Mandate) :
  spec.nonneg_weights (mandate.scoring_weights m) ->
  spec.nonneg_bounds (mandate.financial m) ->
  ~ spec.point_range l m ->
  exists r,
    score_listing l m None = Ok r
    /\ 0 <= total_score r /\ total_score r <= 100
    /\ match_grade r = _calculate_grade (total_score r).
Proof.
  intros Hnw Hnb Hpt. unfold score_listing. cbv zeta.
  assert (Hw : weights_cover (active_weights m None))
    by (apply to_dict_cover; exact Hnw).
  destruct (score_location_in_range l m _ Hw) as (fs1 & -> & F1). cbn [Py.bind].
  destruct (score_price_in_range l m _ Hw Hnb Hpt) as (fs2 & -> & F2). cbn [Py.bind].
  destruct (score_yield_in_range l m _ Hw Hnb) as (fs3 & -> & F3). cbn [Py.bind].
  destruct (score_property_in_range l m _ Hw) as (fs4 & -> & F4). cbn [Py.bind].
  destruct (score_risk_in_range l m _ Hw) as (fs5 & -> & F5). cbn [Py.bind].
  assert (HF : Forall factor_in_range (fs1 ++ fs2 ++ fs3 ++ fs4 ++ fs5)%list).
  { repeat (apply Forall_app; split; [assumption |]). assumption. }
  destruct (weighted_sum_bounds _ HF) as [S0 S1].
  set (A := sum_of weighted_score (fs1 ++ fs2 ++ fs3 ++ fs4 ++ fs5)%list) in *.
  set (W := sum_of weight (fs1 ++ fs2 ++ fs3 ++ fs4 ++ fs5)%list) in *.
  destruct (Qgtb W 0) eqn:G.
  - apply Qgtb_true in G. rewrite (truediv_pos A W G). cbn [Py.bind].
    eexists. split; [reflexivity |]. cbn [total_score match_grade].
    assert (H0 : 0 <= A / W) by (apply Qdiv_nonneg; assumption).
    assert (H1 : A / W <= 1) by (apply Qle_shift_div_r; [exact G | lra]).
    destruct (negb _); repeat split; lra.
  - cbn [Py.bind]. eexists. split; [reflexivity |]. cbn [total_score match_grade].
    destruct (negb _); repeat split; lra.
Qed.

(** The range of the total score rests on the inputs alone.  When no
    scoring weight and no configured financial bound of the mandate is
    negative, and the deal-size range is not the single point at which the
    listing is priced, [score_listing] returns a result whose total score
    lies in [0, 100] and whose grade is the grade of that score.  The
    grade is a non-decreasing step function of the score: A from 90, B
    from 75, C from 60, D from 40, F below. *)
Lemma total_score_in_range_and_grade_steps
    (l : listing.Listing) (m : mandate.Mandate) :
  spec.nonneg_weights (mandate.scoring_weights m) ->
  spec.nonneg_bounds (mandate.financial m) ->
  ~ spec.point_range l m ->
  (exists r,
     score_listing l m None = Ok r
     /\ 0 <= total_score r /\ total_score r <= 100
     /\ match_grade r = _calculate_grade (total_score r))
  /\ (forall s,
        (_calculate_grade s = "A" <-> 90 <= s)
        /\ (_calculate_grade s = "B" <-> 75 <= s /\ s < 90)
        /\ (_calculate_grade s = "C" <-> 60 <= s /\ s < 75)
        /\ (_calculate_grade s = "D" <-> 40 <= s /\ s < 60)
        /\ (_calculate_grade s = "F" <-> s < 40))
  /\ (forall s1 s2,
        s1 <= s2 ->
        (spec.grade_rank (_calculate_grade s1)
         <= spec.grade_rank (_calculate_grade s2))%Z).
Proof.
  intros Hnw Hnb Hpt. split; [| split].
  - apply score_listing_in_range; assumption.
  - apply grade_breakpoints.
  - apply grade_monotone.
Qed.

(** The default weights, the 500,000 to 5,000,000 range and the listing
    priced at 2,000,000. *)
Lemma total_score_in_range_witness :
  exists r,
    score_listing examples.listing_2m examples.mandate_500k_5m None = Ok r
    /\ 0 <= total_score r /\ total_score r <= 100
    /\ match_grade r = "A".
Proof.
  destruct (total_score_in_range_and_grade_steps
              examples.listing_2m examples.mandate_500k_5m)
    as ((r & Hr & H0 & H100 & Hg) & _ & _).
  - vm_compute. repeat split; discriminate.
  - repeat split; intros z H; vm_compute in H; try discriminate H;
      injection H as <-; vm_compute; discriminate.
  - intros (H & _). vm_compute in H. discriminate H.
  - exists r. split; [exact Hr |]. split; [exact H0 |]. split; [exact H100 |].
    rewrite Hg. vm_compute in Hr. injection Hr as <-. reflexivity.
Defined.

(** C2.  [score_listing] does not keep the total score in [0, 100], the
    range its own [ScoringResult] documents ([total_score: float  # 0.0 to
    100.0]): nothing clamps the normalised sum, or a sub-score.  A mandate
    with a negative region weight gets a total score of 170; a mandate with
    a negative target yield gets -50; and with minimum = maximum = asking
    price no score is returned at all: the range position divides by
    zero. *)
Theorem total_score_can_leave_range :
  (exists r,
     score_listing examples.listing_in_leeds examples.mandate_negative_weight None
       = Ok r
     /\ total_score r == 170
     /\ ~ total_score r <= 100)
  /\ (exists r,
        score_listing examples.listing_2m examples.mandate_negative_target None
          = Ok r
        /\ total_score r == -50
        /\ ~ 0 <= total_score r)
  /\ score_listing examples.listing_500k examples.mandate_point_range None
     = Raise ZeroDivisionError.
Proof.
  split; [| split].
  - eexists. split; [vm_compute; reflexivity |].
    cbn [total_score]. split; [reflexivity |]. intros H. vm_compute in H.
    apply H. reflexivity.
  - eexists. split; [vm_compute; reflexivity |].
    cbn [total_score]. split; [reflexivity |]. intros H. vm_compute in H.
    apply H. reflexivity.
  - vm_compute. reflexivity.
Qed.

End ScoreRangeProperties.

(** * Further properties of the code *)

(** ** Filtering *)

Section FilteringProperties.

Import filtering.

Lemma run_filters_app (fs : list Filter) (l : listing.Listing) (m : mandate.Mandate)
    (ff : bool) (acc : list FilterReason) :
  run_filters fs l m ff acc = (acc ++ run_filters fs l m ff [])%list.
Proof.
  revert acc. induction fs as [| f rest IH]; intros acc; simpl.
  - rewrite app_nil_r. reflexivity.
  - destruct (f l m) as [ok reason]. destruct ok; simpl; [apply IH |].
    destruct ff; [reflexivity |].
    rewrite (IH (acc ++ [reason])%list), (IH [reason]).
    rewrite <- app_assoc. reflexivity.
Qed.

(** In detailed mode the loop returns the reasons of the failing filters,
    in filter order. *)
Lemma run_filters_detailed (fs : list Filter) (l : listing.Listing)
    (m : mandate.Mandate) :
  run_filters fs l m false []
  = map snd (List.filter (fun r => negb (fst r)) (map (fun f => f l m) fs)).
Proof.
  induction fs as [| f rest IH]; simpl; [reflexivity |].
  destruct (f l m) as [ok reason]. destruct ok; simpl; [exact IH |].
  rewrite run_filters_app, IH. reflexivity.
Qed.

(** In fail-fast mode it returns the first of them, if any. *)
Lemma run_filters_fail_fast (fs : list Filter) (l : listing.Listing)
    (m : mandate.Mandate) :
  run_filters fs l m true [] = firstn 1 (run_filters fs l m false []).
Proof.
  induction fs as [| f rest IH]; simpl; [reflexivity |].
  destruct (f l m) as [ok reason]. destruct ok; simpl; [exact IH |].
  rewrite (run_filters_app rest l m false [reason]). reflexivity.
Qed.

Lemma fail_fast_same_verdict (l : listing.Listing) (m : mandate.Mandate)
    (filters : option (list Filter)) :
  passed (filter_listing l m filters true)
  = passed (filter_listing l m filters false).
Proof.
  destruct filters as [[| f fs] |]; unfold filter_listing; cbn [passed];
    rewrite run_filters_fail_fast;
    match goal with |- context [run_filters ?a l m false []] =>
      destruct (run_filters a l m false []) end; reflexivity.
Qed.

Lemma filter_listing_unfold (l : listing.Listing) (m : mandate.Mandate)
    (filters : option (list Filter)) (ff : bool) :
  filter_listing l m filters ff
  = {| listing_ := l;
       passed :=
         Nat.eqb (List.length (run_filters (active_filters filters) l m ff [])) 0;
       failed_filters := run_filters (active_filters filters) l m ff [] |}.
Proof. destruct filters as [[| f fs] |]; reflexivity. Qed.

(** X1.  Fail-fast is an optimisation only: for every listing, mandate and
    filter list, the fail-fast result passes exactly when the detailed
    result does, and its failure list is the first entry (if any) of the
    detailed failure list. *)
Theorem fail_fast_agrees_with_detailed (l : listing.Listing) (m : mandate.Mandate)
    (filters : option (list Filter)) :
  passed (filter_listing l m filters true)
  = passed (filter_listing l m filters false)
  /\ failed_filters (filter_listing l m filters true)
     = firstn 1 (failed_filters (filter_listing l m filters false)).
Proof.
  rewrite !filter_listing_unfold. cbn [passed failed_filters].
  rewrite run_filters_fail_fast.
  split; [| reflexivity].
  destruct (run_filters (active_filters filters) l m false []); reflexivity.
Qed.

Lemma passed_iff_all_pass (l : listing.Listing) (m : mandate.Mandate)
    (filters : option (list Filter)) (ff : bool) :
  passed (filter_listing l m filters ff) = true
  <-> forall f, In f (active_filters filters) -> fst (f l m) = true.
Proof.
  assert (Hff : passed (filter_listing l m filters ff)
                = passed (filter_listing l m filters false)).
  { destruct ff; [apply fail_fast_same_verdict | reflexivity]. }
  rewrite Hff, filter_listing_unfold. cbn [passed].
  rewrite run_filters_detailed.
  induction (active_filters filters) as [| f rest IH]; simpl.
  - split; [intros _ f [] | reflexivity].
  - destruct (f l m) as [ok reason] eqn:E. destruct ok; simpl.
    + rewrite IH. split.
      * intros H g [<- | Hg]; [rewrite E; reflexivity | apply H; exact Hg].
      * intros H g Hg. apply H. right. exact Hg.
    + split; [discriminate |]. intros H.
      specialize (H f (or_introl eq_refl)). rewrite E in H. discriminate H.
Qed.

(** X2.  A listing passes exactly when every active filter passes it, and
    the detailed failure list holds the messages of the failing filters in
    filter order; an absent or empty filter list means the eight default
    filters. *)
Theorem passed_iff_every_filter_passes (l : listing.Listing) (m : mandate.Mandate)
    (filters : option (list Filter)) (ff : bool) :
  (passed (filter_listing l m filters ff) = true
   <-> forall f, In f (active_filters filters) -> fst (f l m) = true)
  /\ failed_filters (filter_listing l m filters false)
     = map snd (List.filter (fun r => negb (fst r))
                  (map (fun f => f l m) (active_filters filters)))
  /\ active_filters None = DEFAULT_FILTERS
  /\ active_filters (Some []) = DEFAULT_FILTERS.
Proof.
  split; [apply passed_iff_all_pass |]. split; [| split; reflexivity].
  rewrite filter_listing_unfold. cbn [failed_filters].
  apply run_filters_detailed.
Qed.

Lemma filter_listings_is_filter (ls : list listing.Listing) (m : mandate.Mandate)
    (filters : option (list Filter)) :
  filter_listings ls m filters
  = List.filter (fun l => passed (filter_listing l m filters true)) ls.
Proof.
  induction ls as [| l rest IH]; simpl; [reflexivity |].
  rewrite IH. reflexivity.
Qed.

Lemma filter_listings_detailed_unfold (ls : list listing.Listing)
    (m : mandate.Mandate) (filters : option (list Filter)) :
  filter_listings_detailed ls m filters
  = (List.filter (fun l => passed (filter_listing l m filters false)) ls,
     map (fun l => filter_listing l m filters false) ls).
Proof.
  induction ls as [| l rest IH]; [reflexivity |].
  cbn [filter_listings_detailed List.filter map]. rewrite IH.
  destruct (passed (filter_listing l m filters false)); reflexivity.
Qed.

(** X3.  [filter_listings] keeps, in input order, exactly the listings
    that pass; [filter_listings_detailed] returns the same passed list
    together with one result per input listing, in input order. *)
Theorem filter_listings_agree (ls : list listing.Listing) (m : mandate.Mandate)
    (filters : option (list Filter)) :
  filter_listings ls m filters
  = List.filter (fun l => passed (filter_listing l m filters true)) ls
  /\ fst (filter_listings_detailed ls m filters) = filter_listings ls m filters
  /\ map listing_ (snd (filter_listings_detailed ls m filters)) = ls
  /\ snd (filter_listings_detailed ls m filters)
     = map (fun l => filter_listing l m filters false) ls.
Proof.
  rewrite filter_listings_is_filter, filter_listings_detailed_unfold.
  cbn [fst snd]. split; [reflexivity |]. split; [| split; [| reflexivity]].
  - apply filter_ext. intros l. symmetry. apply fail_fast_same_verdict.
  - rewrite map_map. rewrite <- (map_id ls) at 2. apply map_ext.
    intros l. destruct filters as [[| f fs] |]; reflexivity.
Qed.

End FilteringProperties.

(** ** Filters, mandate methods and rejection rules *)

Section FilterRejectionProperties.

Import filtering.

Ltac crush_bools :=
  repeat match goal with
         | |- context [match ?x with _ => _ end] => destruct x eqn:?
         | H : context [match ?x with _ => _ end] |- _ => destruct x eqn:?
         end;
  simpl in *; try discriminate; try congruence; auto.

(** X4.  The filters agree with the methods of [Mandate]: the asset-class,
    location and price filters pass exactly when [accepts_asset_class],
    [accepts_location] and [accepts_price] accept, so the scoring hard
    filters and the filter chain never disagree on class or location. *)
Theorem filters_agree_with_mandate_methods (l : listing.Listing) (m : mandate.Mandate) :
  fst (filter_by_asset_class l m)
  = mandate.accepts_asset_class m (listing.asset_class l)
  /\ fst (filter_by_location l m)
     = mandate.accepts_location m (listing.region l) (listing.postcode_area l)
  /\ fst (filter_by_price l m) = mandate.accepts_price m (listing.asking_price l).
Proof.
  split; [| split].
  - unfold filter_by_asset_class.
    destruct (mandate.accepts_asset_class m (listing.asset_class l)); reflexivity.
  - unfold filter_by_location, mandate.accepts_location. cbv zeta.
    repeat match goal with
           | |- context [if ?c then _ else _] => destruct c
           end; reflexivity.
  - unfold filter_by_price, mandate.accepts_price. cbv zeta.
    destruct (mandate.min_deal_size (mandate.financial m)) as [mn |],
             (mandate.max_deal_size (mandate.financial m)) as [mx |]; simpl;
    repeat match goal with
           | |- context [if ?c then _ else _] => destruct c
           end; reflexivity.
Qed.

Lemma asset_filter_iff_rule (l : listing.Listing) (m : mandate.Mandate) :
  fst (filter_by_asset_class l m) = true
  <-> rejection.check_asset_class_mismatch l m = None.
Proof.
  unfold filter_by_asset_class, rejection.check_asset_class_mismatch,
    mandate.accepts_asset_class.
  destruct (mandate.is_empty (mandate.asset_classes m)); simpl; [tauto |].
  destruct (existsb _ _); simpl; split; congruence.
Qed.

Lemma location_filter_iff_rules (l : listing.Listing) (m : mandate.Mandate) :
  fst (filter_by_location l m) = true
  <-> rejection.check_location_excluded l m = None
      /\ rejection.check_location_outside_target l m = None.
Proof.
  unfold filter_by_location, rejection.check_location_excluded,
    rejection.check_location_outside_target. cbv zeta.
  destruct (str_in (listing.region l)
              (mandate.exclude_regions (mandate.geographic m)));
    [simpl; split; [discriminate | intros [H _]; discriminate H] |].
  destruct (existsb _ (mandate.exclude_postcodes (mandate.geographic m)));
    [simpl; split; [discriminate | intros [H _]; discriminate H] |].
  destruct (mandate.is_empty (mandate.regions (mandate.geographic m)));
  destruct (mandate.is_empty (mandate.postcodes (mandate.geographic m)));
  simpl; try tauto;
  destruct (str_in (listing.region l) (mandate.regions (mandate.geographic m)));
  simpl; try tauto;
  destruct (existsb _ (mandate.postcodes (mandate.geographic m)));
  simpl; try tauto; split; (discriminate || (intros [_ H]; discriminate H)).
Qed.

Lemma price_filter_iff_rules (l : listing.Listing) (m : mandate.Mandate) :
  fst (filter_by_price l m) = true
  <-> rejection.check_price_too_high l m = None
      /\ rejection.check_price_too_low l m = None.
Proof.
  unfold filter_by_price, rejection.check_price_too_high,
    rejection.check_price_too_low. cbv zeta.
  destruct (truthyZ (mandate.min_deal_size (mandate.financial m))
            && (listing.asking_price l
                <? valZ (mandate.min_deal_size (mandate.financial m)))%Z);
  destruct (truthyZ (mandate.max_deal_size (mandate.financial m))
            && (valZ (mandate.max_deal_size (mandate.financial m))
                <? listing.asking_price l)%Z);
  simpl; split; try tauto; try discriminate;
  intros [H1 H2]; discriminate.
Qed.

Lemma yield_filter_iff_rule (l : listing.Listing) (m : mandate.Mandate) :
  fst (filter_by_yield l m) = true
  <-> rejection.check_yield_insufficient l m = None.
Proof.
  unfold filter_by_yield, rejection.check_yield_insufficient. cbv zeta.
  destruct (listing.gross_yield l) as [y |];
  destruct (truthyQ (mandate.min_yield (mandate.financial m))); simpl;
  try tauto;
  destruct (Qltb y (valQ (mandate.min_yield (mandate.financial m)))); simpl;
  split; congruence.
Qed.

Lemma tenure_filter_iff_rule (l : listing.Listing) (m : mandate.Mandate) :
  fst (filter_by_tenure l m) = true
  <-> rejection.check_tenure_unacceptable l m = None.
Proof.
  unfold filter_by_tenure, rejection.check_tenure_unacceptable. cbv zeta.
  destruct (mandate.freehold_only (mandate.property m));
  destruct (listing.tenure l); simpl; try (split; congruence);
  destruct (truthyZ (mandate.min_lease_years (mandate.property m))); simpl;
  try tauto;
  destruct (listing.lease_years_remaining (listing.financial l)) as [r |]; simpl;
  try tauto;
  destruct (r <? valZ (mandate.min_lease_years (mandate.property m)))%Z; simpl;
  split; congruence.
Qed.

Lemma units_filter_iff_rule (l : listing.Listing) (m : mandate.Mandate) :
  fst (filter_by_units l m) = true <-> rejection.check_unit_count l m = None.
Proof.
  unfold filter_by_units, rejection.check_unit_count. cbv zeta.
  repeat match goal with
         | |- context [if ?c then _ else _] => destruct c
         end; simpl; split; congruence.
Qed.

Lemma condition_filter_implies_rule (l : listing.Listing) (m : mandate.Mandate) :
  fst (filter_by_condition l m) = true ->
  rejection.check_condition_unacceptable l m = None.
Proof.
  unfold filter_by_condition, rejection.check_condition_unacceptable. cbv zeta.
  destruct (listing.condition (listing.property_details l));
  repeat match goal with
         | |- context [if ?c then _ else _] => destruct c
         end; simpl; congruence.
Qed.

(** X5.  Six filters and the rejection rules on the same criterion agree
    for every listing and mandate: the filter passes exactly when the
    rule (or both rules, for location and price) returns no reason.  The
    condition filter is stricter than its rule: passing it implies no
    reason, but a turnkey listing that the mandate does not accept fails
    the filter and gets no rejection reason. *)
Theorem filters_agree_with_rejection_rules (l : listing.Listing) (m : mandate.Mandate) :
  (fst (filter_by_asset_class l m) = true
   <-> rejection.check_asset_class_mismatch l m = None)
  /\ (fst (filter_by_location l m) = true
      <-> rejection.check_location_excluded l m = None
          /\ rejection.check_location_outside_target l m = None)
  /\ (fst (filter_by_price l m) = true
      <-> rejection.check_price_too_high l m = None
          /\ rejection.check_price_too_low l m = None)
  /\ (fst (filter_by_yield l m) = true
      <-> rejection.check_yield_insufficient l m = None)
  /\ (fst (filter_by_tenure l m) = true
      <-> rejection.check_tenure_unacceptable l m = None)
  /\ (fst (filter_by_units l m) = true
      <-> rejection.check_unit_count l m = None)
  /\ (fst (filter_by_condition l m) = true ->
      rejection.check_condition_unacceptable l m = None)
  /\ (listing.condition (listing.property_details l) = listing.TURNKEY ->
      mandate.accept_turnkey (mandate.property m) = false ->
      fst (filter_by_condition l m) = false
      /\ rejection.check_condition_unacceptable l m = None).
Proof.
  split; [apply asset_filter_iff_rule |].
  split; [apply location_filter_iff_rules |].
  split; [apply price_filter_iff_rules |].
  split; [apply yield_filter_iff_rule |].
  split; [apply tenure_filter_iff_rule |].
  split; [apply units_filter_iff_rule |].
  split; [apply condition_filter_implies_rule |].
  intros Hc Ht. unfold filter_by_condition, rejection.check_condition_unacceptable.
  rewrite Hc, Ht. split; reflexivity.
Qed.

(** The turnkey London house against the development-only mandate. *)
Lemma filters_agree_with_rejection_rules_witness :
  fst (filter_by_condition examples.listing_2m examples.mandate_development_only)
  = false
  /\ rejection.check_condition_unacceptable examples.listing_2m
       examples.mandate_development_only = None.
Proof.
  destruct (filters_agree_with_rejection_rules examples.listing_2m
              examples.mandate_development_only)
    as (_ & _ & _ & _ & _ & _ & _ & H).
  apply H; reflexivity.
Defined.

Lemma run_rules_stop_prefix (rules : list rejection.Rule) (l : listing.Listing)
    (m : mandate.Mandate) :
  rejection.run_rules rules l m true []
  = rejection.upto_first_hard (rejection.run_rules rules l m false []).
Proof.
  induction rules as [| rule rest IH]; simpl; [reflexivity |].
  destruct (rule l m) as [reason |]; [| exact IH].
  rewrite (run_rules_app rest l m false [reason]). simpl.
  destruct (rejection.is_hard (rejection.severity reason)); simpl; [reflexivity |].
  rewrite (run_rules_app rest l m true [reason]), IH. reflexivity.
Qed.

Lemma upto_first_hard_incl (rs : list rejection.RejectionReason) r :
  In r (rejection.upto_first_hard rs) -> In r rs.
Proof.
  induction rs as [| x rs IH]; simpl; [tauto |].
  destruct (rejection.is_hard (rejection.severity x)); simpl.
  - intros [<- | []]. left. reflexivity.
  - intros [<- | H]; [left; reflexivity | right; apply IH; exact H].
Qed.

Lemma evaluate_rejection_unfold (l : listing.Listing) (m : mandate.Mandate)
    (rules : option (list rejection.Rule)) (stop : bool) :
  rejection.evaluate_rejection l m rules stop
  = {| rejection.listing_id := listing.listing_id l;
       rejection.mandate_id := mandate.mandate_id m;
       rejection.rejected :=
         existsb (fun r => rejection.is_hard (rejection.severity r))
           (rejection.run_rules (rejection.active_rules rules) l m stop []);
       rejection.reasons :=
         rejection.run_rules (rejection.active_rules rules) l m stop [] |}.
Proof. destruct rules as [[| r rs] |]; reflexivity. Qed.

(** X6.  With [stop_on_hard] the reasons are the full list of reasons cut
    after its first HARD one: nothing is reordered or added, at most one
    HARD reason is reported, and it is the last. *)
Theorem stop_on_hard_truncates_after_first_hard (l : listing.Listing)
    (m : mandate.Mandate) (rules : option (list rejection.Rule)) :
  rejection.reasons (rejection.evaluate_rejection l m rules true)
  = rejection.upto_first_hard
      (rejection.reasons (rejection.evaluate_rejection l m rules false))
  /\ (List.length (rejection.hard_rejections
                     (rejection.evaluate_rejection l m rules true)) <= 1)%nat
  /\ (forall r,
        In r (rejection.reasons (rejection.evaluate_rejection l m rules true)) ->
        In r (rejection.reasons (rejection.evaluate_rejection l m rules false))).
Proof.
  rewrite !evaluate_rejection_unfold. unfold rejection.hard_rejections.
  cbn [rejection.reasons]. rewrite run_rules_stop_prefix.
  split; [reflexivity |]. split.
  - induction (rejection.run_rules (rejection.active_rules rules) l m false [])
      as [| x rs IH]; simpl; [lia |].
    destruct (rejection.is_hard (rejection.severity x)) eqn:E; simpl.
    + rewrite E. simpl. lia.
    + rewrite E. exact IH.
  - intros r. apply upto_first_hard_incl.
Qed.

(** Each default rule other than the data-quality rule returns nothing on
    a listing that passes the default filters. *)
Lemma passing_filters_only_data_quality (l : listing.Listing) (m : mandate.Mandate)
    (rule : rejection.Rule) (r : rejection.RejectionReason) :
  (forall f, In f DEFAULT_FILTERS -> fst (f l m) = true) ->
  In rule rejection.REJECTION_RULES ->
  rule l m = Some r ->
  rejection.code r = "MISSING_DATA" /\ rejection.severity r = rejection.SOFT.
Proof.
  intros Hall Hin Hr.
  assert (Ha := Hall filter_by_asset_class ltac:(simpl; tauto)).
  assert (Hl := Hall filter_by_location ltac:(simpl; tauto)).
  assert (Hp := Hall filter_by_price ltac:(simpl; tauto)).
  assert (Hy := Hall filter_by_yield ltac:(simpl; tauto)).
  assert (Ht := Hall filter_by_tenure ltac:(simpl; tauto)).
  assert (Hu := Hall filter_by_units ltac:(simpl; tauto)).
  assert (Hc := Hall filter_by_condition ltac:(simpl; tauto)).
  apply asset_filter_iff_rule in Ha.
  apply location_filter_iff_rules in Hl. destruct Hl as [Hl1 Hl2].
  apply price_filter_iff_rules in Hp. destruct Hp as [Hp1 Hp2].
  apply yield_filter_iff_rule in Hy.
  apply tenure_filter_iff_rule in Ht.
  apply units_filter_iff_rule in Hu.
  apply condition_filter_implies_rule in Hc.
  unfold rejection.REJECTION_RULES in Hin. simpl in Hin.
  repeat (destruct Hin as [<- | Hin]; [try congruence |]); [| contradiction].
  unfold rejection.check_data_quality in Hr.
  destruct (negb _) in Hr; [| discriminate Hr].
  injection Hr as <-. split; reflexivity.
Qed.

(** X7.  A listing that passes the default filter chain is never
    rejected by the default rejection rules: whichever way the rules are
    run, the only reason they can give is the SOFT data-quality one. *)
Theorem passing_filters_never_rejected (l : listing.Listing) (m : mandate.Mandate)
    (ff stop : bool) :
  passed (filter_listing l m None ff) = true ->
  rejection.rejected (rejection.evaluate_rejection l m None stop) = false
  /\ (forall r,
        In r (rejection.reasons (rejection.evaluate_rejection l m None stop)) ->
        rejection.code r = "MISSING_DATA"
        /\ rejection.severity r = rejection.SOFT).
Proof.
  intros Hpass.
  assert (Hall : forall f, In f DEFAULT_FILTERS -> fst (f l m) = true).
  { apply (proj1 (passed_iff_all_pass l m None ff)). exact Hpass. }
  assert (Hfull : forall r,
            In r (rejection.reasons (rejection.evaluate_rejection l m None false)) ->
            rejection.code r = "MISSING_DATA"
            /\ rejection.severity r = rejection.SOFT).
  { intros r Hr. unfold rejection.evaluate_rejection in Hr. cbn [rejection.reasons] in Hr.
    apply (proj1 (run_rules_all _ l m r)) in Hr. destruct Hr as (rule & Hin & Hrule).
    exact (passing_filters_only_data_quality l m rule r Hall Hin Hrule). }
  assert (Hany : forall r,
            In r (rejection.reasons (rejection.evaluate_rejection l m None stop)) ->
            rejection.code r = "MISSING_DATA"
            /\ rejection.severity r = rejection.SOFT).
  { intros r Hr. apply Hfull. destruct stop; [| exact Hr].
    rewrite !evaluate_rejection_unfold in *. cbn [rejection.reasons] in *.
    rewrite run_rules_stop_prefix in Hr. apply upto_first_hard_incl. exact Hr. }
  split; [| exact Hany].
  destruct (rejection.rejected (rejection.evaluate_rejection l m None stop)) eqn:E;
    [| reflexivity].
  apply rejected_iff_hard in E. destruct E as (r & Hin & Hsev).
  destruct (Hany r Hin) as [_ Hsoft]. congruence.
Qed.

(** The in-range London listing passes the filters of the 500,000 to
    5,000,000 mandate. *)
Lemma passing_filters_never_rejected_witness :
  rejection.rejected
    (rejection.evaluate_rejection examples.listing_2m examples.mandate_500k_5m
       None false) = false
  /\ (forall r,
        In r (rejection.reasons
                (rejection.evaluate_rejection examples.listing_2m
                   examples.mandate_500k_5m None false)) ->
        rejection.code r = "MISSING_DATA"
        /\ rejection.severity r = rejection.SOFT).
Proof.
  apply (passing_filters_never_rejected examples.listing_2m
           examples.mandate_500k_5m true false).
  vm_compute. reflexivity.
Defined.

End FilterRejectionProperties.

(** ** Sorting *)

Section SortProperties.

Context {A : Type} (le : A -> A -> bool).

Lemma insert_sorted_perm (x : A) (l : list A) :
  Permutation (insert_sorted le x l) (x :: l).
Proof.
  induction l as [| y ys IH]; simpl; [reflexivity |].
  destruct (le x y); [reflexivity |].
  rewrite IH. apply perm_swap.
Qed.

Lemma stable_sort_perm (l : list A) : Permutation (stable_sort le l) l.
Proof.
  induction l as [| x l IH]; simpl; [reflexivity |].
  unfold stable_sort in *. simpl. rewrite insert_sorted_perm.
  apply perm_skip. exact IH.
Qed.

Lemma stable_sort_In (l : list A) (x : A) : In x (stable_sort le l) <-> In x l.
Proof.
  split; apply Permutation_in; [| symmetry]; apply stable_sort_perm.
Qed.

Lemma stable_sort_length (l : list A) :
  List.length (stable_sort le l) = List.length l.
Proof. apply Permutation_length, stable_sort_perm. Qed.

(** Elements that may stay in front of each other keep their order. *)
Lemma insert_sorted_stable (p : A -> bool) (x : A) (l : list A) :
  (forall a b, p a = true -> p b = true -> le a b = true) ->
  List.filter p (insert_sorted le x l) = List.filter p (x :: l).
Proof.
  intros Hp. induction l as [| y ys IH]; [reflexivity |].
  cbn [insert_sorted]. destruct (le x y) eqn:E; [reflexivity |].
  cbn [List.filter] in *. rewrite IH.
  destruct (p x) eqn:Px; [| reflexivity].
  destruct (p y) eqn:Py; [| reflexivity].
  rewrite (Hp x y Px Py) in E. discriminate E.
Qed.

Lemma stable_sort_stable (p : A -> bool) (l : list A) :
  (forall a b, p a = true -> p b = true -> le a b = true) ->
  List.filter p (stable_sort le l) = List.filter p l.
Proof.
  intros Hp. induction l as [| x l IH]; [reflexivity |].
  unfold stable_sort in *. cbn [fold_right].
  rewrite (insert_sorted_stable p x _ Hp). cbn [List.filter]. rewrite IH.
  reflexivity.
Qed.

Hypothesis le_total : forall a b, le a b = true \/ le b a = true.
Hypothesis le_trans :
  forall a b c, le a b = true -> le b c = true -> le a c = true.

Lemma insert_sorted_sorted (x : A) (l : list A) :
  StronglySorted (fun a b => le a b = true) l ->
  StronglySorted (fun a b => le a b = true) (insert_sorted le x l).
Proof.
  induction 1 as [| y ys Hs IH Hy]; simpl.
  - constructor; [constructor | constructor].
  - destruct (le x y) eqn:E.
    + constructor; [constructor; assumption |].
      constructor; [exact E |].
      rewrite List.Forall_forall in *. intros z Hz.
      apply (le_trans x y z E). apply Hy. exact Hz.
    + constructor; [exact IH |].
      rewrite List.Forall_forall in *. intros z Hz.
      apply (Permutation_in z (insert_sorted_perm x ys)) in Hz.
      destruct Hz as [<- | Hz]; [| apply Hy; exact Hz].
      destruct (le_total x y) as [H | H]; [congruence | exact H].
Qed.

Lemma stable_sort_sorted (l : list A) :
  StronglySorted (fun a b => le a b = true) (stable_sort le l).
Proof.
  induction l as [| x l IH]; [constructor |].
  unfold stable_sort in *. simpl. apply insert_sorted_sorted. exact IH.
Qed.

End SortProperties.

(** ** Scoring: errors and the shape of a result *)

Section ScoreErrorProperties.

Import scoring.

Lemma price_range_score_returns (price : Z) (mn mx : option Z) :
  (mn = Some price /\ mx = Some price /\ price <> 0%Z
   /\ price_range_score price mn mx = Raise ZeroDivisionError)
  \/ (~ (mn = Some price /\ mx = Some price /\ price <> 0%Z)
      /\ exists q, price_range_score price mn mx = Ok q).
Proof.
  unfold price_range_score. cbv zeta.
  destruct (truthyZ mn) eqn:Tn; destruct (truthyZ mx) eqn:Tx; cbn [andb].
  - apply truthyZ_Some in Tn. destruct Tn as (n & -> & Hn).
    apply truthyZ_Some in Tx. destruct Tx as (x & -> & Hx).
    cbn [valZ].
    destruct (Z.leb_spec n price) as [Hlo | Hlo];
      [destruct (Z.leb_spec price x) as [Hhi | Hhi] |]; cbn [andb].
    + destruct (Z.eq_dec n x) as [-> | Hne].
      * left. assert (price = x) by lia. subst price.
        split; [reflexivity |]. split; [reflexivity |]. split; [exact Hx |].
        rewrite truediv_zero; [reflexivity |].
        rewrite Z.sub_diag. reflexivity.
      * right. split; [intros (E1 & E2 & _); congruence |].
        rewrite truediv_ok by (apply inject_Z_nonzero; lia).
        eexists. reflexivity.
    + right. split; [intros (E1 & E2 & _); injection E2 as <-; lia |].
      destruct (Z.ltb_spec price n); [lia |].
      rewrite truediv_ok by (apply inject_Z_nonzero; exact Hx).
      eexists. reflexivity.
    + right. split; [intros (E1 & E2 & _); injection E1 as <-; lia |].
      destruct (Z.ltb_spec price n); [| lia].
      rewrite truediv_ok by (apply inject_Z_nonzero; exact Hn).
      eexists. reflexivity.
  - right. split.
    { intros (_ & -> & H). simpl in Tx. apply negb_false_iff, Z.eqb_eq in Tx.
      contradiction. }
    apply truthyZ_Some in Tn. destruct Tn as (n & -> & Hn). cbn [valZ].
    destruct (Z.leb n price); [eexists; reflexivity |].
    rewrite truediv_ok by (apply inject_Z_nonzero; exact Hn).
    eexists. reflexivity.
  - right. split.
    { intros (-> & _ & H). simpl in Tn. apply negb_false_iff, Z.eqb_eq in Tn.
      contradiction. }
    apply truthyZ_Some in Tx. destruct Tx as (x & -> & Hx). cbn [valZ].
    destruct (Z.leb price x); [eexists; reflexivity |].
    rewrite truediv_ok by (apply inject_Z_nonzero; exact Hx).
    eexists. reflexivity.
  - right. split; [| eexists; reflexivity].
    intros (-> & _ & H). simpl in Tn. apply negb_false_iff, Z.eqb_eq in Tn.
    contradiction.
Qed.

Lemma valQ_nonzero (o : option Q) : truthyQ o = true -> ~ valQ o == 0.
Proof.
  intros H. apply truthyQ_Some in H. destruct H as (q & -> & Hq). exact Hq.
Qed.

Lemma price_psf_score_returns (cap psf : option Q) :
  exists q, price_psf_score cap psf = Ok q.
Proof.
  unfold price_psf_score.
  destruct (truthyQ cap) eqn:Tc; cbn [andb]; [| eexists; reflexivity].
  destruct (truthyQ psf); [| eexists; reflexivity]. cbv zeta.
  destruct (Qleb (valQ psf) (valQ cap)); [eexists; reflexivity |].
  rewrite truediv_ok by (apply valQ_nonzero; exact Tc). eexists. reflexivity.
Qed.

Lemma yield_minimum_score_returns (mny y : option Q) :
  exists q, yield_minimum_score mny y = Ok q.
Proof.
  unfold yield_minimum_score.
  destruct (truthyQ mny) eqn:Tm; [| eexists; reflexivity]. cbv zeta.
  destruct y as [y |]; [| eexists; reflexivity].
  destruct (Qgeb y (valQ mny)); [eexists; reflexivity |].
  rewrite truediv_ok by (apply valQ_nonzero; exact Tm). eexists. reflexivity.
Qed.

Lemma yield_target_score_returns (ty y : option Q) :
  exists q, yield_target_score ty y = Ok q.
Proof.
  unfold yield_target_score.
  destruct (truthyQ ty) eqn:Tt; [| eexists; reflexivity]. cbv zeta.
  destruct y as [y |]; [| eexists; reflexivity].
  destruct (Qgeb y (valQ ty));
    rewrite truediv_ok by (apply valQ_nonzero; exact Tt); eexists; reflexivity.
Qed.

Lemma factor_returns (c : ScoreCategory) (n : string) (sc : Q)
    (w : gmap string Q) (k : string) (v : Q) :
  w !! k = Some v ->
  factor c n sc w k
  = Ok {| category := c; name := n; score := sc; weight := v;
          weighted_score := sc * v |}.
Proof. intros H. unfold factor, getitem. rewrite H. reflexivity. Qed.

Lemma final_division_returns (a b : Q) :
  exists q,
    (if Qgtb b 0 then q <~ truediv a b ;; Ok (q * 100) else Ok 0.0) = Ok q.
Proof.
  destruct (Qgtb b 0) eqn:G; [| eexists; reflexivity].
  apply Qgtb_true in G. rewrite truediv_ok by lra. eexists. reflexivity.
Qed.

Lemma score_listing_returns (l : listing.Listing) (m : mandate.Mandate) :
  (spec.point_range l m
   /\ forall weights, score_listing l m weights = Raise ZeroDivisionError)
  \/ (~ spec.point_range l m
      /\ exists sub_scores : list Q,
         forall weights, exists r,
           score_listing l m weights = Ok r
           /\ map name (factors r) = FACTOR_NAMES
           /\ map score (factors r) = sub_scores
           /\ Forall2 (fun f k => active_weights m weights !! k = Some (weight f))
                (factors r) FACTOR_KEYS
           /\ Forall (fun f => weighted_score f = score f * weight f) (factors r)
           /\ passes_hard_filters r
              = mandate.accepts_asset_class m (listing.asset_class l)
                && mandate.accepts_location m (listing.region l)
                     (listing.postcode_area l)
           /\ (disqualification_reasons r = [] <-> passes_hard_filters r = true)
           /\ total_score r
              = notions.total_from_factors (factors r) (passes_hard_filters r)
           /\ match_grade r = _calculate_grade (total_score r)).
Proof.
  destruct (price_range_score_returns (listing.asking_price l)
              (mandate.min_deal_size (mandate.financial m))
              (mandate.max_deal_size (mandate.financial m)))
    as [(E1 & E2 & E3 & E) | (Hpt & q3 & E3)].
  { left. split; [split; [exact E1 | split; assumption] |].
    intros weights.
    destruct (active_weights_has_key m weights "location_region") as [v1 H1];
      [simpl; tauto |].
    destruct (active_weights_has_key m weights "location_postcode") as [v2 H2];
      [simpl; tauto |].
    unfold score_listing, _score_location, _score_price. cbv zeta.
    rewrite (factor_returns _ _ _ _ _ _ H1), (factor_returns _ _ _ _ _ _ H2), E.
    reflexivity. }
  right. split; [exact Hpt |].
  destruct (price_psf_score_returns (mandate.max_price_psf (mandate.financial m))
              (listing.price_per_sqft (listing.financial l))) as [q4 E4].
  destruct (yield_minimum_score_returns (mandate.min_yield (mandate.financial m))
              (listing.gross_yield l)) as [q5 E5].
  destruct (yield_target_score_returns (mandate.target_yield (mandate.financial m))
              (listing.gross_yield l)) as [q6 E6].
  eexists. intros weights.
  pose proof (active_weights_has_key m weights) as Hk.
  destruct (Hk "location_region") as [v1 H1]; [simpl; tauto |].
  destruct (Hk "location_postcode") as [v2 H2]; [simpl; tauto |].
  destruct (Hk "price_range") as [v3 H3]; [simpl; tauto |].
  destruct (Hk "price_psf") as [v4 H4]; [simpl; tauto |].
  destruct (Hk "yield_minimum") as [v5 H5]; [simpl; tauto |].
  destruct (Hk "yield_target") as [v6 H6]; [simpl; tauto |].
  destruct (Hk "property_size") as [v7 H7]; [simpl; tauto |].
  destruct (Hk "property_condition") as [v8 H8]; [simpl; tauto |].
  destruct (Hk "property_tenure") as [v9 H9]; [simpl; tauto |].
  destruct (Hk "risk_profile") as [v10 H10]; [simpl; tauto |].
  clear Hk.
  unfold score_listing, _score_location, _score_price, _score_yield,
    _score_property, _score_risk. cbv zeta.
  rewrite (factor_returns _ _ _ _ _ _ H1), (factor_returns _ _ _ _ _ _ H2).
  cbn [Py.bind]. rewrite E3. cbn [Py.bind].
  rewrite (factor_returns _ _ _ _ _ _ H3). cbn [Py.bind].
  rewrite E4. cbn [Py.bind]. rewrite (factor_returns _ _ _ _ _ _ H4).
  cbn [Py.bind]. rewrite E5. cbn [Py.bind].
  rewrite (factor_returns _ _ _ _ _ _ H5). cbn [Py.bind].
  rewrite E6. cbn [Py.bind]. rewrite (factor_returns _ _ _ _ _ _ H6).
  cbn [Py.bind].
  rewrite (factor_returns _ _ _ _ _ _ H7), (factor_returns _ _ _ _ _ _ H8),
    (factor_returns _ _ _ _ _ _ H9), (factor_returns _ _ _ _ _ _ H10).
  cbn [Py.bind app].
  match goal with
  | |- context [if Qgtb ?b 0 then (q <~ truediv ?a ?b ;; _) else _] =>
      destruct (Qgtb b 0) eqn:G;
      [rewrite (truediv_ok a b) by (apply Qgtb_true in G; lra) |]
  end.
  - cbn [Py.bind]. eexists. split; [reflexivity |].
    cbn [factors passes_hard_filters total_score match_grade
         disqualification_reasons].
    split; [reflexivity |]. split; [cbn [map score]; reflexivity |]. split.
    { repeat (apply List.Forall2_cons; [cbn [weight]; assumption |]).
      apply List.Forall2_nil. }
    split.
    { repeat (apply List.Forall_cons; [reflexivity |]). apply List.Forall_nil. }
    split; [reflexivity |]. split.
    { destruct (mandate.accepts_asset_class m (listing.asset_class l));
        destruct (mandate.accepts_location m (listing.region l)
                    (listing.postcode_area l));
        simpl; split; intros H; try reflexivity; discriminate H. }
    split; [| reflexivity].
    unfold notions.total_from_factors. cbv zeta. rewrite G. reflexivity.
  - cbn [Py.bind]. eexists. split; [reflexivity |].
    cbn [factors passes_hard_filters total_score match_grade
         disqualification_reasons].
    split; [reflexivity |]. split; [cbn [map score]; reflexivity |]. split.
    { repeat (apply List.Forall2_cons; [cbn [weight]; assumption |]).
      apply List.Forall2_nil. }
    split.
    { repeat (apply List.Forall_cons; [reflexivity |]). apply List.Forall_nil. }
    split; [reflexivity |]. split.
    { destruct (mandate.accepts_asset_class m (listing.asset_class l));
        destruct (mandate.accepts_location m (listing.region l)
                    (listing.postcode_area l));
        simpl; split; intros H; try reflexivity; discriminate H. }
    split; [| reflexivity].
    unfold notions.total_from_factors. cbv zeta. rewrite G. reflexivity.
Qed.

(** X8.  [score_listing] raises exactly when the mandate's deal-size
    range is the single point at which the listing is priced, and then it
    raises [ZeroDivisionError]; no choice of weights makes it raise
    anything else.  Otherwise it returns the ten factors in their fixed
    order, each weighted by the active weight of its key and contributing
    sub-score times weight; no disqualification reason is the same as
    passing the hard filters; the total is recomputable from the factors
    and the grade is the grade of the total. *)
Theorem score_listing_raises_exactly_on_point_range
    (l : listing.Listing) (m : mandate.Mandate)
    (weights : option (gmap string Q)) :
  (spec.point_range l m
   /\ score_listing l m weights = Raise ZeroDivisionError)
  \/ (~ spec.point_range l m
      /\ exists r,
           score_listing l m weights = Ok r
           /\ map name (factors r) = FACTOR_NAMES
           /\ Forall2 (fun f k => active_weights m weights !! k = Some (weight f))
                (factors r) FACTOR_KEYS
           /\ Forall (fun f => weighted_score f = score f * weight f) (factors r)
           /\ passes_hard_filters r
              = mandate.accepts_asset_class m (listing.asset_class l)
                && mandate.accepts_location m (listing.region l)
                     (listing.postcode_area l)
           /\ (disqualification_reasons r = [] <-> passes_hard_filters r = true)
           /\ total_score r
              = notions.total_from_factors (factors r) (passes_hard_filters r)
           /\ match_grade r = _calculate_grade (total_score r)).
Proof.
  destruct (score_listing_returns l m) as [[Hp H] | (Hp & ss & H)].
  - left. split; [exact Hp | apply H].
  - right. split; [exact Hp |].
    destruct (H weights) as (r & Hr & Hn & _ & Hw & Hws & Hpass & Hdq & Ht & Hg).
    exists r. split; [exact Hr |]. split; [exact Hn |]. split; [exact Hw |].
    split; [exact Hws |]. split; [exact Hpass |]. split; [exact Hdq |].
    split; [exact Ht | exact Hg].
Qed.

End ScoreErrorProperties.

(** ** Scoring: the hard-filter penalty *)

Section ScorePenaltyProperties.

Import scoring.

Lemma score_listing_penalised (l : listing.Listing) (m : mandate.Mandate) :
  spec.nonneg_weights (mandate.scoring_weights m) ->
  spec.nonneg_bounds (mandate.financial m) ->
  ~ spec.point_range l m ->
  exists r,
    score_listing l m None = Ok r
    /\ 0 <= total_score r
    /\ total_score r <= (if passes_hard_filters r then 100 else 30).
Proof.
  intros Hnw Hnb Hpt. unfold score_listing. cbv zeta.
  assert (Hw : weights_cover (active_weights m None))
    by (apply to_dict_cover; exact Hnw).
  destruct (score_location_in_range l m _ Hw) as (fs1 & -> & F1). cbn [Py.bind].
  destruct (score_price_in_range l m _ Hw Hnb Hpt) as (fs2 & -> & F2). cbn [Py.bind].
  destruct (score_yield_in_range l m _ Hw Hnb) as (fs3 & -> & F3). cbn [Py.bind].
  destruct (score_property_in_range l m _ Hw) as (fs4 & -> & F4). cbn [Py.bind].
  destruct (score_risk_in_range l m _ Hw) as (fs5 & -> & F5). cbn [Py.bind].
  assert (HF : Forall factor_in_range (fs1 ++ fs2 ++ fs3 ++ fs4 ++ fs5)%list).
  { repeat (apply Forall_app; split; [assumption |]). assumption. }
  destruct (weighted_sum_bounds _ HF) as [S0 S1].
  set (A := sum_of weighted_score (fs1 ++ fs2 ++ fs3 ++ fs4 ++ fs5)%list) in *.
  set (W := sum_of weight (fs1 ++ fs2 ++ fs3 ++ fs4 ++ fs5)%list) in *.
  destruct (Qgtb W 0) eqn:G.
  - apply Qgtb_true in G. rewrite (truediv_pos A W G). cbn [Py.bind].
    eexists. split; [reflexivity |]. cbn [total_score passes_hard_filters].
    assert (H0 : 0 <= A / W) by (apply Qdiv_nonneg; assumption).
    assert (H1 : A / W <= 1) by (apply Qle_shift_div_r; [exact G | lra]).
    destruct (mandate.accepts_asset_class _ _ && _); cbn [negb]; split; lra.
  - cbn [Py.bind]. eexists. split; [reflexivity |].
    cbn [total_score passes_hard_filters].
    destruct (mandate.accepts_asset_class _ _ && _); cbn [negb]; split; lra.
Qed.

(** X9.  Under a mandate with no negative weight, no negative bound and
    no point range, a listing whose asset class or location the mandate
    does not accept is scored with [passes_hard_filters = False] and at
    least one disqualification reason; its total score lies in [0, 30],
    its grade is F and it is no match. *)
Theorem failed_hard_filter_caps_score_at_30
    (l : listing.Listing) (m : mandate.Mandate) :
  spec.nonneg_weights (mandate.scoring_weights m) ->
  spec.nonneg_bounds (mandate.financial m) ->
  ~ spec.point_range l m ->
  mandate.accepts_asset_class m (listing.asset_class l)
  && mandate.accepts_location m (listing.region l) (listing.postcode_area l)
  = false ->
  exists r,
    score_listing l m None = Ok r
    /\ passes_hard_filters r = false
    /\ disqualification_reasons r <> []
    /\ 0 <= total_score r /\ total_score r <= 30
    /\ match_grade r = "F"
    /\ is_match r = false.
Proof.
  intros Hnw Hnb Hpt Hfail.
  destruct (score_listing_penalised l m Hnw Hnb Hpt) as (r & Hr & H0 & H1).
  destruct (score_listing_returns l m) as [[Hp _] | (_ & ss & H)];
    [contradiction |].
  destruct (H None) as (r' & Hr' & _ & _ & _ & _ & Hpass & Hdq & _ & Hg).
  rewrite Hr in Hr'. injection Hr' as <-.
  rewrite Hfail in Hpass. rewrite Hpass in H1.
  exists r. split; [exact Hr |]. split; [exact Hpass |]. split.
  { intros E. apply Hdq in E. congruence. }
  split; [exact H0 |]. split; [exact H1 |]. split.
  - rewrite Hg. apply (proj2 (proj2 (proj2 (proj2 (grade_breakpoints _))))). lra.
  - unfold is_match. rewrite Hpass. reflexivity.
Qed.

(** The Welsh listing against the mandate that excludes Wales. *)
Lemma failed_hard_filter_caps_score_at_30_witness :
  exists r,
    score_listing examples.listing_in_wales examples.mandate_excluding_wales None
      = Ok r
    /\ passes_hard_filters r = false
    /\ disqualification_reasons r <> []
    /\ 0 <= total_score r /\ total_score r <= 30
    /\ match_grade r = "F"
    /\ is_match r = false.
Proof.
  apply (failed_hard_filter_caps_score_at_30 examples.listing_in_wales
           examples.mandate_excluding_wales).
  - vm_compute. repeat split; discriminate.
  - repeat split; intros z H; vm_compute in H; discriminate H.
  - intros (H & _). vm_compute in H. discriminate H.
  - vm_compute. reflexivity.
Defined.

End ScorePenaltyProperties.

(** ** Scoring a batch *)

Section ScoreListingsProperties.

Import scoring.

Lemma score_loop_returns (ls : list listing.Listing) (m : mandate.Mandate)
    (min_score : Q) (acc : list ScoringResult) :
  (Exists (fun l => spec.point_range l m) ls
   /\ score_loop ls m min_score acc = Raise ZeroDivisionError)
  \/ (Forall (fun l => ~ spec.point_range l m) ls
      /\ exists all,
           Forall2 (fun l r => score_listing l m None = Ok r) ls all
           /\ score_loop ls m min_score acc
              = Ok (acc ++ List.filter (fun r => Qgeb (total_score r) min_score) all)%list).
Proof.
  revert acc. induction ls as [| l ls IH]; intros acc.
  - right. split; [constructor |]. exists []. split; [constructor |].
    simpl. rewrite app_nil_r. reflexivity.
  - cbn [score_loop].
    destruct (score_listing_returns l m) as [[Hp H] | (Hp & ss & H)].
    + left. split; [apply Exists_cons_hd; exact Hp |]. rewrite H. reflexivity.
    + destruct (H None) as (r & Hr & _). rewrite Hr. cbn [Py.bind].
      destruct (IH (if Qgeb (total_score r) min_score then (acc ++ [r])%list
                    else acc))
        as [[He ->] | (Hf & all & Hall & ->)].
      * left. split; [apply Exists_cons_tl; exact He | reflexivity].
      * right. split; [apply List.Forall_cons; assumption |].
        exists (r :: all). split; [apply List.Forall2_cons; assumption |].
        cbn [List.filter].
        destruct (Qgeb (total_score r) min_score); [| reflexivity].
        rewrite <- app_assoc. reflexivity.
Qed.

Lemma by_score_desc_total (a b : ScoringResult) :
  by_score_desc a b = true \/ by_score_desc b a = true.
Proof.
  unfold by_score_desc.
  destruct (Qlt_le_dec (total_score a) (total_score b)) as [H | H].
  - right. apply Qgeb_true. lra.
  - left. apply Qgeb_true. exact H.
Qed.

Lemma by_score_desc_trans (a b c : ScoringResult) :
  by_score_desc a b = true -> by_score_desc b c = true ->
  by_score_desc a c = true.
Proof.
  unfold by_score_desc. rewrite !Qgeb_true. intros; lra.
Qed.

Lemma StronglySorted_impl {A} (R S : A -> A -> Prop) (l : list A) :
  (forall a b, R a b -> S a b) -> StronglySorted R l -> StronglySorted S l.
Proof.
  intros HRS. induction 1 as [| x l _ IH Hx]; constructor; [exact IH |].
  rewrite List.Forall_forall in *. intros y Hy. apply HRS, Hx, Hy.
Qed.

(** X11.  [score_listings] raises [ZeroDivisionError] exactly when some
    listing meets a point range.  Otherwise it returns the results that
    reach [min_score] and only those, each once, sorted by total score in
    descending order; results with equal scores keep the order of the
    input listings. *)
Theorem score_listings_sorted_and_thresholded
    (ls : list listing.Listing) (m : mandate.Mandate) (min_score : Q) :
  (Exists (fun l => spec.point_range l m) ls
   /\ score_listings ls m min_score = Raise ZeroDivisionError)
  \/ (Forall (fun l => ~ spec.point_range l m) ls
      /\ exists all rs,
           Forall2 (fun l r => score_listing l m None = Ok r) ls all
           /\ score_listings ls m min_score = Ok rs
           /\ Permutation rs
                (List.filter (fun r => Qgeb (total_score r) min_score) all)
           /\ StronglySorted (fun a b => total_score b <= total_score a) rs
           /\ (forall r, In r rs -> min_score <= total_score r)
           /\ (forall k,
                 List.filter (fun r => Qeq_bool (total_score r) k) rs
                 = List.filter (fun r => Qeq_bool (total_score r) k)
                     (List.filter (fun r => Qgeb (total_score r) min_score) all))).
Proof.
  unfold score_listings.
  destruct (score_loop_returns ls m min_score [])
    as [[He ->] | (Hf & all & Hall & ->)].
  - left. split; [exact He | reflexivity].
  - right. split; [exact Hf |]. cbn [Py.bind app].
    exists all. eexists. split; [exact Hall |]. split; [reflexivity |].
    split; [apply stable_sort_perm |]. split.
    { apply StronglySorted_impl with (R := fun a b => by_score_desc a b = true).
      - intros a b H. apply Qgeb_true in H. exact H.
      - apply stable_sort_sorted;
          [apply by_score_desc_total | apply by_score_desc_trans]. }
    split.
    { intros r Hr. apply stable_sort_In in Hr. apply filter_In in Hr.
      destruct Hr as [_ Hr]. apply Qgeb_true in Hr. exact Hr. }
    intros k. apply stable_sort_stable. intros a b Ha Hb.
    apply Qeq_bool_iff in Ha. apply Qeq_bool_iff in Hb.
    apply Qgeb_true. lra.
Qed.

End ScoreListingsProperties.

(** ** Conviction: factor lists and the range of the confidence *)

Section ConvictionPartitionProperties.

Import conviction.

Lemma three_way_partition {A} (p q r : A -> bool) (l : list A) :
  (forall x, (p x = true /\ q x = false /\ r x = false)
             \/ (p x = false /\ q x = true /\ r x = false)
             \/ (p x = false /\ q x = false /\ r x = true)) ->
  Permutation (List.filter p l ++ List.filter q l ++ List.filter r l) l.
Proof.
  intros H. induction l as [| x l IH]; [reflexivity |].
  cbn [List.filter].
  destruct (H x) as [(-> & -> & ->) | [(-> & -> & ->) | (-> & -> & ->)]].
  - cbn [app]. apply perm_skip. exact IH.
  - cbn [app]. rewrite <- Permutation_middle. apply perm_skip. exact IH.
  - rewrite app_assoc, <- Permutation_middle, <- app_assoc.
    apply perm_skip. exact IH.
Qed.

Lemma met_weight_le_total (fs : list ConvictionFactor) :
  Forall positive_weight fs ->
  0 <= sum_weights (List.filter met fs)
  /\ sum_weights (List.filter met fs) <= sum_weights fs.
Proof.
  induction 1 as [| f fs Hf _ [IH0 IH1]].
  - unfold sum_weights. simpl. split; lra.
  - unfold positive_weight in Hf. cbn [List.filter].
    destruct (met f); rewrite !sum_weights_cons; split; lra.
Qed.

Lemma factor_confidence_range (fs : list ConvictionFactor) :
  Forall positive_weight fs ->
  0 <= spec.factor_confidence fs /\ spec.factor_confidence fs <= 1.
Proof.
  intros Hpos. unfold spec.factor_confidence.
  destruct (met_weight_le_total fs Hpos) as [H0 H1].
  destruct fs as [| f fs].
  - unfold sum_weights. simpl. unfold Qdiv. split; lra.
  - assert (Hs : 0 < sum_weights (f :: fs))
      by (apply sum_weights_positive; [exact Hpos | discriminate]).
    split.
    + apply Qle_shift_div_l; [exact Hs | lra].
    + apply Qle_shift_div_r; [exact Hs | lra].
Qed.

(** X12.  For a scoring result with a total in [0, 100]: the positive,
    negative and neutral factor lists of a conviction assessment together
    hold every gathered factor exactly once (met with weight >= 0.10, not
    met, met with weight < 0.10); the confidence score lies in [0, 1], and
    is at most 0.3 when the hard filters failed; the recommendation text
    is the one of the level. *)
Theorem conviction_factors_partition_and_confidence_range
    (l : listing.Listing) (m : mandate.Mandate) (sc : scoring.ScoringResult) :
  0 <= scoring.total_score sc -> scoring.total_score sc <= 100 ->
  let a := assess_conviction l m sc in
  Permutation (positive_factors a ++ negative_factors a ++ neutral_factors a)
    (gather_factors l m)
  /\ (forall f, In f (positive_factors a) -> met f = true /\ 0.10 <= weight f)
  /\ (forall f, In f (negative_factors a) -> met f = false)
  /\ (forall f, In f (neutral_factors a) -> met f = true /\ weight f < 0.10)
  /\ 0 <= confidence_score a /\ confidence_score a <= 1
  /\ (scoring.passes_hard_filters sc = false -> confidence_score a <= 0.3)
  /\ recommendation a = _generate_recommendation (level a).
Proof.
  intros H0 H100. cbv zeta.
  split; [| split; [| split; [| split]]].
  - unfold assess_conviction.
    cbn [positive_factors negative_factors neutral_factors].
    apply three_way_partition. intros f.
    destruct (met f); cbn [andb negb].
    + unfold Qgeb, Qltb. destruct (Qle_bool 0.10 (weight f)); cbn [negb]; tauto.
    + tauto.
  - intros f Hf. unfold assess_conviction in Hf. cbn [positive_factors] in Hf.
    apply filter_In in Hf. destruct Hf as [_ Hf].
    apply andb_prop in Hf. destruct Hf as [Hm Hw].
    split; [exact Hm | apply Qgeb_true; exact Hw].
  - intros f Hf. unfold assess_conviction in Hf. cbn [negative_factors] in Hf.
    apply filter_In in Hf. destruct Hf as [_ Hf].
    apply negb_true_iff in Hf. exact Hf.
  - intros f Hf. unfold assess_conviction in Hf. cbn [neutral_factors] in Hf.
    apply filter_In in Hf. destruct Hf as [_ Hf].
    apply andb_prop in Hf. destruct Hf as [Hm Hw].
    split; [exact Hm | apply Qltb_true; exact Hw].
  - pose proof (confidence_blend l m sc) as Hb.
    destruct (factor_confidence_range (gather_factors l m)
                (gathered_weights_positive l m)) as [C0 C1].
    assert (S0 : 0 <= scoring.total_score sc / 100)
      by (apply Qle_shift_div_l; lra).
    assert (S1 : scoring.total_score sc / 100 <= 1)
      by (apply Qle_shift_div_r; lra).
    destruct (scoring.passes_hard_filters sc).
    + split; [lra |]. split; [lra |]. split; [discriminate | reflexivity].
    + split; [lra |]. split; [lra |]. split; [intros _; lra | reflexivity].
Qed.

(** The in-range London listing with a total score of 85. *)
Lemma conviction_factors_partition_witness :
  0 <= confidence_score
         (assess_conviction examples.listing_2m examples.mandate_500k_5m
            examples.scoring_result_85)
  /\ confidence_score
       (assess_conviction examples.listing_2m examples.mandate_500k_5m
          examples.scoring_result_85) <= 1.
Proof.
  destruct (conviction_factors_partition_and_confidence_range
              examples.listing_2m examples.mandate_500k_5m examples.scoring_result_85)
    as (_ & _ & _ & _ & H0 & H1 & _).
  - vm_compute. discriminate.
  - vm_compute. discriminate.
  - split; [exact H0 | exact H1].
Defined.

End ConvictionPartitionProperties.

(** ** Conviction: ranking *)

Section ConvictionRankProperties.
Import conviction.

Lemma ConvictionLevel_eqb_eq (a b : ConvictionLevel) :
  ConvictionLevel_eqb a b = true <-> a = b.
Proof. destruct a, b; simpl; split; intros H; try reflexivity; discriminate H. Qed.

Lemma by_confidence_desc_total (a b : ConvictionAssessment) :
  by_confidence_desc a b = true \/ by_confidence_desc b a = true.
Proof.
  unfold by_confidence_desc.
  destruct (Qlt_le_dec (confidence_score a) (confidence_score b)) as [H | H].
  - right. apply Qgeb_true. lra.
  - left. apply Qgeb_true. exact H.
Qed.

Lemma by_confidence_desc_trans (a b c : ConvictionAssessment) :
  by_confidence_desc a b = true -> by_confidence_desc b c = true ->
  by_confidence_desc a c = true.
Proof.
  unfold by_confidence_desc. rewrite !Qgeb_true. intros; lra.
Qed.

Lemma four_way_length (assessments : list ConvictionAssessment) :
  (List.length (List.filter (fun a => ConvictionLevel_eqb (level a) HIGH) assessments)
   + List.length (List.filter (fun a => ConvictionLevel_eqb (level a) MEDIUM) assessments)
   + List.length (List.filter (fun a => ConvictionLevel_eqb (level a) LOW) assessments)
   + List.length (List.filter (fun a => ConvictionLevel_eqb (level a) NONE) assessments)
   = List.length assessments)%nat.
Proof.
  induction assessments as [| a l IH]; [reflexivity |].
  cbn [List.filter]. destruct (level a); cbn [ConvictionLevel_eqb List.length]; lia.
Qed.

(** X13.  [rank_by_conviction] puts every assessment in the list of its
    own level and nowhere else; each list is sorted by confidence score,
    highest first, equal confidences keeping their input order; the four
    lists together are as long as the input. *)
Theorem rank_by_conviction_groups_and_sorts
    (assessments : list ConvictionAssessment) :
  (forall lv,
     Permutation (rank_by_conviction assessments lv)
       (List.filter (fun a => ConvictionLevel_eqb (level a) lv) assessments)
     /\ Forall (fun a => level a = lv) (rank_by_conviction assessments lv)
     /\ StronglySorted (fun a b => confidence_score b <= confidence_score a)
          (rank_by_conviction assessments lv)
     /\ (forall k,
           List.filter (fun a => Qeq_bool (confidence_score a) k)
             (rank_by_conviction assessments lv)
           = List.filter (fun a => Qeq_bool (confidence_score a) k)
               (List.filter (fun a => ConvictionLevel_eqb (level a) lv)
                  assessments)))
  /\ (forall a lv, In a (rank_by_conviction assessments lv)
                   <-> In a assessments /\ level a = lv)
  /\ (List.length (rank_by_conviction assessments HIGH)
      + List.length (rank_by_conviction assessments MEDIUM)
      + List.length (rank_by_conviction assessments LOW)
      + List.length (rank_by_conviction assessments NONE)
      = List.length assessments)%nat.
Proof.
  assert (Hin : forall a lv, In a (rank_by_conviction assessments lv)
                             <-> In a assessments /\ level a = lv).
  { intros a lv. unfold rank_by_conviction.
    rewrite stable_sort_In, filter_In, ConvictionLevel_eqb_eq. reflexivity. }
  split; [| split; [exact Hin |]].
  - intros lv. split; [apply stable_sort_perm |]. split.
    { apply List.Forall_forall. intros a Ha. apply Hin in Ha. apply Ha. }
    split.
    { apply StronglySorted_impl
        with (R := fun a b => by_confidence_desc a b = true).
      - intros a b H. apply Qgeb_true in H. exact H.
      - apply stable_sort_sorted;
          [apply by_confidence_desc_total | apply by_confidence_desc_trans]. }
    intros k. apply stable_sort_stable. intros a b Ha Hb.
    apply Qeq_bool_iff in Ha. apply Qeq_bool_iff in Hb.
    apply Qgeb_true. lra.
  - unfold rank_by_conviction. rewrite !stable_sort_length.
    apply four_way_length.
Qed.

End ConvictionRankProperties.

(** ** Recommendation: priority bands *)

Section PriorityProperties.

Import recommendation.

Lemma int_of_float_mono (x y : Q) : x <= y -> (int_of_float x <= int_of_float y)%Z.
Proof.
  intros H. destruct x as [n1 d1], y as [n2 d2]. unfold int_of_float. simpl.
  unfold Qle in H. simpl in H.
  rewrite <- (Z.quot_mul_cancel_r n1 (Z.pos d1) (Z.pos d2)) by lia.
  rewrite <- (Z.quot_mul_cancel_r n2 (Z.pos d2) (Z.pos d1)) by lia.
  rewrite (Z.mul_comm (Z.pos d2) (Z.pos d1)).
  apply Z.quot_le_mono; lia.
Qed.

Lemma int_of_float_inject (z : Z) : int_of_float (inject_Z z) = z.
Proof. unfold int_of_float. simpl. apply Z.quot_1_r. Qed.

(** The score adjustment [int((100 - total_score) / 10)], a subtraction and
    a division in binary64. *)
Lemma score_adjustment_mono (s s' : Q) :
  s <= s' ->
  (int_of_float (fdiv (fsub (float_of_int 100) s') (float_of_int 10))
   <= int_of_float (fdiv (fsub (float_of_int 100) s) (float_of_int 10)))%Z.
Proof.
  intros H. apply int_of_float_mono. apply fdiv_mono_l; [vm_compute; reflexivity |].
  unfold fsub. apply round64_mono. lra.
Qed.

Lemma score_adjustment_range (s : Q) :
  (1 # 100000000000000) <= s -> s <= 100 ->
  (0 <= int_of_float (fdiv (fsub (float_of_int 100) s) (float_of_int 10)) <= 9)%Z.
Proof.
  intros H0 H100. split.
  - apply Z.le_trans
      with (int_of_float (fdiv (fsub (float_of_int 100) 100) (float_of_int 10)));
      [vm_compute; discriminate | apply score_adjustment_mono; exact H100].
  - apply Z.le_trans
      with (int_of_float
              (fdiv (fsub (float_of_int 100) (1 # 100000000000000)) (float_of_int 10)));
      [apply score_adjustment_mono; exact H0 | vm_compute; discriminate].
Qed.

(** Up to 2^-47 the subtraction [100 - total_score] rounds to 100.0. *)
Lemma score_adjustment_near_zero (s : Q) :
  0 <= s -> s <= 1 # 140737488355328 ->
  int_of_float (fdiv (fsub (float_of_int 100) s) (float_of_int 10)) = 10%Z.
Proof.
  intros H0 H1. apply Z.le_antisymm.
  - apply Z.le_trans
      with (int_of_float (fdiv (fsub (float_of_int 100) 0) (float_of_int 10)));
      [apply score_adjustment_mono; exact H0 | vm_compute; discriminate].
  - apply Z.le_trans
      with (int_of_float
              (fdiv (fsub (float_of_int 100) (1 # 140737488355328)) (float_of_int 10)));
      [vm_compute; discriminate | apply score_adjustment_mono; exact H1].
Qed.

Lemma priority_unfold (a : RecommendationAction) (sc : scoring.ScoringResult)
    (m : mandate.Mandate) :
  _calculate_priority a sc m
  = (notions.action_rank a * 100
     + int_of_float
         (fdiv (fsub (float_of_int 100) (scoring.total_score sc)) (float_of_int 10))
       * 10
     + (mandate.priority m - 1))%Z.
Proof. destruct a; reflexivity. Qed.

(** X14.  For a total score from 10^-14 to 100 and a mandate priority in
    [1, 10], the priority rank stays inside the band of its action
    (PURSUE 100..199, CONSIDER 200..299, WATCH 300..399, PASS 400..499), so
    a better action always ranks strictly ahead; within an action a higher
    score never ranks later.  At a total score from 0 to 2^-47 the
    subtraction [100 - total_score] gives 100.0 in binary64, the score
    adjustment is 10, not 9, and the rank is the one the next band starts
    at. *)
Theorem priority_rank_stays_in_action_band
    (a : RecommendationAction) (sc : scoring.ScoringResult) (m : mandate.Mandate) :
  (1 # 100000000000000) <= scoring.total_score sc -> scoring.total_score sc <= 100 ->
  (1 <= mandate.priority m <= 10)%Z ->
  (notions.action_rank a * 100 <= _calculate_priority a sc m
   <= notions.action_rank a * 100 + 99)%Z
  /\ (forall a' sc' m',
        (1 # 100000000000000) <= scoring.total_score sc' ->
        scoring.total_score sc' <= 100 ->
        (1 <= mandate.priority m' <= 10)%Z ->
        (notions.action_rank a < notions.action_rank a')%Z ->
        (_calculate_priority a sc m < _calculate_priority a' sc' m')%Z)
  /\ (forall sc',
        scoring.total_score sc <= scoring.total_score sc' ->
        (_calculate_priority a sc' m <= _calculate_priority a sc m)%Z)
  /\ (forall sc0,
        0 <= scoring.total_score sc0 ->
        scoring.total_score sc0 <= 1 # 140737488355328 ->
        _calculate_priority a sc0 m
        = ((notions.action_rank a + 1) * 100 + (mandate.priority m - 1))%Z).
Proof.
  intros H0 H100 Hp. rewrite priority_unfold.
  pose proof (score_adjustment_range _ H0 H100) as Hadj.
  split; [lia |]. split; [| split].
  - intros a' sc' m' H0' H100' Hp' Hlt. rewrite priority_unfold.
    pose proof (score_adjustment_range _ H0' H100') as Hadj'. lia.
  - intros sc' Hle. rewrite priority_unfold.
    pose proof (score_adjustment_mono _ _ Hle). lia.
  - intros sc0 Hz0 Hz1. rewrite priority_unfold.
    rewrite (score_adjustment_near_zero _ Hz0 Hz1). lia.
Qed.

(** PURSUE at a score of 85 under the priority-1 mandate. *)
Lemma priority_rank_band_witness :
  (100 <= _calculate_priority PURSUE examples.scoring_result_85
            examples.mandate_500k_5m <= 199)%Z.
Proof.
  destruct (priority_rank_stays_in_action_band PURSUE examples.scoring_result_85
              examples.mandate_500k_5m) as [H _].
  - vm_compute. discriminate.
  - vm_compute. discriminate.
  - vm_compute. split; discriminate.
  - exact H.
Defined.

End PriorityProperties.

(** ** Recommendation: the outcome of a pair *)

Section RecommendationOutcomeProperties.

Import recommendation.

Lemma generate_recommendation_returns (l : listing.Listing) (m : mandate.Mandate) :
  (spec.point_range l m
   /\ generate_recommendation l m = Raise ZeroDivisionError)
  \/ (~ spec.point_range l m
      /\ exists sc,
           scoring.score_listing l m None = Ok sc
           /\ generate_recommendation l m
              = Ok (let cv := conviction.assess_conviction l m sc in
                    let rj := rejection.evaluate_rejection l m None false in
                    let a := _determine_action sc cv rj m in
                    {| listing_id := listing.listing_id l;
                       mandate_id := mandate.mandate_id m;
                       action := a;
                       priority_rank := _calculate_priority a sc m;
                       scoring_ := sc;
                       conviction_ := cv;
                       rejection_ := rj |})).
Proof.
  unfold generate_recommendation.
  destruct (score_listing_returns l m) as [[Hp H] | (Hp & ss & H)].
  - left. split; [exact Hp |]. rewrite H. reflexivity.
  - right. split; [exact Hp |]. destruct (H None) as (sc & Hsc & _).
    exists sc. split; [exact Hsc |]. rewrite Hsc. reflexivity.
Qed.

(** X15.  [generate_recommendation] (without a planning context) raises
    exactly on a point range, and then [ZeroDivisionError].  Otherwise the
    recommendation carries the ids of its inputs and the scoring result of
    the pair; a rejected listing and a listing that failed a hard filter
    both get PASS; PURSUE is only given to a listing that is not rejected,
    passed the hard filters, has HIGH conviction and reaches the pursue
    threshold; an actionable recommendation is never rejected and never
    failed a hard filter. *)
Theorem generate_recommendation_outcome (l : listing.Listing) (m : mandate.Mandate) :
  (spec.point_range l m
   /\ generate_recommendation l m = Raise ZeroDivisionError)
  \/ (~ spec.point_range l m
      /\ exists r,
           generate_recommendation l m = Ok r
           /\ listing_id r = listing.listing_id l
           /\ mandate_id r = mandate.mandate_id m
           /\ scoring.score_listing l m None = Ok (scoring_ r)
           /\ priority_rank r = _calculate_priority (action r) (scoring_ r) m
           /\ (rejection.rejected (rejection_ r) = true -> action r = PASS)
           /\ (scoring.passes_hard_filters (scoring_ r) = false -> action r = PASS)
           /\ (action r = PURSUE ->
               rejection.rejected (rejection_ r) = false
               /\ scoring.passes_hard_filters (scoring_ r) = true
               /\ conviction.level (conviction_ r) = conviction.HIGH
               /\ mandate.pursue_score_threshold (mandate.deal_criteria m)
                  <= scoring.total_score (scoring_ r))
           /\ (is_actionable r = true ->
               rejection.rejected (rejection_ r) = false
               /\ scoring.passes_hard_filters (scoring_ r) = true)).
Proof.
  destruct (generate_recommendation_returns l m)
    as [[Hp H] | (Hp & sc & Hsc & H)].
  - left. split; assumption.
  - right. split; [exact Hp |]. eexists. split; [exact H |].
    cbv zeta. cbn [listing_id mandate_id scoring_ priority_rank action
                   rejection_ conviction_ is_actionable].
    split; [reflexivity |]. split; [reflexivity |]. split; [exact Hsc |].
    split; [reflexivity |].
    set (rj := rejection.evaluate_rejection l m None false).
    assert (Hnone : scoring.passes_hard_filters sc = false ->
                    conviction.level (conviction.assess_conviction l m sc)
                    = conviction.NONE)
      by apply level_needs_hard_filters.
    unfold is_actionable. cbn [action]. unfold _determine_action. cbv zeta.
    destruct (rejection.rejected rj).
    { cbv iota. split; [reflexivity |]. split; [reflexivity |].
      split; intros H'; discriminate H'. }
    destruct (scoring.passes_hard_filters sc) eqn:Hpass.
    + split; [discriminate |]. split; [discriminate |].
      destruct (conviction.level (conviction.assess_conviction l m sc));
        cbn [is_level andb orb]; cbv iota;
        repeat match goal with
               | |- context [Qgeb ?a ?b] => destruct (Qgeb a b) eqn:?; cbv iota
               end;
        (split; intros H'; [| first [discriminate H' | split; reflexivity]]);
        try discriminate H'.
      repeat split; try reflexivity.
      match goal with G : Qgeb _ _ = true |- _ => apply Qgeb_true in G; exact G end.
    + rewrite (Hnone eq_refl). cbn [is_level andb orb]. cbv iota.
      split; [discriminate |]. split; [reflexivity |].
      split; intros H'; discriminate H'.
Qed.

End RecommendationOutcomeProperties.

(** ** Recommendation: batches and reports *)

Section RecommendationBatchProperties.

Import recommendation.

Lemma recommend_loop_returns (ls : list listing.Listing) (m : mandate.Mandate)
    (acc : list DealRecommendation) :
  (Exists (fun l => spec.point_range l m) ls
   /\ recommend_loop ls m acc = Raise ZeroDivisionError)
  \/ (Forall (fun l => ~ spec.point_range l m) ls
      /\ exists all,
           Forall2 (fun l r => generate_recommendation l m = Ok r) ls all
           /\ recommend_loop ls m acc = Ok (acc ++ all)%list).
Proof.
  revert acc. induction ls as [| l ls IH]; intros acc.
  - right. split; [constructor |]. exists []. split; [constructor |].
    simpl. rewrite app_nil_r. reflexivity.
  - cbn [recommend_loop].
    destruct (generate_recommendation_returns l m)
      as [[Hp E] | (Hp & sc & _ & E)].
    + left. split; [apply Exists_cons_hd; exact Hp |]. rewrite E. reflexivity.
    + revert E. cbv zeta. set (r := {| listing_id := _ |}). intros E.
      rewrite E. cbn [Py.bind].
      destruct (IH (acc ++ [r])%list) as [[He ->] | (Hf & all & Hall & ->)].
      * left. split; [apply Exists_cons_tl; exact He | reflexivity].
      * right. split; [apply List.Forall_cons; assumption |].
        exists (r :: all). split; [apply List.Forall2_cons; assumption |].
        rewrite <- app_assoc. reflexivity.
Qed.

Lemma by_priority_rank_total (a b : DealRecommendation) :
  by_priority_rank a b = true \/ by_priority_rank b a = true.
Proof. unfold by_priority_rank. rewrite !Z.leb_le. lia. Qed.

Lemma by_priority_rank_trans (a b c : DealRecommendation) :
  by_priority_rank a b = true -> by_priority_rank b c = true ->
  by_priority_rank a c = true.
Proof. unfold by_priority_rank. rewrite !Z.leb_le. lia. Qed.

Lemma count_acc (a : RecommendationAction) (rs : list DealRecommendation) (z : Z) :
  fold_left
    (fun acc r => if RecommendationAction_eqb (action r) a then (acc + 1)%Z else acc)
    rs z
  = (z + Z.of_nat (List.length
                     (List.filter (fun r => RecommendationAction_eqb (action r) a) rs)))%Z.
Proof.
  revert z. induction rs as [| r rs IH]; intros z; cbn [fold_left List.filter].
  - simpl. lia.
  - rewrite IH. destruct (RecommendationAction_eqb (action r) a);
      cbn [List.length]; lia.
Qed.

Lemma count_is_filter_length (a : RecommendationAction) (rep : RecommendationReport.t) :
  RecommendationReport.count a rep
  = Z.of_nat (List.length
                (List.filter (fun r => RecommendationAction_eqb (action r) a)
                   (RecommendationReport.recommendations rep))).
Proof. unfold RecommendationReport.count. rewrite count_acc. lia. Qed.

Lemma counts_partition (rs : list DealRecommendation) :
  (List.length (List.filter (fun r => RecommendationAction_eqb (action r) PURSUE) rs)
   + List.length (List.filter (fun r => RecommendationAction_eqb (action r) CONSIDER) rs)
   + List.length (List.filter (fun r => RecommendationAction_eqb (action r) WATCH) rs)
   + List.length (List.filter (fun r => RecommendationAction_eqb (action r) PASS) rs)
   = List.length rs
   /\ List.length (List.filter (fun r => RecommendationAction_eqb (action r) PURSUE) rs)
      + List.length (List.filter (fun r => RecommendationAction_eqb (action r) CONSIDER) rs)
      = List.length (List.filter is_actionable rs))%nat.
Proof.
  induction rs as [| r rs [IH1 IH2]]; [split; reflexivity |].
  cbn [List.filter]. unfold is_actionable at 1.
  destruct (action r); cbn [RecommendationAction_eqb List.length]; split; lia.
Qed.

(** X16.  [generate_recommendations] raises exactly when some listing
    meets a point range; otherwise it returns one recommendation per
    listing, sorted by priority rank with ties in input order.  In the
    report built from them the four action counts add up to
    [total_listings], and the actionable count is the number of
    recommendations [get_actionable_recommendations] keeps. *)
Theorem generate_report_sorted_and_counted
    (ls : list listing.Listing) (m : mandate.Mandate) (now : Z) :
  (Exists (fun l => spec.point_range l m) ls
   /\ generate_recommendations ls m = Raise ZeroDivisionError
   /\ generate_report ls m now = Raise ZeroDivisionError)
  \/ (Forall (fun l => ~ spec.point_range l m) ls
      /\ exists all rs rep,
           Forall2 (fun l r => generate_recommendation l m = Ok r) ls all
           /\ generate_recommendations ls m = Ok rs
           /\ Permutation rs all
           /\ StronglySorted (fun a b => (priority_rank a <= priority_rank b)%Z) rs
           /\ (forall k,
                 List.filter (fun r => Z.eqb (priority_rank r) k) rs
                 = List.filter (fun r => Z.eqb (priority_rank r) k) all)
           /\ generate_report ls m now = Ok rep
           /\ RecommendationReport.recommendations rep = rs
           /\ RecommendationReport.total_listings rep = Z.of_nat (List.length rs)
           /\ (RecommendationReport.pursue_count rep
               + RecommendationReport.consider_count rep
               + RecommendationReport.watch_count rep
               + RecommendationReport.pass_count rep
               = RecommendationReport.total_listings rep)%Z
           /\ RecommendationReport.actionable_count rep
              = Z.of_nat (List.length (get_actionable_recommendations rs))).
Proof.
  unfold generate_report, generate_recommendations.
  destruct (recommend_loop_returns ls m []) as [[He ->] | (Hf & all & Hall & ->)].
  - left. split; [exact He |]. split; reflexivity.
  - right. split; [exact Hf |]. cbn [Py.bind app].
    exists all. eexists. eexists. split; [exact Hall |].
    split; [reflexivity |]. split; [apply stable_sort_perm |]. split.
    { apply StronglySorted_impl with (R := fun a b => by_priority_rank a b = true).
      - intros a b H. apply Z.leb_le in H. exact H.
      - apply stable_sort_sorted;
          [apply by_priority_rank_total | apply by_priority_rank_trans]. }
    split.
    { intros k. apply stable_sort_stable. intros a b Ha Hb.
      apply Z.eqb_eq in Ha. apply Z.eqb_eq in Hb.
      unfold by_priority_rank. apply Z.leb_le. lia. }
    split; [reflexivity |]. split; [reflexivity |].
    cbn [RecommendationReport.total_listings].
    assert (Hlen : List.length (stable_sort by_priority_rank all) = List.length ls).
    { rewrite stable_sort_length. symmetry. apply (Forall2_length _ _ _ Hall). }
    split; [rewrite Hlen; reflexivity |].
    unfold RecommendationReport.actionable_count, RecommendationReport.pursue_count,
      RecommendationReport.consider_count, RecommendationReport.watch_count,
      RecommendationReport.pass_count, get_actionable_recommendations.
    rewrite !count_is_filter_length. cbn [RecommendationReport.recommendations].
    destruct (counts_partition (stable_sort by_priority_rank all)) as [C1 C2].
    split; lia.
Qed.

End RecommendationBatchProperties.

(** ** Review: the life of a review *)

Section ReviewLifecycleProperties.

Import review.

Lemma ReviewState_eqb_eq (a b : ReviewState) : ReviewState_eqb a b = true <-> a = b.
Proof. destruct a, b; simpl; split; intros H; try reflexivity; discriminate H. Qed.

Lemma ReviewState_eqb_refl (a : ReviewState) : ReviewState_eqb a a = true.
Proof. destruct a; reflexivity. Qed.

Lemma chain_from_app (s : ReviewState) (h : list StateTransition)
    (t : StateTransition) (e : ReviewState) :
  chain_from s h = Some e ->
  from_state t = e ->
  row_get (action t) (VALID_TRANSITIONS e) = Some (to_state t) ->
  chain_from s (h ++ [t]) = Some (to_state t).
Proof.
  revert s. induction h as [| x h IH]; intros s Hc Hf Hr; simpl in *.
  - injection Hc as ->. rewrite Hf, ReviewState_eqb_refl, Hr, ReviewState_eqb_refl.
    reflexivity.
  - destruct (ReviewState_eqb (from_state x) s); [| discriminate Hc].
    destruct (row_get (action x) (VALID_TRANSITIONS s)) as [s' |]; [| discriminate Hc].
    destruct (ReviewState_eqb (to_state x) s'); [| discriminate Hc].
    apply IH; assumption.
Qed.

Lemma scan_history_app (h : list StateTransition) (t : StateTransition)
    (s e : option Z) :
  scan_history (h ++ [t]) s e
  = scan_history [t] (fst (scan_history h s e)) (snd (scan_history h s e)).
Proof.
  revert s e. induction h as [| x h IH]; intros s e; [reflexivity |].
  cbn [app scan_history].
  destruct (ReviewAction_eqb (action x) START_REVIEW); [apply IH |].
  destruct (ReviewAction_eqb (action x) ACCEPT || ReviewAction_eqb (action x) DECLINE);
    apply IH.
Qed.

(** What a call does to the state, the history and the clock field. *)
Lemma run_call_step (c : call) (now : Z) (r : DealReview) :
  let r' := snd (run_call c now r) in
  review_id r' = review_id r /\ listing_id r' = listing_id r
  /\ mandate_id r' = mandate_id r /\ created_at r' = created_at r
  /\ priority r' = priority r
  /\ fst (run_call c now r) <> Raise KeyError
  /\ ((fst (run_call c now r) = Ok tt
       /\ exists t,
            history r' = (history r ++ [t])%list
            /\ from_state t = state r /\ to_state t = state r'
            /\ row_get (action t) (VALID_TRANSITIONS (state r)) = Some (state r')
            /\ timestamp t = now /\ updated_at r' = now
            /\ action t = match c with
                          | call_start_review _ _ => START_REVIEW
                          | call_accept _ _ => ACCEPT
                          | call_decline _ _ _ => DECLINE
                          | call_reset _ _ => RESET
                          end)
      \/ (exists a, fst (run_call c now r) = Raise (InvalidTransitionError (state r) a))
         /\ history r' = history r /\ state r' = state r
         /\ updated_at r' = updated_at r).
Proof.
  destruct r as [rid lid mid st ca ua asg pr dn dr h].
  destruct c, st; cbn;
    (split; [reflexivity |]); (split; [reflexivity |]); (split; [reflexivity |]);
    (split; [reflexivity |]); (split; [reflexivity |]); (split; [discriminate |]);
    first
      [ right; split; [eexists; reflexivity | split; [reflexivity | split; reflexivity]]
      | left; split; [reflexivity |]; eexists; split; [reflexivity |];
        cbn; repeat split; reflexivity ].
Qed.

Lemma sorted_snoc (l : list Z) (x : Z) :
  StronglySorted Z.le l -> Forall (fun y => (y <= x)%Z) l ->
  StronglySorted Z.le (l ++ [x]).
Proof.
  induction 1 as [| y l Hs IH Hy]; intros Hall; simpl.
  - constructor; constructor.
  - apply List.Forall_cons_iff in Hall. destruct Hall as [Hyx Hall].
    constructor; [apply IH; exact Hall |].
    apply List.Forall_app. split; [exact Hy |].
    constructor; [exact Hyx | constructor].
Qed.

Lemma lifecycle_invariant_step (c : call) (now : Z) (r : DealReview) :
  lifecycle_invariant r -> (updated_at r <= now)%Z ->
  lifecycle_invariant (snd (run_call c now r))
  /\ (updated_at (snd (run_call c now r)) <= now)%Z.
Proof.
  intros (Hc & Hs & Hall & Hst & Hen & Hrev & Hdec) Hnow.
  destruct (run_call_step c now r)
    as (_ & _ & _ & _ & _ & _ & [(_ & t & Hh & Hf & Ht & Hrow & Hts & Hup & Hact)
                                | (_ & Hh & Hstate & Hup)]).
  - set (r' := snd (run_call c now r)) in *.
    split; [| lia].
    assert (Hall' : Forall (fun y => (y <= now)%Z) (map timestamp (history r))).
    { apply List.Forall_map. apply List.Forall_impl with (2 := Hall).
      intros x Hx. simpl in Hx. lia. }
    unfold lifecycle_invariant. rewrite Hh, Hup.
    split.
    { rewrite <- Ht. apply chain_from_app with (e := state r); try assumption.
      rewrite Ht. exact Hrow. }
    split.
    { rewrite map_app. cbn [map]. rewrite Hts. apply sorted_snoc; assumption. }
    split.
    { apply List.Forall_app. split.
      - apply List.Forall_impl with (2 := Hall). intros x Hx. simpl in Hx. lia.
      - constructor; [lia | constructor]. }
    rewrite scan_history_app.
    destruct (scan_history (history r) None None) as [s e] eqn:Escan.
    cbn [fst snd] in *. cbn [scan_history]. rewrite Hact, Hts. rewrite Hact in Hrow.
    unfold is_decided in *.
    destruct c; cbn [ReviewAction_eqb orb fst snd];
      destruct (state r) eqn:Sr; cbn in Hrow; try discriminate Hrow;
      injection Hrow as Hrow; rewrite <- Hrow.
    + split; [intros a [= <-]; lia |].
      split; [intros b Hb; specialize (Hen b Hb); lia |].
      split; [intros _; eexists; reflexivity |]. discriminate.
    + split; [intros a Ha; specialize (Hst a Ha); lia |].
      split; [intros b [= <-]; lia |].
      split; [discriminate |]. intros _.
      destruct (Hrev eq_refl) as [a Ha]. subst s.
      exists a, now. split; [reflexivity |]. specialize (Hst a eq_refl). lia.
    + split; [intros a Ha; specialize (Hst a Ha); lia |].
      split; [intros b [= <-]; lia |].
      split; [discriminate |]. intros _.
      destruct (Hrev eq_refl) as [a Ha]. subst s.
      exists a, now. split; [reflexivity |]. specialize (Hst a eq_refl). lia.
    + split; [intros a Ha; specialize (Hst a Ha); lia |].
      split; [intros b Hb; specialize (Hen b Hb); lia |].
      split; discriminate.
    + split; [intros a Ha; specialize (Hst a Ha); lia |].
      split; [intros b Hb; specialize (Hen b Hb); lia |].
      split; discriminate.
    + split; [intros a Ha; specialize (Hst a Ha); lia |].
      split; [intros b Hb; specialize (Hen b Hb); lia |].
      split; discriminate.
  - split; [| lia].
    unfold lifecycle_invariant, is_decided in *. rewrite Hh, Hstate, Hup.
    split; [exact Hc |]. split; [exact Hs |]. split; [exact Hall |].
    split; [exact Hst |]. split; [exact Hen |]. split; [exact Hrev | exact Hdec].
Qed.

Lemma lifecycle_invariant_run (cs : list (call * Z)) (t : Z) (r : DealReview) :
  lifecycle_invariant r -> (updated_at r <= t)%Z ->
  clock_monotone t cs = true ->
  lifecycle_invariant (run_calls cs r).
Proof.
  revert t r. induction cs as [| [c now] cs IH]; intros t r Hinv Ht Hm.
  - exact Hinv.
  - cbn [run_calls clock_monotone] in *. apply andb_prop in Hm.
    destruct Hm as [Hle Hm]. apply Z.leb_le in Hle.
    destruct (lifecycle_invariant_step c now r Hinv ltac:(lia)) as [Hinv' Hup].
    apply IH with (t := now); assumption.
Qed.

Lemma lifecycle_invariant_new (rid lid mid : string) (prio : Z)
    (asg : option string) (t0 t1 : Z) :
  lifecycle_invariant (create_review rid lid mid prio asg t0 t1).
Proof.
  unfold lifecycle_invariant, create_review. cbn.
  split; [reflexivity |]. split; [constructor |]. split; [constructor |].
  split; [discriminate |]. split; [discriminate |]. split; discriminate.
Qed.

Lemma run_calls_ids (cs : list (call * Z)) (r : DealReview) :
  review_id (run_calls cs r) = review_id r
  /\ listing_id (run_calls cs r) = listing_id r
  /\ mandate_id (run_calls cs r) = mandate_id r
  /\ created_at (run_calls cs r) = created_at r
  /\ priority (run_calls cs r) = priority r
  /\ (List.length (history (run_calls cs r))
      <= List.length (history r) + List.length cs)%nat.
Proof.
  revert r. induction cs as [| [c now] cs IH]; intros r.
  - cbn. repeat split; try reflexivity. lia.
  - cbn [run_calls List.length].
    destruct (IH (snd (run_call c now r))) as (I1 & I2 & I3 & I4 & I5 & I6).
    destruct (run_call_step c now r)
      as (E1 & E2 & E3 & E4 & E5 & _ & [(_ & t & Hh & _) | (_ & Hh & _)]);
      rewrite Hh in I6; try rewrite length_app in I6; cbn in I6;
      repeat split; try congruence; lia.
Qed.

(** X17.  A review made by [create_review] and then driven through any
    sequence of calls of its four methods, failed calls included, at
    clock readings that never go back: the ids, the priority and
    [created_at] never change; the history grows by at most one record per
    call and is a path through the transition table from NEW to the
    current state; its timestamps are in order and none is later than
    [updated_at]; a decided review has a time in review, and it is not
    negative; a review with no history is NEW and has none. *)
Theorem review_lifecycle_invariants (rid lid mid : string) (prio : Z)
    (asg : option string) (t0 t1 : Z) (cs : list (call * Z)) :
  clock_monotone t1 cs = true ->
  let r := run_calls cs (create_review rid lid mid prio asg t0 t1) in
  review_id r = rid /\ listing_id r = lid /\ mandate_id r = mid
  /\ created_at r = t0 /\ priority r = prio
  /\ (List.length (history r) <= List.length cs)%nat
  /\ chain_from NEW (history r) = Some (state r)
  /\ StronglySorted Z.le (map timestamp (history r))
  /\ Forall (fun t => (timestamp t <= updated_at r)%Z) (history r)
  /\ (is_decided r = true ->
      exists hours, time_in_review r = Some hours /\ 0 <= hours)
  /\ (history r = [] -> state r = NEW /\ time_in_review r = None).
Proof.
  intros Hm. cbv zeta.
  set (r0 := create_review rid lid mid prio asg t0 t1).
  destruct (run_calls_ids cs r0) as (I1 & I2 & I3 & I4 & I5 & I6).
  pose proof (lifecycle_invariant_run cs t1 r0
                (lifecycle_invariant_new rid lid mid prio asg t0 t1)
                (Z.le_refl _) Hm) as (Hc & Hs & Hall & _ & _ & _ & Hdec).
  split; [exact I1 |]. split; [exact I2 |]. split; [exact I3 |].
  split; [exact I4 |]. split; [exact I5 |]. split; [exact I6 |].
  split; [exact Hc |]. split; [exact Hs |]. split; [exact Hall |]. split.
  - intros Hd. destruct (Hdec Hd) as (a & b & Hscan & Hab).
    unfold time_in_review.
    destruct (history (run_calls cs r0)) as [| x h] eqn:Eh.
    + simpl in Hscan. discriminate Hscan.
    + rewrite Hscan. eexists. split; [reflexivity |].
      apply Qle_shift_div_l; [reflexivity |].
      rewrite Qmult_0_l. rewrite <- (Zle_Qle 0). lia.
  - intros Hnil. rewrite Hnil in Hc. simpl in Hc. injection Hc as <-.
    split; [reflexivity |]. unfold time_in_review. rewrite Hnil. reflexivity.
Qed.

(** Created at 0, started at 10, accepted at 3610: one hour in review. *)
Lemma review_lifecycle_witness :
  let r := run_calls [(call_start_review "ann" "", 10%Z);
                      (call_accept "ann" "fine", 3610%Z)]
             (create_review "REV-0001" "RM-12345" "MND-2024-001" 3 None 0 0) in
  chain_from NEW (history r) = Some ACCEPTED
  /\ exists hours, time_in_review r = Some hours /\ 0 <= hours.
Proof.
  destruct (review_lifecycle_invariants "REV-0001" "RM-12345" "MND-2024-001" 3 None
              0 0 [(call_start_review "ann" "", 10%Z);
                   (call_accept "ann" "fine", 3610%Z)])
    as (_ & _ & _ & _ & _ & _ & Hc & _ & _ & Hd & _).
  - reflexivity.
  - split; [exact Hc | apply Hd; reflexivity].
Defined.

(** X18.  A decided review that is reset and started again is under
    review once more, and its time in review is then measured from the new
    start back to the earlier decision: it is never positive, and it is
    negative as soon as the clock has moved on since the decision. *)
Theorem reopened_review_reports_negative_time (rid lid mid : string) (prio : Z)
    (asg : option string) (t0 t1 : Z) (cs : list (call * Z))
    (who note who' note' : string) (t2 t3 : Z) :
  clock_monotone t1 cs = true ->
  let r := run_calls cs (create_review rid lid mid prio asg t0 t1) in
  is_decided r = true ->
  (updated_at r <= t2)%Z -> (t2 <= t3)%Z ->
  let r' := run_calls [(call_reset who note, t2);
                       (call_start_review who' note', t3)] r in
  state r' = REVIEWING
  /\ is_pending r' = true
  /\ exists hours decided_at,
       snd (scan_history (history r) None None) = Some decided_at
       /\ time_in_review r' = Some hours
       /\ hours == inject_Z (decided_at - t3) / 3600
       /\ hours <= 0
       /\ ((updated_at r < t3)%Z -> hours < 0).
Proof.
  intros Hm. cbv zeta.
  set (r0 := create_review rid lid mid prio asg t0 t1).
  pose proof (lifecycle_invariant_run cs t1 r0
                (lifecycle_invariant_new rid lid mid prio asg t0 t1)
                (Z.le_refl _) Hm) as (_ & _ & _ & _ & Hen & _ & Hdec).
  set (r := run_calls cs r0) in *. intros Hd H2 H3.
  destruct (Hdec Hd) as (a & b & Hscan & Hab).
  assert (Hb : (b <= updated_at r)%Z) by (apply Hen; rewrite Hscan; reflexivity).
  assert (E : exists h1 h2,
            state (run_calls [(call_reset who note, t2);
                              (call_start_review who' note', t3)] r) = REVIEWING
            /\ history (run_calls [(call_reset who note, t2);
                                   (call_start_review who' note', t3)] r)
               = (history r ++ [h1; h2])%list
            /\ action h1 = RESET /\ action h2 = START_REVIEW
            /\ timestamp h2 = t3).
  { destruct r as [i1 i2 i3 st ca ua asg' pr dn dr h]. unfold is_decided in Hd.
    cbn in Hd. destruct st; try discriminate Hd; cbn;
      eexists; eexists; (split; [reflexivity |]);
      rewrite <- app_assoc; (split; [reflexivity |]); repeat split; reflexivity. }
  destruct E as (h1 & h2 & Es & Eh & A1 & A2 & T2).
  split; [exact Es |]. split; [unfold is_pending; rewrite Es; reflexivity |].
  exists (inject_Z (b - t3) / 3600), b.
  split; [rewrite Hscan; reflexivity |]. split.
  - unfold time_in_review. rewrite Eh.
    destruct (history r ++ [h1; h2])%list eqn:El.
    { apply app_eq_nil in El. destruct El as [_ El]. discriminate El. }
    rewrite <- El.
    change [h1; h2] with ([h1] ++ [h2])%list. rewrite app_assoc.
    rewrite scan_history_app, scan_history_app, Hscan.
    cbn [fst snd scan_history]. rewrite A1, A2, T2. reflexivity.
  - split; [reflexivity |]. split.
    + apply Qle_shift_div_r; [reflexivity |]. rewrite Qmult_0_l.
      rewrite <- (Zle_Qle _ 0). lia.
    + intros Hlt. apply Qlt_shift_div_r; [reflexivity |]. rewrite Qmult_0_l.
      rewrite <- (Zlt_Qlt _ 0). lia.
Qed.

(** Accepted at 3610, reset at 4000 and started again at 7210: the time in
    review is reported as minus one hour. *)
Lemma reopened_review_witness :
  let r := run_calls [(call_start_review "ann" "", 10%Z);
                      (call_accept "ann" "fine", 3610%Z);
                      (call_reset "bob" "again", 4000%Z);
                      (call_start_review "bob" "", 7210%Z)]
             (create_review "REV-0001" "RM-12345" "MND-2024-001" 3 None 0 0) in
  state r = REVIEWING
  /\ exists hours, time_in_review r = Some hours /\ hours < 0.
Proof.
  destruct (reopened_review_reports_negative_time
              "REV-0001" "RM-12345" "MND-2024-001" 3 None 0 0
              [(call_start_review "ann" "", 10%Z);
               (call_accept "ann" "fine", 3610%Z)]
              "bob" "again" "bob" "" 4000 7210)
    as (Hs & _ & hours & d & _ & Ht & _ & _ & Hneg).
  - reflexivity.
  - reflexivity.
  - vm_compute. discriminate.
  - vm_compute. discriminate.
  - split; [exact Hs |]. exists hours. split; [exact Ht |].
    apply Hneg. vm_compute. reflexivity.
Defined.

End ReviewLifecycleProperties.

(** ** Review: the queue *)

Section DictProperties.

Context {V : Type}.

Lemma od_get_set_same (d : odict V) (k : string) (v : V) :
  od_get (od_set d k v) k = Some v.
Proof.
  induction d as [| [k' v'] d IH]; simpl.
  - rewrite String.eqb_refl. reflexivity.
  - destruct (String.eqb k k') eqn:E; simpl.
    + rewrite String.eqb_refl. reflexivity.
    + rewrite E. exact IH.
Qed.

Lemma od_get_set_other (d : odict V) (k k' : string) (v : V) :
  k' <> k -> od_get (od_set d k v) k' = od_get d k'.
Proof.
  intros Hne. induction d as [| [k0 v0] d IH]; simpl.
  - apply String.eqb_neq in Hne. rewrite Hne. reflexivity.
  - destruct (String.eqb k k0) eqn:E; simpl.
    + apply String.eqb_eq in E. subst k0.
      apply String.eqb_neq in Hne. rewrite Hne. reflexivity.
    + destruct (String.eqb k' k0); [reflexivity | exact IH].
Qed.

Lemma od_get_del_other (d : odict V) (k k' : string) :
  k' <> k -> od_get (od_del d k) k' = od_get d k'.
Proof.
  intros Hne. induction d as [| [k0 v0] d IH]; simpl; [reflexivity |].
  destruct (String.eqb k k0) eqn:E; simpl.
  - apply String.eqb_eq in E. subst k0.
    apply String.eqb_neq in Hne. rewrite Hne. reflexivity.
  - destruct (String.eqb k' k0); [reflexivity | exact IH].
Qed.

Lemma od_get_none (d : odict V) (k : string) :
  od_get d k = None <-> ~ In k (od_keys d).
Proof.
  induction d as [| [k0 v0] d IH]; simpl; [tauto |].
  destruct (String.eqb k k0) eqn:E.
  - apply String.eqb_eq in E. subst k0. split; [discriminate | tauto].
  - apply String.eqb_neq in E. rewrite IH. split.
    + intros H [H' | H']; [congruence | contradiction].
    + tauto.
Qed.

Lemma od_get_del_same (d : odict V) (k : string) :
  List.NoDup (od_keys d) -> od_get (od_del d k) k = None.
Proof.
  induction d as [| [k0 v0] d IH]; simpl; intros Hnd; [reflexivity |].
  apply List.NoDup_cons_iff in Hnd. destruct Hnd as [Hnot Hnd].
  destruct (String.eqb k k0) eqn:E; simpl.
  - apply String.eqb_eq in E. subst k0. apply od_get_none. exact Hnot.
  - rewrite E. apply IH. exact Hnd.
Qed.

Lemma od_keys_set (d : odict V) (k : string) (v : V) :
  od_keys (od_set d k v)
  = if od_contains d k then od_keys d else (od_keys d ++ [k])%list.
Proof.
  unfold od_contains. induction d as [| [k0 v0] d IH]; simpl; [reflexivity |].
  destruct (String.eqb k k0) eqn:E; simpl.
  - apply String.eqb_eq in E. subst k0. reflexivity.
  - rewrite IH. destruct (od_get d k); reflexivity.
Qed.

Lemma od_set_In (d : odict V) (k : string) (v : V) (kv : string * V) :
  In kv (od_set d k v) -> kv = (k, v) \/ In kv d.
Proof.
  induction d as [| [k0 v0] d IH]; simpl.
  - intros [<- | []]. left. reflexivity.
  - destruct (String.eqb k k0); simpl.
    + intros [<- | H]; [left; reflexivity | right; right; exact H].
    + intros [<- | H]; [right; left; reflexivity |].
      destruct (IH H) as [-> | H']; [left; reflexivity | right; right; exact H'].
Qed.

Lemma od_del_In (d : odict V) (k : string) (kv : string * V) :
  In kv (od_del d k) -> In kv d.
Proof.
  induction d as [| [k0 v0] d IH]; simpl; [tauto |].
  destruct (String.eqb k k0); simpl; [tauto |].
  intros [<- | H]; [left; reflexivity | right; apply IH; exact H].
Qed.

Lemma od_keys_del_NoDup (d : odict V) (k : string) :
  List.NoDup (od_keys d) -> List.NoDup (od_keys (od_del d k)).
Proof.
  induction d as [| [k0 v0] d IH]; simpl; intros Hnd; [constructor |].
  apply List.NoDup_cons_iff in Hnd. destruct Hnd as [Hnot Hnd].
  destruct (String.eqb k k0); simpl; [exact Hnd |].
  apply List.NoDup_cons_iff. split; [| apply IH; exact Hnd].
  intros Hin. apply Hnot. unfold od_keys in *. apply in_map_iff in Hin.
  destruct Hin as ([k1 v1] & E & Hin). apply in_map_iff.
  exists (k1, v1). split; [exact E | apply (od_del_In d k); exact Hin].
Qed.

Lemma od_get_In (d : odict V) (k : string) (v : V) :
  od_get d k = Some v -> In (k, v) d.
Proof.
  induction d as [| [k0 v0] d IH]; simpl; [discriminate |].
  destruct (String.eqb k k0) eqn:E.
  - apply String.eqb_eq in E. subst k0. intros [= ->]. left. reflexivity.
  - intros H. right. apply IH. exact H.
Qed.

Lemma od_In_get (d : odict V) (k : string) (v : V) :
  List.NoDup (od_keys d) -> In (k, v) d -> od_get d k = Some v.
Proof.
  induction d as [| [k0 v0] d IH]; simpl; intros Hnd; [tauto |].
  apply List.NoDup_cons_iff in Hnd. destruct Hnd as [Hnot Hnd].
  intros [[= -> ->] | Hin].
  - rewrite String.eqb_refl. reflexivity.
  - destruct (String.eqb k k0) eqn:E; [| apply IH; assumption].
    apply String.eqb_eq in E. subst k0. exfalso. apply Hnot.
    unfold od_keys. apply in_map_iff. exists (k, v). split; [reflexivity | exact Hin].
Qed.

Lemma od_del_length (d : odict V) (k : string) :
  List.length (od_del d k)
  = match od_get d k with
    | Some _ => Nat.pred (List.length d)
    | None => List.length d
    end.
Proof.
  induction d as [| [k0 v0] d IH]; simpl; [reflexivity |].
  destruct (String.eqb k k0); simpl; [reflexivity |].
  rewrite IH. destruct (od_get d k) eqn:E; [| reflexivity].
  destruct d; [discriminate E | reflexivity].
Qed.

End DictProperties.

Section ReviewQueueProperties.

Import review.

Lemma well_keyed_get (q : ReviewQueue.t) (id : string) (r : DealReview) :
  ReviewQueue.well_keyed q ->
  ReviewQueue.get q id = Some r -> review_id r = id /\ In r (ReviewQueue.all q).
Proof.
  intros [_ Hk] Hg. apply od_get_In in Hg. split.
  - rewrite List.Forall_forall in Hk. symmetry. apply (Hk (id, r) Hg).
  - unfold ReviewQueue.all, od_values. apply in_map_iff.
    exists (id, r). split; [reflexivity | exact Hg].
Qed.

Lemma well_keyed_In (q : ReviewQueue.t) (r : DealReview) :
  ReviewQueue.well_keyed q ->
  In r (ReviewQueue.all q) -> ReviewQueue.get q (review_id r) = Some r.
Proof.
  intros [Hnd Hk] Hin. unfold ReviewQueue.all, od_values in Hin.
  apply in_map_iff in Hin. destruct Hin as ([k v] & E & Hin). simpl in E. subst v.
  rewrite List.Forall_forall in Hk. pose proof (Hk (k, r) Hin) as Ek. simpl in Ek.
  subst k. apply od_In_get; assumption.
Qed.

Lemma init_well_keyed : ReviewQueue.well_keyed ReviewQueue.init.
Proof. split; constructor. Qed.

(** X19.  In a review queue whose reviews sit under their own ids (the
    empty queue is one, and [add] and [remove] keep it so): after [add] the
    review is what [get] returns for its id, every other id is unaffected,
    and the queue grows by one unless the id was already there; [remove]
    returns what [get] returned, after which the id is gone, every other
    id is unaffected and the queue shrinks by one if the id was there;
    [get] and [all] agree on what the queue holds. *)
Theorem review_queue_round_trips (q : ReviewQueue.t) (r : DealReview) (id : string) :
  ReviewQueue.well_keyed q ->
  (ReviewQueue.well_keyed (ReviewQueue.add q r)
   /\ ReviewQueue.get (ReviewQueue.add q r) (review_id r) = Some r
   /\ (forall id', id' <> review_id r ->
         ReviewQueue.get (ReviewQueue.add q r) id' = ReviewQueue.get q id')
   /\ List.length (ReviewQueue.all (ReviewQueue.add q r))
      = match ReviewQueue.get q (review_id r) with
        | Some _ => List.length (ReviewQueue.all q)
        | None => S (List.length (ReviewQueue.all q))
        end)
  /\ (fst (ReviewQueue.remove q id) = ReviewQueue.get q id
      /\ ReviewQueue.well_keyed (snd (ReviewQueue.remove q id))
      /\ ReviewQueue.get (snd (ReviewQueue.remove q id)) id = None
      /\ (forall id', id' <> id ->
            ReviewQueue.get (snd (ReviewQueue.remove q id)) id'
            = ReviewQueue.get q id')
      /\ List.length (ReviewQueue.all (snd (ReviewQueue.remove q id)))
         = match ReviewQueue.get q id with
           | Some _ => Nat.pred (List.length (ReviewQueue.all q))
           | None => List.length (ReviewQueue.all q)
           end)
  /\ (forall id' r', ReviewQueue.get q id' = Some r' ->
        review_id r' = id' /\ In r' (ReviewQueue.all q))
  /\ (forall r', In r' (ReviewQueue.all q) ->
        ReviewQueue.get q (review_id r') = Some r').
Proof.
  intros Hwk. pose proof Hwk as [Hnd Hk].
  split; [| split; [| split]].
  - unfold ReviewQueue.add, ReviewQueue.get, ReviewQueue.all, od_values.
    split; [| split; [apply od_get_set_same | split]].
    + split.
      * rewrite od_keys_set. unfold od_contains.
        destruct (od_get q (review_id r)) eqn:E; [exact Hnd |].
        apply List.NoDup_app; [exact Hnd | |].
        -- constructor; [intros [] | constructor].
        -- intros x Hx [<- | []]. apply od_get_none in E. contradiction.
      * apply List.Forall_forall. intros kv Hin. apply od_set_In in Hin.
        destruct Hin as [-> | Hin]; [reflexivity |].
        rewrite List.Forall_forall in Hk. apply Hk. exact Hin.
    + intros id' Hne. apply od_get_set_other. exact Hne.
    + rewrite !length_map.
      pose proof (od_keys_set q (review_id r) r) as Hks.
      apply (f_equal (@List.length string)) in Hks. unfold od_keys in Hks.
      rewrite length_map in Hks. rewrite Hks. unfold od_contains.
      destruct (od_get q (review_id r)); rewrite ?length_app, !length_map; simpl; lia.
  - unfold ReviewQueue.remove, ReviewQueue.get, ReviewQueue.all, od_values.
    cbn [fst snd]. split; [reflexivity |]. split.
    { split; [apply od_keys_del_NoDup; exact Hnd |].
      apply List.Forall_forall. intros kv Hin. apply od_del_In in Hin.
      rewrite List.Forall_forall in Hk. apply Hk. exact Hin. }
    split; [apply od_get_del_same; exact Hnd |]. split.
    { intros id' Hne. apply od_get_del_other. exact Hne. }
    rewrite !length_map. apply od_del_length.
  - intros id' r'. apply well_keyed_get. exact Hwk.
  - intros r'. apply well_keyed_In. exact Hwk.
Qed.

(** A queue holding one new review, a second review and its removal. *)
Lemma review_queue_round_trips_witness :
  let r := create_review "REV-0001" "RM-12345" "MND-2024-001" 3 None 0 0 in
  let r2 := create_review "REV-0002" "RM-67890" "MND-2024-001" 1 None 5 5 in
  let q := ReviewQueue.add ReviewQueue.init r in
  ReviewQueue.get (ReviewQueue.add q r2) "REV-0002" = Some r2
  /\ ReviewQueue.get (ReviewQueue.add q r2) "REV-0001" = Some r
  /\ ReviewQueue.get (snd (ReviewQueue.remove q "REV-0001")) "REV-0001" = None.
Proof.
  cbv zeta.
  destruct (review_queue_round_trips
              (ReviewQueue.add ReviewQueue.init
                 (create_review "REV-0001" "RM-12345" "MND-2024-001" 3 None 0 0))
              (create_review "REV-0002" "RM-67890" "MND-2024-001" 1 None 5 5)
              "REV-0001")
    as ((_ & Hget & Hother & _) & (_ & _ & Hgone & _) & _).
  - split.
    + simpl. constructor; [intros [] | constructor].
    + simpl. constructor; [reflexivity | constructor].
  - split; [exact Hget |]. split; [| exact Hgone].
    rewrite Hother; [reflexivity | discriminate].
Defined.

End ReviewQueueProperties.

Section ReviewQueueViews.

Import review.

Lemma pending_or_decided (rs : list DealReview) :
  Permutation (List.filter is_pending rs ++ List.filter is_decided rs) rs.
Proof.
  induction rs as [| r rs IH]; [reflexivity |].
  cbn [List.filter]. unfold is_pending at 1, is_decided at 1.
  destruct (state r).
  - cbn [app]. apply perm_skip. exact IH.
  - cbn [app]. apply perm_skip. exact IH.
  - rewrite <- Permutation_middle. apply perm_skip. exact IH.
  - rewrite <- Permutation_middle. apply perm_skip. exact IH.
Qed.

Lemma by_state_lengths (rs : list DealReview) :
  (List.length (List.filter (fun r => ReviewState_eqb (state r) NEW) rs)
   + List.length (List.filter (fun r => ReviewState_eqb (state r) REVIEWING) rs)
   = List.length (List.filter is_pending rs)
   /\ List.length (List.filter (fun r => ReviewState_eqb (state r) ACCEPTED) rs)
      + List.length (List.filter (fun r => ReviewState_eqb (state r) DECLINED) rs)
      = List.length (List.filter is_decided rs))%nat.
Proof.
  induction rs as [| r rs [IH1 IH2]]; [split; reflexivity |].
  cbn [List.filter]. unfold is_pending at 1, is_decided at 1.
  destruct (state r); cbn [ReviewState_eqb List.length]; split; lia.
Qed.

(** X20.  The views of a review queue: every review is either pending or
    decided, so the pending and decided counts of [stats] add up to the
    total, and so do the four per-state counts; [by_state] returns the
    reviews of that state; [by_priority] returns the reviews whose priority
    is at most the bound, sorted by priority, lowest number first, equal
    priorities in queue order. *)
Theorem review_queue_views (q : ReviewQueue.t) (max_priority : Z) :
  let st := ReviewQueue.stats q in
  Permutation (ReviewQueue.pending q ++ ReviewQueue.decided q) (ReviewQueue.all q)
  /\ ReviewQueue.total st = Z.of_nat (List.length (ReviewQueue.all q))
  /\ (ReviewQueue.pending_count st + ReviewQueue.decided_count st
      = ReviewQueue.total st)%Z
  /\ (forall s, ReviewQueue.by_state_count st s
                = Z.of_nat (List.length (ReviewQueue.by_state q s)))
  /\ (ReviewQueue.by_state_count st NEW + ReviewQueue.by_state_count st REVIEWING
      = ReviewQueue.pending_count st)%Z
  /\ (ReviewQueue.by_state_count st ACCEPTED + ReviewQueue.by_state_count st DECLINED
      = ReviewQueue.decided_count st)%Z
  /\ (forall r s, In r (ReviewQueue.by_state q s)
                  <-> In r (ReviewQueue.all q) /\ state r = s)
  /\ Permutation (ReviewQueue.by_priority q max_priority)
       (List.filter (fun r => Z.leb (priority r) max_priority) (ReviewQueue.all q))
  /\ StronglySorted (fun a b => (priority a <= priority b)%Z)
       (ReviewQueue.by_priority q max_priority)
  /\ Forall (fun r => (priority r <= max_priority)%Z)
       (ReviewQueue.by_priority q max_priority)
  /\ (forall k,
        List.filter (fun r => Z.eqb (priority r) k)
          (ReviewQueue.by_priority q max_priority)
        = List.filter (fun r => Z.eqb (priority r) k)
            (List.filter (fun r => Z.leb (priority r) max_priority)
               (ReviewQueue.all q))).
Proof.
  cbv zeta.
  unfold ReviewQueue.pending, ReviewQueue.decided, ReviewQueue.all,
    ReviewQueue.by_state, ReviewQueue.by_priority, ReviewQueue.stats.
  cbn [ReviewQueue.total ReviewQueue.pending_count ReviewQueue.decided_count
       ReviewQueue.by_state_count].
  set (rs := od_values q).
  pose proof (pending_or_decided rs) as Hp.
  destruct (by_state_lengths rs) as [L1 L2].
  split; [exact Hp |]. split; [reflexivity |]. split.
  { apply Permutation_length in Hp. rewrite length_app in Hp. lia. }
  split; [reflexivity |]. split; [lia |]. split; [lia |]. split.
  { intros r s. rewrite filter_In, ReviewState_eqb_eq. reflexivity. }
  split; [apply stable_sort_perm |]. split.
  { apply StronglySorted_impl
      with (R := fun a b => Z.leb (priority a) (priority b) = true).
    - intros a b H. apply Z.leb_le in H. exact H.
    - apply stable_sort_sorted.
      + intros a b. rewrite !Z.leb_le. lia.
      + intros a b c. rewrite !Z.leb_le. lia. }
  split.
  { apply List.Forall_forall. intros r Hr. apply stable_sort_In in Hr.
    apply filter_In in Hr. destruct Hr as [_ Hr]. apply Z.leb_le in Hr. exact Hr. }
  intros k. apply stable_sort_stable. intros a b Ha Hb.
  apply Z.eqb_eq in Ha. apply Z.eqb_eq in Hb. apply Z.leb_le. lia.
Qed.

End ReviewQueueViews.

(** ** Planning: feasibility, blockers and constraints *)

Section FeasibilityConstraintProperties.

Import planning_models.

Import planning_feasibility.

Ltac split_helper :=
  intros;
  repeat match goal with
         | |- context [if ?c then _ else _] => destruct c
         end;
  (cbn; split; [lia | rewrite ?app_nil_r, <- ?app_assoc; reflexivity]).

Ltac shift_tac h :=
  unfold h, absolute_plot_size, positive_append, negative_append, neutral_append,
    blockers_append, recommendations_append; cbv zeta; split_helper.

Lemma listed_building_shift ctx s st :
  fst (_assess_listed_building ctx s st)
  = (s + fst (_assess_listed_building ctx 0 no_lists))%Z
  /\ blockers_ (snd (_assess_listed_building ctx s st))
     = (blockers_ st ++ blockers_ (snd (_assess_listed_building ctx 0 no_lists)))%list.
Proof. shift_tac _assess_listed_building. Qed.

Lemma conservation_area_shift ctx s st :
  fst (_assess_conservation_area ctx s st)
  = (s + fst (_assess_conservation_area ctx 0 no_lists))%Z
  /\ blockers_ (snd (_assess_conservation_area ctx s st))
     = (blockers_ st ++ blockers_ (snd (_assess_conservation_area ctx 0 no_lists)))%list.
Proof. shift_tac _assess_conservation_area. Qed.

Lemma green_belt_shift ctx s st :
  fst (_assess_green_belt ctx s st)
  = (s + fst (_assess_green_belt ctx 0 no_lists))%Z
  /\ blockers_ (snd (_assess_green_belt ctx s st))
     = (blockers_ st ++ blockers_ (snd (_assess_green_belt ctx 0 no_lists)))%list.
Proof. shift_tac _assess_green_belt. Qed.

Lemma flood_zone_shift ctx s st :
  fst (_assess_flood_zone ctx s st)
  = (s + fst (_assess_flood_zone ctx 0 no_lists))%Z
  /\ blockers_ (snd (_assess_flood_zone ctx s st))
     = (blockers_ st ++ blockers_ (snd (_assess_flood_zone ctx 0 no_lists)))%list.
Proof. shift_tac _assess_flood_zone. Qed.

Lemma article_4_shift ctx s st :
  fst (_assess_article_4 ctx s st)
  = (s + fst (_assess_article_4 ctx 0 no_lists))%Z
  /\ blockers_ (snd (_assess_article_4 ctx s st))
     = (blockers_ st ++ blockers_ (snd (_assess_article_4 ctx 0 no_lists)))%list.
Proof. shift_tac _assess_article_4. Qed.

Lemma tpo_shift ctx s st :
  fst (_assess_tpo ctx s st)
  = (s + fst (_assess_tpo ctx 0 no_lists))%Z
  /\ blockers_ (snd (_assess_tpo ctx s st))
     = (blockers_ st ++ blockers_ (snd (_assess_tpo ctx 0 no_lists)))%list.
Proof. shift_tac _assess_tpo. Qed.

Lemma property_type_shift ctx s st :
  fst (_assess_property_type ctx s st)
  = (s + fst (_assess_property_type ctx 0 no_lists))%Z
  /\ blockers_ (snd (_assess_property_type ctx s st))
     = (blockers_ st ++ blockers_ (snd (_assess_property_type ctx 0 no_lists)))%list.
Proof. shift_tac _assess_property_type. Qed.

Lemma tenure_shift ctx s st :
  fst (_assess_tenure ctx s st)
  = (s + fst (_assess_tenure ctx 0 no_lists))%Z
  /\ blockers_ (snd (_assess_tenure ctx s st))
     = (blockers_ st ++ blockers_ (snd (_assess_tenure ctx 0 no_lists)))%list.
Proof. shift_tac _assess_tenure. Qed.

Lemma plot_size_shift ctx s st :
  fst (_assess_plot_size ctx s st)
  = (s + fst (_assess_plot_size ctx 0 no_lists))%Z
  /\ blockers_ (snd (_assess_plot_size ctx s st))
     = (blockers_ st ++ blockers_ (snd (_assess_plot_size ctx 0 no_lists)))%list.
Proof. shift_tac _assess_plot_size. Qed.

Lemma pd_rights_shift ctx s st :
  fst (_assess_pd_rights ctx s st)
  = (s + fst (_assess_pd_rights ctx 0 no_lists))%Z
  /\ blockers_ (snd (_assess_pd_rights ctx s st))
     = (blockers_ st ++ blockers_ (snd (_assess_pd_rights ctx 0 no_lists)))%list.
Proof. shift_tac _assess_pd_rights. Qed.

Ltac step_helper h shift s st E A B :=
  match goal with
  | |- context [h ?ctx ?s0 ?st0] =>
      pose proof (shift ctx s0 st0) as [A B];
      destruct (h ctx s0 st0) as [s st] eqn:E;
      cbn [fst snd] in A, B
  end.

Lemma feasibility_decomposition (ctx : PlanningContext) :
  let raw :=
    (70 + fst (_assess_listed_building ctx 0 no_lists)
     + fst (_assess_conservation_area ctx 0 no_lists)
     + fst (_assess_green_belt ctx 0 no_lists)
     + fst (_assess_flood_zone ctx 0 no_lists)
     + fst (_assess_article_4 ctx 0 no_lists)
     + fst (_assess_tpo ctx 0 no_lists)
     + fst (_assess_property_type ctx 0 no_lists)
     + fst (_assess_tenure ctx 0 no_lists)
     + fst (_assess_plot_size ctx 0 no_lists)
     + fst (_assess_pd_rights ctx 0 no_lists))%Z in
  let bl :=
    (blockers_ (snd (_assess_listed_building ctx 0 no_lists))
     ++ blockers_ (snd (_assess_green_belt ctx 0 no_lists)))%list in
  blockers (assess_feasibility ctx) = bl
  /\ score (assess_feasibility ctx)
     = (if negb (mandate.is_empty bl)
        then Z.min (Z.max 0 (Z.min 100 raw)) 20
        else Z.max 0 (Z.min 100 raw)).
Proof.
  cbv zeta. unfold assess_feasibility.
  step_helper _assess_listed_building listed_building_shift s1 st1 E1 A1 B1.
  step_helper _assess_conservation_area conservation_area_shift s2 st2 E2 A2 B2.
  step_helper _assess_green_belt green_belt_shift s3 st3 E3 A3 B3.
  step_helper _assess_flood_zone flood_zone_shift s4 st4 E4 A4 B4.
  step_helper _assess_article_4 article_4_shift s5 st5 E5 A5 B5.
  step_helper _assess_tpo tpo_shift s6 st6 E6 A6 B6.
  step_helper _assess_property_type property_type_shift s7 st7 E7 A7 B7.
  step_helper _assess_tenure tenure_shift s8 st8 E8 A8 B8.
  step_helper _assess_plot_size plot_size_shift s9 st9 E9 A9 B9.
  step_helper _assess_pd_rights pd_rights_shift s10 st10 E10 A10 B10.
  cbn [score blockers].
  assert (Hb : blockers_ st10
               = (blockers_ (snd (_assess_listed_building ctx 0 no_lists))
                  ++ blockers_ (snd (_assess_green_belt ctx 0 no_lists)))%list).
  { rewrite B10, B9, B8, B7, B6, B5, B4, B3, B2, B1.
    assert (N2 : blockers_ (snd (_assess_conservation_area ctx 0 no_lists)) = [])
      by (unfold _assess_conservation_area; destruct (negb _); reflexivity).
    assert (N4 : blockers_ (snd (_assess_flood_zone ctx 0 no_lists)) = []).
    { unfold _assess_flood_zone.
      repeat match goal with
             | |- context [if ?c then _ else _] => destruct c
             end; reflexivity. }
    assert (N5 : blockers_ (snd (_assess_article_4 ctx 0 no_lists)) = [])
      by (unfold _assess_article_4; destruct (negb _); reflexivity).
    assert (N6 : blockers_ (snd (_assess_tpo ctx 0 no_lists)) = [])
      by (unfold _assess_tpo; destruct (negb _); reflexivity).
    assert (N7 : blockers_ (snd (_assess_property_type ctx 0 no_lists)) = []).
    { unfold _assess_property_type. cbv zeta.
      repeat match goal with
             | |- context [if ?c then _ else _] => destruct c
             end; reflexivity. }
    assert (N8 : blockers_ (snd (_assess_tenure ctx 0 no_lists)) = []).
    { unfold _assess_tenure. cbv zeta.
      repeat match goal with
             | |- context [if ?c then _ else _] => destruct c
             end; reflexivity. }
    assert (N9 : blockers_ (snd (_assess_plot_size ctx 0 no_lists)) = []).
    { unfold _assess_plot_size, absolute_plot_size. cbv zeta.
      repeat match goal with
             | |- context [if ?c then _ else _] => destruct c
             end; reflexivity. }
    assert (N10 : blockers_ (snd (_assess_pd_rights ctx 0 no_lists)) = []).
    { unfold _assess_pd_rights. cbv zeta.
      repeat match goal with
             | |- context [if ?c then _ else _] => destruct c
             end; reflexivity. }
    rewrite N2, N4, N5, N6, N7, N8, N9, N10. cbn [no_lists blockers_ app].
    rewrite !app_nil_r. reflexivity. }
  split; [exact Hb |]. rewrite Hb.
  replace s10 with
    (70 + fst (_assess_listed_building ctx 0 no_lists)
     + fst (_assess_conservation_area ctx 0 no_lists)
     + fst (_assess_green_belt ctx 0 no_lists)
     + fst (_assess_flood_zone ctx 0 no_lists)
     + fst (_assess_article_4 ctx 0 no_lists)
     + fst (_assess_tpo ctx 0 no_lists)
     + fst (_assess_property_type ctx 0 no_lists)
     + fst (_assess_tenure ctx 0 no_lists)
     + fst (_assess_plot_size ctx 0 no_lists)
     + fst (_assess_pd_rights ctx 0 no_lists))%Z by lia.
  reflexivity.
Qed.

Lemma listed_blocker_iff (ctx : PlanningContext) :
  blockers_ (snd (_assess_listed_building ctx 0 no_lists))
  = if listed_building ctx && String.eqb (upper (listed_grade ctx)) "I"
    then [grade_I_blocker] else [].
Proof.
  unfold _assess_listed_building. cbv zeta.
  destruct (listed_building ctx); cbn [negb andb]; [| reflexivity].
  destruct (String.eqb (listed_grade ctx) "") eqn:E; cbn [negb].
  - apply String.eqb_eq in E. rewrite E. reflexivity.
  - destruct (String.eqb (upper (listed_grade ctx)) "I"); [reflexivity |].
    destruct (String.eqb (upper (listed_grade ctx)) "II*"); reflexivity.
Qed.

Lemma green_blocker_iff (ctx : PlanningContext) :
  exists text,
    blockers_ (snd (_assess_green_belt ctx 0 no_lists))
    = if green_belt ctx
         && type_in (proposed_type ctx) [NEW_BUILD; DEMOLITION_REBUILD; SUBDIVISION]
      then [text] else [].
Proof.
  unfold _assess_green_belt. cbv zeta. eexists.
  destruct (green_belt ctx); cbn [negb andb]; [| reflexivity].
  destruct (type_in (proposed_type ctx) [NEW_BUILD; DEMOLITION_REBUILD; SUBDIVISION]);
    [reflexivity |].
  destruct (type_in (proposed_type ctx) [EXTENSION_REAR; EXTENSION_SIDE; EXTENSION_LOFT]);
    reflexivity.
Qed.

Ltac crush_ifs :=
  repeat match goal with
         | |- context [if ?c then _ else _] => destruct c
         end.

(** The score change of each helper under more constraints. *)
Lemma constraint_deltas (ctx : PlanningContext)
    (l1 c1 g1 a1 t1 l2 c2 g2 a2 t2 : bool) (f1 f2 : Z) :
  (l1 = true -> l2 = true) -> (c1 = true -> c2 = true) ->
  (g1 = true -> g2 = true) -> (a1 = true -> a2 = true) ->
  (t1 = true -> t2 = true) -> (1 <= f1 <= f2)%Z ->
  let x := with_constraints ctx l1 c1 g1 a1 t1 f1 in
  let y := with_constraints ctx l2 c2 g2 a2 t2 f2 in
  (fst (_assess_listed_building y 0 no_lists)
   <= fst (_assess_listed_building x 0 no_lists))%Z
  /\ (fst (_assess_conservation_area y 0 no_lists)
      <= fst (_assess_conservation_area x 0 no_lists))%Z
  /\ (fst (_assess_green_belt y 0 no_lists)
      <= fst (_assess_green_belt x 0 no_lists))%Z
  /\ (fst (_assess_flood_zone y 0 no_lists)
      <= fst (_assess_flood_zone x 0 no_lists))%Z
  /\ (fst (_assess_article_4 y 0 no_lists)
      <= fst (_assess_article_4 x 0 no_lists))%Z
  /\ (fst (_assess_tpo y 0 no_lists) <= fst (_assess_tpo x 0 no_lists))%Z
  /\ fst (_assess_property_type y 0 no_lists)
     = fst (_assess_property_type x 0 no_lists)
  /\ fst (_assess_tenure y 0 no_lists) = fst (_assess_tenure x 0 no_lists)
  /\ fst (_assess_plot_size y 0 no_lists) = fst (_assess_plot_size x 0 no_lists)
  /\ (fst (_assess_pd_rights y 0 no_lists)
      <= fst (_assess_pd_rights x 0 no_lists))%Z.
Proof.
  intros Hl Hc Hg Ha Ht Hf. cbv zeta.
  split.
  { unfold _assess_listed_building, with_constraints. cbv zeta.
    cbn [listed_building listed_grade].
    destruct l1, l2; try (specialize (Hl eq_refl); discriminate Hl);
      cbn [negb]; crush_ifs; cbn; lia. }
  split.
  { unfold _assess_conservation_area, with_constraints. cbn [conservation_area].
    destruct c1, c2; try (specialize (Hc eq_refl); discriminate Hc); cbn; lia. }
  split.
  { unfold _assess_green_belt, with_constraints. cbv zeta.
    cbn [green_belt proposed_type].
    destruct g1, g2; try (specialize (Hg eq_refl); discriminate Hg);
      cbn [negb]; crush_ifs; cbn; lia. }
  split.
  { unfold _assess_flood_zone, with_constraints. cbn [flood_zone].
    destruct (Z.eqb_spec f1 1), (Z.eqb_spec f2 1), (Z.eqb_spec f1 2),
      (Z.eqb_spec f2 2); cbn; lia. }
  split.
  { unfold _assess_article_4, with_constraints. cbn [article_4_direction].
    destruct a1, a2; try (specialize (Ha eq_refl); discriminate Ha); cbn; lia. }
  split.
  { unfold _assess_tpo, with_constraints. cbn [tree_preservation_orders].
    destruct t1, t2; try (specialize (Ht eq_refl); discriminate Ht); cbn; lia. }
  split; [reflexivity |]. split; [reflexivity |]. split; [reflexivity |].
  unfold _assess_pd_rights, with_constraints. cbv zeta.
  cbn [listed_building article_4_direction property_type proposed_type].
  destruct l1, l2; try (specialize (Hl eq_refl); discriminate Hl);
    destruct a1, a2; try (specialize (Ha eq_refl); discriminate Ha);
    cbn [negb andb]; crush_ifs; cbn; lia.
Qed.

Lemma blockers_iff (x : PlanningContext) :
  blockers (assess_feasibility x) <> []
  <-> (listed_building x = true /\ upper (listed_grade x) = "I")
      \/ (green_belt x = true
          /\ type_in (proposed_type x)
               [NEW_BUILD; DEMOLITION_REBUILD; SUBDIVISION] = true).
Proof.
  destruct (feasibility_decomposition x) as [-> _].
  rewrite listed_blocker_iff. destruct (green_blocker_iff x) as [text ->].
  rewrite <- String.eqb_eq.
  destruct (listed_building x), (String.eqb (upper (listed_grade x)) "I"),
    (green_belt x), (type_in (proposed_type x) _); cbn;
    split; intros H; try discriminate; try tauto;
    try (exfalso; apply H; reflexivity);
    destruct H as [[H1 H2] | [H1 H2]]; discriminate.
Qed.

(** X21.  The feasibility score lies in [0, 100].  A blocker is recorded
    exactly for a listed building of grade I and for a green-belt site
    with a new-build, demolition-and-rebuild or subdivision proposal; there
    are at most two blockers, and with one the score is at most 20.
    Without a blocker the score is 70 plus the ten adjustments, clamped to
    [0, 100]. *)
Theorem feasibility_blockers_exactly (ctx : PlanningContext) :
  (0 <= score (assess_feasibility ctx) <= 100)%Z
  /\ (blockers (assess_feasibility ctx) <> []
      <-> (listed_building ctx = true /\ upper (listed_grade ctx) = "I")
          \/ (green_belt ctx = true
              /\ type_in (proposed_type ctx)
                   [NEW_BUILD; DEMOLITION_REBUILD; SUBDIVISION] = true))
  /\ (blockers (assess_feasibility ctx) <> [] ->
      (score (assess_feasibility ctx) <= 20)%Z)
  /\ (List.length (blockers (assess_feasibility ctx)) <= 2)%nat
  /\ (blockers (assess_feasibility ctx) = [] ->
      score (assess_feasibility ctx)
      = Z.max 0
          (Z.min 100
             (70 + fst (_assess_listed_building ctx 0 no_lists)
              + fst (_assess_conservation_area ctx 0 no_lists)
              + fst (_assess_green_belt ctx 0 no_lists)
              + fst (_assess_flood_zone ctx 0 no_lists)
              + fst (_assess_article_4 ctx 0 no_lists)
              + fst (_assess_tpo ctx 0 no_lists)
              + fst (_assess_property_type ctx 0 no_lists)
              + fst (_assess_tenure ctx 0 no_lists)
              + fst (_assess_plot_size ctx 0 no_lists)
              + fst (_assess_pd_rights ctx 0 no_lists)))).
Proof.
  split; [apply score_clamped |]. split; [apply blockers_iff |].
  split; [intros H; apply (blocker_caps_score ctx H) |]. split.
  { destruct (feasibility_decomposition ctx) as [-> _].
    rewrite listed_blocker_iff. destruct (green_blocker_iff ctx) as [text ->].
    crush_ifs; cbn; lia. }
  destruct (feasibility_decomposition ctx) as [B S]. rewrite B, S.
  intros ->. reflexivity.
Qed.

(** X22.  Adding constraints never raises the feasibility score: when
    each of the listed-building, conservation-area, green-belt, Article 4
    and tree-preservation flags is kept or switched on and the flood zone
    (from 1 up) is kept or raised, everything else being equal, the score
    does not go up and no blocker disappears. *)
Theorem more_constraints_never_raise_feasibility (ctx : PlanningContext)
    (l1 c1 g1 a1 t1 l2 c2 g2 a2 t2 : bool) (f1 f2 : Z) :
  (l1 = true -> l2 = true) -> (c1 = true -> c2 = true) ->
  (g1 = true -> g2 = true) -> (a1 = true -> a2 = true) ->
  (t1 = true -> t2 = true) -> (1 <= f1 <= f2)%Z ->
  (score (assess_feasibility (with_constraints ctx l2 c2 g2 a2 t2 f2))
   <= score (assess_feasibility (with_constraints ctx l1 c1 g1 a1 t1 f1)))%Z
  /\ (blockers (assess_feasibility (with_constraints ctx l1 c1 g1 a1 t1 f1)) <> [] ->
      blockers (assess_feasibility (with_constraints ctx l2 c2 g2 a2 t2 f2)) <> []).
Proof.
  intros Hl Hc Hg Ha Ht Hf.
  set (x := with_constraints ctx l1 c1 g1 a1 t1 f1).
  set (y := with_constraints ctx l2 c2 g2 a2 t2 f2).
  destruct (constraint_deltas ctx l1 c1 g1 a1 t1 l2 c2 g2 a2 t2 f1 f2
              Hl Hc Hg Ha Ht Hf)
    as (D1 & D2 & D3 & D4 & D5 & D6 & D7 & D8 & D9 & D10).
  fold x in D1, D2, D3, D4, D5, D6, D7, D8, D9, D10.
  fold y in D1, D2, D3, D4, D5, D6, D7, D8, D9, D10.
  assert (Hmore : blockers (assess_feasibility x) <> [] ->
                  blockers (assess_feasibility y) <> []).
  { rewrite !blockers_iff. unfold x, y, with_constraints.
    cbn [listed_building listed_grade green_belt proposed_type].
    intros [[H1 H2] | [H1 H2]]; [left | right]; split; auto. }
  split; [| exact Hmore].
  destruct (feasibility_decomposition x) as [Bx Sx].
  destruct (feasibility_decomposition y) as [By Sy].
  rewrite Bx in Hmore. rewrite By in Hmore. rewrite Sx, Sy.
  destruct (blockers_ (snd (_assess_listed_building x 0 no_lists))
            ++ blockers_ (snd (_assess_green_belt x 0 no_lists)))%list eqn:Ex;
    destruct (blockers_ (snd (_assess_listed_building y 0 no_lists))
              ++ blockers_ (snd (_assess_green_belt y 0 no_lists)))%list eqn:Ey;
    cbn [mandate.is_empty negb]; try lia.
  exfalso. apply Hmore; [discriminate | reflexivity].
Qed.

(** The default context, unconstrained and then with every constraint. *)
Lemma more_constraints_witness :
  (score (assess_feasibility
            (with_constraints PlanningContext_default true true true true true 3))
   <= score (assess_feasibility
               (with_constraints PlanningContext_default false false false false
                  false 1)))%Z.
Proof.
  apply (more_constraints_never_raise_feasibility PlanningContext_default
           false false false false false true true true true true 1 3);
    try reflexivity. lia.
Defined.

End FeasibilityConstraintProperties.

(** ** Planning: the combined score *)

Section PlanningScoreRangeProperties.

Import planning_models planning_score.

Lemma inject_Z_le (a b : Z) : (a <= b)%Z -> inject_Z a <= inject_Z b.
Proof. intros H. rewrite <- Zle_Qle. exact H. Qed.

Lemma uplift_score_mono (u u' : Q) :
  u <= u' ->
  (Z.min 100 (int_of_float (fmul (fdiv u (float_of_int 30)) (float_of_int 100)))
   <= Z.min 100 (int_of_float (fmul (fdiv u' (float_of_int 30)) (float_of_int 100))))%Z.
Proof.
  intros H. apply Z.min_le_compat_l. apply int_of_float_mono.
  apply fmul_mono_l; [vm_compute; discriminate |].
  apply fdiv_mono_l; [vm_compute; reflexivity | exact H].
Qed.

Lemma planning_score_mono (p f p' f' : Z) (u u' : Q) :
  (p <= p')%Z -> (f <= f')%Z -> u <= u' ->
  (score (calculate_planning_score p f u)
   <= score (calculate_planning_score p' f' u'))%Z.
Proof.
  intros Hp Hf Hu. unfold calculate_planning_score. cbn [score].
  apply int_of_float_mono. apply weighted_score_mono; [exact Hp | exact Hf |].
  apply uplift_score_mono. exact Hu.
Qed.

Lemma planning_score_range (p f : Z) (u : Q) :
  (0 <= p <= 100)%Z -> (0 <= f <= 100)%Z -> 0 <= u ->
  (0 <= uplift_score (calculate_planning_score p f u) <= 100)%Z
  /\ (0 <= score (calculate_planning_score p f u) <= 100)%Z.
Proof.
  intros Hp Hf Hu. unfold calculate_planning_score. cbn [score uplift_score].
  set (us := Z.min 100 (int_of_float _)).
  assert (Hus : (0 <= us <= 100)%Z).
  { unfold us. split; [apply uplift_component_nonneg; exact Hu | apply Z.le_min_l]. }
  split; [exact Hus |]. split.
  - apply int_of_float_nonneg. apply weighted_score_nonneg; lia.
  - apply Z.le_trans with (int_of_float (weighted_score 100 100 100));
      [| vm_compute; discriminate].
    apply int_of_float_mono. apply weighted_score_mono; lia.
Qed.

(** X23.  For component scores in [0, 100] and a mid uplift that is not
    negative, the uplift component and the overall planning score lie in
    [0, 100]; the overall score never goes down when a component or the
    uplift goes up; from a mid uplift of 30% on, the uplift component is
    100. *)
Theorem planning_score_in_range_and_monotone (p f : Z) (u : Q) :
  (0 <= p <= 100)%Z -> (0 <= f <= 100)%Z -> 0 <= u ->
  let r := calculate_planning_score p f u in
  (0 <= uplift_score r <= 100)%Z
  /\ (0 <= score r <= 100)%Z
  /\ precedent_score r = p /\ feasibility_score r = f
  /\ (forall p' f' u',
        (p <= p')%Z -> (f <= f')%Z -> u <= u' ->
        (score r <= score (calculate_planning_score p' f' u'))%Z)
  /\ (forall u', 30 <= u' ->
        uplift_score (calculate_planning_score p f u') = 100%Z).
Proof.
  intros Hp Hf Hu. cbv zeta.
  destruct (planning_score_range p f u Hp Hf Hu) as [H1 H2].
  split; [exact H1 |]. split; [exact H2 |].
  split; [reflexivity |]. split; [reflexivity |]. split.
  - intros p' f' u'. apply planning_score_mono.
  - intros u' Hu'. unfold calculate_planning_score. cbn [uplift_score].
    apply Z.min_l.
    apply Z.le_trans
      with (int_of_float (fmul (fdiv 30 (float_of_int 30)) (float_of_int 100)));
      [vm_compute; discriminate |].
    apply int_of_float_mono.
    apply fmul_mono_l; [vm_compute; discriminate |].
    apply fdiv_mono_l; [vm_compute; reflexivity | exact Hu'].
Qed.

(** Components 70, 80 and a mid uplift of 15%. *)
Lemma planning_score_range_witness :
  (0 <= score (calculate_planning_score 70 80 15) <= 100)%Z.
Proof.
  destruct (planning_score_in_range_and_monotone 70 80 15) as (_ & H & _).
  - lia.
  - lia.
  - vm_compute. discriminate.
  - exact H.
Defined.

End PlanningScoreRangeProperties.

(** ** Planning: precedents *)

Section PrecedentProperties.

Import planning_models planning_precedent.

Lemma recency_years_readable (now : Z) (p : PlanningPrecedent) :
  notions.has_aware_date p = false ->
  recency_years now p = Ok (notions.years_since now p).
Proof.
  unfold notions.has_aware_date, notions.years_since, recency_years.
  destruct (decision_date p) as [[d | d o] |]; [reflexivity | discriminate | reflexivity].
Qed.

Lemma recency_years_unreadable (now : Z) (p : PlanningPrecedent) :
  notions.has_aware_date p = true -> recency_years now p = Raise TypeError.
Proof.
  unfold notions.has_aware_date, recency_years.
  destruct (decision_date p) as [[d | d o] |]; [discriminate | reflexivity | discriminate].
Qed.

Lemma relevance_readable (now : Z) (ctx : PlanningContext) (p : PlanningPrecedent) :
  notions.has_aware_date p = false ->
  _calculate_relevance now p
    (planning_feasibility.PrecedentType_eqb (precedent_type p) (proposed_type ctx))
  = Ok (notions.relevance now ctx p).
Proof.
  intros H. unfold notions.relevance, _calculate_relevance.
  rewrite (recency_years_readable now p H). reflexivity.
Qed.

(** The loop raises at the first precedent that is similar enough and has
    an aware date; otherwise it appends the precedents that pass the test,
    in order, each with its relevance. *)
Lemma relevant_loop_returns (now : Z) (ctx : PlanningContext) (min_similarity : Q)
    (ps : list PlanningPrecedent) (acc : list (PlanningPrecedent * Q)) :
  (Exists (fun p => min_similarity <= similarity_score p
                    /\ notions.has_aware_date p = true) ps
   /\ relevant_loop now ctx min_similarity ps acc = Raise TypeError)
  \/ (Forall (fun p => min_similarity <= similarity_score p ->
                       notions.has_aware_date p = false) ps
      /\ relevant_loop now ctx min_similarity ps acc
         = Ok (acc ++ map (fun p => (p, notions.relevance now ctx p))
                       (List.filter (notions.is_relevant now min_similarity) ps))%list).
Proof.
  revert acc. induction ps as [| p ps IH]; intros acc.
  - right. split; [constructor |]. cbn. rewrite app_nil_r. reflexivity.
  - cbn [relevant_loop List.filter]. unfold notions.is_relevant at 1.
    destruct (Qltb (similarity_score p) min_similarity) eqn:Es; cbn [negb andb].
    + apply Qltb_true in Es.
      destruct (IH acc) as [[He Hr] | [Hf Hr]].
      * left. split; [apply Exists_cons_tl; exact He | exact Hr].
      * right. split; [| exact Hr].
        constructor; [intros H; exfalso; lra | exact Hf].
    + apply Qltb_false in Es.
      destruct (notions.has_aware_date p) eqn:Ea.
      * left. split; [apply Exists_cons_hd; split; [exact Es | exact Ea] |].
        rewrite (recency_years_unreadable now p Ea). reflexivity.
      * rewrite (recency_years_readable now p Ea). cbn [Py.bind].
        destruct (truthyQ (notions.years_since now p)
                  && Qgtb (valQ (notions.years_since now p)) 10); cbn [negb andb].
        { destruct (IH acc) as [[He Hr] | [Hf Hr]].
          - left. split; [apply Exists_cons_tl; exact He | exact Hr].
          - right. split; [| exact Hr]. constructor; [intros _; exact Ea | exact Hf]. }
        destruct (truthyQ (distance_meters p) && Qgtb (valQ (distance_meters p)) 1000);
          cbn [negb andb].
        { destruct (IH acc) as [[He Hr] | [Hf Hr]].
          - left. split; [apply Exists_cons_tl; exact He | exact Hr].
          - right. split; [| exact Hr]. constructor; [intros _; exact Ea | exact Hf]. }
        cbv zeta. rewrite (relevance_readable now ctx p Ea). cbn [Py.bind].
        destruct (IH (acc ++ [(p, notions.relevance now ctx p)])%list)
          as [[He Hr] | [Hf Hr]].
        { left. split; [apply Exists_cons_tl; exact He | exact Hr]. }
        right. split; [constructor; [intros _; exact Ea | exact Hf] |].
        rewrite Hr. cbn [map]. rewrite <- app_assoc. reflexivity.
Qed.

Lemma get_relevant_precedents_returns (now : Z) (ctx : PlanningContext)
    (min_similarity : Q) :
  (Exists (fun p => min_similarity <= similarity_score p
                    /\ notions.has_aware_date p = true) (nearby_precedents ctx)
   /\ get_relevant_precedents now ctx min_similarity = Raise TypeError)
  \/ (Forall (fun p => min_similarity <= similarity_score p ->
                       notions.has_aware_date p = false) (nearby_precedents ctx)
      /\ get_relevant_precedents now ctx min_similarity
         = Ok (map fst
                 (stable_sort by_relevance_desc
                    (map (fun p => (p, notions.relevance now ctx p))
                       (List.filter (notions.is_relevant now min_similarity)
                          (nearby_precedents ctx)))))).
Proof.
  unfold get_relevant_precedents.
  destruct (relevant_loop_returns now ctx min_similarity (nearby_precedents ctx) [])
    as [[He ->] | [Hf ->]].
  - left. split; [exact He | reflexivity].
  - right. split; [exact Hf | reflexivity].
Qed.

Lemma is_relevant_similar (now : Z) (ms : Q) (p : PlanningPrecedent) :
  notions.is_relevant now ms p = true -> ms <= similarity_score p.
Proof.
  unfold notions.is_relevant. intros H.
  apply andb_prop in H. destruct H as [H _]. apply andb_prop in H. destruct H as [H _].
  apply negb_true_iff in H. apply Qltb_false in H. exact H.
Qed.


Lemma int_of_float_proper (x y : Q) : x == y -> int_of_float x = int_of_float y.
Proof.
  intros E. apply Z.le_antisymm; apply int_of_float_mono; rewrite E; apply Qle_refl.
Qed.

Lemma count_if_none {A} (f : A -> bool) (l : list A) :
  (forall x, In x l -> f x = false) -> count_if f l = 0%Z.
Proof.
  intros H. unfold count_if. induction l as [| x l IH]; [reflexivity |].
  cbn [List.filter]. rewrite (H x (or_introl eq_refl)).
  apply IH. intros y Hy. apply H. right. exact Hy.
Qed.

Lemma count_if_nonneg {A} (f : A -> bool) (l : list A) : (0 <= count_if f l)%Z.
Proof. unfold count_if. lia. Qed.

(** A condition that reads the age of precedents with naive dates only
    counts like a pure one. *)
Lemma count_if_reading_pure {A} (f : A -> Py.result planning_exn bool)
    (g : A -> bool) (l : list A) :
  (forall x, In x l -> f x = Ok (g x)) ->
  count_if_reading f l = Ok (count_if g l).
Proof.
  intros H. induction l as [| x l IH]; [reflexivity |].
  cbn [count_if_reading]. rewrite (H x (or_introl eq_refl)). cbn [Py.bind].
  rewrite IH by (intros y Hy; apply H; right; exact Hy). cbn [Py.bind].
  unfold count_if. cbn [List.filter]. destruct (g x); cbn [List.length]; f_equal; lia.
Qed.




(** What the precedent score is once the relevant precedents are read. *)
Lemma precedent_score_returns (now : Z) (ctx : PlanningContext)
    (rel : list PlanningPrecedent) :
  get_relevant_precedents now ctx MIN_SIMILARITY_THRESHOLD = Ok rel ->
  (forall p, In p rel -> notions.has_aware_date p = false) ->
  exists s an,
    calculate_precedent_score now ctx = Ok s
    /\ analyze_precedents now ctx = Ok an
    /\ (0 <= s <= 100)%Z
    /\ (rel = [] -> s = 50%Z /\ approval_rate an = None)
    /\ (rel <> [] -> (forall p, In p rel -> approved p = false) ->
        s = 0%Z /\ exists rate, approval_rate an = Some rate /\ rate == 0).
Proof.
  intros Hrel Hread. unfold calculate_precedent_score, analyze_precedents.
  rewrite Hrel. cbn [Py.bind].
  destruct rel as [| p0 rest] eqn:E.
  { cbn [mandate.is_empty]. eexists. eexists. split; [reflexivity |].
    split; [reflexivity |]. split; [lia |]. split; [intros _; split; reflexivity |].
    intros H. contradiction. }
  rewrite <- E in *. assert (Hne : mandate.is_empty rel = false) by (rewrite E; reflexivity).
  rewrite Hne. cbv zeta.
  assert (Hrecent : forall limit p, In p rel ->
            recent_within now limit p
            = Ok (truthyQ (notions.years_since now p)
                  && Qleb (valQ (notions.years_since now p)) limit)).
  { intros limit p Hp. unfold recent_within.
    rewrite (recency_years_readable now p (Hread p Hp)). reflexivity. }
  assert (Hdecided : forall limit p, In p rel ->
            decided_within now limit p
            = Ok (match notions.years_since now p with
                  | Some years => Qleb years limit
                  | None => false
                  end)).
  { intros limit p Hp. unfold decided_within.
    rewrite (recency_years_readable now p (Hread p Hp)). reflexivity. }
  rewrite (count_if_reading_pure _
             (fun p => approved p
                       && (truthyQ (notions.years_since now p)
                           && Qleb (valQ (notions.years_since now p)) 3)) rel)
    by (intros p Hp; destruct (approved p); [apply Hrecent; exact Hp | reflexivity]).
  cbn [Py.bind].
  rewrite (count_if_reading_pure _
             (fun p => negb (approved p)
                       && (truthyQ (notions.years_since now p)
                           && Qleb (valQ (notions.years_since now p)) 3)) rel)
    by (intros p Hp; destruct (approved p); [reflexivity | apply Hrecent; exact Hp]).
  cbn [Py.bind].
  rewrite (count_if_reading_pure (decided_within now 3) _ (List.filter approved rel))
    by (intros p Hp; apply filter_In in Hp; apply Hdecided; tauto).
  cbn [Py.bind].
  rewrite (count_if_reading_pure (decided_within now 3) _
             (List.filter (fun p => negb (approved p)) rel))
    by (intros p Hp; apply filter_In in Hp; apply Hdecided; tauto).
  cbn [Py.bind].
  rewrite (count_if_reading_pure (recent_within now 2) _ rel)
    by (intros p Hp; apply Hrecent; exact Hp).
  cbn [Py.bind].
  eexists. eexists. split; [reflexivity |]. split; [reflexivity |].
  split; [lia |]. split; [intros H; rewrite H in Hne; discriminate |].
  intros _ Hnone. cbn [approval_rate].
  assert (C0 : count_if approved rel = 0%Z) by (apply count_if_none; exact Hnone).
  assert (F0 : List.filter approved rel = []).
  { unfold count_if in C0. destruct (List.filter approved rel); [reflexivity |].
    cbn [List.length] in C0. lia. }
  assert (Z0 : forall n c, 0 <= c -> fmul (int_truediv 0 n) c == 0).
  { intros n c Hc. unfold fmul, int_truediv.
    assert (Hq : inject_Z 0 / inject_Z n == 0) by (unfold Qdiv; apply Qmult_0_l).
    assert (Hr : round64 (inject_Z 0 / inject_Z n) == 0).
    { apply Qle_antisym; [apply round64_nonpos | apply round64_nonneg];
        rewrite Hq; apply Qle_refl. }
    apply Qle_antisym; [apply round64_nonpos | apply round64_nonneg];
      rewrite Hr, Qmult_0_l; apply Qle_refl. }
  split.
  - rewrite C0.
    rewrite (count_if_none
               (fun p => planning_feasibility.PrecedentType_eqb (precedent_type p)
                           (proposed_type ctx) && approved p))
      by (intros x Hx; rewrite (Hnone x Hx); apply andb_false_r).
    rewrite (count_if_none
               (fun p => approved p
                         && (truthyQ (notions.years_since now p)
                             && Qleb (valQ (notions.years_since now p)) 3)))
      by (intros x Hx; rewrite (Hnone x Hx); reflexivity).
    rewrite (count_if_none
               (fun p => approved p && truthyQ (distance_meters p)
                         && Qleb (valQ (distance_meters p)) 100))
      by (intros x Hx; rewrite (Hnone x Hx); reflexivity).
    rewrite (int_of_float_proper _ (inject_Z 0))
      by (apply Z0; vm_compute; discriminate).
    rewrite int_of_float_inject. cbn [Z.ltb Z.compare].
    pose proof (count_if_nonneg
                  (fun p => negb (approved p)
                            && (truthyQ (notions.years_since now p)
                                && Qleb (valQ (notions.years_since now p)) 3))
                  rel) as Hr.
    destruct (Z.ltb_spec 0 (count_if
                  (fun p => negb (approved p)
                            && (truthyQ (notions.years_since now p)
                                && Qleb (valQ (notions.years_since now p)) 3))
                  rel)); lia.
  - eexists. split; [reflexivity |]. rewrite F0. cbn [List.length Z.of_nat].
    apply Z0. vm_compute. discriminate.
Qed.


End PrecedentProperties.

(** ** Planning: uplift and the assessment *)

Section LabelFacts.

Import planning_models planning_score.

Lemma planning_score_is_exceptional_iff (p f : Z) (u : Q) :
  label (calculate_planning_score p f u) = EXCEPTIONAL
  <-> (80 <= score (calculate_planning_score p f u))%Z.
Proof.
  unfold calculate_planning_score. cbn [label score].
  apply (proj1 (label_thresholds _)).
Qed.

End LabelFacts.

Section UpliftProperties.

Import planning_models planning_uplift.

Lemma round_1_mono (x y : Q) : x <= y -> round_1 x <= round_1 y.
Proof.
  intros H. unfold round_1.
  apply Qmult_le_compat_r; [| vm_compute; discriminate].
  rewrite <- Zle_Qle. apply round_float_mono. lra.
Qed.

Lemma uplift_ranges_ordered (t : PrecedentType) :
  let '(low, mid, high) := UPLIFT_RANGES t in
  3 <= low /\ low <= mid /\ mid <= high /\ high <= 80 /\ mid <= 50.
Proof. destruct t; vm_compute; repeat split; discriminate. Qed.

Lemma total_modifier_bounds (ctx : PlanningContext) (rate : option Q) :
  total_modifier ctx rate <= 0.4
  /\ (listed_building ctx = true -> upper (listed_grade ctx) = "I" ->
      total_modifier ctx rate <= -0.5).
Proof.
  unfold total_modifier, listed_building_modifier, listed_grade_1_modifier,
    listed_grade_2_star_modifier, conservation_area_modifier, green_belt_modifier,
    article_4_modifier, flood_zone_3_modifier, leasehold_modifier,
    large_plot_modifier, pd_rights_modifier, freehold_modifier,
    high_precedent_approval_modifier. cbv zeta.
  destruct (listed_building ctx); cbn [negb andb].
  - assert (Hg : (if negb (String.eqb (listed_grade ctx) "")
                  then upper (listed_grade ctx) else "II") = "I"
                 <-> upper (listed_grade ctx) = "I").
    { destruct (String.eqb (listed_grade ctx) "") eqn:E; cbn [negb]; [| tauto].
      apply String.eqb_eq in E. rewrite E. split; discriminate. }
    destruct (String.eqb (if negb (String.eqb (listed_grade ctx) "")
                          then upper (listed_grade ctx) else "II") "I") eqn:EI.
    + split; [| intros _ _];
        repeat match goal with
               | |- context [if ?c then _ else _] => destruct c
               end; lra.
    + split.
      * repeat match goal with
               | |- context [if ?c then _ else _] => destruct c
               end; lra.
      * intros _ HI. apply Hg in HI. apply String.eqb_eq in HI. congruence.
  - split; [| discriminate].
    repeat match goal with
           | |- context [if ?c then _ else _] => destruct c
           end; lra.
Qed.

Lemma modifier_bounds (ctx : PlanningContext) (rate : option Q) :
  0.1 <= Qmax 0.1 (1.0 + total_modifier ctx rate)
  /\ Qmax 0.1 (1.0 + total_modifier ctx rate) <= 1.4
  /\ (listed_building ctx = true -> upper (listed_grade ctx) = "I" ->
      Qmax 0.1 (1.0 + total_modifier ctx rate) <= 0.5).
Proof.
  destruct (total_modifier_bounds ctx rate) as [H1 H2].
  split; [apply Q.le_max_l |]. split.
  - apply Q.max_lub; lra.
  - intros Hl Hg. specialize (H2 Hl Hg). apply Q.max_lub; lra.
Qed.

Lemma scaled_value_mono (cv : Z) (a b : Q) :
  (0 <= cv)%Z -> a <= b ->
  (int_of_float (inject_Z cv * a / 100) <= int_of_float (inject_Z cv * b / 100))%Z.
Proof.
  intros Hcv Hab. apply int_of_float_mono.
  apply Qmult_le_compat_r; [| vm_compute; discriminate].
  rewrite !(Qmult_comm (inject_Z cv)). apply Qmult_le_compat_r; [exact Hab |].
  rewrite <- (Zle_Qle 0). exact Hcv.
Qed.

Lemma uplift_estimate_bounds (ctx : PlanningContext)
    (current_value : Z) (rate : option Q) :
  (0 <= current_value)%Z ->
  let e := estimate_uplift ctx current_value rate in
  0.3 <= percent_low e
  /\ percent_low e <= percent_mid e
  /\ percent_mid e <= percent_high e
  /\ percent_high e <= 112
  /\ percent_mid e <= 70
  /\ (0 <= value_low e)%Z
  /\ (value_low e <= value_mid e)%Z
  /\ (value_mid e <= value_high e)%Z
  /\ (listed_building ctx = true -> upper (listed_grade ctx) = "I" ->
      percent_mid e <= 25).
Proof.
  intros Hcv. cbv zeta. unfold estimate_uplift.
  pose proof (uplift_ranges_ordered (proposed_type ctx)) as Hr.
  destruct (UPLIFT_RANGES (proposed_type ctx)) as [[low mid] high].
  destruct Hr as (R1 & R2 & R3 & R4 & R5).
  destruct (modifier_bounds ctx rate) as (M1 & M2 & M3).
  set (m := Qmax 0.1 (1.0 + total_modifier ctx rate)) in *.
  cbn [percent_low percent_mid percent_high value_low value_mid value_high].
  assert (L1 : low * m <= mid * m) by (apply Qmult_le_compat_r; lra).
  assert (L2 : mid * m <= high * m) by (apply Qmult_le_compat_r; lra).
  assert (L0 : 0.3 <= low * m).
  { apply Qle_trans with (3 * m); [lra |]. apply Qmult_le_compat_r; lra. }
  assert (L3 : high * m <= 112).
  { apply Qle_trans with (80 * m); [apply Qmult_le_compat_r; lra | lra]. }
  assert (L4 : mid * m <= 70).
  { apply Qle_trans with (50 * m); [apply Qmult_le_compat_r; lra | lra]. }
  split.
  { apply Qle_trans with (round_1 0.3); [vm_compute; discriminate |].
    apply round_1_mono. exact L0. }
  split; [apply round_1_mono; exact L1 |].
  split; [apply round_1_mono; exact L2 |].
  split.
  { apply Qle_trans with (round_1 112); [| vm_compute; discriminate].
    apply round_1_mono. exact L3. }
  split.
  { apply Qle_trans with (round_1 70); [| vm_compute; discriminate].
    apply round_1_mono. exact L4. }
  split.
  { apply int_of_float_nonneg. apply Qle_shift_div_l; [reflexivity |].
    rewrite Qmult_0_l. apply Qmult_le_0_compat; [| lra].
    rewrite <- (Zle_Qle 0). exact Hcv. }
  split; [apply scaled_value_mono; assumption |].
  split; [apply scaled_value_mono; assumption |].
  intros Hl Hg. specialize (M3 Hl Hg).
  apply Qle_trans with (round_1 25); [| vm_compute; discriminate].
  apply round_1_mono.
  apply Qle_trans with (50 * m); [apply Qmult_le_compat_r; lra | lra].
Qed.

(** X25.  For a current value that is not negative, an uplift estimate
    is ordered and bounded: 0.3 <= low <= mid <= high <= 112 in percent,
    the mid percentage is at most 70, and 0 <= low <= mid <= high in value;
    for a Grade I listed building the mid percentage is at most 25. *)
Theorem uplift_estimate_is_ordered_and_bounded (ctx : PlanningContext)
    (current_value : Z) (rate : option Q) :
  (0 <= current_value)%Z ->
  let e := estimate_uplift ctx current_value rate in
  0.3 <= percent_low e
  /\ percent_low e <= percent_mid e
  /\ percent_mid e <= percent_high e
  /\ percent_high e <= 112
  /\ percent_mid e <= 70
  /\ (0 <= value_low e)%Z
  /\ (value_low e <= value_mid e)%Z
  /\ (value_mid e <= value_high e)%Z
  /\ (listed_building ctx = true -> upper (listed_grade ctx) = "I" ->
      percent_mid e <= 25).
Proof. apply uplift_estimate_bounds. Qed.

(** The default context, a value of 400,000 and no precedent data. *)
Lemma uplift_estimate_witness :
  (0 <= value_low (estimate_uplift PlanningContext_default 400000 None)
   <= value_high (estimate_uplift PlanningContext_default 400000 None))%Z.
Proof.
  destruct (uplift_estimate_is_ordered_and_bounded PlanningContext_default
              400000 None) as (_ & _ & _ & _ & _ & H0 & H1 & H2 & _).
  - lia.
  - lia.
Defined.

End UpliftProperties.

Section PlanningAssessmentProperties.

Import planning_models planning_score.

(** X26.  A planning assessment raises [TypeError] exactly when a nearby
    precedent with a similarity of at least 0.3 has an aware decision
    date.  Otherwise it returns; the three components and the overall score
    all lie in [0, 100], whatever the context and the value.  A development
    with a blocker scores at most 68 and is never labelled exceptional; a
    Grade I listed building scores at most 63. *)
Theorem planning_assessment_score_in_range (now : Z) (ctx : PlanningContext)
    (current_value : Z) :
  (Exists (fun p => planning_precedent.MIN_SIMILARITY_THRESHOLD <= similarity_score p
                    /\ notions.has_aware_date p = true) (nearby_precedents ctx)
   /\ get_planning_assessment now ctx current_value = Raise TypeError)
  \/ (Forall (fun p => planning_precedent.MIN_SIMILARITY_THRESHOLD <= similarity_score p ->
                       notions.has_aware_date p = false) (nearby_precedents ctx)
      /\ exists a p an,
           get_planning_assessment now ctx current_value = Ok a
           /\ planning_precedent.calculate_precedent_score now ctx = Ok p
           /\ planning_precedent.analyze_precedents now ctx = Ok an
           /\ precedent_score (planning_score a) = p
           /\ feasibility_score (planning_score a)
              = planning_feasibility.score (planning_feasibility.assess_feasibility ctx)
           /\ uplift_estimate a
              = planning_uplift.estimate_uplift ctx current_value
                  (planning_precedent.approval_rate an)
           /\ (0 <= precedent_score (planning_score a) <= 100)%Z
           /\ (0 <= feasibility_score (planning_score a) <= 100)%Z
           /\ (0 <= uplift_score (planning_score a) <= 100)%Z
           /\ (0 <= score (planning_score a) <= 100)%Z
           /\ (planning_feasibility.blockers
                 (planning_feasibility.assess_feasibility ctx) <> [] ->
               (score (planning_score a) <= 68)%Z
               /\ label (planning_score a) <> EXCEPTIONAL)
           /\ (listed_building ctx = true -> upper (listed_grade ctx) = "I" ->
               (score (planning_score a) <= 63)%Z)).
Proof.
  destruct (get_relevant_precedents_returns now ctx
              planning_precedent.MIN_SIMILARITY_THRESHOLD) as [[He Hr] | [Hf Hr]].
  { left. split; [exact He |].
    unfold get_planning_assessment, planning_precedent.analyze_precedents.
    rewrite Hr. reflexivity. }
  right. split; [exact Hf |].
  destruct (precedent_score_returns now ctx _ Hr) as (p & an & Hp & Han & Hrange & _).
  { intros q Hq.
    assert (Hq' : In q (List.filter
                          (notions.is_relevant now
                             planning_precedent.MIN_SIMILARITY_THRESHOLD)
                          (nearby_precedents ctx))).
    { revert Hq. apply Permutation_in.
      rewrite (stable_sort_perm planning_precedent.by_relevance_desc).
      rewrite map_map. cbn [fst]. rewrite map_id. reflexivity. }
    apply filter_In in Hq'. destruct Hq' as [Hin Hk].
    rewrite List.Forall_forall in Hf. apply (Hf q Hin).
    apply (is_relevant_similar _ _ _ Hk). }
  unfold get_planning_assessment. rewrite Han, Hp. cbn [Py.bind]. cbv zeta.
  eexists. exists p, an. split; [reflexivity |].
  split; [reflexivity |]. split; [reflexivity |].
  cbn [planning_score uplift_estimate].
  set (f := planning_feasibility.score (planning_feasibility.assess_feasibility ctx)).
  set (e := planning_uplift.estimate_uplift ctx current_value
              (planning_precedent.approval_rate an)).
  assert (Hfr : (0 <= f <= 100)%Z) by apply score_clamped.
  assert (Hpct : forall cv,
            0.3 <= percent_mid (planning_uplift.estimate_uplift ctx cv
                                  (planning_precedent.approval_rate an))
            /\ (listed_building ctx = true -> upper (listed_grade ctx) = "I" ->
                percent_mid (planning_uplift.estimate_uplift ctx cv
                               (planning_precedent.approval_rate an)) <= 25)).
  { intros cv.
    destruct (uplift_estimate_bounds ctx 0
                (planning_precedent.approval_rate an) (Z.le_refl 0))
      as (A1 & A2 & _ & _ & _ & _ & _ & _ & A3).
    unfold planning_uplift.estimate_uplift in *.
    destruct (planning_uplift.UPLIFT_RANGES (proposed_type ctx)) as [[low mid] high].
    cbn [percent_mid percent_low] in *. split; [lra | exact A3]. }
  destruct (Hpct current_value) as [Hu HuI]. fold e in Hu, HuI.
  destruct (planning_score_range p f (percent_mid e) Hrange Hfr ltac:(lra)) as [Hus Hs].
  split; [reflexivity |]. split; [reflexivity |]. split; [reflexivity |].
  split; [exact Hrange |]. split; [exact Hfr |]. split; [exact Hus |].
  split; [exact Hs |]. split.
  - intros Hb. apply blocker_caps_score in Hb. fold f in Hb.
    assert (H68 : (score (calculate_planning_score p f (percent_mid e)) <= 68)%Z).
    { unfold calculate_planning_score in *. cbn [score uplift_score] in *.
      apply Z.le_trans with (int_of_float (weighted_score 100 20 100));
        [| vm_compute; discriminate].
      apply int_of_float_mono. apply weighted_score_mono; lia. }
    split; [exact H68 |].
    intros E.
    pose proof (planning_score_is_exceptional_iff p f (percent_mid e)) as Hx.
    apply Hx in E. lia.
  - intros Hl Hg. specialize (HuI Hl Hg).
    assert (Hf20 : (f <= 20)%Z).
    { assert (Hb : planning_feasibility.blockers
                     (planning_feasibility.assess_feasibility ctx) <> []).
      { apply blockers_iff. left. split; assumption. }
      apply blocker_caps_score in Hb. fold f in Hb. lia. }
    unfold calculate_planning_score. cbn [score].
    apply Z.le_trans with (int_of_float (weighted_score 100 20 83));
      [| vm_compute; discriminate].
    apply int_of_float_mono.
    apply weighted_score_mono; [lia | lia |].
    apply Z.le_trans
      with (Z.min 100
              (int_of_float (fmul (fdiv 25 (float_of_int 30)) (float_of_int 100))));
      [| vm_compute; discriminate].
    apply uplift_score_mono. exact HuI.
Qed.

(** A context whose only nearby precedent carries a time zone: the
    assessment raises.  The default context, without precedents: the
    assessment returns a score of 55. *)
Lemma planning_assessment_examples :
  get_planning_assessment 1700000000 examples.context_with_aware_precedent 400000
  = Raise TypeError
  /\ exists a,
       get_planning_assessment 1700000000 PlanningContext_default 400000 = Ok a
       /\ score (planning_score a) = 55%Z.
Proof.
  split; [vm_compute; reflexivity |]. eexists. split; [vm_compute; reflexivity |].
  reflexivity.
Qed.

End PlanningAssessmentProperties.

(** ** The mandate store *)

Section StorageProperties.

Lemma od_contains_get {V} (d : odict V) (k : string) :
  od_contains d k = true <-> od_get d k <> None.
Proof.
  unfold od_contains. destruct (od_get d k); split; intros H;
    try reflexivity; try discriminate; try contradiction.
Qed.

Lemma od_set_length {V} (d : odict V) (k : string) (v : V) :
  List.length (od_set d k v)
  = if od_contains d k then List.length d else S (List.length d).
Proof.
  pose proof (od_keys_set d k v) as H.
  apply (f_equal (@List.length string)) in H. unfold od_keys in H.
  rewrite length_map in H. rewrite H.
  destruct (od_contains d k); rewrite ?length_app, !length_map; simpl; lia.
Qed.

Lemma od_set_well_keyed {V} (key : V -> string) (d : odict V) (v : V) :
  List.NoDup (od_keys d) /\ Forall (fun kv => fst kv = key (snd kv)) d ->
  List.NoDup (od_keys (od_set d (key v) v))
  /\ Forall (fun kv => fst kv = key (snd kv)) (od_set d (key v) v).
Proof.
  intros [Hnd Hk]. split.
  - rewrite od_keys_set. unfold od_contains.
    destruct (od_get d (key v)) eqn:E; [exact Hnd |].
    apply List.NoDup_app; [exact Hnd | |].
    + constructor; [intros [] | constructor].
    + intros x Hx [<- | []]. apply od_get_none in E. contradiction.
  - apply List.Forall_forall. intros kv Hin. apply od_set_In in Hin.
    destruct Hin as [-> | Hin]; [reflexivity |].
    rewrite List.Forall_forall in Hk. apply Hk. exact Hin.
Qed.

Lemma od_del_well_keyed {V} (key : V -> string) (d : odict V) (k : string) :
  List.NoDup (od_keys d) /\ Forall (fun kv => fst kv = key (snd kv)) d ->
  List.NoDup (od_keys (od_del d k))
  /\ Forall (fun kv => fst kv = key (snd kv)) (od_del d k).
Proof.
  intros [Hnd Hk]. split; [apply od_keys_del_NoDup; exact Hnd |].
  apply List.Forall_forall. intros kv Hin. apply od_del_In in Hin.
  rewrite List.Forall_forall in Hk. apply Hk. exact Hin.
Qed.

Lemma init_store_well_keyed : storage.well_keyed storage.init.
Proof. split; constructor. Qed.

(** X27.  A mandate store without a file, holding each mandate under its
    own id (the empty store does, and every operation keeps it so).
    [create] raises [ValueError] and changes nothing when the id is taken,
    and otherwise stores the mandate and grows the store by one; [update]
    is the converse; both leave every other id alone.  [delete] returns
    whether the id was there, after it the id is gone, every other id is
    untouched and the store is one smaller if the id was there.  [search]
    without filters returns everything, and with filters exactly the
    mandates that match each filter given. *)
Theorem mandate_storage_laws (s : storage.t) (m : mandate.Mandate) (id : string) :
  storage.well_keyed s ->
  let created := storage.create s m in
  let updated := storage.update s m in
  let deleted := storage.delete s id in
  (match storage.get s (mandate.mandate_id m) with
   | Some _ =>
       created = (Raise storage.ValueError, s)
       /\ fst updated = Ok m
       /\ storage.get (snd updated) (mandate.mandate_id m) = Some m
       /\ storage.count (snd updated) = storage.count s
   | None =>
       updated = (Raise storage.ValueError, s)
       /\ fst created = Ok m
       /\ storage.get (snd created) (mandate.mandate_id m) = Some m
       /\ storage.count (snd created) = (storage.count s + 1)%Z
   end)
  /\ (forall id', id' <> mandate.mandate_id m ->
        storage.get (snd created) id' = storage.get s id'
        /\ storage.get (snd updated) id' = storage.get s id')
  /\ storage.well_keyed (snd created) /\ storage.well_keyed (snd updated)
  /\ (match storage.get s id with
      | Some _ =>
          fst deleted = true
          /\ storage.count (snd deleted) = (storage.count s - 1)%Z
      | None => deleted = (false, s)
      end)
  /\ storage.get (snd deleted) id = None
  /\ (forall id', id' <> id -> storage.get (snd deleted) id' = storage.get s id')
  /\ storage.well_keyed (snd deleted)
  /\ storage.search s None None None = storage.get_all s
  /\ (forall it ac act x,
        In x (storage.search s it ac act)
        <-> In x (storage.get_all s)
            /\ (forall t, it = Some t -> mandate.investor_type x = t)
            /\ (forall c, ac = Some c -> In c (mandate.asset_classes x))
            /\ (forall b, act = Some b -> mandate.is_active x = b)).
Proof.
  intros Hwk. cbv zeta.
  unfold storage.create, storage.update, storage.delete, storage.get,
    storage.count, storage.well_keyed in *.
  split.
  { unfold od_contains.
    destruct (od_get s (mandate.mandate_id m)) eqn:E; cbn [negb fst snd].
    - split; [reflexivity |]. split; [reflexivity |].
      split; [apply od_get_set_same |].
      rewrite od_set_length. unfold od_contains. rewrite E. reflexivity.
    - split; [reflexivity |]. split; [reflexivity |].
      split; [apply od_get_set_same |].
      rewrite od_set_length. unfold od_contains. rewrite E. lia. }
  split.
  { intros id' Hne. destruct (od_contains s (mandate.mandate_id m));
      cbn [negb fst snd]; split; try reflexivity;
      apply od_get_set_other; exact Hne. }
  split.
  { destruct (od_contains s (mandate.mandate_id m)); cbn [snd]; [exact Hwk |].
    apply (od_set_well_keyed mandate.mandate_id). exact Hwk. }
  split.
  { destruct (od_contains s (mandate.mandate_id m)); cbn [negb snd]; [| exact Hwk].
    apply (od_set_well_keyed mandate.mandate_id). exact Hwk. }
  split.
  { unfold od_contains. destruct (od_get s id) eqn:E; cbn [negb fst snd].
    - split; [reflexivity |]. rewrite od_del_length, E.
      destruct s; [discriminate E |]. cbn [List.length Nat.pred]. lia.
    - reflexivity. }
  split.
  { unfold od_contains. destruct (od_get s id) eqn:E; cbn [negb snd]; [| exact E].
    apply od_get_del_same. apply Hwk. }
  split.
  { intros id' Hne. destruct (od_contains s id); cbn [negb snd]; [| reflexivity].
    apply od_get_del_other. exact Hne. }
  split.
  { destruct (od_contains s id); cbn [negb snd]; [| exact Hwk].
    apply (od_del_well_keyed mandate.mandate_id). exact Hwk. }
  split.
  { unfold storage.search, storage.get_all. cbn [negb andb].
    induction (od_values s) as [| x l IH]; [reflexivity |].
    cbn [List.filter]. rewrite IH. reflexivity. }
  intros it ac act x. unfold storage.search, storage.get_all.
  rewrite filter_In. apply and_iff_compat_l.
  rewrite !andb_true_iff, !negb_true_iff.
  assert (H1 : match it with
               | Some t => negb (storage.InvestorType_eqb (mandate.investor_type x) t)
               | None => false
               end = false
               <-> forall t, it = Some t -> mandate.investor_type x = t).
  { destruct it as [t |].
    - rewrite negb_false_iff. split.
      + intros H t' [= <-]. destruct (mandate.investor_type x), t;
          try discriminate H; reflexivity.
      + intros H. rewrite (H t eq_refl). destruct t; reflexivity.
    - split; [intros _ t H; discriminate H | reflexivity]. }
  assert (H2 : match ac with
               | Some c => negb (existsb (mandate.AssetClass_eqb c) (mandate.asset_classes x))
               | None => false
               end = false
               <-> forall c, ac = Some c -> In c (mandate.asset_classes x)).
  { destruct ac as [c |].
    - rewrite negb_false_iff, existsb_exists. split.
      + intros (y & Hy & Ey) c' [= <-].
        assert (c = y) by (destruct c, y; try discriminate Ey; reflexivity).
        subst y. exact Hy.
      + intros H. exists c. split; [apply H; reflexivity | destruct c; reflexivity].
    - split; [intros _ c H; discriminate H | reflexivity]. }
  assert (H3 : match act with
               | Some b => negb (Bool.eqb (mandate.is_active x) b)
               | None => false
               end = false
               <-> forall b, act = Some b -> mandate.is_active x = b).
  { destruct act as [b |].
    - rewrite negb_false_iff, Bool.eqb_true_iff. split.
      + intros H b' [= <-]. exact H.
      + intros H. apply H. reflexivity.
    - split; [intros _ b H; discriminate H | reflexivity]. }
  rewrite H1, H2, H3. tauto.
Qed.

(** A store holding one mandate. *)
Lemma mandate_storage_witness :
  let s := snd (storage.create storage.init examples.mandate_500k_5m) in
  storage.create s examples.mandate_500k_5m = (Raise storage.ValueError, s)
  /\ storage.get (snd (storage.delete s "MND-2024-001")) "MND-2024-001" = None.
Proof.
  destruct (mandate_storage_laws
              (snd (storage.create storage.init examples.mandate_500k_5m))
              examples.mandate_500k_5m "MND-2024-001")
    as (H1 & _ & _ & _ & _ & H2 & _).
  - split.
    + simpl. constructor; [intros [] | constructor].
    + simpl. constructor; [reflexivity | constructor].
  - cbv zeta. split; [| exact H2]. apply H1.
Defined.

End StorageProperties.

(** ** Rejection: the summary *)

Section RejectionSummaryProperties.

Import rejection.

Lemma count_codes_get (codes : list string) (d : odict Z) (c : string) :
  od_get (count_codes codes d) c
  = if Nat.eqb (count_occ string_dec codes c) 0 then od_get d c
    else Some (match od_get d c with Some n => n | None => 0%Z end
               + Z.of_nat (count_occ string_dec codes c))%Z.
Proof.
  revert d. induction codes as [| x codes IH]; intros d; [reflexivity |].
  cbn [count_codes count_occ]. rewrite IH.
  destruct (string_dec x c) as [-> | Hne].
  - rewrite od_get_set_same.
    destruct (count_occ string_dec codes c) as [| k]; cbn [Nat.eqb].
    + f_equal; lia.
    + f_equal; lia.
  - rewrite od_get_set_other by congruence. reflexivity.
Qed.

Lemma count_codes_keys (codes : list string) (d : odict Z) :
  List.NoDup (od_keys d) -> List.NoDup (od_keys (count_codes codes d)).
Proof.
  revert d. induction codes as [| x codes IH]; intros d Hnd; [exact Hnd |].
  cbn [count_codes]. apply IH. rewrite od_keys_set. unfold od_contains.
  destruct (od_get d x) eqn:E; [exact Hnd |].
  apply List.NoDup_app; [exact Hnd | |].
  - constructor; [intros [] | constructor].
  - intros y Hy [<- | []]. apply od_get_none in E. contradiction.
Qed.

Lemma count_codes_entries (codes : list string) (c : string) (n : Z) :
  In (c, n) (count_codes codes []) ->
  n = Z.of_nat (count_occ string_dec codes c) /\ (1 <= n)%Z /\ In c codes.
Proof.
  intros Hin. apply od_In_get in Hin; [| apply count_codes_keys; constructor].
  rewrite count_codes_get in Hin. cbn [od_get] in Hin.
  destruct (count_occ string_dec codes c) as [| k] eqn:E; cbn [Nat.eqb] in Hin;
    [discriminate Hin |].
  injection Hin as <-. split; [lia |]. split; [lia |].
  apply (count_occ_In string_dec). lia.
Qed.

Lemma count_codes_has (codes : list string) (c : string) :
  In c codes ->
  In (c, Z.of_nat (count_occ string_dec codes c)) (count_codes codes []).
Proof.
  intros Hin. apply od_get_In. rewrite count_codes_get. cbn [od_get].
  apply (count_occ_In string_dec) in Hin.
  destruct (count_occ string_dec codes c); [lia |]. cbn [Nat.eqb]. f_equal; lia.
Qed.

Lemma in_firstn {A} (n : nat) (l : list A) (x : A) : In x (firstn n l) -> In x l.
Proof.
  intros H. rewrite <- (firstn_skipn n l). apply in_or_app. left. exact H.
Qed.

Lemma in_skipn {A} (n : nat) (l : list A) (x : A) : In x (skipn n l) -> In x l.
Proof.
  intros H. rewrite <- (firstn_skipn n l). apply in_or_app. right. exact H.
Qed.

Lemma sorted_firstn_skipn {A} (R : A -> A -> Prop) (n : nat) (l : list A) :
  StronglySorted R l ->
  StronglySorted R (firstn n l)
  /\ (forall x y, In x (firstn n l) -> In y (skipn n l) -> R x y).
Proof.
  intros Hs. revert n. induction Hs as [| a l Hs IH Ha]; intros n.
  - rewrite firstn_nil, skipn_nil. split; [constructor | intros x y []].
  - destruct n as [| n]; cbn [firstn skipn].
    + split; [constructor | intros x y []].
    + destruct (IH n) as [IH1 IH2]. split.
      * constructor; [exact IH1 |].
        rewrite List.Forall_forall in *. intros x Hx. apply Ha.
        apply (in_firstn n). exact Hx.
      * intros x y [<- | Hx] Hy.
        -- rewrite List.Forall_forall in Ha. apply Ha.
           apply (in_skipn n). exact Hy.
        -- apply IH2; assumption.
Qed.

(** X28.  The rejection summary: rejected plus passed is the total, and
    the rejection rate lies in [0, 100].  The top reasons are at most
    five codes, each once, each with the number of times it occurs among
    all reasons, sorted by that number, highest first; a code that occurs
    but is left out occurs no more often than any code kept. *)
Theorem rejection_summary_counts (results : list RejectionResult) :
  let sm := get_rejection_summary results in
  let codes := flat_map (fun r => map code (reasons r)) results in
  total sm = Z.of_nat (List.length results)
  /\ (rejected_count sm + passed_count sm = total sm)%Z
  /\ (0 <= rejected_count sm <= total sm)%Z
  /\ 0 <= rejection_rate sm /\ rejection_rate sm <= 100
  /\ (List.length (top_rejection_reasons sm) <= 5)%nat
  /\ List.NoDup (od_keys (top_rejection_reasons sm))
  /\ (forall c n,
        In (c, n) (top_rejection_reasons sm) ->
        n = Z.of_nat (count_occ string_dec codes c) /\ (1 <= n)%Z)
  /\ StronglySorted (fun a b => (snd b <= snd a)%Z) (top_rejection_reasons sm)
  /\ (forall c,
        In c codes -> ~ In c (od_keys (top_rejection_reasons sm)) ->
        List.length (top_rejection_reasons sm) = 5%nat
        /\ forall kv, In kv (top_rejection_reasons sm) ->
                      (Z.of_nat (count_occ string_dec codes c) <= snd kv)%Z).
Proof.
  cbv zeta. unfold get_rejection_summary. cbv zeta.
  cbn [total rejected_count passed_count rejection_rate top_rejection_reasons].
  set (codes := flat_map (fun r => map code (reasons r)) results).
  set (counts := count_codes codes []).
  set (sorted := stable_sort by_count_desc counts).
  assert (Hlen : (List.length (List.filter rejected results)
                  <= List.length results)%nat) by apply filter_length_le.
  assert (Hsorted : StronglySorted (fun a b => (snd b <= snd a)%Z) sorted).
  { apply StronglySorted_impl with (R := fun a b => by_count_desc a b = true).
    - intros a b H. unfold by_count_desc in H. apply Z.geb_le in H. exact H.
    - apply stable_sort_sorted.
      + intros a b. unfold by_count_desc. rewrite !Z.geb_le. lia.
      + intros a b c. unfold by_count_desc. rewrite !Z.geb_le. lia. }
  assert (Hperm : Permutation sorted counts) by apply stable_sort_perm.
  assert (Hnd : List.NoDup (od_keys sorted)).
  { apply (Permutation_NoDup (l := od_keys counts)).
    - unfold od_keys. apply Permutation_map. symmetry. exact Hperm.
    - apply count_codes_keys. constructor. }
  destruct (sorted_firstn_skipn _ 5 sorted Hsorted) as [Hfirst Hrest].
  split; [reflexivity |]. split; [lia |]. split; [lia |]. split.
  { destruct (Z.ltb_spec 0 (Z.of_nat (List.length results))); [| lra].
    apply Qmult_le_0_compat; [| lra]. apply Qle_shift_div_l.
    - rewrite <- (Zlt_Qlt 0). lia.
    - rewrite Qmult_0_l. rewrite <- (Zle_Qle 0). lia. }
  split.
  { destruct (Z.ltb_spec 0 (Z.of_nat (List.length results))); [| lra].
    assert (Hq : inject_Z (Z.of_nat (List.length (List.filter rejected results)))
                 / inject_Z (Z.of_nat (List.length results)) <= 1).
    { apply Qle_shift_div_r; [rewrite <- (Zlt_Qlt 0); lia |].
      rewrite Qmult_1_l. rewrite <- Zle_Qle. lia. }
    lra. }
  split; [apply firstn_le_length |]. split.
  { unfold od_keys in *. rewrite <- (firstn_skipn 5 sorted), map_app in Hnd.
    apply NoDup_app_remove_r in Hnd. exact Hnd. }
  split.
  { intros c n Hin. apply in_firstn in Hin.
    apply (Permutation_in _ Hperm) in Hin.
    destruct (count_codes_entries codes c n Hin) as (E & H1 & _).
    split; assumption. }
  split; [exact Hfirst |].
  intros c Hc Hnot.
  assert (Hin : In (c, Z.of_nat (count_occ string_dec codes c)) sorted).
  { apply (Permutation_in _ (Permutation_sym Hperm)). apply count_codes_has. exact Hc. }
  rewrite <- (firstn_skipn 5 sorted) in Hin. apply in_app_or in Hin.
  destruct Hin as [Hin | Hin].
  { exfalso. apply Hnot. unfold od_keys. apply in_map_iff.
    exists (c, Z.of_nat (count_occ string_dec codes c)). split; [reflexivity | exact Hin]. }
  split.
  - apply firstn_length_le.
    destruct (Nat.le_gt_cases 5 (List.length sorted)) as [H | H]; [exact H |].
    rewrite skipn_all2 in Hin by lia. contradiction.
  - intros kv Hkv. apply (Hrest kv _ Hkv Hin).
Qed.

End RejectionSummaryProperties.

(** ** Review: the transition table *)

Section ReviewTableProperties.

Import review.

(** X29.  Every call of a review method follows the transition table.
    The table allows six (state, action) pairs, and [get_valid_actions]
    lists exactly the allowed actions.  An allowed call returns, moves to
    the state of the table, sets [updated_at] and appends one history
    record with the old state, the new state, the action, the time, the
    actor and the notes.  Any other call raises [InvalidTransitionError]
    with the current state and the action and leaves the state, the
    history and [updated_at] alone ([start_review] and [reset] leave the
    whole review alone).  The lookup that follows the check never raises
    [KeyError]. *)
Theorem review_calls_follow_transition_table (c : call) (now : Z) (r : DealReview) :
  let a := match c with
           | call_start_review _ _ => START_REVIEW
           | call_accept _ _ => ACCEPT
           | call_decline _ _ _ => DECLINE
           | call_reset _ _ => RESET
           end in
  let r' := snd (run_call c now r) in
  (forall act,
     can_transition r act = true
     <-> In (state r, act)
           [(NEW, START_REVIEW); (REVIEWING, ACCEPT); (REVIEWING, DECLINE);
            (REVIEWING, RESET); (ACCEPTED, RESET); (DECLINED, RESET)])
  /\ (forall act, In act (get_valid_actions r) <-> can_transition r act = true)
  /\ fst (run_call c now r) <> Raise KeyError
  /\ (can_transition r a = true ->
      fst (run_call c now r) = Ok tt
      /\ row_get a (VALID_TRANSITIONS (state r)) = Some (state r')
      /\ history r'
         = (history r
            ++ [ {| from_state := state r; to_state := state r'; action := a;
                    timestamp := now;
                    actor := match c with
                             | call_start_review who _ | call_accept who _
                             | call_decline who _ _ | call_reset who _ => who
                             end;
                    notes := match c with
                             | call_start_review _ note | call_accept _ note
                             | call_decline _ _ note | call_reset _ note => note
                             end |} ])%list
      /\ updated_at r' = now)
  /\ (can_transition r a = false ->
      fst (run_call c now r) = Raise (InvalidTransitionError (state r) a)
      /\ state r' = state r /\ history r' = history r
      /\ updated_at r' = updated_at r
      /\ match c with
         | call_start_review _ _ | call_reset _ _ => r' = r
         | call_accept _ _ | call_decline _ _ _ => True
         end).
Proof.
  cbv zeta. destruct r as [rid lid mid st ca ua asg pr dn dr h].
  split.
  { intros act. unfold can_transition. cbn [state].
    destruct st, act; cbn; split; intros H; try reflexivity; try discriminate H;
      try tauto;
      repeat (destruct H as [H | H]; [discriminate H |]); contradiction. }
  split.
  { intros act. unfold get_valid_actions, can_transition. cbn [state].
    destruct st, act; cbn; split; intros H; try reflexivity; try discriminate H;
      try tauto;
      repeat (destruct H as [H | H]; [discriminate H |]); contradiction. }
  split; [destruct c, st; cbn; discriminate |].
  split.
  - destruct c, st; cbn; intros H; try discriminate H;
      repeat split; reflexivity.
  - destruct c, st; cbn; intros H; try discriminate H;
      repeat split; reflexivity.
Qed.

End ReviewTableProperties.

(** ** Scoring: yields *)

Section YieldProperties.

Import scoring.

Lemma yield_minimum_score_value (mny : Q) (y : Q) :
  0 < mny ->
  yield_minimum_score (Some mny) (Some y)
  = Ok (if Qgeb y mny then 1.0 else Qmax 0.0 (0.7 - (mny - y) / mny)).
Proof.
  intros H. unfold yield_minimum_score.
  assert (T : truthyQ (Some mny) = true).
  { apply truthyQ_Some. exists mny. split; [reflexivity | lra]. }
  rewrite T. cbv zeta. cbn [valQ].
  destruct (Qgeb y mny); [reflexivity |].
  rewrite truediv_pos by exact H. reflexivity.
Qed.

Lemma yield_target_score_value (ty : Q) (y : Q) :
  0 < ty ->
  yield_target_score (Some ty) (Some y)
  = Ok (if Qgeb y ty then Qmin 1.0 (0.9 + (y - ty) / ty * 0.2)
        else Qmax 0.3 (0.9 - (ty - y) / ty)).
Proof.
  intros H. unfold yield_target_score.
  assert (T : truthyQ (Some ty) = true).
  { apply truthyQ_Some. exists ty. split; [reflexivity | lra]. }
  rewrite T. cbv zeta. cbn [valQ].
  destruct (Qgeb y ty); rewrite truediv_pos by exact H; reflexivity.
Qed.

Lemma Qdiv_le_mono (a b c : Q) : 0 < c -> a <= b -> a / c <= b / c.
Proof.
  intros Hc Hab. apply Qmult_le_compat_r; [exact Hab |].
  apply Qinv_le_0_compat. lra.
Qed.

(** X30.  With a positive minimum yield and a positive target yield, a
    higher listing yield never gets a lower yield sub-score, on either
    factor; a yield at or above the minimum scores 1 on the minimum
    factor, a yield equal to the target scores 0.9 on the target factor,
    and the target factor never scores below 0.3. *)
Theorem higher_yield_never_scores_lower (mny ty y1 y2 : Q) :
  0 < mny -> 0 < ty -> y1 <= y2 ->
  exists a1 a2 b1 b2,
    yield_minimum_score (Some mny) (Some y1) = Ok a1
    /\ yield_minimum_score (Some mny) (Some y2) = Ok a2
    /\ yield_target_score (Some ty) (Some y1) = Ok b1
    /\ yield_target_score (Some ty) (Some y2) = Ok b2
    /\ a1 <= a2 /\ b1 <= b2
    /\ (mny <= y1 -> a1 == 1)
    /\ (y1 == ty -> b1 == 0.9)
    /\ 0.3 <= b1.
Proof.
  intros Hm Ht Hy.
  rewrite !yield_minimum_score_value by exact Hm.
  rewrite !yield_target_score_value by exact Ht.
  eexists. eexists. eexists. eexists.
  split; [reflexivity |]. split; [reflexivity |].
  split; [reflexivity |]. split; [reflexivity |].
  split.
  { destruct (Qgeb y1 mny) eqn:E1; destruct (Qgeb y2 mny) eqn:E2;
      repeat match goal with
             | H : Qgeb _ _ = true |- _ => apply Qgeb_true in H
             | H : Qgeb _ _ = false |- _ => apply Qgeb_false in H
             end.
    - lra.
    - exfalso. lra.
    - apply Q.max_lub; [lra |].
      assert (0 <= (mny - y1) / mny) by (apply Qle_shift_div_l; lra). lra.
    - apply Q.max_le_compat_l.
      pose proof (Qdiv_le_mono (mny - y2) (mny - y1) mny Hm ltac:(lra)). lra. }
  split.
  { destruct (Qgeb y1 ty) eqn:E1; destruct (Qgeb y2 ty) eqn:E2;
      repeat match goal with
             | H : Qgeb _ _ = true |- _ => apply Qgeb_true in H
             | H : Qgeb _ _ = false |- _ => apply Qgeb_false in H
             end.
    - apply Q.min_le_compat_l.
      pose proof (Qdiv_le_mono (y1 - ty) (y2 - ty) ty Ht ltac:(lra)). lra.
    - exfalso. lra.
    - assert (H2 : 0 <= (y2 - ty) / ty) by (apply Qle_shift_div_l; lra).
      assert (H1 : 0 <= (ty - y1) / ty) by (apply Qle_shift_div_l; lra).
      apply Q.max_lub; [apply Q.min_glb; lra |].
      apply Q.min_glb; lra.
    - apply Q.max_le_compat_l.
      pose proof (Qdiv_le_mono (ty - y2) (ty - y1) ty Ht ltac:(lra)). lra. }
  split.
  { intros H. apply Qgeb_true in H. rewrite H. reflexivity. }
  split.
  { intros H. assert (Hge : Qgeb y1 ty = true) by (apply Qgeb_true; lra).
    rewrite Hge. assert (E : (y1 - ty) / ty == 0).
    { rewrite H. unfold Qminus. rewrite Qplus_opp_r. unfold Qdiv.
      apply Qmult_0_l. }
    rewrite E. rewrite Q.min_r by lra. lra. }
  destruct (Qgeb y1 ty) eqn:E1.
  - apply Qgeb_true in E1.
    assert (0 <= (y1 - ty) / ty) by (apply Qle_shift_div_l; lra).
    apply Q.min_glb; lra.
  - apply Qle_trans with 0.3; [lra | apply Q.le_max_l].
Qed.

(** A 5% minimum and a 7% target: 4% against 6%. *)
Lemma higher_yield_witness :
  exists a1 a2 b1 b2,
    yield_minimum_score (Some 5.0) (Some 4.0) = Ok a1
    /\ yield_minimum_score (Some 5.0) (Some 6.0) = Ok a2
    /\ yield_target_score (Some 7.0) (Some 4.0) = Ok b1
    /\ yield_target_score (Some 7.0) (Some 6.0) = Ok b2
    /\ a1 <= a2 /\ b1 <= b2.
Proof.
  destruct (higher_yield_never_scores_lower 5.0 7.0 4.0 6.0)
    as (a1 & a2 & b1 & b2 & H1 & H2 & H3 & H4 & H5 & H6 & _).
  - reflexivity.
  - reflexivity.
  - vm_compute. discriminate.
  - exists a1, a2, b1, b2. repeat split; assumption.
Defined.

End YieldProperties.
